(** * ImGuizmo: a shallow embedding of the manipulation engine

    This development embeds the interaction core of [ImGuizmo.cpp]
    (snapping, ray/plane intersection, the per-frame [Begin]/[End]
    protocol and the translate / rotate / scale drag steps) and proves
    properties of it.

    Modelling conventions.

    - [float] is modelled by the real numbers: arithmetic is exact, there
      is no rounding, no infinity and no NaN.  Every statement below is a
      statement about this idealised arithmetic, with one exception: the
      unguarded division of [ContinueScale], whose quotient is not a real
      number when the denominator is zero, is followed in module [IEEE]
      with the quotient as IEEE 754 defines it.
    - GLM and Dear ImGui are external libraries.  The GLM functions the
      code calls are written out in module [glm] following the GLM
      reference implementation (column-major [mat4], [m[i]] is column
      [i]); the Dear ImGui services (input snapshot, window geometry) are
      the fields of the record [Host], an input of every frame.
    - The global [GImGuizmo] is the record [ImGuizmoContext]; gizmo
      objects live in its store [GizmosById] and the pointers
      [CurrentGizmo] and [ActiveGizmo] are keys into that store, so every
      alias of a gizmo sees the same object.
    - The caller's matrices live in [Memory], addressed by the pointer
      value; pointer [0] is [nullptr].
    - [IM_ASSERT] failures in the public entry points make the call
      return [None].
    - The [Render*] functions only read the state and append to the
      host's draw list; the draw list, the style colours, the public
      [BoundsScale] entry point with its hover query and the view
      manipulator are not part of this development, and neither are the
      context fields only they read ([PlanesVisibility],
      [MostVisiblePlanes]).  The steps of a bounds-scale drag are
      embedded; they take the context member [Bounds] as the record
      [ImGuizmoBounds] next to the context. *)

From stdpp Require Import gmap.
From Stdlib Require Import Reals Lra Lia ZArith List Bool.
Import ListNotations.

Open Scope R_scope.

(** ** Scalars *)

Abbreviation float := R.

Module F.

Definition ltb (a b : float) : bool := if Rlt_dec a b then true else false.
Definition leb (a b : float) : bool := if Rle_dec a b then true else false.
Definition gtb (a b : float) : bool := ltb b a.
Definition geb (a b : float) : bool := leb b a.
Definition eqb (a b : float) : bool := if Req_dec_T a b then true else false.
Definition neb (a b : float) : bool := negb (eqb a b).

End F.

(** ** Vectors and matrices *)

Record vec2 := mkvec2 { x2 : float; y2 : float }.
Record vec3 := mkvec3 { x3 : float; y3 : float; z3 : float }.
Record vec4 := mkvec4 { x4 : float; y4 : float; z4 : float; w4 : float }.

(** Column-major: [c0 .. c3] are [m[0] .. m[3]]. *)
Record mat4 := mkmat4 { c0 : vec4; c1 : vec4; c2 : vec4; c3 : vec4 }.

Declare Scope vec_scope.
Delimit Scope vec_scope with vec.

Module glm.

(** *** Scalar functions *)

Definition abs (x : float) : float := Rabs x.
Definition max (a b : float) : float := if F.ltb a b then b else a.
Definition min (a b : float) : float := if F.ltb b a then b else a.
Definition clamp (x lo hi : float) : float := min (max x lo) hi.

(** Rounding towards zero. *)
Definition trunc (x : float) : float :=
  if F.ltb x 0 then - IZR (Int_part (- x)) else IZR (Int_part x).

(** [glm::fmod] on floating-point arguments is [a - b * trunc(a / b)]. *)
Definition fmod (a b : float) : float := a - b * trunc (a / b).

Definition radians (degrees : float) : float := degrees * (PI / 180).
Definition degrees (radians : float) : float := radians * (180 / PI).

(** [glm::atan(y, x)], the two-argument arc tangent ([std::atan2]). *)
Definition atan2 (y x : float) : float :=
  if F.ltb 0 x then atan (y / x)
  else if F.ltb x 0 then
    if F.ltb y 0 then atan (y / x) - PI else atan (y / x) + PI
  else if F.ltb 0 y then PI / 2
  else if F.ltb y 0 then - (PI / 2)
  else 0.
Definition inversesqrt (x : float) : float := 1 / sqrt x.

(** [glm::epsilon<float>()] is [FLT_EPSILON], two to the power -23. *)
Definition epsilon : float := / 8388608.

(** *** vec2 *)

Definition add2 (a b : vec2) := mkvec2 (x2 a + x2 b) (y2 a + y2 b).
Definition sub2 (a b : vec2) := mkvec2 (x2 a - x2 b) (y2 a - y2 b).
Definition mul2 (a b : vec2) := mkvec2 (x2 a * x2 b) (y2 a * y2 b).
Definition div2 (a b : vec2) := mkvec2 (x2 a / x2 b) (y2 a / y2 b).
Definition scale2 (a : vec2) (s : float) := mkvec2 (x2 a * s) (y2 a * s).
Definition adds2 (a : vec2) (s : float) := mkvec2 (x2 a + s) (y2 a + s).
Definition subs2 (a : vec2) (s : float) := mkvec2 (x2 a - s) (y2 a - s).
Definition dot2 (a b : vec2) : float := x2 a * x2 b + y2 a * y2 b.
Definition length2 (a : vec2) : float := sqrt (dot2 a a).
Definition normalize2 (a : vec2) : vec2 := scale2 a (inversesqrt (dot2 a a)).

(** *** vec3 *)

Definition splat3 (s : float) := mkvec3 s s s.
Definition add3 (a b : vec3) := mkvec3 (x3 a + x3 b) (y3 a + y3 b) (z3 a + z3 b).
Definition sub3 (a b : vec3) := mkvec3 (x3 a - x3 b) (y3 a - y3 b) (z3 a - z3 b).
Definition mul3 (a b : vec3) := mkvec3 (x3 a * x3 b) (y3 a * y3 b) (z3 a * z3 b).
Definition scale3 (a : vec3) (s : float) := mkvec3 (x3 a * s) (y3 a * s) (z3 a * s).
Definition neg3 (a : vec3) := mkvec3 (- x3 a) (- y3 a) (- z3 a).
Definition dot3 (a b : vec3) : float := x3 a * x3 b + y3 a * y3 b + z3 a * z3 b.
Definition length3 (a : vec3) : float := sqrt (dot3 a a).
Definition normalize3 (a : vec3) : vec3 := scale3 a (inversesqrt (dot3 a a)).
Definition cross (a b : vec3) : vec3 :=
  mkvec3 (y3 a * z3 b - y3 b * z3 a)
         (z3 a * x3 b - z3 b * x3 a)
         (x3 a * y3 b - x3 b * y3 a).

(** [operator!=] on vectors: some component differs. *)
Definition neq3 (a b : vec3) : bool :=
  negb (F.eqb (x3 a) (x3 b) && F.eqb (y3 a) (y3 b) && F.eqb (z3 a) (z3 b)).

(** [v[i]]; the code only indexes with 0, 1 and 2. *)
Definition at3 (v : vec3) (i : Z) : float :=
  match i with 0%Z => x3 v | 1%Z => y3 v | _ => z3 v end.
Definition set3 (v : vec3) (i : Z) (s : float) : vec3 :=
  match i with
  | 0%Z => mkvec3 s (y3 v) (z3 v)
  | 1%Z => mkvec3 (x3 v) s (z3 v)
  | _ => mkvec3 (x3 v) (y3 v) s
  end.

(** *** vec4 *)

Definition add4 (a b : vec4) :=
  mkvec4 (x4 a + x4 b) (y4 a + y4 b) (z4 a + z4 b) (w4 a + w4 b).
Definition sub4 (a b : vec4) :=
  mkvec4 (x4 a - x4 b) (y4 a - y4 b) (z4 a - z4 b) (w4 a - w4 b).
Definition mul4 (a b : vec4) :=
  mkvec4 (x4 a * x4 b) (y4 a * y4 b) (z4 a * z4 b) (w4 a * w4 b).
Definition scale4 (a : vec4) (s : float) :=
  mkvec4 (x4 a * s) (y4 a * s) (z4 a * s) (w4 a * s).
Definition dot4 (a b : vec4) : float :=
  (x4 a * x4 b + y4 a * y4 b) + (z4 a * z4 b + w4 a * w4 b).
Definition length4 (a : vec4) : float := sqrt (dot4 a a).
Definition normalize4 (a : vec4) : vec4 := scale4 a (inversesqrt (dot4 a a)).

Definition xyz (v : vec4) : vec3 := mkvec3 (x4 v) (y4 v) (z4 v).
Definition xy (v : vec4) : vec2 := mkvec2 (x4 v) (y4 v).
Definition xy3 (v : vec3) : vec2 := mkvec2 (x3 v) (y3 v).
Definition vec4_of (v : vec3) (w : float) : vec4 := mkvec4 (x3 v) (y3 v) (z3 v) w.

Definition at4 (v : vec4) (i : Z) : float :=
  match i with 0%Z => x4 v | 1%Z => y4 v | 2%Z => z4 v | _ => w4 v end.
Definition set4 (v : vec4) (i : Z) (s : float) : vec4 :=
  match i with
  | 0%Z => mkvec4 s (y4 v) (z4 v) (w4 v)
  | 1%Z => mkvec4 (x4 v) s (z4 v) (w4 v)
  | 2%Z => mkvec4 (x4 v) (y4 v) s (w4 v)
  | _ => mkvec4 (x4 v) (y4 v) (z4 v) s
  end.

(** *** mat4 *)

Definition col (m : mat4) (i : Z) : vec4 :=
  match i with 0%Z => c0 m | 1%Z => c1 m | 2%Z => c2 m | _ => c3 m end.
Definition set_col (m : mat4) (i : Z) (v : vec4) : mat4 :=
  match i with
  | 0%Z => mkmat4 v (c1 m) (c2 m) (c3 m)
  | 1%Z => mkmat4 (c0 m) v (c2 m) (c3 m)
  | 2%Z => mkmat4 (c0 m) (c1 m) v (c3 m)
  | _ => mkmat4 (c0 m) (c1 m) (c2 m) v
  end.

(** [mat4{ 1.0f }] *)
Definition identity : mat4 :=
  mkmat4 (mkvec4 1 0 0 0) (mkvec4 0 1 0 0) (mkvec4 0 0 1 0) (mkvec4 0 0 0 1).

(** [m * v] *)
Definition mulv (m : mat4) (v : vec4) : vec4 :=
  add4 (add4 (scale4 (c0 m) (x4 v)) (scale4 (c1 m) (y4 v)))
       (add4 (scale4 (c2 m) (z4 v)) (scale4 (c3 m) (w4 v))).

(** [m1 * m2] *)
Definition mulm_col (a : mat4) (b : vec4) : vec4 :=
  add4 (add4 (add4 (scale4 (c0 a) (x4 b)) (scale4 (c1 a) (y4 b)))
             (scale4 (c2 a) (z4 b)))
       (scale4 (c3 a) (w4 b)).
Definition mulm (a b : mat4) : mat4 :=
  mkmat4 (mulm_col a (c0 b)) (mulm_col a (c1 b))
         (mulm_col a (c2 b)) (mulm_col a (c3 b)).

(** [glm::translate(v)], that is [translate(mat4(1), v)]. *)
Definition translate (v : vec3) : mat4 :=
  let m := identity in
  set_col m 3
    (add4 (add4 (add4 (scale4 (c0 m) (x3 v)) (scale4 (c1 m) (y3 v)))
                (scale4 (c2 m) (z3 v)))
          (c3 m)).

(** [glm::scale(v)], that is [scale(mat4(1), v)]. *)
Definition scale (v : vec3) : mat4 :=
  let m := identity in
  mkmat4 (scale4 (c0 m) (x3 v)) (scale4 (c1 m) (y3 v))
         (scale4 (c2 m) (z3 v)) (c3 m).

(** [glm::rotate(angle, v)], that is [rotate(mat4(1), angle, v)]. *)
Definition rotate (angle : float) (v : vec3) : mat4 :=
  let m := identity in
  let c := cos angle in
  let s := sin angle in
  let axis := normalize3 v in
  let temp := scale3 axis (1 - c) in
  let r00 := c + x3 temp * x3 axis in
  let r01 := x3 temp * y3 axis + s * z3 axis in
  let r02 := x3 temp * z3 axis - s * y3 axis in
  let r10 := y3 temp * x3 axis - s * z3 axis in
  let r11 := c + y3 temp * y3 axis in
  let r12 := y3 temp * z3 axis + s * x3 axis in
  let r20 := z3 temp * x3 axis + s * y3 axis in
  let r21 := z3 temp * y3 axis - s * x3 axis in
  let r22 := c + z3 temp * z3 axis in
  mkmat4
    (add4 (add4 (scale4 (c0 m) r00) (scale4 (c1 m) r01)) (scale4 (c2 m) r02))
    (add4 (add4 (scale4 (c0 m) r10) (scale4 (c1 m) r11)) (scale4 (c2 m) r12))
    (add4 (add4 (scale4 (c0 m) r20) (scale4 (c1 m) r21)) (scale4 (c2 m) r22))
    (c3 m).

(** [glm::inverse] of a [mat4]: cofactors divided by the determinant. *)
Definition inverse (m : mat4) : mat4 :=
  let m00 := x4 (c0 m) in let m01 := y4 (c0 m) in
  let m02 := z4 (c0 m) in let m03 := w4 (c0 m) in
  let m10 := x4 (c1 m) in let m11 := y4 (c1 m) in
  let m12 := z4 (c1 m) in let m13 := w4 (c1 m) in
  let m20 := x4 (c2 m) in let m21 := y4 (c2 m) in
  let m22 := z4 (c2 m) in let m23 := w4 (c2 m) in
  let m30 := x4 (c3 m) in let m31 := y4 (c3 m) in
  let m32 := z4 (c3 m) in let m33 := w4 (c3 m) in
  let Coef00 := m22 * m33 - m32 * m23 in
  let Coef02 := m12 * m33 - m32 * m13 in
  let Coef03 := m12 * m23 - m22 * m13 in
  let Coef04 := m21 * m33 - m31 * m23 in
  let Coef06 := m11 * m33 - m31 * m13 in
  let Coef07 := m11 * m23 - m21 * m13 in
  let Coef08 := m21 * m32 - m31 * m22 in
  let Coef10 := m11 * m32 - m31 * m12 in
  let Coef11 := m11 * m22 - m21 * m12 in
  let Coef12 := m20 * m33 - m30 * m23 in
  let Coef14 := m10 * m33 - m30 * m13 in
  let Coef15 := m10 * m23 - m20 * m13 in
  let Coef16 := m20 * m32 - m30 * m22 in
  let Coef18 := m10 * m32 - m30 * m12 in
  let Coef19 := m10 * m22 - m20 * m12 in
  let Coef20 := m20 * m31 - m30 * m21 in
  let Coef22 := m10 * m31 - m30 * m11 in
  let Coef23 := m10 * m21 - m20 * m11 in
  let Fac0 := mkvec4 Coef00 Coef00 Coef02 Coef03 in
  let Fac1 := mkvec4 Coef04 Coef04 Coef06 Coef07 in
  let Fac2 := mkvec4 Coef08 Coef08 Coef10 Coef11 in
  let Fac3 := mkvec4 Coef12 Coef12 Coef14 Coef15 in
  let Fac4 := mkvec4 Coef16 Coef16 Coef18 Coef19 in
  let Fac5 := mkvec4 Coef20 Coef20 Coef22 Coef23 in
  let Vec0 := mkvec4 m10 m00 m00 m00 in
  let Vec1 := mkvec4 m11 m01 m01 m01 in
  let Vec2 := mkvec4 m12 m02 m02 m02 in
  let Vec3 := mkvec4 m13 m03 m03 m03 in
  let Inv0 := add4 (sub4 (mul4 Vec1 Fac0) (mul4 Vec2 Fac1)) (mul4 Vec3 Fac2) in
  let Inv1 := add4 (sub4 (mul4 Vec0 Fac0) (mul4 Vec2 Fac3)) (mul4 Vec3 Fac4) in
  let Inv2 := add4 (sub4 (mul4 Vec0 Fac1) (mul4 Vec1 Fac3)) (mul4 Vec3 Fac5) in
  let Inv3 := add4 (sub4 (mul4 Vec0 Fac2) (mul4 Vec1 Fac4)) (mul4 Vec2 Fac5) in
  let SignA := mkvec4 1 (-1) 1 (-1) in
  let SignB := mkvec4 (-1) 1 (-1) 1 in
  let I0 := mul4 Inv0 SignA in
  let I1 := mul4 Inv1 SignB in
  let I2 := mul4 Inv2 SignA in
  let I3 := mul4 Inv3 SignB in
  let Row0 := mkvec4 (x4 I0) (x4 I1) (x4 I2) (x4 I3) in
  let Dot0 := mul4 (c0 m) Row0 in
  let Dot1 := (x4 Dot0 + y4 Dot0) + (z4 Dot0 + w4 Dot0) in
  let OneOverDeterminant := 1 / Dot1 in
  mkmat4 (scale4 I0 OneOverDeterminant) (scale4 I1 OneOverDeterminant)
         (scale4 I2 OneOverDeterminant) (scale4 I3 OneOverDeterminant).

End glm.

Infix "+v" := glm.add3 (at level 50, left associativity) : vec_scope.
Infix "-v" := glm.sub3 (at level 50, left associativity) : vec_scope.
Infix "*s" := glm.scale3 (at level 40, left associativity) : vec_scope.
Infix "*m" := glm.mulm (at level 40, left associativity) : vec_scope.
Infix "*mv" := glm.mulv (at level 40, left associativity) : vec_scope.
Open Scope vec_scope.

(** ** Constants *)

Definition kEpsilon : float := glm.epsilon.

Definition kUnitDirections (i : Z) : vec3 :=
  match i with
  | 0%Z => mkvec3 1 0 0 (* Right *)
  | 1%Z => mkvec3 0 1 0 (* Up *)
  | _ => mkvec3 0 0 1   (* Forward *)
  end.

(** Size of the quads responsible for movement on a plane. *)
Definition kQuadSize : float := 20 / 100.
Definition kQuadMin : float := 30 / 100.
Definition kQuadMax : float := kQuadMin + kQuadSize.
Definition kUnitQuad (i : Z) : float :=
  match i with
  | 0%Z => kQuadMin | 1%Z => kQuadMin | 2%Z => kQuadMin | 3%Z => kQuadMax
  | 4%Z => kQuadMax | 5%Z => kQuadMax | 6%Z => kQuadMax | _ => kQuadMin
  end.

Definition kCircleRadius : float := 6.

(** ** Enumerations and flags *)

Abbreviation ImGuiID := Z.

Abbreviation ImGuizmoMode := Z.
Definition ImGuizmoMode_World : ImGuizmoMode := 0%Z.
Definition ImGuizmoMode_Local : ImGuizmoMode := 1%Z.

Abbreviation ImGuizmoOperation := Z.
Definition ImGuizmoOperation_None : ImGuizmoOperation := 0%Z.
Definition ImGuizmoOperation_Translate : ImGuizmoOperation := 1%Z.
Definition ImGuizmoOperation_Rotate : ImGuizmoOperation := 2%Z.
Definition ImGuizmoOperation_Scale : ImGuizmoOperation := 3%Z.
Definition ImGuizmoOperation_BoundsScale : ImGuizmoOperation := 4%Z.

Abbreviation ImGuizmoAxisFlags := Z.
Definition ImGuizmoAxisFlags_None : ImGuizmoAxisFlags := 0%Z.
Definition ImGuizmoAxisFlags_X : ImGuizmoAxisFlags := Z.shiftl 1 0.
Definition ImGuizmoAxisFlags_Y : ImGuizmoAxisFlags := Z.shiftl 1 1.
Definition ImGuizmoAxisFlags_Z : ImGuizmoAxisFlags := Z.shiftl 1 2.
Definition ImGuizmoAxisFlags_YZ : ImGuizmoAxisFlags :=
  Z.lor ImGuizmoAxisFlags_Y ImGuizmoAxisFlags_Z.
Definition ImGuizmoAxisFlags_ZX : ImGuizmoAxisFlags :=
  Z.lor ImGuizmoAxisFlags_Z ImGuizmoAxisFlags_X.
Definition ImGuizmoAxisFlags_XY : ImGuizmoAxisFlags :=
  Z.lor ImGuizmoAxisFlags_X ImGuizmoAxisFlags_Y.
Definition ImGuizmoAxisFlags_ALL : ImGuizmoAxisFlags :=
  Z.lor (Z.lor ImGuizmoAxisFlags_X ImGuizmoAxisFlags_Y) ImGuizmoAxisFlags_Z.

Abbreviation ImGuizmoConfigFlags := Z.
Definition ImGuizmoConfigFlags_None : ImGuizmoConfigFlags := 0%Z.
Definition ImGuizmoConfigFlags_CloakOnManipulate : ImGuizmoConfigFlags :=
  Z.shiftl 1 0.
Definition ImGuizmoConfigFlags_HideLocked : ImGuizmoConfigFlags := Z.shiftl 1 1.
Definition ImGuizmoConfigFlags_HasReversing : ImGuizmoConfigFlags :=
  Z.shiftl 1 2.

Abbreviation ImGuizmoAxis := Z.
Definition ImGuizmoAxis_X : ImGuizmoAxis := 0%Z.
Definition ImGuizmoAxis_Y : ImGuizmoAxis := 1%Z.
Definition ImGuizmoAxis_Z : ImGuizmoAxis := 2%Z.

(** A plane index is also the index of the axis normal to that plane. *)
Abbreviation ImGuizmoPlane := Z.
Definition ImGuizmoPlane_YZ : ImGuizmoPlane := 0%Z.
Definition ImGuizmoPlane_ZX : ImGuizmoPlane := 1%Z.
Definition ImGuizmoPlane_XY : ImGuizmoPlane := 2%Z.

(** An integer used as a condition, as in [if (flags & mask)]. *)
Definition truthy (z : Z) : bool := negb (z =? 0)%Z.

(** ** The host (Dear ImGui) *)

(** What the code reads from [ImGui::GetIO()] and from the current window
    during one frame. *)
Record Host := mkHost {
  MousePos : vec2;
  MouseDown : Z -> bool;
  MouseClicked : Z -> bool;
  IsWindowHovered : bool;
  WindowPos : vec2;
  WindowContentRegionMin : vec2;
  WindowContentRegionMax : vec2
}.

(** The caller's model matrices, by address. *)
Abbreviation Memory := (gmap Z mat4).

Record ImRect := mkImRect { Min : vec2; Max : vec2 }.

Definition GetSize (bb : ImRect) : vec2 := glm.sub2 (Max bb) (Min bb).
Definition GetTL (bb : ImRect) : vec2 := Min bb.
Definition GetWidth (bb : ImRect) : float := x2 (Max bb) - x2 (Min bb).
Definition GetHeight (bb : ImRect) : float := y2 (Max bb) - y2 (Min bb).
Definition Contains (bb : ImRect) (p : vec2) : bool :=
  F.geb (x2 p) (x2 (Min bb)) && F.geb (y2 p) (y2 (Min bb)) &&
  F.ltb (x2 p) (x2 (Max bb)) && F.ltb (y2 p) (y2 (Max bb)).

(** ** Internal types *)

(** [struct ImGuizmoRay]; the fields are [Origin], [End], [Direction]. *)
Record ImGuizmoRay := mkImGuizmoRay {
  RayOrigin : vec3;
  RayEnd : vec3;
  RayDirection : vec3
}.

Record ImGuizmoCamera := mkImGuizmoCamera {
  IsOrtho : bool;
  ViewMatrix : mat4;
  ProjectionMatrix : mat4;
  ViewProjectionMatrix : mat4;
  Right : vec3;
  Up : vec3;
  Forward : vec3;
  Eye : vec3
}.

(** The fields of [struct ImGuizmoStyle] the engine reads. *)
Record ImGuizmoStyle := mkImGuizmoStyle {
  GizmoScale : float;
  RotationRingThickness : float
}.

(** [struct ImGuizmoWidget]. *)
Record ImGuizmoWidget := mkImGuizmoWidget {
  ID : ImGuiID;
  SourceModelMatrix : mat4;  (* reference matrix, fixed while manipulating *)
  ModelMatrix : mat4;
  InversedModelMatrix : mat4;
  ModelViewProjMatrix : mat4;
  Mode : ImGuizmoMode;
  ActiveOperation : ImGuizmoOperation;
  ActiveManipulationFlags : ImGuizmoAxisFlags;
  LockedAxesFlags : ImGuizmoAxisFlags;
  Dirty : bool;  (* set to true on manipulate *)
  Origin : vec2;  (* screen space *)
  RingRadius : float;
  ScreenFactor : float;
  TranslationPlane : vec4;  (* T+R+S *)
  TranslationPlaneOrigin : vec3;  (* T+S *)
  ModelRelativeOrigin : vec3;  (* T+S *)
  DragTranslationOrigin : vec3;  (* T+S *)
  LastTranslationDelta : vec3;
  ModelScaleOrigin : vec3;
  RotationVectorSource : vec3;
  RotationAngle : float;  (* radians *)
  RotationAngleOrigin : float;  (* radians *)
  Scale : vec3;
  LastScale : vec3;
  ScaleValueOrigin : vec3
}.

(** Field updates of a gizmo ([gizmo->Field = v]). *)
Definition set_SourceModelMatrix (v : mat4) (w : ImGuizmoWidget) : ImGuizmoWidget :=
  {| ID := ID w; SourceModelMatrix := v; ModelMatrix := ModelMatrix w;
  InversedModelMatrix := InversedModelMatrix w; ModelViewProjMatrix :=
  ModelViewProjMatrix w; Mode := Mode w; ActiveOperation := ActiveOperation w;
  ActiveManipulationFlags := ActiveManipulationFlags w; LockedAxesFlags :=
  LockedAxesFlags w; Dirty := Dirty w; Origin := Origin w; RingRadius :=
  RingRadius w; ScreenFactor := ScreenFactor w; TranslationPlane :=
  TranslationPlane w; TranslationPlaneOrigin := TranslationPlaneOrigin w;
  ModelRelativeOrigin := ModelRelativeOrigin w; DragTranslationOrigin :=
  DragTranslationOrigin w; LastTranslationDelta := LastTranslationDelta w;
  ModelScaleOrigin := ModelScaleOrigin w; RotationVectorSource :=
  RotationVectorSource w; RotationAngle := RotationAngle w;
  RotationAngleOrigin := RotationAngleOrigin w; Scale := Scale w; LastScale :=
  LastScale w; ScaleValueOrigin := ScaleValueOrigin w |}.
Definition set_ModelMatrix (v : mat4) (w : ImGuizmoWidget) : ImGuizmoWidget :=
  {| ID := ID w; SourceModelMatrix := SourceModelMatrix w; ModelMatrix := v;
  InversedModelMatrix := InversedModelMatrix w; ModelViewProjMatrix :=
  ModelViewProjMatrix w; Mode := Mode w; ActiveOperation := ActiveOperation w;
  ActiveManipulationFlags := ActiveManipulationFlags w; LockedAxesFlags :=
  LockedAxesFlags w; Dirty := Dirty w; Origin := Origin w; RingRadius :=
  RingRadius w; ScreenFactor := ScreenFactor w; TranslationPlane :=
  TranslationPlane w; TranslationPlaneOrigin := TranslationPlaneOrigin w;
  ModelRelativeOrigin := ModelRelativeOrigin w; DragTranslationOrigin :=
  DragTranslationOrigin w; LastTranslationDelta := LastTranslationDelta w;
  ModelScaleOrigin := ModelScaleOrigin w; RotationVectorSource :=
  RotationVectorSource w; RotationAngle := RotationAngle w;
  RotationAngleOrigin := RotationAngleOrigin w; Scale := Scale w; LastScale :=
  LastScale w; ScaleValueOrigin := ScaleValueOrigin w |}.
Definition set_InversedModelMatrix (v : mat4) (w : ImGuizmoWidget) : ImGuizmoWidget :=
  {| ID := ID w; SourceModelMatrix := SourceModelMatrix w; ModelMatrix :=
  ModelMatrix w; InversedModelMatrix := v; ModelViewProjMatrix :=
  ModelViewProjMatrix w; Mode := Mode w; ActiveOperation := ActiveOperation w;
  ActiveManipulationFlags := ActiveManipulationFlags w; LockedAxesFlags :=
  LockedAxesFlags w; Dirty := Dirty w; Origin := Origin w; RingRadius :=
  RingRadius w; ScreenFactor := ScreenFactor w; TranslationPlane :=
  TranslationPlane w; TranslationPlaneOrigin := TranslationPlaneOrigin w;
  ModelRelativeOrigin := ModelRelativeOrigin w; DragTranslationOrigin :=
  DragTranslationOrigin w; LastTranslationDelta := LastTranslationDelta w;
  ModelScaleOrigin := ModelScaleOrigin w; RotationVectorSource :=
  RotationVectorSource w; RotationAngle := RotationAngle w;
  RotationAngleOrigin := RotationAngleOrigin w; Scale := Scale w; LastScale :=
  LastScale w; ScaleValueOrigin := ScaleValueOrigin w |}.
Definition set_ModelViewProjMatrix (v : mat4) (w : ImGuizmoWidget) : ImGuizmoWidget :=
  {| ID := ID w; SourceModelMatrix := SourceModelMatrix w; ModelMatrix :=
  ModelMatrix w; InversedModelMatrix := InversedModelMatrix w;
  ModelViewProjMatrix := v; Mode := Mode w; ActiveOperation := ActiveOperation
  w; ActiveManipulationFlags := ActiveManipulationFlags w; LockedAxesFlags :=
  LockedAxesFlags w; Dirty := Dirty w; Origin := Origin w; RingRadius :=
  RingRadius w; ScreenFactor := ScreenFactor w; TranslationPlane :=
  TranslationPlane w; TranslationPlaneOrigin := TranslationPlaneOrigin w;
  ModelRelativeOrigin := ModelRelativeOrigin w; DragTranslationOrigin :=
  DragTranslationOrigin w; LastTranslationDelta := LastTranslationDelta w;
  ModelScaleOrigin := ModelScaleOrigin w; RotationVectorSource :=
  RotationVectorSource w; RotationAngle := RotationAngle w;
  RotationAngleOrigin := RotationAngleOrigin w; Scale := Scale w; LastScale :=
  LastScale w; ScaleValueOrigin := ScaleValueOrigin w |}.
Definition set_Mode (v : ImGuizmoMode) (w : ImGuizmoWidget) : ImGuizmoWidget :=
  {| ID := ID w; SourceModelMatrix := SourceModelMatrix w; ModelMatrix :=
  ModelMatrix w; InversedModelMatrix := InversedModelMatrix w;
  ModelViewProjMatrix := ModelViewProjMatrix w; Mode := v; ActiveOperation :=
  ActiveOperation w; ActiveManipulationFlags := ActiveManipulationFlags w;
  LockedAxesFlags := LockedAxesFlags w; Dirty := Dirty w; Origin := Origin w;
  RingRadius := RingRadius w; ScreenFactor := ScreenFactor w; TranslationPlane
  := TranslationPlane w; TranslationPlaneOrigin := TranslationPlaneOrigin w;
  ModelRelativeOrigin := ModelRelativeOrigin w; DragTranslationOrigin :=
  DragTranslationOrigin w; LastTranslationDelta := LastTranslationDelta w;
  ModelScaleOrigin := ModelScaleOrigin w; RotationVectorSource :=
  RotationVectorSource w; RotationAngle := RotationAngle w;
  RotationAngleOrigin := RotationAngleOrigin w; Scale := Scale w; LastScale :=
  LastScale w; ScaleValueOrigin := ScaleValueOrigin w |}.
Definition set_ActiveOperation (v : ImGuizmoOperation) (w : ImGuizmoWidget) : ImGuizmoWidget :=
  {| ID := ID w; SourceModelMatrix := SourceModelMatrix w; ModelMatrix :=
  ModelMatrix w; InversedModelMatrix := InversedModelMatrix w;
  ModelViewProjMatrix := ModelViewProjMatrix w; Mode := Mode w;
  ActiveOperation := v; ActiveManipulationFlags := ActiveManipulationFlags w;
  LockedAxesFlags := LockedAxesFlags w; Dirty := Dirty w; Origin := Origin w;
  RingRadius := RingRadius w; ScreenFactor := ScreenFactor w; TranslationPlane
  := TranslationPlane w; TranslationPlaneOrigin := TranslationPlaneOrigin w;
  ModelRelativeOrigin := ModelRelativeOrigin w; DragTranslationOrigin :=
  DragTranslationOrigin w; LastTranslationDelta := LastTranslationDelta w;
  ModelScaleOrigin := ModelScaleOrigin w; RotationVectorSource :=
  RotationVectorSource w; RotationAngle := RotationAngle w;
  RotationAngleOrigin := RotationAngleOrigin w; Scale := Scale w; LastScale :=
  LastScale w; ScaleValueOrigin := ScaleValueOrigin w |}.
Definition set_ActiveManipulationFlags (v : ImGuizmoAxisFlags) (w : ImGuizmoWidget) : ImGuizmoWidget :=
  {| ID := ID w; SourceModelMatrix := SourceModelMatrix w; ModelMatrix :=
  ModelMatrix w; InversedModelMatrix := InversedModelMatrix w;
  ModelViewProjMatrix := ModelViewProjMatrix w; Mode := Mode w;
  ActiveOperation := ActiveOperation w; ActiveManipulationFlags := v;
  LockedAxesFlags := LockedAxesFlags w; Dirty := Dirty w; Origin := Origin w;
  RingRadius := RingRadius w; ScreenFactor := ScreenFactor w; TranslationPlane
  := TranslationPlane w; TranslationPlaneOrigin := TranslationPlaneOrigin w;
  ModelRelativeOrigin := ModelRelativeOrigin w; DragTranslationOrigin :=
  DragTranslationOrigin w; LastTranslationDelta := LastTranslationDelta w;
  ModelScaleOrigin := ModelScaleOrigin w; RotationVectorSource :=
  RotationVectorSource w; RotationAngle := RotationAngle w;
  RotationAngleOrigin := RotationAngleOrigin w; Scale := Scale w; LastScale :=
  LastScale w; ScaleValueOrigin := ScaleValueOrigin w |}.
Definition set_LockedAxesFlags (v : ImGuizmoAxisFlags) (w : ImGuizmoWidget) : ImGuizmoWidget :=
  {| ID := ID w; SourceModelMatrix := SourceModelMatrix w; ModelMatrix :=
  ModelMatrix w; InversedModelMatrix := InversedModelMatrix w;
  ModelViewProjMatrix := ModelViewProjMatrix w; Mode := Mode w;
  ActiveOperation := ActiveOperation w; ActiveManipulationFlags :=
  ActiveManipulationFlags w; LockedAxesFlags := v; Dirty := Dirty w; Origin :=
  Origin w; RingRadius := RingRadius w; ScreenFactor := ScreenFactor w;
  TranslationPlane := TranslationPlane w; TranslationPlaneOrigin :=
  TranslationPlaneOrigin w; ModelRelativeOrigin := ModelRelativeOrigin w;
  DragTranslationOrigin := DragTranslationOrigin w; LastTranslationDelta :=
  LastTranslationDelta w; ModelScaleOrigin := ModelScaleOrigin w;
  RotationVectorSource := RotationVectorSource w; RotationAngle :=
  RotationAngle w; RotationAngleOrigin := RotationAngleOrigin w; Scale :=
  Scale w; LastScale := LastScale w; ScaleValueOrigin := ScaleValueOrigin w |}.
Definition set_Dirty (v : bool) (w : ImGuizmoWidget) : ImGuizmoWidget :=
  {| ID := ID w; SourceModelMatrix := SourceModelMatrix w; ModelMatrix :=
  ModelMatrix w; InversedModelMatrix := InversedModelMatrix w;
  ModelViewProjMatrix := ModelViewProjMatrix w; Mode := Mode w;
  ActiveOperation := ActiveOperation w; ActiveManipulationFlags :=
  ActiveManipulationFlags w; LockedAxesFlags := LockedAxesFlags w; Dirty := v;
  Origin := Origin w; RingRadius := RingRadius w; ScreenFactor := ScreenFactor
  w; TranslationPlane := TranslationPlane w; TranslationPlaneOrigin :=
  TranslationPlaneOrigin w; ModelRelativeOrigin := ModelRelativeOrigin w;
  DragTranslationOrigin := DragTranslationOrigin w; LastTranslationDelta :=
  LastTranslationDelta w; ModelScaleOrigin := ModelScaleOrigin w;
  RotationVectorSource := RotationVectorSource w; RotationAngle :=
  RotationAngle w; RotationAngleOrigin := RotationAngleOrigin w; Scale :=
  Scale w; LastScale := LastScale w; ScaleValueOrigin := ScaleValueOrigin w |}.
Definition set_Origin (v : vec2) (w : ImGuizmoWidget) : ImGuizmoWidget :=
  {| ID := ID w; SourceModelMatrix := SourceModelMatrix w; ModelMatrix :=
  ModelMatrix w; InversedModelMatrix := InversedModelMatrix w;
  ModelViewProjMatrix := ModelViewProjMatrix w; Mode := Mode w;
  ActiveOperation := ActiveOperation w; ActiveManipulationFlags :=
  ActiveManipulationFlags w; LockedAxesFlags := LockedAxesFlags w; Dirty :=
  Dirty w; Origin := v; RingRadius := RingRadius w; ScreenFactor :=
  ScreenFactor w; TranslationPlane := TranslationPlane w;
  TranslationPlaneOrigin := TranslationPlaneOrigin w; ModelRelativeOrigin :=
  ModelRelativeOrigin w; DragTranslationOrigin := DragTranslationOrigin w;
  LastTranslationDelta := LastTranslationDelta w; ModelScaleOrigin :=
  ModelScaleOrigin w; RotationVectorSource := RotationVectorSource w;
  RotationAngle := RotationAngle w; RotationAngleOrigin := RotationAngleOrigin
  w; Scale := Scale w; LastScale := LastScale w; ScaleValueOrigin :=
  ScaleValueOrigin w |}.
Definition set_RingRadius (v : float) (w : ImGuizmoWidget) : ImGuizmoWidget :=
  {| ID := ID w; SourceModelMatrix := SourceModelMatrix w; ModelMatrix :=
  ModelMatrix w; InversedModelMatrix := InversedModelMatrix w;
  ModelViewProjMatrix := ModelViewProjMatrix w; Mode := Mode w;
  ActiveOperation := ActiveOperation w; ActiveManipulationFlags :=
  ActiveManipulationFlags w; LockedAxesFlags := LockedAxesFlags w; Dirty :=
  Dirty w; Origin := Origin w; RingRadius := v; ScreenFactor := ScreenFactor
  w; TranslationPlane := TranslationPlane w; TranslationPlaneOrigin :=
  TranslationPlaneOrigin w; ModelRelativeOrigin := ModelRelativeOrigin w;
  DragTranslationOrigin := DragTranslationOrigin w; LastTranslationDelta :=
  LastTranslationDelta w; ModelScaleOrigin := ModelScaleOrigin w;
  RotationVectorSource := RotationVectorSource w; RotationAngle :=
  RotationAngle w; RotationAngleOrigin := RotationAngleOrigin w; Scale :=
  Scale w; LastScale := LastScale w; ScaleValueOrigin := ScaleValueOrigin w |}.
Definition set_ScreenFactor (v : float) (w : ImGuizmoWidget) : ImGuizmoWidget :=
  {| ID := ID w; SourceModelMatrix := SourceModelMatrix w; ModelMatrix :=
  ModelMatrix w; InversedModelMatrix := InversedModelMatrix w;
  ModelViewProjMatrix := ModelViewProjMatrix w; Mode := Mode w;
  ActiveOperation := ActiveOperation w; ActiveManipulationFlags :=
  ActiveManipulationFlags w; LockedAxesFlags := LockedAxesFlags w; Dirty :=
  Dirty w; Origin := Origin w; RingRadius := RingRadius w; ScreenFactor := v;
  TranslationPlane := TranslationPlane w; TranslationPlaneOrigin :=
  TranslationPlaneOrigin w; ModelRelativeOrigin := ModelRelativeOrigin w;
  DragTranslationOrigin := DragTranslationOrigin w; LastTranslationDelta :=
  LastTranslationDelta w; ModelScaleOrigin := ModelScaleOrigin w;
  RotationVectorSource := RotationVectorSource w; RotationAngle :=
  RotationAngle w; RotationAngleOrigin := RotationAngleOrigin w; Scale :=
  Scale w; LastScale := LastScale w; ScaleValueOrigin := ScaleValueOrigin w |}.
Definition set_TranslationPlane (v : vec4) (w : ImGuizmoWidget) : ImGuizmoWidget :=
  {| ID := ID w; SourceModelMatrix := SourceModelMatrix w; ModelMatrix :=
  ModelMatrix w; InversedModelMatrix := InversedModelMatrix w;
  ModelViewProjMatrix := ModelViewProjMatrix w; Mode := Mode w;
  ActiveOperation := ActiveOperation w; ActiveManipulationFlags :=
  ActiveManipulationFlags w; LockedAxesFlags := LockedAxesFlags w; Dirty :=
  Dirty w; Origin := Origin w; RingRadius := RingRadius w; ScreenFactor :=
  ScreenFactor w; TranslationPlane := v; TranslationPlaneOrigin :=
  TranslationPlaneOrigin w; ModelRelativeOrigin := ModelRelativeOrigin w;
  DragTranslationOrigin := DragTranslationOrigin w; LastTranslationDelta :=
  LastTranslationDelta w; ModelScaleOrigin := ModelScaleOrigin w;
  RotationVectorSource := RotationVectorSource w; RotationAngle :=
  RotationAngle w; RotationAngleOrigin := RotationAngleOrigin w; Scale :=
  Scale w; LastScale := LastScale w; ScaleValueOrigin := ScaleValueOrigin w |}.
Definition set_TranslationPlaneOrigin (v : vec3) (w : ImGuizmoWidget) : ImGuizmoWidget :=
  {| ID := ID w; SourceModelMatrix := SourceModelMatrix w; ModelMatrix :=
  ModelMatrix w; InversedModelMatrix := InversedModelMatrix w;
  ModelViewProjMatrix := ModelViewProjMatrix w; Mode := Mode w;
  ActiveOperation := ActiveOperation w; ActiveManipulationFlags :=
  ActiveManipulationFlags w; LockedAxesFlags := LockedAxesFlags w; Dirty :=
  Dirty w; Origin := Origin w; RingRadius := RingRadius w; ScreenFactor :=
  ScreenFactor w; TranslationPlane := TranslationPlane w;
  TranslationPlaneOrigin := v; ModelRelativeOrigin := ModelRelativeOrigin w;
  DragTranslationOrigin := DragTranslationOrigin w; LastTranslationDelta :=
  LastTranslationDelta w; ModelScaleOrigin := ModelScaleOrigin w;
  RotationVectorSource := RotationVectorSource w; RotationAngle :=
  RotationAngle w; RotationAngleOrigin := RotationAngleOrigin w; Scale :=
  Scale w; LastScale := LastScale w; ScaleValueOrigin := ScaleValueOrigin w |}.
Definition set_ModelRelativeOrigin (v : vec3) (w : ImGuizmoWidget) : ImGuizmoWidget :=
  {| ID := ID w; SourceModelMatrix := SourceModelMatrix w; ModelMatrix :=
  ModelMatrix w; InversedModelMatrix := InversedModelMatrix w;
  ModelViewProjMatrix := ModelViewProjMatrix w; Mode := Mode w;
  ActiveOperation := ActiveOperation w; ActiveManipulationFlags :=
  ActiveManipulationFlags w; LockedAxesFlags := LockedAxesFlags w; Dirty :=
  Dirty w; Origin := Origin w; RingRadius := RingRadius w; ScreenFactor :=
  ScreenFactor w; TranslationPlane := TranslationPlane w;
  TranslationPlaneOrigin := TranslationPlaneOrigin w; ModelRelativeOrigin :=
  v; DragTranslationOrigin := DragTranslationOrigin w; LastTranslationDelta :=
  LastTranslationDelta w; ModelScaleOrigin := ModelScaleOrigin w;
  RotationVectorSource := RotationVectorSource w; RotationAngle :=
  RotationAngle w; RotationAngleOrigin := RotationAngleOrigin w; Scale :=
  Scale w; LastScale := LastScale w; ScaleValueOrigin := ScaleValueOrigin w |}.
Definition set_DragTranslationOrigin (v : vec3) (w : ImGuizmoWidget) : ImGuizmoWidget :=
  {| ID := ID w; SourceModelMatrix := SourceModelMatrix w; ModelMatrix :=
  ModelMatrix w; InversedModelMatrix := InversedModelMatrix w;
  ModelViewProjMatrix := ModelViewProjMatrix w; Mode := Mode w;
  ActiveOperation := ActiveOperation w; ActiveManipulationFlags :=
  ActiveManipulationFlags w; LockedAxesFlags := LockedAxesFlags w; Dirty :=
  Dirty w; Origin := Origin w; RingRadius := RingRadius w; ScreenFactor :=
  ScreenFactor w; TranslationPlane := TranslationPlane w;
  TranslationPlaneOrigin := TranslationPlaneOrigin w; ModelRelativeOrigin :=
  ModelRelativeOrigin w; DragTranslationOrigin := v; LastTranslationDelta :=
  LastTranslationDelta w; ModelScaleOrigin := ModelScaleOrigin w;
  RotationVectorSource := RotationVectorSource w; RotationAngle :=
  RotationAngle w; RotationAngleOrigin := RotationAngleOrigin w; Scale :=
  Scale w; LastScale := LastScale w; ScaleValueOrigin := ScaleValueOrigin w |}.
Definition set_LastTranslationDelta (v : vec3) (w : ImGuizmoWidget) : ImGuizmoWidget :=
  {| ID := ID w; SourceModelMatrix := SourceModelMatrix w; ModelMatrix :=
  ModelMatrix w; InversedModelMatrix := InversedModelMatrix w;
  ModelViewProjMatrix := ModelViewProjMatrix w; Mode := Mode w;
  ActiveOperation := ActiveOperation w; ActiveManipulationFlags :=
  ActiveManipulationFlags w; LockedAxesFlags := LockedAxesFlags w; Dirty :=
  Dirty w; Origin := Origin w; RingRadius := RingRadius w; ScreenFactor :=
  ScreenFactor w; TranslationPlane := TranslationPlane w;
  TranslationPlaneOrigin := TranslationPlaneOrigin w; ModelRelativeOrigin :=
  ModelRelativeOrigin w; DragTranslationOrigin := DragTranslationOrigin w;
  LastTranslationDelta := v; ModelScaleOrigin := ModelScaleOrigin w;
  RotationVectorSource := RotationVectorSource w; RotationAngle :=
  RotationAngle w; RotationAngleOrigin := RotationAngleOrigin w; Scale :=
  Scale w; LastScale := LastScale w; ScaleValueOrigin := ScaleValueOrigin w |}.
Definition set_ModelScaleOrigin (v : vec3) (w : ImGuizmoWidget) : ImGuizmoWidget :=
  {| ID := ID w; SourceModelMatrix := SourceModelMatrix w; ModelMatrix :=
  ModelMatrix w; InversedModelMatrix := InversedModelMatrix w;
  ModelViewProjMatrix := ModelViewProjMatrix w; Mode := Mode w;
  ActiveOperation := ActiveOperation w; ActiveManipulationFlags :=
  ActiveManipulationFlags w; LockedAxesFlags := LockedAxesFlags w; Dirty :=
  Dirty w; Origin := Origin w; RingRadius := RingRadius w; ScreenFactor :=
  ScreenFactor w; TranslationPlane := TranslationPlane w;
  TranslationPlaneOrigin := TranslationPlaneOrigin w; ModelRelativeOrigin :=
  ModelRelativeOrigin w; DragTranslationOrigin := DragTranslationOrigin w;
  LastTranslationDelta := LastTranslationDelta w; ModelScaleOrigin := v;
  RotationVectorSource := RotationVectorSource w; RotationAngle :=
  RotationAngle w; RotationAngleOrigin := RotationAngleOrigin w; Scale :=
  Scale w; LastScale := LastScale w; ScaleValueOrigin := ScaleValueOrigin w |}.
Definition set_RotationVectorSource (v : vec3) (w : ImGuizmoWidget) : ImGuizmoWidget :=
  {| ID := ID w; SourceModelMatrix := SourceModelMatrix w; ModelMatrix :=
  ModelMatrix w; InversedModelMatrix := InversedModelMatrix w;
  ModelViewProjMatrix := ModelViewProjMatrix w; Mode := Mode w;
  ActiveOperation := ActiveOperation w; ActiveManipulationFlags :=
  ActiveManipulationFlags w; LockedAxesFlags := LockedAxesFlags w; Dirty :=
  Dirty w; Origin := Origin w; RingRadius := RingRadius w; ScreenFactor :=
  ScreenFactor w; TranslationPlane := TranslationPlane w;
  TranslationPlaneOrigin := TranslationPlaneOrigin w; ModelRelativeOrigin :=
  ModelRelativeOrigin w; DragTranslationOrigin := DragTranslationOrigin w;
  LastTranslationDelta := LastTranslationDelta w; ModelScaleOrigin :=
  ModelScaleOrigin w; RotationVectorSource := v; RotationAngle :=
  RotationAngle w; RotationAngleOrigin := RotationAngleOrigin w; Scale :=
  Scale w; LastScale := LastScale w; ScaleValueOrigin := ScaleValueOrigin w |}.
Definition set_RotationAngle (v : float) (w : ImGuizmoWidget) : ImGuizmoWidget :=
  {| ID := ID w; SourceModelMatrix := SourceModelMatrix w; ModelMatrix :=
  ModelMatrix w; InversedModelMatrix := InversedModelMatrix w;
  ModelViewProjMatrix := ModelViewProjMatrix w; Mode := Mode w;
  ActiveOperation := ActiveOperation w; ActiveManipulationFlags :=
  ActiveManipulationFlags w; LockedAxesFlags := LockedAxesFlags w; Dirty :=
  Dirty w; Origin := Origin w; RingRadius := RingRadius w; ScreenFactor :=
  ScreenFactor w; TranslationPlane := TranslationPlane w;
  TranslationPlaneOrigin := TranslationPlaneOrigin w; ModelRelativeOrigin :=
  ModelRelativeOrigin w; DragTranslationOrigin := DragTranslationOrigin w;
  LastTranslationDelta := LastTranslationDelta w; ModelScaleOrigin :=
  ModelScaleOrigin w; RotationVectorSource := RotationVectorSource w;
  RotationAngle := v; RotationAngleOrigin := RotationAngleOrigin w; Scale :=
  Scale w; LastScale := LastScale w; ScaleValueOrigin := ScaleValueOrigin w |}.
Definition set_RotationAngleOrigin (v : float) (w : ImGuizmoWidget) : ImGuizmoWidget :=
  {| ID := ID w; SourceModelMatrix := SourceModelMatrix w; ModelMatrix :=
  ModelMatrix w; InversedModelMatrix := InversedModelMatrix w;
  ModelViewProjMatrix := ModelViewProjMatrix w; Mode := Mode w;
  ActiveOperation := ActiveOperation w; ActiveManipulationFlags :=
  ActiveManipulationFlags w; LockedAxesFlags := LockedAxesFlags w; Dirty :=
  Dirty w; Origin := Origin w; RingRadius := RingRadius w; ScreenFactor :=
  ScreenFactor w; TranslationPlane := TranslationPlane w;
  TranslationPlaneOrigin := TranslationPlaneOrigin w; ModelRelativeOrigin :=
  ModelRelativeOrigin w; DragTranslationOrigin := DragTranslationOrigin w;
  LastTranslationDelta := LastTranslationDelta w; ModelScaleOrigin :=
  ModelScaleOrigin w; RotationVectorSource := RotationVectorSource w;
  RotationAngle := RotationAngle w; RotationAngleOrigin := v; Scale := Scale
  w; LastScale := LastScale w; ScaleValueOrigin := ScaleValueOrigin w |}.
Definition set_Scale (v : vec3) (w : ImGuizmoWidget) : ImGuizmoWidget :=
  {| ID := ID w; SourceModelMatrix := SourceModelMatrix w; ModelMatrix :=
  ModelMatrix w; InversedModelMatrix := InversedModelMatrix w;
  ModelViewProjMatrix := ModelViewProjMatrix w; Mode := Mode w;
  ActiveOperation := ActiveOperation w; ActiveManipulationFlags :=
  ActiveManipulationFlags w; LockedAxesFlags := LockedAxesFlags w; Dirty :=
  Dirty w; Origin := Origin w; RingRadius := RingRadius w; ScreenFactor :=
  ScreenFactor w; TranslationPlane := TranslationPlane w;
  TranslationPlaneOrigin := TranslationPlaneOrigin w; ModelRelativeOrigin :=
  ModelRelativeOrigin w; DragTranslationOrigin := DragTranslationOrigin w;
  LastTranslationDelta := LastTranslationDelta w; ModelScaleOrigin :=
  ModelScaleOrigin w; RotationVectorSource := RotationVectorSource w;
  RotationAngle := RotationAngle w; RotationAngleOrigin := RotationAngleOrigin
  w; Scale := v; LastScale := LastScale w; ScaleValueOrigin :=
  ScaleValueOrigin w |}.
Definition set_LastScale (v : vec3) (w : ImGuizmoWidget) : ImGuizmoWidget :=
  {| ID := ID w; SourceModelMatrix := SourceModelMatrix w; ModelMatrix :=
  ModelMatrix w; InversedModelMatrix := InversedModelMatrix w;
  ModelViewProjMatrix := ModelViewProjMatrix w; Mode := Mode w;
  ActiveOperation := ActiveOperation w; ActiveManipulationFlags :=
  ActiveManipulationFlags w; LockedAxesFlags := LockedAxesFlags w; Dirty :=
  Dirty w; Origin := Origin w; RingRadius := RingRadius w; ScreenFactor :=
  ScreenFactor w; TranslationPlane := TranslationPlane w;
  TranslationPlaneOrigin := TranslationPlaneOrigin w; ModelRelativeOrigin :=
  ModelRelativeOrigin w; DragTranslationOrigin := DragTranslationOrigin w;
  LastTranslationDelta := LastTranslationDelta w; ModelScaleOrigin :=
  ModelScaleOrigin w; RotationVectorSource := RotationVectorSource w;
  RotationAngle := RotationAngle w; RotationAngleOrigin := RotationAngleOrigin
  w; Scale := Scale w; LastScale := v; ScaleValueOrigin := ScaleValueOrigin w
  |}.
Definition set_ScaleValueOrigin (v : vec3) (w : ImGuizmoWidget) : ImGuizmoWidget :=
  {| ID := ID w; SourceModelMatrix := SourceModelMatrix w; ModelMatrix :=
  ModelMatrix w; InversedModelMatrix := InversedModelMatrix w;
  ModelViewProjMatrix := ModelViewProjMatrix w; Mode := Mode w;
  ActiveOperation := ActiveOperation w; ActiveManipulationFlags :=
  ActiveManipulationFlags w; LockedAxesFlags := LockedAxesFlags w; Dirty :=
  Dirty w; Origin := Origin w; RingRadius := RingRadius w; ScreenFactor :=
  ScreenFactor w; TranslationPlane := TranslationPlane w;
  TranslationPlaneOrigin := TranslationPlaneOrigin w; ModelRelativeOrigin :=
  ModelRelativeOrigin w; DragTranslationOrigin := DragTranslationOrigin w;
  LastTranslationDelta := LastTranslationDelta w; ModelScaleOrigin :=
  ModelScaleOrigin w; RotationVectorSource := RotationVectorSource w;
  RotationAngle := RotationAngle w; RotationAngleOrigin := RotationAngleOrigin
  w; Scale := Scale w; LastScale := LastScale w; ScaleValueOrigin := v |}.

(** [struct ImGuizmoContext], the type of the global [GImGuizmo]. *)
Record ImGuizmoContext := mkImGuizmoContext {
  Style : ImGuizmoStyle;
  ConfigFlags : ImGuizmoConfigFlags;
  Viewport : ImRect;
  Camera : ImGuizmoCamera;
  Ray : ImGuizmoRay;
  DragOrigin : vec2;
  Gizmos : list ImGuiID;  (* creation order *)
  GizmosById : gmap Z ImGuizmoWidget;  (* the gizmo objects *)
  CurrentGizmo : option ImGuiID;  (* gizmo in Begin/End scope *)
  ActiveGizmo : option ImGuiID;  (* currently manipulated gizmo *)
  LockedModelMatrix : Z;  (* the caller's matrix, 0 outside Begin/End *)
  BackupModelMatrix : mat4  (* for reverting an operation *)
}.

(** Field updates of the context ([g.Field = v]). *)
Definition set_ConfigFlags (v : ImGuizmoConfigFlags) (g : ImGuizmoContext) : ImGuizmoContext :=
  {| Style := Style g; ConfigFlags := v; Viewport := Viewport g; Camera :=
  Camera g; Ray := Ray g; DragOrigin := DragOrigin g; Gizmos := Gizmos g;
  GizmosById := GizmosById g; CurrentGizmo := CurrentGizmo g; ActiveGizmo :=
  ActiveGizmo g; LockedModelMatrix := LockedModelMatrix g; BackupModelMatrix
  := BackupModelMatrix g |}.
Definition set_Viewport (v : ImRect) (g : ImGuizmoContext) : ImGuizmoContext :=
  {| Style := Style g; ConfigFlags := ConfigFlags g; Viewport := v; Camera :=
  Camera g; Ray := Ray g; DragOrigin := DragOrigin g; Gizmos := Gizmos g;
  GizmosById := GizmosById g; CurrentGizmo := CurrentGizmo g; ActiveGizmo :=
  ActiveGizmo g; LockedModelMatrix := LockedModelMatrix g; BackupModelMatrix
  := BackupModelMatrix g |}.
Definition set_Camera (v : ImGuizmoCamera) (g : ImGuizmoContext) : ImGuizmoContext :=
  {| Style := Style g; ConfigFlags := ConfigFlags g; Viewport := Viewport g;
  Camera := v; Ray := Ray g; DragOrigin := DragOrigin g; Gizmos := Gizmos g;
  GizmosById := GizmosById g; CurrentGizmo := CurrentGizmo g; ActiveGizmo :=
  ActiveGizmo g; LockedModelMatrix := LockedModelMatrix g; BackupModelMatrix
  := BackupModelMatrix g |}.
Definition set_Ray (v : ImGuizmoRay) (g : ImGuizmoContext) : ImGuizmoContext :=
  {| Style := Style g; ConfigFlags := ConfigFlags g; Viewport := Viewport g;
  Camera := Camera g; Ray := v; DragOrigin := DragOrigin g; Gizmos := Gizmos
  g; GizmosById := GizmosById g; CurrentGizmo := CurrentGizmo g; ActiveGizmo
  := ActiveGizmo g; LockedModelMatrix := LockedModelMatrix g;
  BackupModelMatrix := BackupModelMatrix g |}.
Definition set_DragOrigin (v : vec2) (g : ImGuizmoContext) : ImGuizmoContext :=
  {| Style := Style g; ConfigFlags := ConfigFlags g; Viewport := Viewport g;
  Camera := Camera g; Ray := Ray g; DragOrigin := v; Gizmos := Gizmos g;
  GizmosById := GizmosById g; CurrentGizmo := CurrentGizmo g; ActiveGizmo :=
  ActiveGizmo g; LockedModelMatrix := LockedModelMatrix g; BackupModelMatrix
  := BackupModelMatrix g |}.
Definition set_Gizmos (v : list ImGuiID) (g : ImGuizmoContext) : ImGuizmoContext :=
  {| Style := Style g; ConfigFlags := ConfigFlags g; Viewport := Viewport g;
  Camera := Camera g; Ray := Ray g; DragOrigin := DragOrigin g; Gizmos := v;
  GizmosById := GizmosById g; CurrentGizmo := CurrentGizmo g; ActiveGizmo :=
  ActiveGizmo g; LockedModelMatrix := LockedModelMatrix g; BackupModelMatrix
  := BackupModelMatrix g |}.
Definition set_GizmosById (v : gmap Z ImGuizmoWidget) (g : ImGuizmoContext) : ImGuizmoContext :=
  {| Style := Style g; ConfigFlags := ConfigFlags g; Viewport := Viewport g;
  Camera := Camera g; Ray := Ray g; DragOrigin := DragOrigin g; Gizmos :=
  Gizmos g; GizmosById := v; CurrentGizmo := CurrentGizmo g; ActiveGizmo :=
  ActiveGizmo g; LockedModelMatrix := LockedModelMatrix g; BackupModelMatrix
  := BackupModelMatrix g |}.
Definition set_CurrentGizmo (v : option ImGuiID) (g : ImGuizmoContext) : ImGuizmoContext :=
  {| Style := Style g; ConfigFlags := ConfigFlags g; Viewport := Viewport g;
  Camera := Camera g; Ray := Ray g; DragOrigin := DragOrigin g; Gizmos :=
  Gizmos g; GizmosById := GizmosById g; CurrentGizmo := v; ActiveGizmo :=
  ActiveGizmo g; LockedModelMatrix := LockedModelMatrix g; BackupModelMatrix
  := BackupModelMatrix g |}.
Definition set_ActiveGizmo (v : option ImGuiID) (g : ImGuizmoContext) : ImGuizmoContext :=
  {| Style := Style g; ConfigFlags := ConfigFlags g; Viewport := Viewport g;
  Camera := Camera g; Ray := Ray g; DragOrigin := DragOrigin g; Gizmos :=
  Gizmos g; GizmosById := GizmosById g; CurrentGizmo := CurrentGizmo g;
  ActiveGizmo := v; LockedModelMatrix := LockedModelMatrix g;
  BackupModelMatrix := BackupModelMatrix g |}.
Definition set_LockedModelMatrix (v : Z) (g : ImGuizmoContext) : ImGuizmoContext :=
  {| Style := Style g; ConfigFlags := ConfigFlags g; Viewport := Viewport g;
  Camera := Camera g; Ray := Ray g; DragOrigin := DragOrigin g; Gizmos :=
  Gizmos g; GizmosById := GizmosById g; CurrentGizmo := CurrentGizmo g;
  ActiveGizmo := ActiveGizmo g; LockedModelMatrix := v; BackupModelMatrix :=
  BackupModelMatrix g |}.
Definition set_BackupModelMatrix (v : mat4) (g : ImGuizmoContext) : ImGuizmoContext :=
  {| Style := Style g; ConfigFlags := ConfigFlags g; Viewport := Viewport g;
  Camera := Camera g; Ray := Ray g; DragOrigin := DragOrigin g; Gizmos :=
  Gizmos g; GizmosById := GizmosById g; CurrentGizmo := CurrentGizmo g;
  ActiveGizmo := ActiveGizmo g; LockedModelMatrix := LockedModelMatrix g;
  BackupModelMatrix := v |}.

(** ** Geometry helpers *)

Definition WorldToScreen_bb (world_pos : vec3) (matrix : mat4) (bb : ImRect)
  : vec2 :=
  let temp := matrix *mv glm.vec4_of world_pos 1 in
  let temp := glm.scale4 temp ((1 / 2) / w4 temp) in
  let screen_pos := glm.adds2 (glm.xy temp) (1 / 2) in
  let screen_pos := mkvec2 (x2 screen_pos) (1 - y2 screen_pos) in
  let screen_pos := glm.mul2 screen_pos (GetSize bb) in
  glm.add2 screen_pos (GetTL bb).

Definition WorldToScreen (g : ImGuizmoContext) (world_pos : vec3)
  (matrix : mat4) : vec2 :=
  WorldToScreen_bb world_pos matrix (Viewport g).

Definition RayCast_bb (h : Host) (view_proj_matrix : mat4) (bb : ImRect)
  : ImGuizmoRay :=
  let mouse_pos := MousePos h in
  (* Convert to NDC *)
  let mouse_pos :=
    glm.subs2
      (glm.scale2 (glm.div2 (glm.sub2 mouse_pos (GetTL bb)) (GetSize bb)) 2) 1 in
  let mouse_pos := mkvec2 (x2 mouse_pos) (y2 mouse_pos * -1) in
  let inversed_view_proj := glm.inverse view_proj_matrix in
  let ray_origin_world_space :=
    inversed_view_proj *mv mkvec4 (x2 mouse_pos) (y2 mouse_pos) 0 1 in
  let ray_origin_world_space :=
    glm.scale4 ray_origin_world_space (1 / w4 ray_origin_world_space) in
  let ray_end_world_space :=
    inversed_view_proj *mv
      mkvec4 (x2 mouse_pos) (y2 mouse_pos) (1 - kEpsilon) 1 in
  let ray_end_world_space :=
    glm.scale4 ray_end_world_space (1 / w4 ray_end_world_space) in
  mkImGuizmoRay
    (glm.xyz ray_origin_world_space) (glm.xyz ray_end_world_space)
    (glm.xyz
       (glm.normalize4 (glm.sub4 ray_end_world_space ray_origin_world_space))).

Definition RayCast (h : Host) (g : ImGuizmoContext) (view_proj_matrix : mat4)
  : ImGuizmoRay :=
  RayCast_bb h view_proj_matrix (Viewport g).

Definition BuildPlane (point normal : vec3) : vec4 :=
  let n := glm.normalize3 normal in
  glm.vec4_of n (glm.dot3 n point).

Definition DistanceToPlane (point : vec3) (plane : vec4) : float :=
  glm.dot3 (glm.xyz plane) point + w4 plane.

Definition IntersectRayPlane (ray : ImGuizmoRay) (plane : vec4) : float :=
  let num := glm.dot3 (glm.xyz plane) (RayOrigin ray) - w4 plane in
  let denom := glm.dot3 (glm.xyz plane) (RayDirection ray) in
  (* Normal is orthogonal to vector, can't intersect *)
  if F.ltb (glm.abs denom) kEpsilon then -1
  else - (num / denom).

Definition PointOnSegment (point v1 v2 : vec2) : vec2 :=
  let c := glm.sub2 point v1 in
  let V := glm.normalize2 (glm.sub2 v2 v1) in
  let t := glm.dot2 V c in
  if F.ltb t 0 then v1
  else
    let d := glm.length2 (glm.sub2 v2 v1) in
    if F.gtb t d then v2
    else glm.add2 v1 (glm.scale2 V t).

Definition GetAspectRatio (g : ImGuizmoContext) : float :=
  GetWidth (Viewport g) / GetHeight (Viewport g).

(** Reads the current gizmo's [ModelViewProjMatrix]. *)
Definition GetSegmentLengthClipSpace (g : ImGuizmoContext)
  (gizmo : ImGuizmoWidget) (start end_ : vec3) : float :=
  let start_of_segment := ModelViewProjMatrix gizmo *mv glm.vec4_of start 1 in
  (* Check for axis aligned with camera direction *)
  let start_of_segment :=
    if F.gtb (glm.abs (w4 start_of_segment)) kEpsilon
    then glm.scale4 start_of_segment (1 / w4 start_of_segment)
    else start_of_segment in
  let end_of_segment := ModelViewProjMatrix gizmo *mv glm.vec4_of end_ 1 in
  let end_of_segment :=
    if F.gtb (glm.abs (w4 end_of_segment)) kEpsilon
    then glm.scale4 end_of_segment (1 / w4 end_of_segment)
    else end_of_segment in
  let clip_space_axis := glm.xy (glm.sub4 end_of_segment start_of_segment) in
  let clip_space_axis :=
    mkvec2 (x2 clip_space_axis) (y2 clip_space_axis / GetAspectRatio g) in
  glm.length2 clip_space_axis.

(** ** Snap *)

Definition snap_tension : float := 1 / 2.

Definition CalculateSnap (value snap : float) : float :=
  if F.leb snap kEpsilon then value
  else
    let modulo := glm.fmod value snap in
    let modulo_ratio := glm.abs modulo / snap in
    if F.ltb modulo_ratio snap_tension then value - modulo
    else if F.gtb modulo_ratio (1 - snap_tension) then
      value - modulo + snap * (if F.ltb value 0 then -1 else 1)
    else value.

(** The [vec3] overload; [snap] points to three floats. *)
Definition CalculateSnap3 (value snap : vec3) : vec3 :=
  fold_left
    (fun value axis_idx =>
       glm.set3 value axis_idx
         (CalculateSnap (glm.at3 value axis_idx) (glm.at3 snap axis_idx)))
    [0; 1; 2]%Z value.

(** ** Axis and plane flags *)

Definition HasSingleAxis (flags : ImGuizmoAxisFlags) : bool :=
  (flags =? ImGuizmoAxisFlags_X)%Z || (flags =? ImGuizmoAxisFlags_Y)%Z ||
  (flags =? ImGuizmoAxisFlags_Z)%Z.

(** The [default:] branches below sit behind [IM_ASSERT(0)] and return -1. *)
Definition GetAxisIdx (flags : ImGuizmoAxisFlags) (around : bool)
  : ImGuizmoAxis :=
  if (flags =? ImGuizmoAxisFlags_X)%Z then
    if around then ImGuizmoAxis_Z else ImGuizmoAxis_X
  else if (flags =? ImGuizmoAxisFlags_Y)%Z then ImGuizmoAxis_Y
  else if (flags =? ImGuizmoAxisFlags_Z)%Z then
    if around then ImGuizmoAxis_X else ImGuizmoAxis_Z
  else (-1)%Z.

Definition GetAxisAroundIdx (axis_idx : ImGuizmoAxis) : ImGuizmoAxis :=
  if (axis_idx =? ImGuizmoAxis_X)%Z then ImGuizmoAxis_Z
  else if (axis_idx =? ImGuizmoAxis_Y)%Z then ImGuizmoAxis_Y
  else if (axis_idx =? ImGuizmoAxis_Z)%Z then ImGuizmoAxis_X
  else (-1)%Z.

Definition AxisToFlag (axis_idx : ImGuizmoAxis) (around : bool)
  : ImGuizmoAxisFlags :=
  if (axis_idx =? ImGuizmoAxis_X)%Z then
    if around then ImGuizmoAxisFlags_Z else ImGuizmoAxisFlags_X
  else if (axis_idx =? ImGuizmoAxis_Y)%Z then ImGuizmoAxisFlags_Y
  else if (axis_idx =? ImGuizmoAxis_Z)%Z then
    if around then ImGuizmoAxisFlags_X else ImGuizmoAxisFlags_Z
  else (-1)%Z.

Definition HasPlane (flags : ImGuizmoAxisFlags) : bool :=
  if (flags =? ImGuizmoAxisFlags_ALL)%Z then false
  else
    (flags =? ImGuizmoAxisFlags_YZ)%Z || (flags =? ImGuizmoAxisFlags_ZX)%Z ||
    (flags =? ImGuizmoAxisFlags_XY)%Z.

Definition GetPlaneIdx (flags : ImGuizmoAxisFlags) : ImGuizmoPlane :=
  if (flags =? ImGuizmoAxisFlags_YZ)%Z then ImGuizmoPlane_YZ
  else if (flags =? ImGuizmoAxisFlags_ZX)%Z then ImGuizmoPlane_ZX
  else if (flags =? ImGuizmoAxisFlags_XY)%Z then ImGuizmoPlane_XY
  else (-1)%Z.

Definition PlaneToFlags (plane_idx : ImGuizmoPlane) : ImGuizmoAxisFlags :=
  if (plane_idx =? ImGuizmoPlane_YZ)%Z then ImGuizmoAxisFlags_YZ
  else if (plane_idx =? ImGuizmoPlane_ZX)%Z then ImGuizmoAxisFlags_ZX
  else if (plane_idx =? ImGuizmoPlane_XY)%Z then ImGuizmoAxisFlags_XY
  else (-1)%Z.

(** ** Gizmo store *)

Definition FindGizmoById (g : ImGuizmoContext) (id : ImGuiID)
  : option ImGuizmoWidget :=
  GizmosById g !! id.

(** [new ImGuizmoWidget(id)]: the default member initialisers. *)
Definition NewImGuizmoWidget (id : ImGuiID) : ImGuizmoWidget :=
  {| ID := id;
     SourceModelMatrix := glm.identity;
     ModelMatrix := glm.identity;
     InversedModelMatrix := glm.identity;
     ModelViewProjMatrix := glm.identity;
     Mode := ImGuizmoMode_Local;
     ActiveOperation := ImGuizmoOperation_None;
     ActiveManipulationFlags := ImGuizmoAxisFlags_None;
     LockedAxesFlags := ImGuizmoAxisFlags_None;
     Dirty := false;
     Origin := mkvec2 0 0;
     RingRadius := 0;
     ScreenFactor := 0;
     TranslationPlane := mkvec4 0 0 0 0;
     TranslationPlaneOrigin := glm.splat3 0;
     ModelRelativeOrigin := glm.splat3 0;
     DragTranslationOrigin := glm.splat3 0;
     LastTranslationDelta := glm.splat3 0;
     ModelScaleOrigin := glm.splat3 1;
     RotationVectorSource := glm.splat3 0;
     RotationAngle := 0;
     RotationAngleOrigin := 0;
     Scale := glm.splat3 1;
     LastScale := glm.splat3 1;
     ScaleValueOrigin := glm.splat3 1 |}.

Definition CreateNewGizmo (g : ImGuizmoContext) (id : ImGuiID)
  : ImGuizmoContext * ImGuizmoWidget :=
  let gizmo := NewImGuizmoWidget id in
  let g := set_GizmosById (<[id := gizmo]> (GizmosById g)) g in
  let g := set_Gizmos (Gizmos g ++ [id]) g in
  (g, gizmo).

(** [*GetCurrentGizmo()], undefined when the pointer is null. *)
Definition GetCurrentGizmo (g : ImGuizmoContext) : option ImGuizmoWidget :=
  match CurrentGizmo g with
  | Some id => GizmosById g !! id
  | None => None
  end.

(** Writes through the [CurrentGizmo] pointer. *)
Definition StoreCurrentGizmo (gizmo : ImGuizmoWidget) (g : ImGuizmoContext)
  : ImGuizmoContext :=
  match CurrentGizmo g with
  | Some id => set_GizmosById (<[id := gizmo]> (GizmosById g)) g
  | None => g
  end.

(** ** Behaviour *)

Definition CalculateViewport (h : Host) : ImRect :=
  let region_min := WindowContentRegionMin h in
  let region_max := WindowContentRegionMax h in
  let position := glm.add2 (WindowPos h) region_min in
  let size := glm.sub2 region_max region_min in
  mkImRect position (glm.add2 position size).

(** The internal functions below run inside one public call: they receive
    the context [g] and the object [gizmo] behind [g.CurrentGizmo] and return
    what they changed.  The results of [GizmoBehavior] are [pressed], [held]
    and the updated [hover_flags]. *)
Definition GizmoBehavior (h : Host) (operation : ImGuizmoOperation)
  (hover_flags : ImGuizmoAxisFlags) (g : ImGuizmoContext)
  (gizmo : ImGuizmoWidget)
  : bool * bool * ImGuizmoAxisFlags * ImGuizmoContext * ImGuizmoWidget :=
  let hover_flags :=
    if negb (bool_decide (ActiveGizmo g = CurrentGizmo g)) &&
       bool_decide (ActiveGizmo g <> None)
    then ImGuizmoAxisFlags_None
    else if negb (ActiveOperation gizmo =? operation)%Z &&
            truthy (ActiveOperation gizmo)
    then ImGuizmoAxisFlags_None
    else if truthy (ActiveManipulationFlags gizmo)
    then ActiveManipulationFlags gizmo
    else hover_flags in
  let pressed := truthy hover_flags && MouseClicked h 0 in
  let '(g, gizmo) :=
    if pressed then
      (set_ActiveGizmo (CurrentGizmo g) g,
       set_ActiveManipulationFlags hover_flags
         (set_ActiveOperation operation gizmo))
    else (g, gizmo) in
  let '(held, g, gizmo) :=
    if (ActiveManipulationFlags gizmo =? hover_flags)%Z &&
       truthy (ActiveManipulationFlags gizmo)
    then
      if MouseDown h 0 then (true, g, gizmo)
      else
        (false, set_ActiveGizmo None g,
         set_ActiveManipulationFlags ImGuizmoAxisFlags_None gizmo)
    else (false, g, gizmo) in
  (pressed, held, hover_flags, g, gizmo).

(** ** Hover queries *)

Definition CanActivate (h : Host) (g : ImGuizmoContext) : bool :=
  IsWindowHovered h && Contains (Viewport g) (MousePos h).

Definition IsCoreHovered (h : Host) (gizmo : ImGuizmoWidget) : bool :=
  if (LockedAxesFlags gizmo =? ImGuizmoAxisFlags_ALL)%Z then false
  else
    let tolerance := 3 in
    let distance := glm.length2 (glm.sub2 (MousePos h) (Origin gizmo)) in
    F.leb distance (kCircleRadius + tolerance).

Definition IsAxisHovered (g : ImGuizmoContext) (gizmo : ImGuizmoWidget)
  (axis_idx : ImGuizmoAxis) : bool :=
  if truthy (Z.land (LockedAxesFlags gizmo) (AxisToFlag axis_idx false))
  then false
  else
    let dir_axis :=
      glm.xyz (ModelMatrix gizmo *mv glm.vec4_of (kUnitDirections axis_idx) 0) in
    let length :=
      IntersectRayPlane (Ray g)
        (BuildPlane (glm.xyz (c3 (ModelMatrix gizmo))) dir_axis) in
    let mouse_pos_on_plane :=
      WorldToScreen g (RayOrigin (Ray g) +v RayDirection (Ray g) *s length)
        (ViewProjectionMatrix (Camera g)) in
    let axis_shift := 1 / 10 in
    let axis_start_on_screen :=
      WorldToScreen g
        (glm.xyz (c3 (ModelMatrix gizmo)) +v
         dir_axis *s ScreenFactor gizmo *s axis_shift)
        (ViewProjectionMatrix (Camera g)) in
    let axis_end_on_screen :=
      WorldToScreen g
        (glm.xyz (c3 (ModelMatrix gizmo)) +v dir_axis *s ScreenFactor gizmo)
        (ViewProjectionMatrix (Camera g)) in
    let closest_point_on_axis :=
      PointOnSegment mouse_pos_on_plane axis_start_on_screen
        axis_end_on_screen in
    let tolerance := 6 in
    F.ltb (glm.length2 (glm.sub2 closest_point_on_axis mouse_pos_on_plane))
      tolerance.

Definition IsPlaneHovered (g : ImGuizmoContext) (gizmo : ImGuizmoWidget)
  (plane_idx : ImGuizmoPlane) : bool :=
  if truthy (Z.land (LockedAxesFlags gizmo) (PlaneToFlags plane_idx))
  then false
  else
    let plane_normal :=
      glm.xyz (ModelMatrix gizmo *mv glm.vec4_of (kUnitDirections plane_idx) 0)
    in
    let length :=
      IntersectRayPlane (Ray g)
        (BuildPlane (glm.xyz (c3 (ModelMatrix gizmo))) plane_normal) in
    let mouse_pos_on_plane :=
      RayOrigin (Ray g) +v RayDirection (Ray g) *s length in
    let plane_dir1 :=
      glm.xyz
        (ModelMatrix gizmo *mv
         glm.vec4_of (kUnitDirections ((plane_idx + 1) mod 3)%Z) 0) in
    let dx :=
      glm.dot3 plane_dir1
        ((mouse_pos_on_plane -v glm.xyz (c3 (ModelMatrix gizmo))) *s
         (1 / ScreenFactor gizmo)) in
    let plane_dir2 :=
      glm.xyz
        (ModelMatrix gizmo *mv
         glm.vec4_of (kUnitDirections ((plane_idx + 2) mod 3)%Z) 0) in
    let dy :=
      glm.dot3 plane_dir2
        ((mouse_pos_on_plane -v glm.xyz (c3 (ModelMatrix gizmo))) *s
         (1 / ScreenFactor gizmo)) in
    F.geb dx (kUnitQuad 0) && F.leb dx (kUnitQuad 4) &&
    F.geb dy (kUnitQuad 1) && F.leb dy (kUnitQuad 3).

Definition IsRotationAxisHovered (h : Host) (g : ImGuizmoContext)
  (gizmo : ImGuizmoWidget) (axis_idx : ImGuizmoAxis) : bool :=
  if (LockedAxesFlags gizmo =? AxisToFlag axis_idx false)%Z then false
  else
    let pickup_plane :=
      BuildPlane (glm.xyz (c3 (ModelMatrix gizmo)))
        (glm.xyz (glm.col (ModelMatrix gizmo) axis_idx)) in
    let length := IntersectRayPlane (Ray g) pickup_plane in
    let local_pos :=
      glm.normalize3
        (RayOrigin (Ray g) +v RayDirection (Ray g) *s length -v
         glm.xyz (c3 (ModelMatrix gizmo))) in
    if F.gtb (glm.dot3 local_pos (RayDirection (Ray g))) kEpsilon then false
    else
      let ideal_pos_on_circle :=
        glm.xyz (InversedModelMatrix gizmo *mv glm.vec4_of local_pos 0) in
      let ideal_pos_on_circle_screen_space :=
        WorldToScreen g (ideal_pos_on_circle *s ScreenFactor gizmo)
          (ModelViewProjMatrix gizmo) in
      let tolerance := 8 in
      let distance_on_screen :=
        glm.sub2 ideal_pos_on_circle_screen_space (MousePos h) in
      F.ltb (glm.length2 distance_on_screen) tolerance.

Definition IsRotationRingHovered (h : Host) (g : ImGuizmoContext)
  (gizmo : ImGuizmoWidget) : bool :=
  if (LockedAxesFlags gizmo =? ImGuizmoAxisFlags_ALL)%Z then false
  else
    let tolerance := 1 in
    let ring_thickness := RotationRingThickness (Style g) + tolerance in
    let distance := glm.length2 (glm.sub2 (MousePos h) (Origin gizmo)) in
    F.geb distance (RingRadius gizmo - ring_thickness) &&
    F.ltb distance (RingRadius gizmo + ring_thickness).

(** [for (i = 0; i < 3; ++i) if (hit(i)) { hover_flags |= flag(i); break; }] *)
Fixpoint first_hovered (idxs : list Z) (hit : Z -> bool)
  (flag : Z -> ImGuizmoAxisFlags) (hover_flags : ImGuizmoAxisFlags)
  : ImGuizmoAxisFlags :=
  match idxs with
  | [] => hover_flags
  | i :: rest =>
      if hit i then Z.lor hover_flags (flag i)
      else first_hovered rest hit flag hover_flags
  end.

(** ** Translation *)

Definition FindTranslationHover (h : Host) (g : ImGuizmoContext)
  (gizmo : ImGuizmoWidget) : ImGuizmoAxisFlags :=
  if negb (CanActivate h g) then ImGuizmoAxisFlags_None
  else
    let hover_flags := ImGuizmoAxisFlags_None in
    let hover_flags :=
      if IsCoreHovered h gizmo then Z.lor hover_flags ImGuizmoAxisFlags_ALL
      else hover_flags in
    if negb (hover_flags =? ImGuizmoAxisFlags_ALL)%Z then
      let hover_flags :=
        first_hovered [0; 1; 2]%Z (IsPlaneHovered g gizmo) PlaneToFlags
          hover_flags in
      if negb (HasPlane hover_flags) then
        first_hovered [0; 1; 2]%Z (IsAxisHovered g gizmo)
          (fun axis_idx => AxisToFlag axis_idx false) hover_flags
      else hover_flags
    else hover_flags.

Definition BuildTranslatePlane (g : ImGuizmoContext) (gizmo : ImGuizmoWidget)
  : vec4 :=
  let hover_flags := ActiveManipulationFlags gizmo in
  let move_plane_normal :=
    if HasPlane hover_flags then
      glm.xyz (glm.col (ModelMatrix gizmo) (GetPlaneIdx hover_flags))
    else if HasSingleAxis hover_flags then
      let dir :=
        glm.xyz (glm.col (ModelMatrix gizmo) (GetAxisIdx hover_flags false)) in
      let camera_to_model_normalized :=
        glm.normalize3 (glm.xyz (c3 (ModelMatrix gizmo)) -v Eye (Camera g)) in
      let orthoDir := glm.cross dir camera_to_model_normalized in
      glm.normalize3 (glm.cross dir orthoDir)
    else (* special movement *)
      glm.neg3 (Forward (Camera g)) in
  BuildPlane (glm.xyz (c3 (ModelMatrix gizmo))) move_plane_normal.

Definition BeginTranslation (h : Host) (g : ImGuizmoContext)
  (gizmo : ImGuizmoWidget) : ImGuizmoContext * ImGuizmoWidget :=
  let g := set_BackupModelMatrix (SourceModelMatrix gizmo) g in
  let g := set_DragOrigin (MousePos h) g in
  let gizmo :=
    set_DragTranslationOrigin (glm.xyz (c3 (ModelMatrix gizmo))) gizmo in
  let gizmo := set_TranslationPlane (BuildTranslatePlane g gizmo) gizmo in
  let length := IntersectRayPlane (Ray g) (TranslationPlane gizmo) in
  let gizmo :=
    set_TranslationPlaneOrigin
      (RayOrigin (Ray g) +v RayDirection (Ray g) *s length) gizmo in
  let gizmo :=
    set_ModelRelativeOrigin
      ((TranslationPlaneOrigin gizmo -v glm.xyz (c3 (ModelMatrix gizmo))) *s
       (1 / ScreenFactor gizmo)) gizmo in
  (g, gizmo).

(** [source_model_normalized]: the three axis columns normalised. *)
Definition normalize_axes (m : mat4) : mat4 :=
  fold_left
    (fun m axis_idx => glm.set_col m axis_idx (glm.normalize4 (glm.col m axis_idx)))
    [0; 1; 2]%Z m.

(** [snap], when not null, points to three floats. *)
Definition ContinueTranslation (snap : option vec3) (g : ImGuizmoContext)
  (gizmo : ImGuizmoWidget) : ImGuizmoWidget :=
  let hover_flags := ActiveManipulationFlags gizmo in
  let length :=
    glm.abs (IntersectRayPlane (Ray g) (TranslationPlane gizmo)) in
  let target_position :=
    RayOrigin (Ray g) +v RayDirection (Ray g) *s length in
  let new_position :=
    target_position -v ModelRelativeOrigin gizmo *s ScreenFactor gizmo in
  let delta := new_position -v glm.xyz (c3 (ModelMatrix gizmo)) in
  let delta :=
    if HasSingleAxis hover_flags then
      let axis_idx := GetAxisIdx hover_flags false in
      let axis_value := glm.xyz (glm.col (ModelMatrix gizmo) axis_idx) in
      let length_on_axis := glm.dot3 axis_value delta in
      axis_value *s length_on_axis
    else delta in
  let delta :=
    match snap with
    | Some snap =>
        let cumulative_delta :=
          glm.xyz (c3 (ModelMatrix gizmo)) +v delta -v
          DragTranslationOrigin gizmo in
        let apply_rotation_localy :=
          (Mode gizmo =? ImGuizmoMode_Local)%Z ||
          (hover_flags =? ImGuizmoAxisFlags_ALL)%Z in
        let cumulative_delta :=
          if apply_rotation_localy then
            let source_model_normalized :=
              normalize_axes (SourceModelMatrix gizmo) in
            let cumulative_delta :=
              glm.xyz
                (glm.inverse source_model_normalized *mv
                 glm.vec4_of cumulative_delta 0) in
            let cumulative_delta := CalculateSnap3 cumulative_delta snap in
            glm.xyz (source_model_normalized *mv glm.vec4_of cumulative_delta 0)
          else CalculateSnap3 cumulative_delta snap in
        DragTranslationOrigin gizmo +v cumulative_delta -v
        glm.xyz (c3 (ModelMatrix gizmo))
    | None => delta
    end in
  let gizmo :=
    if glm.neq3 delta (LastTranslationDelta gizmo) then
      let gizmo :=
        set_ModelMatrix (glm.translate delta *m SourceModelMatrix gizmo) gizmo in
      let gizmo :=
        fold_left
          (fun gizmo axis_idx =>
             if truthy (Z.land (LockedAxesFlags gizmo) (AxisToFlag axis_idx false))
             then
               set_ModelMatrix
                 (glm.set_col (ModelMatrix gizmo) 3
                    (glm.set4 (c3 (ModelMatrix gizmo)) axis_idx
                       (glm.at3 (DragTranslationOrigin gizmo) axis_idx)))
                 gizmo
             else gizmo)
          [0; 1; 2]%Z gizmo in
      set_Dirty true gizmo
    else gizmo in
  set_LastTranslationDelta delta gizmo.

(** ** Rotation *)

Definition FindRotationHover (h : Host) (g : ImGuizmoContext)
  (gizmo : ImGuizmoWidget) : ImGuizmoAxisFlags :=
  if negb (CanActivate h g) then ImGuizmoAxisFlags_None
  else
    let hover_flags := ImGuizmoAxisFlags_None in
    let hover_flags :=
      if IsRotationRingHovered h g gizmo
      then Z.lor hover_flags ImGuizmoAxisFlags_ALL
      else hover_flags in
    if negb (hover_flags =? ImGuizmoAxisFlags_ALL)%Z then
      first_hovered [0; 1; 2]%Z (IsRotationAxisHovered h g gizmo)
        (fun axis_idx => AxisToFlag axis_idx false) hover_flags
    else hover_flags.

Definition BuildRotationPlane (g : ImGuizmoContext) (gizmo : ImGuizmoWidget)
  : vec4 :=
  let hover_flags := ActiveManipulationFlags gizmo in
  let '(point, plane_normal) :=
    if HasSingleAxis hover_flags then
      (if (Mode gizmo =? ImGuizmoMode_Local)%Z
       then glm.xyz (c3 (ModelMatrix gizmo))
       else glm.xyz (c3 (SourceModelMatrix gizmo)),
       glm.xyz (glm.col (ModelMatrix gizmo) (GetAxisIdx hover_flags false)))
    else
      (glm.xyz (c3 (SourceModelMatrix gizmo)), glm.neg3 (Forward (Camera g)))
  in
  BuildPlane point plane_normal.

(** [ImGuizmoWidget::CalculateAngleOnPlane] *)
Definition CalculateAngleOnPlane (g : ImGuizmoContext) (gizmo : ImGuizmoWidget)
  : float :=
  let length := IntersectRayPlane (Ray g) (TranslationPlane gizmo) in
  let local_pos :=
    glm.normalize3
      (RayOrigin (Ray g) +v RayDirection (Ray g) *s length -v
       glm.xyz (c3 (ModelMatrix gizmo))) in
  let perpendicular_vec :=
    glm.normalize3
      (glm.cross (RotationVectorSource gizmo)
         (glm.xyz (TranslationPlane gizmo))) in
  let acos_angle :=
    glm.clamp (glm.dot3 local_pos (RotationVectorSource gizmo)) (-1) 1 in
  let angle := acos acos_angle in
  angle * (if F.ltb (glm.dot3 local_pos perpendicular_vec) 0 then 1 else -1).

Definition BeginRotation (h : Host) (g : ImGuizmoContext)
  (gizmo : ImGuizmoWidget) : ImGuizmoContext * ImGuizmoWidget :=
  let g := set_BackupModelMatrix (SourceModelMatrix gizmo) g in
  let g := set_DragOrigin (MousePos h) g in
  let gizmo := set_TranslationPlane (BuildRotationPlane g gizmo) gizmo in
  let length := IntersectRayPlane (Ray g) (TranslationPlane gizmo) in
  let gizmo :=
    set_RotationVectorSource
      (glm.normalize3
         (RayOrigin (Ray g) +v RayDirection (Ray g) *s length -v
          glm.xyz (c3 (ModelMatrix gizmo)))) gizmo in
  let gizmo :=
    set_RotationAngleOrigin (CalculateAngleOnPlane g gizmo) gizmo in
  (g, gizmo).

(** [snap], when not null, is read at index 0 only. *)
Definition ContinueRotation (snap : option vec3) (g : ImGuizmoContext)
  (gizmo : ImGuizmoWidget) : ImGuizmoWidget :=
  let gizmo := set_RotationAngle (CalculateAngleOnPlane g gizmo) gizmo in
  let gizmo :=
    match snap with
    | Some snap =>
        set_RotationAngle
          (CalculateSnap (RotationAngle gizmo) (glm.radians (glm.at3 snap 0)))
          gizmo
    | None => gizmo
    end in
  let rotation_axis_local_space :=
    glm.xyz
      (glm.normalize4
         (InversedModelMatrix gizmo *mv
          glm.vec4_of (glm.xyz (TranslationPlane gizmo)) 0)) in
  let angle := RotationAngle gizmo - RotationAngleOrigin gizmo in
  let delta_rotation := glm.rotate angle rotation_axis_local_space in
  let gizmo :=
    if F.neb (RotationAngle gizmo) (RotationAngleOrigin gizmo) then
      (* @todo Handle locked axes ... *)
      let gizmo :=
        if (Mode gizmo =? ImGuizmoMode_Local)%Z then
          let scale_origin := glm.scale (ModelScaleOrigin gizmo) in
          set_ModelMatrix
            (ModelMatrix gizmo *m (delta_rotation *m scale_origin)) gizmo
        else
          let result := SourceModelMatrix gizmo in
          let result := glm.set_col result 3 (glm.vec4_of (glm.splat3 0) 1) in
          let gizmo := set_ModelMatrix (delta_rotation *m result) gizmo in
          set_ModelMatrix
            (glm.set_col (ModelMatrix gizmo) 3 (c3 (SourceModelMatrix gizmo)))
            gizmo in
      set_Dirty true gizmo
    else gizmo in
  set_RotationAngleOrigin (RotationAngle gizmo) gizmo.

(** ** Scale *)

Definition FindScaleHover (h : Host) (g : ImGuizmoContext)
  (gizmo : ImGuizmoWidget) : ImGuizmoAxisFlags :=
  if negb (CanActivate h g) then ImGuizmoAxisFlags_None
  else
    let hover_flags := ImGuizmoAxisFlags_None in
    let hover_flags :=
      if IsCoreHovered h gizmo then Z.lor hover_flags ImGuizmoAxisFlags_ALL
      else hover_flags in
    if negb (hover_flags =? ImGuizmoAxisFlags_ALL)%Z then
      first_hovered [0; 1; 2]%Z (IsAxisHovered g gizmo)
        (fun axis_idx => AxisToFlag axis_idx false) hover_flags
    else hover_flags.

Definition BuildScalePlane (gizmo : ImGuizmoWidget) : vec4 :=
  let hover_flags := ActiveManipulationFlags gizmo in
  if HasSingleAxis hover_flags then
    let axis_idx := GetAxisIdx hover_flags false in
    BuildPlane (glm.xyz (c3 (ModelMatrix gizmo)))
      (glm.xyz
         (glm.col (ModelMatrix gizmo)
            (if (axis_idx =? 2)%Z then 0 else axis_idx + 1)%Z))
  else
    BuildPlane (glm.xyz (c3 (ModelMatrix gizmo)))
      (glm.xyz (c2 (ModelMatrix gizmo))).

Definition BeginScale (h : Host) (g : ImGuizmoContext)
  (gizmo : ImGuizmoWidget) : ImGuizmoContext * ImGuizmoWidget :=
  let g := set_BackupModelMatrix (SourceModelMatrix gizmo) g in
  let g := set_DragOrigin (MousePos h) g in
  let gizmo := set_Scale (glm.splat3 1) gizmo in
  let gizmo :=
    set_DragTranslationOrigin (glm.xyz (c3 (ModelMatrix gizmo))) gizmo in
  let gizmo := set_TranslationPlane (BuildScalePlane gizmo) gizmo in
  let length := IntersectRayPlane (Ray g) (TranslationPlane gizmo) in
  let gizmo :=
    set_TranslationPlaneOrigin
      (RayOrigin (Ray g) +v RayDirection (Ray g) *s length) gizmo in
  let gizmo :=
    set_ModelRelativeOrigin
      ((TranslationPlaneOrigin gizmo -v glm.xyz (c3 (ModelMatrix gizmo))) *s
       (1 / ScreenFactor gizmo)) gizmo in
  let gizmo :=
    fold_left
      (fun gizmo axis_idx =>
         set_ScaleValueOrigin
           (glm.set3 (ScaleValueOrigin gizmo) axis_idx
              (glm.length4 (glm.col (SourceModelMatrix gizmo) axis_idx)))
           gizmo)
      [0; 1; 2]%Z gizmo in
  (g, gizmo).

(** The smallest scale factor a drag can produce. *)
Definition kMinScale : float := 1 / 1000.

(** [snap], when not null, is read at index 0 only.  [ratio] is a quotient
    of real numbers here.  Where its denominator is zero the quotient of the
    code is an infinity or NaN, not a real number; the scale vector the code
    computes in that case is given by [IEEE.ContinueScale] below. *)
Definition ContinueScale (h : Host) (snap : option vec3) (g : ImGuizmoContext)
  (gizmo : ImGuizmoWidget) : ImGuizmoWidget :=
  let length := IntersectRayPlane (Ray g) (TranslationPlane gizmo) in
  let target_position :=
    RayOrigin (Ray g) +v RayDirection (Ray g) *s length in
  let new_position :=
    target_position -v ModelRelativeOrigin gizmo *s ScreenFactor gizmo in
  let delta := new_position -v glm.xyz (c3 (ModelMatrix gizmo)) in
  let hover_flags := ActiveManipulationFlags gizmo in
  let gizmo :=
    if HasSingleAxis hover_flags then
      let axis_idx := GetAxisIdx hover_flags false in
      let axis_dir := glm.xyz (glm.col (ModelMatrix gizmo) axis_idx) in
      let length_on_axis := glm.dot3 axis_dir delta in
      let delta := axis_dir *s length_on_axis in
      let base_vec :=
        TranslationPlaneOrigin gizmo -v glm.xyz (c3 (ModelMatrix gizmo)) in
      let ratio :=
        glm.dot3 axis_dir (base_vec +v delta) / glm.dot3 axis_dir base_vec in
      (* @todo Support for scale in World mode *)
      set_Scale (glm.set3 (Scale gizmo) axis_idx (glm.max ratio kMinScale)) gizmo
    else
      let scale_delta := (x2 (MousePos h) - x2 (DragOrigin g)) * (1 / 100) in
      set_Scale (glm.splat3 (glm.max (1 + scale_delta) kMinScale)) gizmo in
  let gizmo :=
    match snap with
    | Some snap =>
        let scale_snap :=
          mkvec3 (glm.at3 snap 0) (glm.at3 snap 0) (glm.at3 snap 0) in
        set_Scale (CalculateSnap3 (Scale gizmo) scale_snap) gizmo
    | None => gizmo
    end in
  let gizmo :=
    fold_left
      (fun gizmo axis_idx =>
         let gizmo :=
           set_Scale
             (glm.set3 (Scale gizmo) axis_idx
                (glm.max (glm.at3 (Scale gizmo) axis_idx) kMinScale))
             gizmo in
         if truthy (Z.land (LockedAxesFlags gizmo) (AxisToFlag axis_idx false))
         then set_Scale (glm.set3 (Scale gizmo) axis_idx 1) gizmo
         else gizmo)
      [0; 1; 2]%Z gizmo in
  let gizmo :=
    if glm.neq3 (LastScale gizmo) (Scale gizmo) then
      let gizmo :=
        set_ModelMatrix
          (ModelMatrix gizmo *m
           glm.scale (glm.mul3 (Scale gizmo) (ScaleValueOrigin gizmo)))
          gizmo in
      set_Dirty true gizmo
    else gizmo in
  set_LastScale (Scale gizmo) gizmo.

(** ** The scale vector in IEEE arithmetic

    [ContinueScale] divides by [dot(axis_dir, base_vec)] without a guard.
    Where that denominator is zero the quotient is not a real number, and
    the reals of this development say nothing about what the code
    computes.  This module follows the value of [gizmo->Scale] through
    [ContinueScale] with the quotient as IEEE 754 defines it. *)
Module IEEE.

(** A [float] that may be an infinity or not a number (NaN). *)
Inductive number : Type :=
  | Finite (x : float)
  | Infinity (negative : bool)
  | NaN.

(** [x / y] for finite [x] and [y].  A zero divided by a zero is NaN; any
    other number divided by a zero is an infinity whose sign is the sign of
    [x] times the sign of the zero.  [negative_zero] is the sign bit of
    [y] when [y] is a zero, which the real number [y] does not carry. *)
Definition div (negative_zero : bool) (x y : float) : number :=
  if F.eqb y 0 then
    if F.eqb x 0 then NaN else Infinity (xorb (F.ltb x 0) negative_zero)
  else Finite (x / y).

(** [x < y]; every comparison with NaN is false. *)
Definition ltb (x : number) (y : float) : bool :=
  match x with
  | Finite x => F.ltb x y
  | Infinity negative => negative
  | NaN => false
  end.

(** [x >= y]. *)
Definition geb (x : number) (y : float) : bool :=
  match x with
  | Finite x => F.geb x y
  | Infinity negative => negb negative
  | NaN => false
  end.

(** [glm::max(x, y)] is [(x < y) ? y : x]. *)
Definition max (x : number) (y : float) : number :=
  if ltb x y then Finite y else x.

(** [CalculateSnap] on a value that is not finite: [glm::fmod] returns NaN,
    both comparisons of the ratio are false and the value is left as it
    is. *)
Definition CalculateSnap (value : number) (snap : float) : number :=
  match value with
  | Finite x => Finite (CalculateSnap x snap)
  | _ => value
  end.

(** [glm::vec3] with such components. *)
Record vec := mkvec { vx : number; vy : number; vz : number }.

Definition of_vec3 (v : vec3) : vec :=
  mkvec (Finite (x3 v)) (Finite (y3 v)) (Finite (z3 v)).

Definition at3 (v : vec) (i : Z) : number :=
  match i with 0%Z => vx v | 1%Z => vy v | _ => vz v end.

Definition set3 (v : vec) (i : Z) (s : number) : vec :=
  match i with
  | 0%Z => mkvec s (vy v) (vz v)
  | 1%Z => mkvec (vx v) s (vz v)
  | _ => mkvec (vx v) (vy v) s
  end.

(** [gizmo->Scale] when [ContinueScale] returns. *)
Definition ContinueScale (negative_zero : bool) (h : Host)
  (snap : option vec3) (g : ImGuizmoContext) (gizmo : ImGuizmoWidget)
  : vec :=
  let length := IntersectRayPlane (Ray g) (TranslationPlane gizmo) in
  let target_position :=
    RayOrigin (Ray g) +v RayDirection (Ray g) *s length in
  let new_position :=
    target_position -v ModelRelativeOrigin gizmo *s ScreenFactor gizmo in
  let delta := new_position -v glm.xyz (c3 (ModelMatrix gizmo)) in
  let hover_flags := ActiveManipulationFlags gizmo in
  let scale :=
    if HasSingleAxis hover_flags then
      let axis_idx := GetAxisIdx hover_flags false in
      let axis_dir := glm.xyz (glm.col (ModelMatrix gizmo) axis_idx) in
      let length_on_axis := glm.dot3 axis_dir delta in
      let delta := axis_dir *s length_on_axis in
      let base_vec :=
        TranslationPlaneOrigin gizmo -v glm.xyz (c3 (ModelMatrix gizmo)) in
      let ratio :=
        div negative_zero (glm.dot3 axis_dir (base_vec +v delta))
          (glm.dot3 axis_dir base_vec) in
      set3 (of_vec3 (Scale gizmo)) axis_idx (max ratio kMinScale)
    else
      let scale_delta := (x2 (MousePos h) - x2 (DragOrigin g)) * (1 / 100) in
      of_vec3 (glm.splat3 (glm.max (1 + scale_delta) kMinScale)) in
  let scale :=
    match snap with
    | Some snap =>
        let scale_snap :=
          mkvec3 (glm.at3 snap 0) (glm.at3 snap 0) (glm.at3 snap 0) in
        fold_left
          (fun scale axis_idx =>
             set3 scale axis_idx
               (CalculateSnap (at3 scale axis_idx)
                  (glm.at3 scale_snap axis_idx)))
          [0; 1; 2]%Z scale
    | None => scale
    end in
  fold_left
    (fun scale axis_idx =>
       let scale :=
         set3 scale axis_idx (max (at3 scale axis_idx) kMinScale) in
       if truthy (Z.land (LockedAxesFlags gizmo) (AxisToFlag axis_idx false))
       then set3 scale axis_idx (Finite 1)
       else scale)
    [0; 1; 2]%Z scale.

End IEEE.

(** ** Bounds scale *)

(** [glm::abs] on a [vec3]. *)
Definition abs3 (v : vec3) : vec3 :=
  mkvec3 (glm.abs (x3 v)) (glm.abs (y3 v)) (glm.abs (z3 v)).

(** [struct ImGuizmoBounds], the member [Bounds] of the context; the bounds
    steps below take it next to the context.  [OutterPoints] and [MidPoints]
    are the arrays [[3][4]]. *)
Record ImGuizmoBounds := mkImGuizmoBounds {
  OutterPoints : Z -> Z -> vec3;
  MidPoints : Z -> Z -> vec3;
  Anchor : vec3;
  LocalPivot : vec3;
  Pivot : vec3;
  ActivePlane : ImGuizmoPlane;
  ActiveBoundIdx : Z
}.

(** [bounds] points to six floats: the minimum corner, then the maximum. *)
Definition BuildOutterPoints (bounds : Z -> float) (b : ImGuizmoBounds)
  : ImGuizmoBounds :=
  let points :=
    fold_left
      (fun points plane_idx =>
         let dir1_idx := ((plane_idx + 1) mod 3)%Z in
         let dir2_idx := ((plane_idx + 2) mod 3)%Z in
         let null_idx := ((plane_idx + 3) mod 3)%Z in
         fold_left
           (fun (points : Z -> Z -> vec3) i =>
              let p := points plane_idx i in
              let p := glm.set3 p null_idx 0 in
              let p :=
                glm.set3 p dir1_idx (bounds (dir1_idx + 3 * Z.shiftr i 1)%Z) in
              let p :=
                glm.set3 p dir2_idx
                  (bounds
                     (dir2_idx + 3 * Z.lxor (Z.shiftr i 1) (Z.land i 1))%Z) in
              fun plane_idx' i' =>
                if (plane_idx' =? plane_idx)%Z && (i' =? i)%Z then p
                else points plane_idx' i')
           [0; 1; 2; 3]%Z points)
      [0; 1; 2]%Z (OutterPoints b) in
  mkImGuizmoBounds points (MidPoints b) (Anchor b) (LocalPivot b) (Pivot b)
    (ActivePlane b) (ActiveBoundIdx b).

Definition BuildMidPoints (b : ImGuizmoBounds) : ImGuizmoBounds :=
  let points :=
    fold_left
      (fun points plane_idx =>
         fold_left
           (fun (points : Z -> Z -> vec3) i =>
              let p :=
                (OutterPoints b plane_idx i +v
                 OutterPoints b plane_idx ((i + 1) mod 4)%Z) *s (1 / 2) in
              fun plane_idx' i' =>
                if (plane_idx' =? plane_idx)%Z && (i' =? i)%Z then p
                else points plane_idx' i')
           [0; 1; 2; 3]%Z points)
      [0; 1; 2]%Z (MidPoints b) in
  mkImGuizmoBounds (OutterPoints b) points (Anchor b) (LocalPivot b) (Pivot b)
    (ActivePlane b) (ActiveBoundIdx b).

Definition BeginBoundsScale (h : Host) (g : ImGuizmoContext)
  (b : ImGuizmoBounds) (gizmo : ImGuizmoWidget)
  : ImGuizmoContext * ImGuizmoBounds * ImGuizmoWidget :=
  let g := set_BackupModelMatrix (SourceModelMatrix gizmo) g in
  let g := set_DragOrigin (MousePos h) g in
  let hover_flags := ActiveManipulationFlags gizmo in
  let hovered_plane_idx := ActivePlane b in
  let hovered_bound_idx := ActiveBoundIdx b in
  let opposite_index := ((hovered_bound_idx + 2) mod 4)%Z in
  let '(anchor, local_pivot) :=
    if HasPlane hover_flags then (* outter bound *)
      (glm.xyz
         (SourceModelMatrix gizmo *mv
          glm.vec4_of (OutterPoints b hovered_plane_idx hovered_bound_idx) 1),
       OutterPoints b hovered_plane_idx opposite_index)
    else (* mid bound *)
      (glm.xyz
         (SourceModelMatrix gizmo *mv
          glm.vec4_of (MidPoints b hovered_plane_idx hovered_bound_idx) 1),
       MidPoints b hovered_plane_idx opposite_index) in
  let pivot :=
    glm.xyz (SourceModelMatrix gizmo *mv glm.vec4_of local_pivot 1) in
  let b :=
    mkImGuizmoBounds (OutterPoints b) (MidPoints b) anchor local_pivot pivot
      (ActivePlane b) (ActiveBoundIdx b) in
  let plane_normal :=
    glm.xyz
      (glm.normalize4
         (SourceModelMatrix gizmo *mv
          glm.vec4_of (kUnitDirections hovered_plane_idx) 0)) in
  let gizmo :=
    set_TranslationPlane (BuildPlane (Anchor b) plane_normal) gizmo in
  (g, b, gizmo).

(** Returns the gizmo and [scale_info]. *)
Definition ContinueBoundsScale (bounds : Z -> float) (snap : option vec3)
  (g : ImGuizmoContext) (b : ImGuizmoBounds) (gizmo : ImGuizmoWidget)
  : ImGuizmoWidget * vec3 :=
  let reference_vector := abs3 (Anchor b -v Pivot b) in
  let length := IntersectRayPlane (Ray g) (TranslationPlane gizmo) in
  let target_position :=
    RayOrigin (Ray g) +v RayDirection (Ray g) *s length in
  let delta := abs3 (target_position -v Pivot b) in
  let hover_flags := ActiveManipulationFlags gizmo in
  let axes :=
    if HasPlane hover_flags then
      [((ActivePlane b + 1) mod 3)%Z; ((ActivePlane b + 2) mod 3)%Z]
    else [GetAxisIdx hover_flags false; (-1)%Z] in
  let scale :=
    fold_left
      (fun scale axis_idx =>
         if (axis_idx =? -1)%Z then scale
         else
           let axis_dir :=
             abs3 (glm.xyz (glm.col (BackupModelMatrix g) axis_idx)) in
           let dt_axis := glm.dot3 axis_dir reference_vector in
           let ratio_axis :=
             if F.gtb dt_axis kEpsilon then glm.dot3 axis_dir delta / dt_axis
             else 1 in
           let ratio_axis :=
             match snap with
             | Some snap =>
                 let bound_size :=
                   bounds (axis_idx + 3)%Z - bounds axis_idx in
                 let length := bound_size * ratio_axis in
                 let length := CalculateSnap length (glm.at3 snap axis_idx) in
                 if F.gtb bound_size kEpsilon then length / bound_size
                 else ratio_axis
             | None => ratio_axis
             end in
           glm.set_col scale axis_idx
             (glm.scale4 (glm.col scale axis_idx) ratio_axis))
      axes glm.identity in
  let gizmo :=
    set_ModelMatrix
      (BackupModelMatrix g *m glm.translate (LocalPivot b) *m scale *m
       glm.translate (glm.neg3 (LocalPivot b))) gizmo in
  let gizmo := set_Dirty true gizmo in
  let scale_info :=
    fold_left
      (fun scale_info axis_idx =>
         glm.set3 scale_info axis_idx
           ((bounds (axis_idx + 3)%Z - bounds axis_idx) *
            glm.length4 (glm.col (BackupModelMatrix g) axis_idx) *
            glm.length4 (glm.col scale axis_idx)))
      [0; 1; 2]%Z (glm.splat3 0) in
  (gizmo, scale_info).

(** ** [ImGuizmoWidget::Load] *)

(** The working model matrix [Load] derives from the caller's matrix. *)
Definition Load (g : ImGuizmoContext) (model : mat4) (gizmo : ImGuizmoWidget)
  : ImGuizmoWidget :=
  let gizmo := set_SourceModelMatrix model gizmo in
  let gizmo :=
    if (Mode gizmo =? ImGuizmoMode_Local)%Z then
      let gizmo := set_ModelMatrix (SourceModelMatrix gizmo) gizmo in
      fold_left
        (fun gizmo axis_idx =>
           set_ModelMatrix
             (glm.set_col (ModelMatrix gizmo) axis_idx
                (glm.normalize4 (glm.col (ModelMatrix gizmo) axis_idx)))
             gizmo)
        [0; 1; 2]%Z gizmo
    else
      set_ModelMatrix
        (glm.translate (glm.xyz (c3 (SourceModelMatrix gizmo)))) gizmo in
  let gizmo :=
    set_ModelViewProjMatrix
      (ViewProjectionMatrix (Camera g) *m ModelMatrix gizmo) gizmo in
  let gizmo :=
    fold_left
      (fun gizmo axis_idx =>
         set_ModelScaleOrigin
           (glm.set3 (ModelScaleOrigin gizmo) axis_idx
              (glm.length4 (glm.col (SourceModelMatrix gizmo) axis_idx)))
           gizmo)
      [0; 1; 2]%Z gizmo in
  let gizmo :=
    set_InversedModelMatrix (glm.inverse (ModelMatrix gizmo)) gizmo in
  let right_view_inverse :=
    glm.xyz (InversedModelMatrix gizmo *mv glm.vec4_of (Right (Camera g)) 0) in
  let right_length :=
    GetSegmentLengthClipSpace g gizmo (glm.splat3 0) right_view_inverse in
  let gizmo := set_ScreenFactor (GizmoScale (Style g) / right_length) gizmo in
  let gizmo :=
    set_Origin (WorldToScreen g (glm.splat3 0) (ModelViewProjMatrix gizmo))
      gizmo in
  set_RingRadius (GizmoScale (Style g) * GetWidth (Viewport g) * (55 / 100))
    gizmo.

(** ** Public interface *)

(** The state a public call works on: the global context and the caller's
    memory. *)
Record World := mkWorld { GImGuizmo : ImGuizmoContext; Mem : Memory }.

(** Calls that change the world and may hit an assertion or dereference an
    invalid pointer. *)
Definition M (A : Type) : Type := World -> option (A * World).

Definition ret {A : Type} (a : A) : M A := fun w => Some (a, w).

Definition bind {A B : Type} (m : M A) (k : A -> M B) : M B :=
  fun w =>
    match m w with
    | Some (a, w') => k a w'
    | None => None
    end.

Declare Scope M_scope.
Delimit Scope M_scope with M.
Bind Scope M_scope with M.
Notation "x <- m ;; k" := (bind m (fun x => k))
  (at level 20, m at level 99, k at level 200, only parsing) : M_scope.
Notation "m ;; k" := (bind m (fun _ => k))
  (at level 100, k at level 200, only parsing, right associativity) : M_scope.
Open Scope M_scope.

Module ImGuizmo.

Definition SetConfigFlags (flags : ImGuizmoConfigFlags) : M unit :=
  fun w => Some (tt, mkWorld (set_ConfigFlags flags (GImGuizmo w)) (Mem w)).

Definition SetViewport (position size : vec2) : M unit :=
  fun w =>
    Some
      (tt,
       mkWorld
         (set_Viewport (mkImRect position (glm.add2 position size))
            (GImGuizmo w))
         (Mem w)).

(** The overload taking four floats. *)
Definition SetViewport4 (x y width height : float) : M unit :=
  SetViewport (mkvec2 x y) (mkvec2 width height).

Definition SetCamera (view_matrix projection_matrix : Z) (is_ortho : bool)
  : M unit :=
  fun w =>
    (* IM_ASSERT(view_matrix && projection_matrix) *)
    if (view_matrix =? 0)%Z || (projection_matrix =? 0)%Z then None
    else
      match Mem w !! view_matrix, Mem w !! projection_matrix with
      | Some view, Some projection =>
          let inversed_view_matrix := glm.inverse view in
          let camera :=
            {| IsOrtho := is_ortho;
               ViewMatrix := view;
               ProjectionMatrix := projection;
               ViewProjectionMatrix := projection *m view;
               Right := glm.xyz (c0 inversed_view_matrix);
               Up := glm.xyz (c1 inversed_view_matrix);
               Forward := glm.xyz (c2 inversed_view_matrix);
               Eye := glm.xyz (c3 inversed_view_matrix) |} in
          Some (tt, mkWorld (set_Camera camera (GImGuizmo w)) (Mem w))
      | _, _ => None
      end.

Definition Begin (h : Host) (mode : ImGuizmoMode) (model_matrix : Z)
  (locked_axes : ImGuizmoAxisFlags) : M bool :=
  fun w =>
    let g := GImGuizmo w in
    (* IM_ASSERT(model_matrix && "Model matrix required") *)
    if (model_matrix =? 0)%Z then None
    (* IM_ASSERT(!g.LockedModelMatrix && "Nesting forbidden") *)
    else if negb (LockedModelMatrix g =? 0)%Z then None
    else
      match Mem w !! model_matrix with
      | None => None
      | Some model =>
          let g := set_LockedModelMatrix model_matrix g in
          let g := set_Viewport (CalculateViewport h) g in
          let id : ImGuiID := (model_matrix mod 2 ^ 32)%Z in
          let '(g, gizmo) :=
            match FindGizmoById g id with
            | Some gizmo => (g, gizmo)
            | None => CreateNewGizmo g id
            end in
          let g := set_CurrentGizmo (Some id) g in
          let '(g, gizmo) :=
            if negb (MouseDown h 0) then
              (set_ActiveGizmo None (set_DragOrigin (mkvec2 0 0) g),
               set_ActiveManipulationFlags ImGuizmoAxisFlags_None gizmo)
            else (g, gizmo) in
          let gizmo :=
            if negb (truthy (ActiveManipulationFlags gizmo))
            then set_ActiveOperation ImGuizmoOperation_None gizmo
            else gizmo in
          let gizmo := set_Mode mode gizmo in
          let gizmo := Load g model gizmo in
          let gizmo := set_LockedAxesFlags locked_axes gizmo in
          let g := set_Ray (RayCast h g (ViewProjectionMatrix (Camera g))) g in
          let camera_space_position :=
            glm.xyz
              (ModelViewProjMatrix gizmo *mv glm.vec4_of (glm.splat3 0) 1) in
          let visible :=
            if IsOrtho (Camera g) then true
            else F.geb (z3 camera_space_position) (1 / 1000) in
          Some (visible, mkWorld (StoreCurrentGizmo gizmo g) (Mem w))
      end.

Definition End (h : Host) : M bool :=
  fun w =>
    let g := GImGuizmo w in
    (* IM_ASSERT(g.LockedModelMatrix && "It seems that you didn't call Begin()") *)
    if (LockedModelMatrix g =? 0)%Z then None
    else
      match GetCurrentGizmo g with
      | None => None
      | Some gizmo =>
          let gizmo :=
            if truthy (Z.land (ConfigFlags g) ImGuizmoConfigFlags_HasReversing)
               && MouseClicked h 1 && truthy (ActiveManipulationFlags gizmo)
            then
              let gizmo := set_ModelMatrix (BackupModelMatrix g) gizmo in
              let gizmo := set_Dirty true gizmo in
              set_ActiveManipulationFlags ImGuizmoAxisFlags_None gizmo
            else gizmo in
          let '(updated, gizmo, mem) :=
            if Dirty gizmo then
              (true, set_Dirty false gizmo,
               <[LockedModelMatrix g := ModelMatrix gizmo]> (Mem w))
            else (false, gizmo, Mem w) in
          let g := set_LockedModelMatrix 0 g in
          Some (updated, mkWorld (StoreCurrentGizmo gizmo g) mem)
      end.

Definition Translate (h : Host) (snap : option vec3) : M unit :=
  fun w =>
    let g := GImGuizmo w in
    match GetCurrentGizmo g with
    | None => None
    | Some gizmo =>
        let hover_flags := FindTranslationHover h g gizmo in
        let '(pressed, held, hover_flags, g, gizmo) :=
          GizmoBehavior h ImGuizmoOperation_Translate hover_flags g gizmo in
        let '(g, gizmo) :=
          if pressed then BeginTranslation h g gizmo else (g, gizmo) in
        let gizmo :=
          if held then ContinueTranslation snap g gizmo else gizmo in
        Some (tt, mkWorld (StoreCurrentGizmo gizmo g) (Mem w))
    end.

Definition Rotate (h : Host) (snap : option vec3) : M unit :=
  fun w =>
    let g := GImGuizmo w in
    match GetCurrentGizmo g with
    | None => None
    | Some gizmo =>
        let hover_flags := FindRotationHover h g gizmo in
        let '(pressed, held, hover_flags, g, gizmo) :=
          GizmoBehavior h ImGuizmoOperation_Rotate hover_flags g gizmo in
        let '(g, gizmo) :=
          if pressed then BeginRotation h g gizmo else (g, gizmo) in
        let gizmo := if held then ContinueRotation snap g gizmo else gizmo in
        Some (tt, mkWorld (StoreCurrentGizmo gizmo g) (Mem w))
    end.

Definition Scale (h : Host) (snap : option vec3) : M unit :=
  fun w =>
    let g := GImGuizmo w in
    match GetCurrentGizmo g with
    | None => None
    | Some gizmo =>
        let hover_flags := FindScaleHover h g gizmo in
        let '(pressed, held, hover_flags, g, gizmo) :=
          GizmoBehavior h ImGuizmoOperation_Scale hover_flags g gizmo in
        let '(g, gizmo) :=
          if pressed then BeginScale h g gizmo else (g, gizmo) in
        let gizmo := if held then ContinueScale h snap g gizmo else gizmo in
        Some (tt, mkWorld (StoreCurrentGizmo gizmo g) (Mem w))
    end.

(** The convenience entry point; [Begin] is called with its default
    [locked_axes = ImGuizmoAxisFlags_None]. *)
Definition Manipulate (h : Host) (mode : ImGuizmoMode)
  (operation : ImGuizmoOperation) (model_matrix : Z) (snap : option vec3)
  : M bool :=
  visible <- Begin h mode model_matrix ImGuizmoAxisFlags_None ;;
  (if visible then
     match operation with
     | 1%Z (* ImGuizmoOperation_Translate *) => Translate h snap
     | 2%Z (* ImGuizmoOperation_Rotate *) => Rotate h snap
     | 3%Z (* ImGuizmoOperation_Scale *) => Scale h snap
     | _ => ret tt
     end
   else ret tt) ;;
  End h.

(** [DecomposeMatrix]: the values written through [translation], [rotation]
    (degrees) and [scale]; each is written when its pointer is not null. *)
Definition DecomposeMatrix (matrix : mat4) : vec3 * vec3 * vec3 :=
  let '(mat, scale) :=
    fold_left
      (fun '(mat, scale) axis_idx =>
         let scale :=
           glm.set3 scale axis_idx (glm.length4 (glm.col mat axis_idx)) in
         let mat :=
           glm.set_col mat axis_idx (glm.normalize4 (glm.col mat axis_idx)) in
         (mat, scale))
      [0; 1; 2]%Z (matrix, glm.splat3 0) in
  let rotation :=
    mkvec3
      (glm.degrees (glm.atan2 (z4 (c1 mat)) (z4 (c2 mat))))
      (glm.degrees
         (glm.atan2 (- z4 (c0 mat))
            (sqrt (z4 (c1 mat) * z4 (c1 mat) + z4 (c2 mat) * z4 (c2 mat)))))
      (glm.degrees (glm.atan2 (y4 (c0 mat)) (x4 (c0 mat)))) in
  let translation := glm.xyz (c3 mat) in
  (translation, rotation, scale).

(** [RecomposeMatrix]: the matrix written through [matrix]. *)
Definition RecomposeMatrix (translation rotation scale : vec3) : mat4 :=
  let mat := glm.identity in
  (* Rotate *)
  let mat :=
    fold_left
      (fun mat axis_idx =>
         mat *m
         glm.rotate (glm.radians (glm.at3 rotation axis_idx))
           (kUnitDirections axis_idx))
      [2; 1; 0]%Z mat in
  (* Scale *)
  let mat :=
    fold_left
      (fun mat axis_idx =>
         let valid_scale :=
           if F.ltb (glm.abs (glm.at3 scale axis_idx)) kEpsilon then 1 / 1000
           else glm.at3 scale axis_idx in
         glm.set_col mat axis_idx (glm.scale4 (glm.col mat axis_idx) valid_scale))
      [0; 1; 2]%Z mat in
  (* Translate *)
  glm.set_col mat 3 (glm.vec4_of translation 1).

End ImGuizmo.

(** * Specification vocabulary *)

(** The point of the ray at parameter [t]. *)
Definition ray_point (ray : ImGuizmoRay) (t : float) : vec3 :=
  RayOrigin ray +v RayDirection ray *s t.

(** [r] is an integer multiple of [snap]. *)
Definition is_multiple (snap r : float) : Prop :=
  exists k : Z, r = IZR k * snap.

(** [r] is an integer multiple of [snap] and no integer multiple of [snap]
    is nearer to [value]. *)
Definition nearest_multiple (snap value r : float) : Prop :=
  is_multiple snap r /\
  forall j : Z, Rabs (value - r) <= Rabs (value - IZR j * snap).

(** [value] lies exactly half-way between two neighbouring multiples of
    [snap]. *)
Definition halfway (snap value : float) : Prop :=
  exists k : Z, value = (IZR k + 1 / 2) * snap.

(** ** Vocabulary of the statements *)

Definition locked (flags : ImGuizmoAxisFlags) (axis_idx : ImGuizmoAxis) : bool :=
  truthy (Z.land flags (AxisToFlag axis_idx false)).

Definition lock_clamp (flags : ImGuizmoAxisFlags) (s : vec3) : vec3 :=
  mkvec3
    (if locked flags 0%Z then 1 else glm.max (x3 s) kMinScale)
    (if locked flags 1%Z then 1 else glm.max (y3 s) kMinScale)
    (if locked flags 2%Z then 1 else glm.max (z3 s) kMinScale).

Definition lock_translation (flags : ImGuizmoAxisFlags) (origin : vec3)
  (m : mat4) : mat4 :=
  glm.set_col m 3
    (mkvec4
       (if locked flags 0%Z then x3 origin else x4 (c3 m))
       (if locked flags 1%Z then y3 origin else y4 (c3 m))
       (if locked flags 2%Z then z3 origin else z4 (c3 m))
       (w4 (c3 m))).

(** The matrix a rotate step writes. *)
Definition rotated_model (gizmo : ImGuizmoWidget) (angle : float) : mat4 :=
  let delta_rotation :=
    glm.rotate (angle - RotationAngleOrigin gizmo)
      (glm.xyz
         (glm.normalize4
            (InversedModelMatrix gizmo *mv
             glm.vec4_of (glm.xyz (TranslationPlane gizmo)) 0))) in
  if (Mode gizmo =? ImGuizmoMode_Local)%Z then
    ModelMatrix gizmo *m (delta_rotation *m glm.scale (ModelScaleOrigin gizmo))
  else
    glm.set_col
      (delta_rotation *m
       glm.set_col (SourceModelMatrix gizmo) 3 (glm.vec4_of (glm.splat3 0) 1))
      3 (c3 (SourceModelMatrix gizmo)).

(** The angle a rotate step reads from the mouse ray. *)
Definition rotation_angle (snap : option vec3) (g : ImGuizmoContext)
  (gizmo : ImGuizmoWidget) : float :=
  match snap with
  | Some snap =>
      CalculateSnap (CalculateAngleOnPlane g gizmo)
        (glm.radians (glm.at3 snap 0))
  | None => CalculateAngleOnPlane g gizmo
  end.

(** [static ImGuizmoContext GImGuizmo]: the default member initialisers. *)
Definition NewImGuizmoContext : ImGuizmoContext :=
  {| Style := mkImGuizmoStyle (1 / 10) (35 / 10);
     ConfigFlags := ImGuizmoConfigFlags_None;
     Viewport := mkImRect (mkvec2 0 0) (mkvec2 0 0);
     Camera :=
       mkImGuizmoCamera false glm.identity glm.identity glm.identity
         (kUnitDirections 0) (kUnitDirections 1) (kUnitDirections 2)
         (glm.splat3 0);
     Ray := mkImGuizmoRay (glm.splat3 0) (glm.splat3 0) (glm.splat3 0);
     DragOrigin := mkvec2 0 0;
     Gizmos := [];
     GizmosById := ∅;
     CurrentGizmo := None;
     ActiveGizmo := None;
     LockedModelMatrix := 0%Z;
     BackupModelMatrix := glm.identity |}.

(** A rotate drag about the x axis of a gizmo whose three axes are locked:
    world mode, identity model matrix, rotation plane x = 0, drag started
    on the y axis. *)
Definition locked_rotation_gizmo : ImGuizmoWidget :=
  set_LockedAxesFlags ImGuizmoAxisFlags_ALL
    (set_ActiveManipulationFlags ImGuizmoAxisFlags_X
       (set_ActiveOperation ImGuizmoOperation_Rotate
          (set_Mode ImGuizmoMode_World
             (set_TranslationPlane (mkvec4 1 0 0 0)
                (set_RotationVectorSource (mkvec3 0 1 0)
                   (NewImGuizmoWidget 1%Z)))))).

(** The mouse ray now points at the z axis. *)
Definition locked_rotation_context : ImGuizmoContext :=
  set_Ray (mkImGuizmoRay (mkvec3 5 0 1) (mkvec3 0 0 1) (mkvec3 (-1) 0 0))
    NewImGuizmoContext.

(** The locked gizmo of [locked_rotation_gizmo] as the current and active
    gizmo of the context, the mouse ray as in [locked_rotation_context]. *)
Definition locked_rotation_world : World :=
  {| GImGuizmo :=
       set_ActiveGizmo (Some 1%Z)
         (set_CurrentGizmo (Some 1%Z)
            (set_GizmosById {[ 1%Z := locked_rotation_gizmo ]}
               locked_rotation_context));
     Mem := ∅ |}.

(** The left button is held, not clicked, during a drag. *)
Definition drag_host : Host :=
  {| MousePos := mkvec2 0 0;
     MouseDown := fun button => (button =? 0)%Z;
     MouseClicked := fun _ => false;
     IsWindowHovered := true;
     WindowPos := mkvec2 0 0;
     WindowContentRegionMin := mkvec2 0 0;
     WindowContentRegionMax := mkvec2 100 100 |}.

(** The working matrix [Load] derives from a caller's matrix [model]. *)
Definition loaded_model (mode : ImGuizmoMode) (model : mat4) : mat4 :=
  if (mode =? ImGuizmoMode_Local)%Z then
    mkmat4 (glm.normalize4 (c0 model)) (glm.normalize4 (c1 model))
      (glm.normalize4 (c2 model)) (c3 model)
  else
    mkmat4 (mkvec4 1 0 0 0) (mkvec4 0 1 0 0) (mkvec4 0 0 1 0)
      (mkvec4 (x4 (c3 model)) (y4 (c3 model)) (z4 (c3 model)) 1).

(** The gizmo's matrices are as [Load] leaves them. *)
Definition loaded (gizmo : ImGuizmoWidget) : Prop :=
  ModelMatrix gizmo = loaded_model (Mode gizmo) (SourceModelMatrix gizmo).

(** The gizmo [Begin] stores, from the gizmo [gz] it found or created. *)
Definition Begin_gizmo (h : Host) (mode : ImGuizmoMode)
  (locked_axes : ImGuizmoAxisFlags) (g : ImGuizmoContext) (model : mat4)
  (gz : ImGuizmoWidget) : ImGuizmoWidget :=
  let gz :=
    if negb (MouseDown h 0)
    then set_ActiveManipulationFlags ImGuizmoAxisFlags_None gz else gz in
  let gz :=
    if negb (truthy (ActiveManipulationFlags gz))
    then set_ActiveOperation ImGuizmoOperation_None gz else gz in
  set_LockedAxesFlags locked_axes (Load g model (set_Mode mode gz)).

(** The condition under which [End] cancels the active manipulation. *)
Definition reversing (h : Host) (g : ImGuizmoContext) (gizmo : ImGuizmoWidget)
  : bool :=
  truthy (Z.land (ConfigFlags g) ImGuizmoConfigFlags_HasReversing) &&
  MouseClicked h 1 && truthy (ActiveManipulationFlags gizmo).

(** The gizmo [End] stores. *)
Definition End_gizmo (h : Host) (g : ImGuizmoContext) (gizmo : ImGuizmoWidget)
  : ImGuizmoWidget :=
  let gizmo :=
    if reversing h g gizmo then
      set_ActiveManipulationFlags ImGuizmoAxisFlags_None
        (set_Dirty true (set_ModelMatrix (BackupModelMatrix g) gizmo))
    else gizmo in
  if Dirty gizmo then set_Dirty false gizmo else gizmo.

(** The call the convenience entry point makes for [operation]. *)
Definition operation_call (h : Host) (operation : ImGuizmoOperation)
  (snap : option vec3) : M unit :=
  if (operation =? ImGuizmoOperation_Translate)%Z then ImGuizmo.Translate h snap
  else if (operation =? ImGuizmoOperation_Rotate)%Z then ImGuizmo.Rotate h snap
  else if (operation =? ImGuizmoOperation_Scale)%Z then ImGuizmo.Scale h snap
  else ret tt.

(** [Begin(mode, model_matrix)], then, when [Begin] returned true, the call
    for the operation, then [End()], whose result is returned. *)
Definition Manipulate_sequence (h : Host) (mode : ImGuizmoMode)
  (operation : ImGuizmoOperation) (model_matrix : Z) (snap : option vec3)
  : M bool :=
  fun w =>
    match ImGuizmo.Begin h mode model_matrix ImGuizmoAxisFlags_None w with
    | None => None
    | Some (true, w1) =>
        match operation_call h operation snap w1 with
        | None => None
        | Some (_, w2) => ImGuizmo.End h w2
        end
    | Some (false, w1) => ImGuizmo.End h w1
    end.

(** A host frame: left button held, right button just clicked. *)
Definition cancel_host : Host :=
  {| MousePos := mkvec2 0 0;
     MouseDown := fun button => (button =? 0)%Z;
     MouseClicked := fun button => (button =? 1)%Z;
     IsWindowHovered := true;
     WindowPos := mkvec2 0 0;
     WindowContentRegionMin := mkvec2 0 0;
     WindowContentRegionMax := mkvec2 100 100 |}.

(** A gizmo in the middle of a translate drag along x, not dirty. *)
Definition dragged_gizmo : ImGuizmoWidget :=
  set_ActiveManipulationFlags ImGuizmoAxisFlags_X
    (set_ActiveOperation ImGuizmoOperation_Translate (NewImGuizmoWidget 16)).

(** The caller's matrix as the drag left it: moved by one along x. *)
Definition moved_matrix : mat4 :=
  mkmat4 (mkvec4 1 0 0 0) (mkvec4 0 1 0 0) (mkvec4 0 0 1 0) (mkvec4 1 0 0 1).

(** Reversing enabled; the backup still holds the identity the drag
    started from. *)
Definition cancel_world : World :=
  {| GImGuizmo :=
       set_ActiveGizmo (Some 16%Z)
         (set_GizmosById {[ 16%Z := dragged_gizmo ]}
            (set_ConfigFlags ImGuizmoConfigFlags_HasReversing
               NewImGuizmoContext));
     Mem := {[ 16%Z := moved_matrix ]} |}.

(** The same world inside a [Begin]/[End] scope on the matrix at 16. *)
Definition scoped_world : World :=
  {| GImGuizmo :=
       set_LockedModelMatrix 16
         (set_CurrentGizmo (Some 16%Z) (GImGuizmo cancel_world));
     Mem := Mem cancel_world |}.

(** ** Vocabulary of the operations *)

(** What a step of an operation leaves of the gizmo it is given: the
    reference matrix, the mode and the locked axes stay, and a dirty gizmo
    stays dirty. *)
Definition kept (gizmo gizmo' : ImGuizmoWidget) : Prop :=
  SourceModelMatrix gizmo' = SourceModelMatrix gizmo /\
  Mode gizmo' = Mode gizmo /\
  LockedAxesFlags gizmo' = LockedAxesFlags gizmo /\
  (Dirty gizmo = true -> Dirty gizmo' = true).

(** The context fields an operation never changes. *)
Definition same_scope (g g' : ImGuizmoContext) : Prop :=
  CurrentGizmo g' = CurrentGizmo g /\
  LockedModelMatrix g' = LockedModelMatrix g /\
  ConfigFlags g' = ConfigFlags g.

(** ** Vocabulary of the geometry *)

(** The point of the segment from [v1] to [v2] at parameter [s]. *)
Definition on_segment (v1 v2 : vec2) (s : float) : vec2 :=
  glm.add2 v1 (glm.scale2 (glm.sub2 v2 v1) s).

(** The squared distance of two points. *)
Definition dist2 (a b : vec2) : float := glm.length2 (glm.sub2 a b).

(** The determinant, by cofactor expansion. *)
Definition determinant (m : mat4) : float :=
  let m00 := x4 (c0 m) in let m01 := y4 (c0 m) in
  let m02 := z4 (c0 m) in let m03 := w4 (c0 m) in
  let m10 := x4 (c1 m) in let m11 := y4 (c1 m) in
  let m12 := z4 (c1 m) in let m13 := w4 (c1 m) in
  let m20 := x4 (c2 m) in let m21 := y4 (c2 m) in
  let m22 := z4 (c2 m) in let m23 := w4 (c2 m) in
  let m30 := x4 (c3 m) in let m31 := y4 (c3 m) in
  let m32 := z4 (c3 m) in let m33 := w4 (c3 m) in
  m00 * (m11 * (m22 * m33 - m32 * m23) - m12 * (m21 * m33 - m31 * m23)
         + m13 * (m21 * m32 - m31 * m22))
  - m01 * (m10 * (m22 * m33 - m32 * m23) - m12 * (m20 * m33 - m30 * m23)
           + m13 * (m20 * m32 - m30 * m22))
  + m02 * (m10 * (m21 * m33 - m31 * m23) - m11 * (m20 * m33 - m30 * m23)
           + m13 * (m20 * m31 - m30 * m21))
  - m03 * (m10 * (m21 * m32 - m31 * m22) - m11 * (m20 * m32 - m30 * m22)
           + m12 * (m20 * m31 - m30 * m21)).

(** Normalized device coordinates of a world position. *)
Definition ndc (matrix : mat4) (world_pos : vec3) : vec2 :=
  let clip := matrix *mv glm.vec4_of world_pos 1 in
  mkvec2 (x4 clip / w4 clip) (y4 clip / w4 clip).

(** The world-space point, in homogeneous coordinates, behind the device
    coordinates [p] at depth [z]. *)
Definition unproject (view_proj_matrix : mat4) (p : vec2) (z : float) : vec4 :=
  glm.inverse view_proj_matrix *mv mkvec4 (x2 p) (y2 p) z 1.

(** A matrix whose last row is (0, 0, 0, 1). *)
Definition affine (m : mat4) : Prop :=
  w4 (c0 m) = 0 /\ w4 (c1 m) = 0 /\ w4 (c2 m) = 0 /\ w4 (c3 m) = 1.

(** The scale [RecomposeMatrix] applies when asked for [s]. *)
Definition valid_scale (s : float) : float :=
  if F.ltb (glm.abs s) kEpsilon then 1 / 1000 else s.

(** The rotation [RecomposeMatrix] builds: about z, then y, then x. *)
Definition euler_rotation (rx ry rz : float) : mat4 :=
  mkmat4
    (mkvec4 (cos rz * cos ry) (sin rz * cos ry) (- sin ry) 0)
    (mkvec4 (cos rz * sin ry * sin rx - sin rz * cos rx)
            (sin rz * sin ry * sin rx + cos rz * cos rx)
            (cos ry * sin rx) 0)
    (mkvec4 (cos rz * sin ry * cos rx + sin rz * sin rx)
            (sin rz * sin ry * cos rx - cos rz * sin rx)
            (cos ry * cos rx) 0)
    (mkvec4 0 0 0 1).

(** ** Vocabulary of hovering and dragging *)

(** What a hover query may answer for a gizmo with locked axes [locked]:
    nothing, the whole gizmo unless all of it is locked, or one axis or, when
    [planes] is set, one plane, free of locked axes. *)
Definition hover_allowed (planes : bool) (locked flags : ImGuizmoAxisFlags)
  : Prop :=
  flags = ImGuizmoAxisFlags_None \/
  (flags = ImGuizmoAxisFlags_ALL /\ locked <> ImGuizmoAxisFlags_ALL) \/
  ((HasSingleAxis flags = true \/ (planes = true /\ HasPlane flags = true)) /\
   Z.land locked flags = 0%Z).

(** The displacement a translate step without snap reads from the mouse
    ray. *)
Definition drag_delta (g : ImGuizmoContext) (gizmo : ImGuizmoWidget) : vec3 :=
  let hover_flags := ActiveManipulationFlags gizmo in
  let length :=
    glm.abs (IntersectRayPlane (Ray g) (TranslationPlane gizmo)) in
  let target_position :=
    RayOrigin (Ray g) +v RayDirection (Ray g) *s length in
  let new_position :=
    target_position -v ModelRelativeOrigin gizmo *s ScreenFactor gizmo in
  let delta := new_position -v glm.xyz (c3 (ModelMatrix gizmo)) in
  if HasSingleAxis hover_flags then
    let axis_idx := GetAxisIdx hover_flags false in
    let axis_value := glm.xyz (glm.col (ModelMatrix gizmo) axis_idx) in
    let length_on_axis := glm.dot3 axis_value delta in
    axis_value *s length_on_axis
  else delta.

(** The scale a scale step without snap reads from the mouse, before it is
    clamped and locked. *)
Definition drag_scale (h : Host) (g : ImGuizmoContext) (gizmo : ImGuizmoWidget)
  : vec3 :=
  let length := IntersectRayPlane (Ray g) (TranslationPlane gizmo) in
  let target_position :=
    RayOrigin (Ray g) +v RayDirection (Ray g) *s length in
  let new_position :=
    target_position -v ModelRelativeOrigin gizmo *s ScreenFactor gizmo in
  let delta := new_position -v glm.xyz (c3 (ModelMatrix gizmo)) in
  let hover_flags := ActiveManipulationFlags gizmo in
  if HasSingleAxis hover_flags then
    let axis_idx := GetAxisIdx hover_flags false in
    let axis_dir := glm.xyz (glm.col (ModelMatrix gizmo) axis_idx) in
    let length_on_axis := glm.dot3 axis_dir delta in
    let delta := axis_dir *s length_on_axis in
    let base_vec :=
      TranslationPlaneOrigin gizmo -v glm.xyz (c3 (ModelMatrix gizmo)) in
    let ratio :=
      glm.dot3 axis_dir (base_vec +v delta) / glm.dot3 axis_dir base_vec in
    glm.set3 (Scale gizmo) axis_idx (glm.max ratio kMinScale)
  else
    let scale_delta := (x2 (MousePos h) - x2 (DragOrigin g)) * (1 / 100) in
    glm.splat3 (glm.max (1 + scale_delta) kMinScale).

(** The data a drag keeps from frame to frame. *)
Definition same_drag (gizmo gizmo' : ImGuizmoWidget) : Prop :=
  TranslationPlane gizmo' = TranslationPlane gizmo /\
  TranslationPlaneOrigin gizmo' = TranslationPlaneOrigin gizmo /\
  ModelRelativeOrigin gizmo' = ModelRelativeOrigin gizmo /\
  DragTranslationOrigin gizmo' = DragTranslationOrigin gizmo /\
  LastTranslationDelta gizmo' = LastTranslationDelta gizmo /\
  RotationVectorSource gizmo' = RotationVectorSource gizmo /\
  RotationAngleOrigin gizmo' = RotationAngleOrigin gizmo /\
  LastScale gizmo' = LastScale gizmo /\
  ScaleValueOrigin gizmo' = ScaleValueOrigin gizmo.

(** ** Further example inputs *)

(** A frame with no button down, the window not hovered. *)
Definition idle_host : Host :=
  {| MousePos := mkvec2 0 0;
     MouseDown := fun _ => false;
     MouseClicked := fun _ => false;
     IsWindowHovered := false;
     WindowPos := mkvec2 0 0;
     WindowContentRegionMin := mkvec2 0 0;
     WindowContentRegionMax := mkvec2 100 100 |}.

(** The frame of a left click. *)
Definition press_host : Host :=
  {| MousePos := mkvec2 0 0;
     MouseDown := fun button => (button =? 0)%Z;
     MouseClicked := fun button => (button =? 0)%Z;
     IsWindowHovered := true;
     WindowPos := mkvec2 0 0;
     WindowContentRegionMin := mkvec2 0 0;
     WindowContentRegionMax := mkvec2 100 100 |}.

(** A fresh gizmo as the current one, outside any scope. *)
Definition idle_world : World :=
  {| GImGuizmo :=
       set_CurrentGizmo (Some 1%Z)
         (set_GizmosById {[ 1%Z := NewImGuizmoWidget 1 ]} NewImGuizmoContext);
     Mem := ∅ |}.

(** The mouse ray comes down the z axis from (0, 0, 5). *)
Definition front_context : ImGuizmoContext :=
  set_Ray (mkImGuizmoRay (mkvec3 0 0 5) (mkvec3 0 0 0) (mkvec3 0 0 (-1)))
    NewImGuizmoContext.

(** A fresh gizmo drawn at screen factor 1. *)
Definition pressed_gizmo : ImGuizmoWidget :=
  set_ScreenFactor 1 (NewImGuizmoWidget 1).

(** A viewport of 100 by 100 pixels. *)
Definition picking_viewport : ImRect := mkImRect (mkvec2 0 0) (mkvec2 100 100).

(** The mouse sits where the world origin is drawn. *)
Definition picking_host : Host :=
  {| MousePos :=
       WorldToScreen_bb (mkvec3 0 0 0) glm.identity picking_viewport;
     MouseDown := fun _ => false;
     MouseClicked := fun _ => false;
     IsWindowHovered := true;
     WindowPos := mkvec2 0 0;
     WindowContentRegionMin := mkvec2 0 0;
     WindowContentRegionMax := mkvec2 100 100 |}.

(** The bounds of the unit cube. *)
Definition unit_bounds (i : Z) : float := if (i <? 3)%Z then 0 else 1.

(** [ImGuizmoBounds] as its member initialisers leave it. *)
Definition NewImGuizmoBounds : ImGuizmoBounds :=
  {| OutterPoints := fun _ _ => glm.splat3 0;
     MidPoints := fun _ _ => glm.splat3 0;
     Anchor := glm.splat3 0;
     LocalPivot := glm.splat3 0;
     Pivot := glm.splat3 0;
     ActivePlane := (-1)%Z;
     ActiveBoundIdx := (-1)%Z |}.

(** ** Vocabulary of drags across frames *)

(** The calls a caller makes between [Begin] and [End], in order. *)
Fixpoint operation_calls (h : Host)
  (calls : list (ImGuizmoOperation * option vec3)) : M unit :=
  match calls with
  | [] => ret tt
  | (operation, snap) :: calls =>
      (operation_call h operation snap ;; operation_calls h calls)%M
  end.

(** A drag that is under way was started on this gizmo and from its
    reference matrix: the backup is the reference matrix and the gizmo is
    the active one. *)
Definition drag_started (g : ImGuizmoContext) (gizmo : ImGuizmoWidget) : Prop :=
  ActiveManipulationFlags gizmo <> ImGuizmoAxisFlags_None ->
  BackupModelMatrix g = SourceModelMatrix gizmo /\
  ActiveGizmo g = CurrentGizmo g.

(** What the calls between [Begin] and [End] of a frame with host [h] may
    do to the context and to the current gizmo. *)
Definition calls_effect (h : Host) (g : ImGuizmoContext)
  (gizmo : ImGuizmoWidget) (g' : ImGuizmoContext) (gizmo' : ImGuizmoWidget)
  : Prop :=
  same_scope g g' /\
  kept gizmo gizmo' /\
  (forall id, CurrentGizmo g <> Some id ->
              GizmosById g' !! id = GizmosById g !! id) /\
  (drag_started g gizmo -> drag_started g' gizmo') /\
  (MouseClicked h 0 = false -> MouseDown h 0 = true ->
   BackupModelMatrix g' = BackupModelMatrix g /\
   ActiveGizmo g' = ActiveGizmo g /\
   ActiveManipulationFlags gizmo' = ActiveManipulationFlags gizmo).


(** One [Begin]/[End] scope as a caller writes it: the frame's host state,
    the arguments of [Begin], and the operations called in between, which
    the caller may choose by the result of [Begin]. *)
Record Scope := mkScope {
  scope_host : Host;
  scope_mode : ImGuizmoMode;
  scope_matrix : Z;
  scope_locked_axes : ImGuizmoAxisFlags;
  scope_calls : bool -> list (ImGuizmoOperation * option vec3)
}.

Definition run_scope (s : Scope) : M bool :=
  (visible <-
     ImGuizmo.Begin (scope_host s) (scope_mode s) (scope_matrix s)
       (scope_locked_axes s) ;;
   operation_calls (scope_host s) (scope_calls s visible) ;;
   ImGuizmo.End (scope_host s))%M.


(** The scope [Manipulate] runs. *)
Definition Manipulate_scope (h : Host) (mode : ImGuizmoMode)
  (operation : ImGuizmoOperation) (model_matrix : Z) (snap : option vec3)
  : Scope :=
  mkScope h mode model_matrix ImGuizmoAxisFlags_None
    (fun visible => if visible then [(operation, snap)] else []).



(** ** Example inputs of the drags *)





(** A scale drag on the x axis of a fresh gizmo, *)
Definition level_press_gizmo : ImGuizmoWidget :=
  set_ActiveManipulationFlags ImGuizmoAxisFlags_X
    (set_ActiveOperation ImGuizmoOperation_Scale pressed_gizmo).

(** pressed where the mouse ray meets the drag plane at (0, 0, 3): level
    with the gizmo's position along x. *)
Definition level_press_context : ImGuizmoContext :=
  set_Ray (mkImGuizmoRay (mkvec3 0 5 3) (mkvec3 0 0 3) (mkvec3 0 (-1) 0))
    NewImGuizmoContext.

(** ** The scale vector in IEEE arithmetic *)

(** * Properties *)

(** ** Comparisons *)

Module FFacts.

Lemma ltb_true a b : F.ltb a b = true <-> a < b.
Proof. unfold F.ltb; destruct (Rlt_dec a b); split; intros; try easy. Qed.

Lemma ltb_false a b : F.ltb a b = false <-> b <= a.
Proof.
  unfold F.ltb; destruct (Rlt_dec a b); split; intros; try easy; lra.
Qed.

Lemma leb_true a b : F.leb a b = true <-> a <= b.
Proof. unfold F.leb; destruct (Rle_dec a b); split; intros; try easy. Qed.

Lemma leb_false a b : F.leb a b = false <-> b < a.
Proof.
  unfold F.leb; destruct (Rle_dec a b); split; intros; try easy; lra.
Qed.

Lemma eqb_true a b : F.eqb a b = true <-> a = b.
Proof. unfold F.eqb; destruct (Req_dec_T a b); split; intros; try easy. Qed.

Lemma eqb_false a b : F.eqb a b = false <-> a <> b.
Proof. unfold F.eqb; destruct (Req_dec_T a b); split; intros; try easy. Qed.

Lemma eqb_refl a : F.eqb a a = true.
Proof. now apply eqb_true. Qed.

End FFacts.

(** ** Facts about the scalar functions *)

Lemma kEpsilon_pos : 0 < kEpsilon.
Proof. unfold kEpsilon, glm.epsilon. apply Rinv_0_lt_compat. lra. Qed.

Lemma kEpsilon_lt_1 : kEpsilon < 1.
Proof.
  unfold kEpsilon, glm.epsilon. lra.
Qed.

Lemma max_lower_bound a b : b <= glm.max a b.
Proof.
  unfold glm.max. destruct (F.ltb a b) eqn:E.
  - lra.
  - apply FFacts.ltb_false in E. exact E.
Qed.

(** [trunc] returns the integer between zero and its argument that is
    closest to the argument. *)
Lemma trunc_nonneg x :
  0 <= x -> exists k : Z, glm.trunc x = IZR k /\ IZR k <= x < IZR k + 1.
Proof.
  intros Hx. exists (Int_part x). unfold glm.trunc.
  destruct (F.ltb x 0) eqn:E.
  - apply FFacts.ltb_true in E. lra.
  - destruct (base_Int_part x). split; [reflexivity | lra].
Qed.

Lemma trunc_neg x :
  x < 0 -> exists k : Z, glm.trunc x = IZR k /\ x <= IZR k < x + 1.
Proof.
  intros Hx. exists (- Int_part (- x))%Z. unfold glm.trunc.
  destruct (F.ltb x 0) eqn:E.
  - destruct (base_Int_part (- x)). rewrite opp_IZR. split; [reflexivity | lra].
  - apply FFacts.ltb_false in E. lra.
Qed.

(** Two different integers are at least one apart. *)
Lemma IZR_apart (j k : Z) :
  j <> k -> IZR j <= IZR k - 1 \/ IZR k + 1 <= IZR j.
Proof.
  intros Hne.
  destruct (Z_lt_le_dec j k) as [Hlt | Hle].
  - left. replace (IZR k - 1) with (IZR (k - 1)) by (rewrite minus_IZR; ring).
    apply IZR_le. lia.
  - right. replace (IZR k + 1) with (IZR (k + 1)) by (rewrite plus_IZR; ring).
    apply IZR_le. lia.
Qed.

(** ** Ray/plane intersection (C5) *)

Lemma dot3_ray_point n ray t :
  glm.dot3 n (ray_point ray t) =
  glm.dot3 n (RayOrigin ray) + t * glm.dot3 n (RayDirection ray).
Proof. unfold ray_point, glm.dot3; simpl. ring. Qed.

(** C5: when the absolute value of the dot product of the plane normal and
    the ray direction is below epsilon, [IntersectRayPlane] returns -1;
    otherwise the parameter [t] it returns puts the point
    [Origin + t * Direction] on the plane: [dot(plane.xyz, point) = plane.w]. *)
Theorem IntersectRayPlane_correct (ray : ImGuizmoRay) (plane : vec4) :
  (Rabs (glm.dot3 (glm.xyz plane) (RayDirection ray)) < kEpsilon ->
   IntersectRayPlane ray plane = -1) /\
  (~ Rabs (glm.dot3 (glm.xyz plane) (RayDirection ray)) < kEpsilon ->
   glm.dot3 (glm.xyz plane) (ray_point ray (IntersectRayPlane ray plane)) =
   w4 plane).
Proof.
  unfold IntersectRayPlane, glm.abs. split; intros H.
  - apply FFacts.ltb_true in H. rewrite H. reflexivity.
  - destruct (F.ltb _ kEpsilon) eqn:E.
    + apply FFacts.ltb_true in E. contradiction.
    + apply FFacts.ltb_false in E. rewrite dot3_ray_point.
      assert (Hd : glm.dot3 (glm.xyz plane) (RayDirection ray) <> 0).
      { intros Hz. rewrite Hz, Rabs_R0 in E. pose proof kEpsilon_pos. lra. }
      field. exact Hd.
Qed.

(** A ray along -x from (5,0,1) meets the plane x = 0 at t = 5; a ray along
    y never meets it. *)
Lemma IntersectRayPlane_correct_witness :
  IntersectRayPlane
    (mkImGuizmoRay (mkvec3 5 0 1) (mkvec3 0 0 1) (mkvec3 0 1 0))
    (mkvec4 1 0 0 0) = -1 /\
  glm.dot3 (mkvec3 1 0 0)
    (ray_point (mkImGuizmoRay (mkvec3 5 0 1) (mkvec3 0 0 1) (mkvec3 (-1) 0 0))
       (IntersectRayPlane
          (mkImGuizmoRay (mkvec3 5 0 1) (mkvec3 0 0 1) (mkvec3 (-1) 0 0))
          (mkvec4 1 0 0 0))) = 0.
Proof.
  split.
  - apply (IntersectRayPlane_correct
             (mkImGuizmoRay (mkvec3 5 0 1) (mkvec3 0 0 1) (mkvec3 0 1 0))
             (mkvec4 1 0 0 0)).
    unfold glm.dot3; simpl.
    replace (1 * 0 + 0 * 1 + 0 * 0) with 0 by ring.
    rewrite Rabs_R0. exact kEpsilon_pos.
  - apply (IntersectRayPlane_correct
             (mkImGuizmoRay (mkvec3 5 0 1) (mkvec3 0 0 1) (mkvec3 (-1) 0 0))
             (mkvec4 1 0 0 0)).
    unfold glm.dot3; simpl. intros H. pose proof kEpsilon_lt_1.
    unfold Rabs in H. destruct (Rcase_abs _) in H; lra.
Defined.

(** ** Snapping (C3) *)

(** [fmod] leaves a remainder with the sign of [value] and smaller than
    [snap]. *)
Lemma fmod_decompose value snap :
  0 < snap ->
  exists q : Z,
    glm.fmod value snap = value - snap * IZR q /\
    ((0 <= value /\ IZR q * snap <= value < (IZR q + 1) * snap) \/
     (value < 0 /\ (IZR q - 1) * snap < value <= IZR q * snap)).
Proof.
  intros Hs. unfold glm.fmod.
  assert (Hv : value = value / snap * snap) by (field; lra).
  assert (Hi : 0 < / snap) by (apply Rinv_0_lt_compat; lra).
  destruct (Rle_lt_dec 0 value) as [Hpos | Hneg].
  - assert (Hx : 0 <= value / snap).
    { unfold Rdiv. apply Rmult_le_pos; lra. }
    destruct (trunc_nonneg _ Hx) as (k & Hk & Hlo & Hhi).
    exists k. rewrite Hk. split; [reflexivity |]. left. split; [exact Hpos |].
    apply Rmult_le_compat_r with (r := snap) in Hlo; [| lra].
    apply Rmult_lt_compat_r with (r := snap) in Hhi; [| lra].
    rewrite <- Hv in Hlo, Hhi. lra.
  - assert (Hx : value / snap < 0).
    { unfold Rdiv. rewrite <- (Rmult_0_l (/ snap)).
      apply Rmult_lt_compat_r; lra. }
    destruct (trunc_neg _ Hx) as (k & Hk & Hlo & Hhi).
    exists k. rewrite Hk. split; [reflexivity |]. right. split; [exact Hneg |].
    apply Rmult_le_compat_r with (r := snap) in Hlo; [| lra].
    apply Rmult_lt_compat_r with (r := snap) in Hhi; [| lra].
    rewrite <- Hv in Hlo. lra.
Qed.

Lemma ratio_lt_half a s : 0 < s -> (a / s < 1 / 2 <-> a < s / 2).
Proof.
  intros Hs. assert (Ha : a = a / s * s) by (field; lra).
  split; intros H.
  - rewrite Ha. apply Rmult_lt_compat_r with (r := s) in H; lra.
  - apply Rmult_lt_reg_r with s; [lra |]. rewrite <- Ha. lra.
Qed.

Lemma ratio_gt_half a s : 0 < s -> (1 - 1 / 2 < a / s <-> s / 2 < a).
Proof.
  intros Hs. assert (Ha : a = a / s * s) by (field; lra).
  split; intros H.
  - rewrite Ha. apply Rmult_lt_compat_r with (r := s) in H; lra.
  - apply Rmult_lt_reg_r with s; [lra |]. rewrite <- Ha. lra.
Qed.

(** For a step above epsilon, either the result is a multiple strictly
    closer than half a step, or [value] is half-way and is returned as it
    is. *)
Lemma CalculateSnap_spec value snap :
  kEpsilon < snap ->
  exists q : Z,
    (Rabs (value - IZR q * snap) < snap / 2 /\
     CalculateSnap value snap = IZR q * snap) \/
    (value = (IZR q + 1 / 2) * snap /\ CalculateSnap value snap = value).
Proof.
  intros Heps. pose proof kEpsilon_pos as Hpos.
  assert (Hs : 0 < snap) by lra.
  destruct (fmod_decompose value snap Hs) as (q & Hmod & Hcase).
  unfold CalculateSnap, snap_tension, glm.abs, F.gtb.
  destruct (F.leb snap kEpsilon) eqn:E; [apply FFacts.leb_true in E; lra | clear E].
  rewrite Hmod. set (m := value - snap * IZR q) in *.
  assert (Hvm : value = IZR q * snap + m) by (unfold m; ring).
  clearbody m. clear Hmod.
  destruct (F.ltb (Rabs m / snap) (1 / 2)) eqn:Elt.
  - apply FFacts.ltb_true in Elt. apply (proj1 (ratio_lt_half _ _ Hs)) in Elt.
    exists q. left. split.
    + replace (value - IZR q * snap) with m by lra. exact Elt.
    + lra.
  - assert (Hge : snap / 2 <= Rabs m).
    { apply FFacts.ltb_false in Elt.
      destruct (Rlt_le_dec (Rabs m) (snap / 2)) as [H | H]; [| exact H].
      apply (proj2 (ratio_lt_half _ _ Hs)) in H. lra. }
    clear Elt.
    destruct (F.ltb (1 - 1 / 2) (Rabs m / snap)) eqn:Egt.
    + apply FFacts.ltb_true in Egt. apply (proj1 (ratio_gt_half _ _ Hs)) in Egt.
      destruct Hcase as [[Hv Hb] | [Hv Hb]].
      * assert (Hm : 0 <= m < snap) by lra.
        rewrite Rabs_right in Egt by lra.
        destruct (F.ltb value 0) eqn:Ev; [apply FFacts.ltb_true in Ev; lra |].
        exists (q + 1)%Z. left. rewrite plus_IZR. split.
        -- replace (value - (IZR q + 1) * snap) with (- (snap - m)) by lra.
           rewrite Rabs_Ropp, Rabs_right; lra.
        -- lra.
      * assert (Hm : - snap < m <= 0) by lra.
        rewrite Rabs_left1 in Egt by lra.
        destruct (F.ltb value 0) eqn:Ev; [| apply FFacts.ltb_false in Ev; lra].
        exists (q - 1)%Z. left. rewrite minus_IZR. split.
        -- replace (value - (IZR q - 1) * snap) with (snap + m) by lra.
           rewrite Rabs_right; lra.
        -- lra.
    + assert (Heq : Rabs m = snap / 2).
      { apply FFacts.ltb_false in Egt.
        destruct (Rle_lt_dec (Rabs m) (snap / 2)) as [H | H]; [lra |].
        apply (proj2 (ratio_gt_half _ _ Hs)) in H. lra. }
      destruct Hcase as [[Hv Hb] | [Hv Hb]].
      * assert (Hm : 0 <= m < snap) by lra.
        rewrite Rabs_right in Heq by lra.
        exists q. right. split; [lra | reflexivity].
      * assert (Hm : - snap < m <= 0) by lra.
        rewrite Rabs_left1 in Heq by lra.
        exists (q - 1)%Z. right. rewrite minus_IZR.
        split; [lra | reflexivity].
Qed.

Lemma halfway_far snap value (q : Z) :
  0 < snap -> halfway snap value ->
  snap / 2 <= Rabs (value - IZR q * snap).
Proof.
  intros Hs [k Hk]. subst value.
  replace ((IZR k + 1 / 2) * snap - IZR q * snap)
    with ((IZR k - IZR q) * snap + snap / 2) by field.
  destruct (Z_lt_le_dec k q) as [Hlt | Hle].
  - assert (H : IZR k <= IZR q - 1).
    { replace (IZR q - 1) with (IZR (q - 1)) by (rewrite minus_IZR; ring).
      apply IZR_le. lia. }
    assert (Hp : (IZR k - IZR q) * snap <= (-1) * snap)
      by (apply Rmult_le_compat_r; lra).
    rewrite Rabs_left1; lra.
  - assert (H : IZR q <= IZR k) by (apply IZR_le; lia).
    assert (Hp : 0 * snap <= (IZR k - IZR q) * snap)
      by (apply Rmult_le_compat_r; lra).
    rewrite Rabs_right; lra.
Qed.

Lemma CalculateSnap_halfway value snap :
  kEpsilon < snap -> halfway snap value -> CalculateSnap value snap = value.
Proof.
  intros Heps Hh. pose proof kEpsilon_pos.
  destruct (CalculateSnap_spec value snap Heps) as [q [[Hd _] | [_ Hr]]].
  - pose proof (halfway_far snap value q ltac:(lra) Hh). lra.
  - exact Hr.
Qed.

Lemma CalculateSnap_not_halfway value snap :
  kEpsilon < snap -> ~ halfway snap value ->
  nearest_multiple snap value (CalculateSnap value snap).
Proof.
  intros Heps Hn. pose proof kEpsilon_pos.
  destruct (CalculateSnap_spec value snap Heps) as [q [[Hd Hr] | [Hv _]]].
  - rewrite Hr. split; [exists q; reflexivity |]. intros j.
    destruct (Z.eq_dec j q) as [-> | Hne]; [lra |].
    apply Rabs_def2 in Hd. destruct Hd as [Hd1 Hd2].
    destruct (IZR_apart j q Hne) as [Hj | Hj].
    + assert (Hp : IZR j * snap <= (IZR q - 1) * snap)
        by (apply Rmult_le_compat_r; lra).
      rewrite (Rabs_right (value - IZR j * snap)) by lra.
      unfold Rabs. destruct (Rcase_abs _); lra.
    + assert (Hp : (IZR q + 1) * snap <= IZR j * snap)
        by (apply Rmult_le_compat_r; lra).
      rewrite (Rabs_left1 (value - IZR j * snap)) by lra.
      unfold Rabs. destruct (Rcase_abs _); lra.
  - exfalso. apply Hn. exists q. exact Hv.
Qed.

Lemma CalculateSnap_small_step value snap :
  snap <= kEpsilon -> CalculateSnap value snap = value.
Proof.
  intros H. unfold CalculateSnap. apply FFacts.leb_true in H. rewrite H. reflexivity.
Qed.

(** C3, amended: for a snap step greater than epsilon and a value that is
    not exactly half-way between two neighbouring multiples of the step,
    [CalculateSnap] returns the integer multiple of the step nearest to the
    value; a value exactly half-way is returned unchanged; and for a step
    less than or equal to epsilon the value is returned unchanged. *)
Theorem CalculateSnap_nearest (value snap : float) :
  (kEpsilon < snap -> ~ halfway snap value ->
   nearest_multiple snap value (CalculateSnap value snap)) /\
  (kEpsilon < snap -> halfway snap value ->
   CalculateSnap value snap = value) /\
  (snap <= kEpsilon -> CalculateSnap value snap = value).
Proof.
  split; [| split].
  - apply CalculateSnap_not_halfway.
  - apply CalculateSnap_halfway.
  - apply CalculateSnap_small_step.
Qed.

Lemma not_multiple_half : ~ is_multiple 1 (1 / 2).
Proof.
  intros [k Hk].
  assert (H : IZR (2 * k) = IZR 1) by (rewrite mult_IZR; lra).
  apply eq_IZR in H. lia.
Qed.

Lemma halfway_half : halfway 1 (1 / 2).
Proof. exists 0%Z. lra. Qed.

(** C3 as stated fails: with step 1, which is greater than epsilon, the
    value 1/2 is returned as it is, and 1/2 is not an integer multiple of
    1. *)
Lemma CalculateSnap_halfway_counterexample :
  kEpsilon < 1 /\ ~ nearest_multiple 1 (1 / 2) (CalculateSnap (1 / 2) 1).
Proof.
  split; [exact kEpsilon_lt_1 |].
  rewrite (CalculateSnap_halfway _ _ kEpsilon_lt_1 halfway_half).
  intros [Hm _]. exact (not_multiple_half Hm).
Qed.

Lemma not_halfway_7_10 : ~ halfway 1 (7 / 10).
Proof.
  intros [k Hk].
  assert (H : IZR (10 * k + 5) = IZR 7) by (rewrite plus_IZR, mult_IZR; lra).
  apply eq_IZR in H. lia.
Qed.

(** 7/10 snaps to a multiple of 1, 1/2 stays, and a zero step changes
    nothing. *)
Lemma CalculateSnap_nearest_witness :
  nearest_multiple 1 (7 / 10) (CalculateSnap (7 / 10) 1) /\
  CalculateSnap (1 / 2) 1 = 1 / 2 /\
  CalculateSnap (7 / 10) 0 = 7 / 10.
Proof.
  destruct (CalculateSnap_nearest (7 / 10) 1) as [Hnear _].
  destruct (CalculateSnap_nearest (1 / 2) 1) as [_ [Hhalf _]].
  destruct (CalculateSnap_nearest (7 / 10) 0) as [_ [_ Hsmall]].
  split; [| split].
  - exact (Hnear kEpsilon_lt_1 not_halfway_7_10).
  - exact (Hhalf kEpsilon_lt_1 halfway_half).
  - apply Hsmall. pose proof kEpsilon_pos. lra.
Defined.

Lemma kMinScale_le_1 : kMinScale <= 1.
Proof. unfold kMinScale. lra. Qed.

Lemma ContinueScale_eq h snap g gizmo :
  exists s0 : vec3,
    let s := lock_clamp (LockedAxesFlags gizmo) s0 in
    ContinueScale h snap g gizmo =
    set_LastScale s
      (if glm.neq3 (LastScale gizmo) s then
         set_Dirty true
           (set_ModelMatrix
              (ModelMatrix gizmo *m
               glm.scale (glm.mul3 s (ScaleValueOrigin gizmo)))
              (set_Scale s gizmo))
       else set_Scale s gizmo).
Proof.
  unfold ContinueScale; cbv zeta.
  match goal with
  | |- context [fold_left ?f [0%Z; 1%Z; 2%Z] ?a] => set (F := f); set (gz0 := a)
  end.
  assert (H0 : exists s0, gz0 = set_Scale s0 gizmo).
  { unfold gz0. destruct snap, (HasSingleAxis _); eexists; reflexivity. }
  destruct H0 as [s0 H0]. clearbody gz0. subst gz0.
  exists s0.
  assert (Hstep : forall s i,
             F (set_Scale s gizmo) i =
             set_Scale
               (glm.set3 s i
                  (if locked (LockedAxesFlags gizmo) i then 1
                   else glm.max (glm.at3 s i) kMinScale)) gizmo).
  { intros s i. unfold F, locked. simpl.
    destruct (truthy _); [| reflexivity].
    destruct i as [| [ | | ] | ]; reflexivity. }
  assert (HF : fold_left F [0; 1; 2]%Z (set_Scale s0 gizmo) =
               set_Scale (lock_clamp (LockedAxesFlags gizmo) s0) gizmo).
  { cbn [fold_left]. rewrite !Hstep. unfold lock_clamp.
    destruct s0; reflexivity. }
  rewrite HF. clear HF Hstep F.
  set (s := lock_clamp (LockedAxesFlags gizmo) s0). clearbody s.
  change (glm.neq3 (LastScale (set_Scale s gizmo)) (Scale (set_Scale s gizmo)))
    with (glm.neq3 (LastScale gizmo) s).
  destruct (glm.neq3 (LastScale gizmo) s); reflexivity.
Qed.

Lemma ContinueTranslation_eq snap g gizmo :
  exists delta : vec3,
    ContinueTranslation snap g gizmo =
    set_LastTranslationDelta delta
      (if glm.neq3 delta (LastTranslationDelta gizmo) then
         set_Dirty true
           (set_ModelMatrix
              (lock_translation (LockedAxesFlags gizmo)
                 (DragTranslationOrigin gizmo)
                 (glm.translate delta *m SourceModelMatrix gizmo))
              gizmo)
       else gizmo).
Proof.
  unfold ContinueTranslation; cbv zeta.
  match goal with
  | |- context [glm.neq3 ?d (LastTranslationDelta gizmo)] => set (delta := d)
  end.
  clearbody delta. exists delta.
  destruct (glm.neq3 delta (LastTranslationDelta gizmo)); [| reflexivity].
  set (m := glm.translate delta *m SourceModelMatrix gizmo). clearbody m.
  match goal with
  | |- context [fold_left ?f [0%Z; 1%Z; 2%Z] ?a] => set (F := f)
  end.
  assert (Hstep : forall m i,
             F (set_ModelMatrix m gizmo) i =
             set_ModelMatrix
               (if locked (LockedAxesFlags gizmo) i then
                  glm.set_col m 3
                    (glm.set4 (c3 m) i (glm.at3 (DragTranslationOrigin gizmo) i))
                else m) gizmo).
  { intros m' i. unfold F, locked. simpl.
    destruct (truthy _); reflexivity. }
  cbn [fold_left]. rewrite !Hstep. unfold lock_translation.
  destruct m as [m0 m1 m2 [tx ty tz tw]].
  destruct (locked (LockedAxesFlags gizmo) 0%Z),
    (locked (LockedAxesFlags gizmo) 1%Z), (locked (LockedAxesFlags gizmo) 2%Z);
    reflexivity.
Qed.

Lemma ContinueRotation_eq snap g gizmo :
  let angle := rotation_angle snap g gizmo in
  ContinueRotation snap g gizmo =
  set_RotationAngleOrigin angle
    (if F.neb angle (RotationAngleOrigin gizmo) then
       set_Dirty true
         (set_ModelMatrix (rotated_model gizmo angle)
            (set_RotationAngle angle gizmo))
     else set_RotationAngle angle gizmo).
Proof.
  unfold ContinueRotation, rotation_angle; cbv zeta.
  match goal with
  | |- context [match snap with Some _ => _ | None => ?a end] => set (gz0 := a)
  end.
  match goal with
  | |- context [F.neb (RotationAngle ?a) _] => set (gz1 := a)
  end.
  set (angle := match snap with Some _ => _ | None => _ end).
  assert (H1 : gz1 = set_RotationAngle angle gizmo).
  { unfold gz1, gz0, angle. destruct snap; reflexivity. }
  clearbody gz1 angle. subst gz1.
  change (RotationAngle (set_RotationAngle angle gizmo)) with angle.
  change (RotationAngleOrigin (set_RotationAngle angle gizmo))
    with (RotationAngleOrigin gizmo).
  destruct (F.neb angle (RotationAngleOrigin gizmo)); [| reflexivity].
  unfold rotated_model.
  change (Mode (set_RotationAngle angle gizmo)) with (Mode gizmo).
  destruct (Mode gizmo =? ImGuizmoMode_Local)%Z; reflexivity.
Qed.

(** ** The scale clamp *)

Lemma lock_clamp_bound flags s axis_idx :
  kMinScale <= glm.at3 (lock_clamp flags s) axis_idx.
Proof.
  pose proof kMinScale_le_1.
  unfold lock_clamp.
  destruct axis_idx as [| [ | | ] | ]; cbn [glm.at3 x3 y3 z3];
    destruct (locked flags _); auto using max_lower_bound.
Qed.

Lemma lock_clamp_locked flags s axis_idx :
  (0 <= axis_idx < 3)%Z -> locked flags axis_idx = true ->
  glm.at3 (lock_clamp flags s) axis_idx = 1.
Proof.
  intros Hi Hl. unfold lock_clamp.
  assert (axis_idx = 0 \/ axis_idx = 1 \/ axis_idx = 2)%Z
    as [-> | [-> | ->]] by lia;
    cbn [glm.at3 x3 y3 z3]; rewrite Hl; reflexivity.
Qed.

Lemma ContinueScale_Scale h snap g gizmo :
  exists s0 : vec3,
    Scale (ContinueScale h snap g gizmo) =
    lock_clamp (LockedAxesFlags gizmo) s0.
Proof.
  destruct (ContinueScale_eq h snap g gizmo) as [s0 H]. exists s0.
  cbv zeta in H. rewrite H. destruct (glm.neq3 _ _); reflexivity.
Qed.

Lemma ContinueScale_ModelMatrix h snap g gizmo :
  ModelMatrix (ContinueScale h snap g gizmo) = ModelMatrix gizmo \/
  ModelMatrix (ContinueScale h snap g gizmo) =
  ModelMatrix gizmo *m
  glm.scale
    (glm.mul3 (Scale (ContinueScale h snap g gizmo)) (ScaleValueOrigin gizmo)).
Proof.
  destruct (ContinueScale_eq h snap g gizmo) as [s0 H].
  cbv zeta in H. rewrite H. destruct (glm.neq3 _ _); [right | left]; reflexivity.
Qed.

Lemma mulm_scale_col (m : mat4) (v : vec3) (axis_idx : Z) :
  (0 <= axis_idx < 3)%Z ->
  glm.col (m *m glm.scale v) axis_idx =
  glm.scale4 (glm.col m axis_idx) (glm.at3 v axis_idx).
Proof.
  intros Hi.
  assert (axis_idx = 0 \/ axis_idx = 1 \/ axis_idx = 2)%Z
    as [-> | [-> | ->]] by lia;
    destruct m as [[a0 a1 a2 a3] [b0 b1 b2 b3] [d0 d1 d2 d3] [e0 e1 e2 e3]],
      v as [vx vy vz];
    cbv [glm.col glm.mulm glm.mulm_col glm.scale glm.scale4 glm.add4
         glm.identity glm.at3 c0 c1 c2 c3 x4 y4 z4 w4 x3 y3 z3];
    f_equal; ring.
Qed.

Lemma length4_scale4 (v : vec4) (s : float) :
  glm.length4 (glm.scale4 v s) = Rabs s * glm.length4 v.
Proof.
  unfold glm.length4. rewrite <- sqrt_Rsqr_abs, <- sqrt_mult_alt.
  - f_equal. destruct v as [vx vy vz vw].
    unfold glm.dot4, glm.scale4, Rsqr. simpl. ring.
  - apply Rle_0_sqr.
Qed.

(** [BeginScale] records the lengths of the caller's axis columns. *)
Lemma BeginScale_ScaleValueOrigin h g gizmo axis_idx :
  (0 <= axis_idx < 3)%Z ->
  glm.at3 (ScaleValueOrigin (BeginScale h g gizmo).2) axis_idx =
  glm.length4 (glm.col (SourceModelMatrix gizmo) axis_idx).
Proof.
  intros Hi. unfold BeginScale; cbv zeta.
  cbn [fold_left snd ScaleValueOrigin SourceModelMatrix set_ScaleValueOrigin
       set_ModelRelativeOrigin set_TranslationPlaneOrigin set_TranslationPlane
       set_DragTranslationOrigin set_Scale].
  generalize (ScaleValueOrigin gizmo). intros [ox oy oz].
  assert (axis_idx = 0 \/ axis_idx = 1 \/ axis_idx = 2)%Z
    as [-> | [-> | ->]] by lia; reflexivity.
Qed.

Lemma length4_pos (v : vec4) : glm.length4 v <> 0 -> 0 < glm.length4 v.
Proof.
  intros H. unfold glm.length4 in *.
  pose proof (sqrt_pos (glm.dot4 v v)). lra.
Qed.

(** A drag that starts on a model with no collapsed axis scales by positive
    factors only. *)
Lemma BeginScale_origin_positive h g gizmo axis_idx :
  (0 <= axis_idx < 3)%Z ->
  glm.length4 (glm.col (SourceModelMatrix gizmo) axis_idx) <> 0 ->
  0 < glm.at3 (ScaleValueOrigin (BeginScale h g gizmo).2) axis_idx.
Proof.
  intros Hi Hn. rewrite BeginScale_ScaleValueOrigin by exact Hi.
  apply length4_pos, Hn.
Qed.

(** With the quotient [ratio] taken in the real numbers, a continuation
    step of a scale drag leaves each of the three components of the scale
    vector at least 0.001; and on an axis whose drag-start scale
    [ScaleValueOrigin] is positive (it is the length of the caller's axis
    column, set by [BeginScale]), a column of the model matrix that has
    nonzero length keeps nonzero length.  Where the denominator of [ratio]
    is zero the code's quotient is not a real number: that case is followed
    in [IEEE.ContinueScale]. *)
Lemma ContinueScale_clamped_reals (h : Host) (snap : option vec3)
  (g : ImGuizmoContext) (gizmo : ImGuizmoWidget) :
  let gizmo' := ContinueScale h snap g gizmo in
  (forall axis_idx : ImGuizmoAxis,
     kMinScale <= glm.at3 (Scale gizmo') axis_idx /\
     0 < glm.at3 (Scale gizmo') axis_idx) /\
  (forall axis_idx : ImGuizmoAxis,
     (0 <= axis_idx < 3)%Z ->
     0 < glm.at3 (ScaleValueOrigin gizmo) axis_idx ->
     glm.length4 (glm.col (ModelMatrix gizmo) axis_idx) <> 0 ->
     glm.length4 (glm.col (ModelMatrix gizmo') axis_idx) <> 0).
Proof.
  intros gizmo'. subst gizmo'.
  assert (Hb : forall axis_idx,
             kMinScale <=
             glm.at3 (Scale (ContinueScale h snap g gizmo)) axis_idx).
  { intros i. destruct (ContinueScale_Scale h snap g gizmo) as [s0 ->].
    apply lock_clamp_bound. }
  split.
  - intros i. specialize (Hb i). unfold kMinScale in *. lra.
  - intros i Hi Ho Hn.
    destruct (ContinueScale_ModelMatrix h snap g gizmo) as [-> | ->];
      [exact Hn |].
    rewrite mulm_scale_col by exact Hi. rewrite length4_scale4.
    specialize (Hb i). unfold kMinScale in Hb.
    assert (Hf : 0 <
                 glm.at3
                   (glm.mul3 (Scale (ContinueScale h snap g gizmo))
                      (ScaleValueOrigin gizmo)) i).
    { assert (i = 0 \/ i = 1 \/ i = 2)%Z as [-> | [-> | ->]] by lia;
        cbn [glm.at3 glm.mul3 x3 y3 z3] in *;
        apply Rmult_lt_0_compat; lra. }
    rewrite Rabs_right by lra.
    apply Rmult_integral_contrapositive_currified; lra.
Qed.

(** ** Locked axes (C1) *)

Lemma ContinueTranslation_keeps_locked snap g gizmo axis_idx :
  (0 <= axis_idx < 3)%Z ->
  locked (LockedAxesFlags gizmo) axis_idx = true ->
  glm.at4 (c3 (ModelMatrix gizmo)) axis_idx =
  glm.at3 (DragTranslationOrigin gizmo) axis_idx ->
  glm.at4 (c3 (ModelMatrix (ContinueTranslation snap g gizmo))) axis_idx =
  glm.at3 (DragTranslationOrigin gizmo) axis_idx.
Proof.
  intros Hi Hl Hk.
  destruct (ContinueTranslation_eq snap g gizmo) as [delta ->].
  destruct (glm.neq3 _ _); [| exact Hk].
  cbn [ModelMatrix set_LastTranslationDelta set_Dirty set_ModelMatrix].
  unfold lock_translation.
  assert (axis_idx = 0 \/ axis_idx = 1 \/ axis_idx = 2)%Z
    as [-> | [-> | ->]] by lia;
    cbn [glm.set_col c3 glm.at4 glm.at3 x4 y4 z4]; rewrite Hl; reflexivity.
Qed.

Lemma ContinueScale_locked_one h snap g gizmo axis_idx :
  (0 <= axis_idx < 3)%Z ->
  locked (LockedAxesFlags gizmo) axis_idx = true ->
  glm.at3 (Scale (ContinueScale h snap g gizmo)) axis_idx = 1.
Proof.
  intros Hi Hl. destruct (ContinueScale_Scale h snap g gizmo) as [s0 ->].
  apply lock_clamp_locked; assumption.
Qed.

(** [ContinueRotation] does not read [LockedAxesFlags]. *)
Lemma ContinueRotation_ignores_locked snap g gizmo flags :
  ContinueRotation snap g (set_LockedAxesFlags flags gizmo) =
  set_LockedAxesFlags flags (ContinueRotation snap g gizmo).
Proof.
  unfold ContinueRotation; cbv zeta.
  change (CalculateAngleOnPlane g (set_LockedAxesFlags flags gizmo))
    with (CalculateAngleOnPlane g gizmo).
  destruct snap; cbn [RotationAngle set_RotationAngle RotationAngleOrigin
                      set_LockedAxesFlags];
    destruct (F.neb _ _); cbn [Mode set_RotationAngle set_LockedAxesFlags];
    try destruct (Mode gizmo =? ImGuizmoMode_Local)%Z; reflexivity.
Qed.

Lemma normalize3_unit (v : vec3) : glm.dot3 v v = 1 -> glm.normalize3 v = v.
Proof.
  intros H. unfold glm.normalize3, glm.inversesqrt. rewrite H, sqrt_1.
  destruct v as [a b c]. unfold glm.scale3. simpl. f_equal; field.
Qed.

Lemma normalize4_unit (v : vec4) : glm.dot4 v v = 1 -> glm.normalize4 v = v.
Proof.
  intros H. unfold glm.normalize4, glm.inversesqrt. rewrite H, sqrt_1.
  destruct v as [a b c d]. unfold glm.scale4. simpl. f_equal; field.
Qed.

Lemma ltb_lt a b : a < b -> F.ltb a b = true.
Proof. apply FFacts.ltb_true. Qed.

Lemma ltb_ge a b : b <= a -> F.ltb a b = false.
Proof. apply FFacts.ltb_false. Qed.

(** Closed vector expressions, down to real arithmetic. *)
Ltac vec_unfold :=
  cbv [glm.add3 glm.sub3 glm.scale3 glm.neg3 glm.mul3 glm.xyz glm.cross
       glm.dot3 glm.dot4 glm.vec4_of glm.splat3 glm.add4 glm.scale4
       x3 y3 z3 x4 y4 z4 w4].

(** Comparisons of closed real expressions. *)
Ltac decide_ltb :=
  repeat match goal with
         | |- context [F.ltb ?a ?b] =>
             first [ rewrite (ltb_lt a b) by (vec_unfold; lra)
                   | rewrite (ltb_ge a b) by (vec_unfold; lra) ]
         end.

Lemma locked_rotation_intersection :
  IntersectRayPlane (Ray locked_rotation_context)
    (TranslationPlane locked_rotation_gizmo) = 5.
Proof.
  unfold IntersectRayPlane, glm.abs.
  cbn [Ray locked_rotation_context set_Ray RayOrigin RayDirection
       TranslationPlane locked_rotation_gizmo set_LockedAxesFlags
       set_ActiveManipulationFlags set_ActiveOperation set_Mode
       set_TranslationPlane].
  vec_unfold.
  replace (1 * -1 + 0 * 0 + 0 * 0) with (- (1)) by ring.
  rewrite Rabs_Ropp, Rabs_R1.
  pose proof kEpsilon_lt_1. rewrite ltb_ge by lra. field.
Qed.

Lemma locked_rotation_angle :
  CalculateAngleOnPlane locked_rotation_context locked_rotation_gizmo = PI / 2.
Proof.
  unfold CalculateAngleOnPlane; cbv zeta.
  rewrite locked_rotation_intersection.
  cbn [Ray locked_rotation_context set_Ray RayOrigin RayDirection].
  cbn [ModelMatrix RotationVectorSource TranslationPlane locked_rotation_gizmo
       set_LockedAxesFlags set_ActiveManipulationFlags set_ActiveOperation
       set_Mode set_TranslationPlane set_RotationVectorSource
       NewImGuizmoWidget glm.identity c3].
  rewrite !normalize3_unit by (vec_unfold; ring).
  unfold glm.clamp, glm.max, glm.min.
  decide_ltb.
  replace (glm.dot3 _ _) with 0 by (vec_unfold; ring).
  rewrite acos_0. ring.
Qed.

(** C1 fails for rotation: [locked_rotation_gizmo] has its three axes locked
    and its y axis along y; one rotation step about its x axis, with the mouse
    ray of [locked_rotation_context], turns that y axis onto z.  Translation
    and scale honour the lock ([ContinueTranslation_keeps_locked],
    [ContinueScale_locked_one]); the rotation step never reads it
    ([ContinueRotation_ignores_locked]). *)
Theorem ContinueRotation_rotates_locked_axis :
  LockedAxesFlags locked_rotation_gizmo = ImGuizmoAxisFlags_ALL /\
  c1 (ModelMatrix locked_rotation_gizmo) = mkvec4 0 1 0 0 /\
  c1 (ModelMatrix
        (ContinueRotation None locked_rotation_context locked_rotation_gizmo)) =
  mkvec4 0 0 1 0.
Proof.
  split; [reflexivity | split; [reflexivity |]].
  rewrite ContinueRotation_eq; cbv zeta.
  unfold rotation_angle. rewrite locked_rotation_angle.
  change (RotationAngleOrigin locked_rotation_gizmo) with 0.
  assert (Hne : F.neb (PI / 2) 0 = true).
  { unfold F.neb. apply negb_true_iff, FFacts.eqb_false.
    pose proof PI_RGT_0. lra. }
  rewrite Hne.
  cbn [ModelMatrix set_RotationAngleOrigin set_Dirty set_ModelMatrix].
  unfold rotated_model.
  change (Mode locked_rotation_gizmo) with ImGuizmoMode_World.
  change (RotationAngleOrigin locked_rotation_gizmo) with 0.
  cbn [Z.eqb ImGuizmoMode_World ImGuizmoMode_Local].
  change (InversedModelMatrix locked_rotation_gizmo) with glm.identity.
  change (SourceModelMatrix locked_rotation_gizmo) with glm.identity.
  change (TranslationPlane locked_rotation_gizmo) with (mkvec4 1 0 0 0).
  rewrite Rminus_0_r.
  rewrite normalize4_unit
    by (cbv [glm.mulv glm.identity c0 c1 c2 c3]; vec_unfold; ring).
  unfold glm.rotate; cbv zeta.
  rewrite normalize3_unit
    by (cbv [glm.mulv glm.identity c0 c1 c2 c3]; vec_unfold; ring).
  rewrite cos_PI2, sin_PI2.
  cbv [glm.set_col glm.mulm glm.mulm_col glm.mulv glm.identity c0 c1 c2 c3].
  vec_unfold. f_equal; ring.
Qed.

Lemma translate_eq (v : vec3) :
  glm.translate v =
  mkmat4 (mkvec4 1 0 0 0) (mkvec4 0 1 0 0) (mkvec4 0 0 1 0)
    (mkvec4 (x3 v) (y3 v) (z3 v) 1).
Proof.
  destruct v as [a b c].
  cbv [glm.translate glm.set_col glm.identity glm.add4 glm.scale4
       c0 c1 c2 c3 x3 y3 z3 x4 y4 z4 w4].
  f_equal. f_equal; ring.
Qed.

Lemma Load_fields g model gizmo :
  SourceModelMatrix (Load g model gizmo) = model /\
  ModelMatrix (Load g model gizmo) = loaded_model (Mode gizmo) model /\
  Mode (Load g model gizmo) = Mode gizmo /\
  Dirty (Load g model gizmo) = Dirty gizmo /\
  ActiveManipulationFlags (Load g model gizmo) = ActiveManipulationFlags gizmo /\
  ActiveOperation (Load g model gizmo) = ActiveOperation gizmo.
Proof.
  unfold Load, loaded_model; cbv zeta.
  change (Mode (set_SourceModelMatrix model gizmo)) with (Mode gizmo).
  destruct (Mode gizmo =? ImGuizmoMode_Local)%Z.
  - repeat split; reflexivity.
  - repeat split; try reflexivity.
    exact (translate_eq (glm.xyz (c3 model))).
Qed.

Lemma Load_loaded g model gizmo : loaded (Load g model gizmo).
Proof.
  unfold loaded. destruct (Load_fields g model gizmo) as (-> & -> & -> & _).
  reflexivity.
Qed.

Lemma mulm_c3 (a b : mat4) : c3 b = mkvec4 0 0 0 1 -> c3 (a *m b) = c3 a.
Proof.
  intros H. unfold glm.mulm. cbn [c3]. rewrite H.
  destruct a as [a0 a1 a2 [tx ty tz tw]].
  cbv [glm.mulm_col glm.add4 glm.scale4 c0 c1 c2 c3 x4 y4 z4 w4].
  f_equal; ring.
Qed.

Lemma c3_scale v : c3 (glm.scale v) = mkvec4 0 0 0 1.
Proof. reflexivity. Qed.

Lemma c3_rotate a v : c3 (glm.rotate a v) = mkvec4 0 0 0 1.
Proof. reflexivity. Qed.

Lemma ContinueScale_c3 h snap g gizmo :
  c3 (ModelMatrix (ContinueScale h snap g gizmo)) = c3 (ModelMatrix gizmo).
Proof.
  destruct (ContinueScale_ModelMatrix h snap g gizmo) as [-> | ->];
    [reflexivity |].
  apply mulm_c3, c3_scale.
Qed.

Lemma ContinueRotation_ModelMatrix snap g gizmo :
  ModelMatrix (ContinueRotation snap g gizmo) = ModelMatrix gizmo \/
  ModelMatrix (ContinueRotation snap g gizmo) =
  rotated_model gizmo (rotation_angle snap g gizmo).
Proof.
  rewrite ContinueRotation_eq; cbv zeta.
  destruct (F.neb _ _); [right | left]; reflexivity.
Qed.

Lemma rotated_model_c3 gizmo angle :
  c3 (rotated_model gizmo angle) =
  if (Mode gizmo =? ImGuizmoMode_Local)%Z then c3 (ModelMatrix gizmo)
  else c3 (SourceModelMatrix gizmo).
Proof.
  unfold rotated_model; cbv zeta.
  destruct (Mode gizmo =? ImGuizmoMode_Local)%Z.
  - apply mulm_c3. rewrite mulm_c3 by apply c3_scale. apply c3_rotate.
  - reflexivity.
Qed.

(** A rotate or scale step keeps the x, y and z entries of column 3,
    whatever the last entry of the caller's column is. *)
(** Rotation keeps the whole fourth column of a loaded gizmo whose source
    matrix is affine. *)
Lemma ContinueRotation_c3 snap g gizmo :
  loaded gizmo ->
  w4 (c3 (SourceModelMatrix gizmo)) = 1 ->
  c3 (ModelMatrix (ContinueRotation snap g gizmo)) = c3 (ModelMatrix gizmo).
Proof.
  intros Hl Hw.
  destruct (ContinueRotation_ModelMatrix snap g gizmo) as [-> | ->];
    [reflexivity |].
  rewrite rotated_model_c3. red in Hl. rewrite Hl. unfold loaded_model.
  destruct (Mode gizmo =? ImGuizmoMode_Local)%Z; [reflexivity |].
  cbn [c3]. rewrite <- Hw.
  destruct (c3 (SourceModelMatrix gizmo)); reflexivity.
Qed.

Lemma rotate_scale_keep_position h snap g gizmo :
  loaded gizmo ->
  glm.xyz (c3 (ModelMatrix (ContinueRotation snap g gizmo))) =
  glm.xyz (c3 (ModelMatrix gizmo)) /\
  glm.xyz (c3 (ModelMatrix (ContinueScale h snap g gizmo))) =
  glm.xyz (c3 (ModelMatrix gizmo)).
Proof.
  intros Hl. split.
  - destruct (ContinueRotation_ModelMatrix snap g gizmo) as [-> | ->];
      [reflexivity |].
    rewrite rotated_model_c3. red in Hl. rewrite Hl. unfold loaded_model.
    destruct (Mode gizmo =? ImGuizmoMode_Local)%Z; reflexivity.
  - rewrite ContinueScale_c3. reflexivity.
Qed.




(** ** The gizmo store *)

Lemma GetCurrentGizmo_Store g gizmo id :
  CurrentGizmo g = Some id ->
  GetCurrentGizmo (StoreCurrentGizmo gizmo g) = Some gizmo.
Proof.
  intros H. unfold GetCurrentGizmo, StoreCurrentGizmo. rewrite H.
  cbn [CurrentGizmo GizmosById set_GizmosById]. rewrite H.
  apply lookup_insert_eq.
Qed.

(** Storing the current gizmo changes nothing but the store. *)
Lemma StoreCurrentGizmo_frame gizmo g :
  CurrentGizmo (StoreCurrentGizmo gizmo g) = CurrentGizmo g /\
  ActiveGizmo (StoreCurrentGizmo gizmo g) = ActiveGizmo g /\
  LockedModelMatrix (StoreCurrentGizmo gizmo g) = LockedModelMatrix g /\
  ConfigFlags (StoreCurrentGizmo gizmo g) = ConfigFlags g /\
  BackupModelMatrix (StoreCurrentGizmo gizmo g) = BackupModelMatrix g.
Proof.
  unfold StoreCurrentGizmo. destruct (CurrentGizmo g) eqn:E; cbn; auto.
Qed.

(** ** The public operations *)

(** [GizmoBehavior] only touches the activation state. *)
Lemma GizmoBehavior_frame h operation hover_flags g gizmo :
  let '(pressed, held, hover', g', gizmo') :=
    GizmoBehavior h operation hover_flags g gizmo in
  CurrentGizmo g' = CurrentGizmo g /\
  GizmosById g' = GizmosById g /\
  LockedModelMatrix g' = LockedModelMatrix g /\
  ConfigFlags g' = ConfigFlags g /\
  BackupModelMatrix g' = BackupModelMatrix g /\
  Ray g' = Ray g /\
  SourceModelMatrix gizmo' = SourceModelMatrix gizmo /\
  ModelMatrix gizmo' = ModelMatrix gizmo /\
  Mode gizmo' = Mode gizmo /\
  Dirty gizmo' = Dirty gizmo /\
  LockedAxesFlags gizmo' = LockedAxesFlags gizmo.
Proof.
  unfold GizmoBehavior; cbv zeta.
  generalize (if negb (bool_decide (ActiveGizmo g = CurrentGizmo g)) &&
                 bool_decide (ActiveGizmo g <> None)
              then ImGuizmoAxisFlags_None
              else
                if negb (ActiveOperation gizmo =? operation)%Z &&
                   truthy (ActiveOperation gizmo)
                then ImGuizmoAxisFlags_None
                else
                  if truthy (ActiveManipulationFlags gizmo)
                  then ActiveManipulationFlags gizmo
                  else hover_flags).
  intros hover'.
  destruct (truthy hover' && MouseClicked h 0);
    cbn [ActiveManipulationFlags set_ActiveManipulationFlags];
    destruct (_ && _); try destruct (MouseDown h 0); repeat split.
Qed.

Lemma kept_refl gizmo : kept gizmo gizmo.
Proof. repeat split; auto. Qed.

Lemma kept_trans a b c : kept a b -> kept b c -> kept a c.
Proof.
  intros (Hs1 & Hm1 & Hl1 & Hd1) (Hs2 & Hm2 & Hl2 & Hd2).
  repeat split; try congruence. auto.
Qed.


Lemma BeginRotation_frame h g gizmo :
  let '(g', gizmo') := BeginRotation h g gizmo in
  same_scope g g' /\ kept gizmo gizmo' /\
  ModelMatrix gizmo' = ModelMatrix gizmo.
Proof. repeat split; auto. Qed.

Lemma BeginScale_frame h g gizmo :
  let '(g', gizmo') := BeginScale h g gizmo in
  same_scope g g' /\ kept gizmo gizmo' /\
  ModelMatrix gizmo' = ModelMatrix gizmo.
Proof. repeat split; auto. Qed.

Lemma ContinueTranslation_kept snap g gizmo :
  kept gizmo (ContinueTranslation snap g gizmo).
Proof.
  destruct (ContinueTranslation_eq snap g gizmo) as [delta ->].
  destruct (glm.neq3 _ _); repeat split; auto.
Qed.

Lemma ContinueRotation_kept snap g gizmo :
  kept gizmo (ContinueRotation snap g gizmo).
Proof.
  rewrite ContinueRotation_eq; cbv zeta.
  destruct (F.neb _ _); repeat split; auto.
Qed.

Lemma ContinueScale_kept h snap g gizmo :
  kept gizmo (ContinueScale h snap g gizmo).
Proof.
  destruct (ContinueScale_eq h snap g gizmo) as [s0 H]. cbv zeta in H.
  rewrite H. destruct (glm.neq3 _ _); repeat split; auto.
Qed.

(** A gizmo with the same matrices and mode is as loaded as the other. *)
Lemma loaded_kept gizmo gizmo' :
  kept gizmo gizmo' -> ModelMatrix gizmo' = ModelMatrix gizmo ->
  loaded gizmo -> loaded gizmo'.
Proof.
  intros (Hs & Hm & _) Hmm Hl. unfold loaded in *. congruence.
Qed.

(** The three operations share one shape: hover flags, [GizmoBehavior],
    the begin step when pressed, the continue step when held. *)
Lemma operation_frame (h : Host) (operation : ImGuizmoOperation)
  (hover_flags : ImGuizmoAxisFlags)
  (begin : ImGuizmoContext -> ImGuizmoWidget ->
           ImGuizmoContext * ImGuizmoWidget)
  (continue : ImGuizmoContext -> ImGuizmoWidget -> ImGuizmoWidget)
  (w : World) (gizmo : ImGuizmoWidget) :
  (forall g gz,
     let '(g', gz') := begin g gz in
     same_scope g g' /\ kept gz gz' /\ ModelMatrix gz' = ModelMatrix gz) ->
  (forall g gz, kept gz (continue g gz)) ->
  GetCurrentGizmo (GImGuizmo w) = Some gizmo ->
  exists g' gizmo',
    (let '(pressed, held, hover_flags, g, gizmo) :=
       GizmoBehavior h operation hover_flags (GImGuizmo w) gizmo in
     let '(g, gizmo) := if pressed then begin g gizmo else (g, gizmo) in
     let gizmo := if held then continue g gizmo else gizmo in
     Some (tt, mkWorld (StoreCurrentGizmo gizmo g) (Mem w))) =
    Some (tt, mkWorld g' (Mem w)) /\
    GetCurrentGizmo g' = Some gizmo' /\
    same_scope (GImGuizmo w) g' /\
    kept gizmo gizmo' /\
    (loaded gizmo ->
     w4 (c3 (SourceModelMatrix gizmo)) = 1 ->
     (forall g gz,
        loaded gz ->
        w4 (c3 (SourceModelMatrix gz)) = 1 ->
        c3 (ModelMatrix (continue g gz)) = c3 (ModelMatrix gz)) ->
     c3 (ModelMatrix gizmo') = c3 (ModelMatrix gizmo)).
Proof.
  intros Hbegin Hcont Hg.
  assert (Hcur : exists id, CurrentGizmo (GImGuizmo w) = Some id).
  { unfold GetCurrentGizmo in Hg.
    destruct (CurrentGizmo (GImGuizmo w)) as [id |]; [eauto | discriminate]. }
  destruct Hcur as [id Hcur].
  pose proof (GizmoBehavior_frame h operation hover_flags (GImGuizmo w) gizmo)
    as HB.
  destruct (GizmoBehavior h operation hover_flags (GImGuizmo w) gizmo)
    as [[[[pressed held] hover'] g1] gz1].
  destruct HB as (Hb1 & _ & Hb3 & Hb4 & _ & _ & Hb7 & Hb8 & Hb9 & Hb10 & Hb11).
  assert (Hk1 : kept gizmo gz1) by (repeat split; congruence).
  assert (Hs1 : same_scope (GImGuizmo w) g1) by (repeat split; assumption).
  assert (H2 : exists g2 gz2,
             (if pressed then begin g1 gz1 else (g1, gz1)) = (g2, gz2) /\
             same_scope (GImGuizmo w) g2 /\ kept gizmo gz2 /\
             ModelMatrix gz2 = ModelMatrix gizmo).
  { destruct pressed.
    - specialize (Hbegin g1 gz1). destruct (begin g1 gz1) as [g2 gz2].
      destruct Hbegin as ((Hc & Hl & Hf) & Hk & Hm).
      destruct Hs1 as (Hc1 & Hl1 & Hf1).
      exists g2, gz2. repeat split; try congruence.
      + apply (kept_trans _ gz1); assumption.
      + apply (kept_trans _ gz1); assumption.
      + apply (kept_trans _ gz1); assumption.
      + apply (kept_trans _ gz1); assumption.
    - exists g1, gz1. repeat split; try apply Hs1; try apply Hk1; congruence. }
  destruct H2 as (g2 & gz2 & -> & Hs2 & Hk2 & Hm2).
  exists (StoreCurrentGizmo (if held then continue g2 gz2 else gz2) g2),
    (if held then continue g2 gz2 else gz2).
  split; [reflexivity |].
  destruct Hs2 as (Hc2 & Hl2 & Hf2).
  split; [apply (GetCurrentGizmo_Store _ _ id); congruence |].
  destruct (StoreCurrentGizmo_frame (if held then continue g2 gz2 else gz2) g2)
    as (Hsc & _ & Hsl & Hsf & _).
  split; [repeat split; congruence |].
  destruct held.
  - split.
    + apply (kept_trans _ gz2); [exact Hk2 | apply Hcont].
    + intros Hload Hw Hc3. rewrite Hc3, Hm2; [reflexivity | |].
      * apply (loaded_kept gizmo); assumption.
      * destruct Hk2 as (-> & _). exact Hw.
  - split; [exact Hk2 |]. intros _ _ _. rewrite Hm2. reflexivity.
Qed.


Lemma Rotate_frame h snap w gizmo :
  GetCurrentGizmo (GImGuizmo w) = Some gizmo ->
  exists g' gizmo',
    ImGuizmo.Rotate h snap w = Some (tt, mkWorld g' (Mem w)) /\
    GetCurrentGizmo g' = Some gizmo' /\
    same_scope (GImGuizmo w) g' /\
    kept gizmo gizmo' /\
    (loaded gizmo ->
     w4 (c3 (SourceModelMatrix gizmo)) = 1 ->
     c3 (ModelMatrix gizmo') = c3 (ModelMatrix gizmo)).
Proof.
  intros Hg. unfold ImGuizmo.Rotate. rewrite Hg. cbv zeta.
  generalize (FindRotationHover h (GImGuizmo w) gizmo). intros hover.
  destruct (operation_frame h ImGuizmoOperation_Rotate hover
              (BeginRotation h) (ContinueRotation snap) w gizmo
              (BeginRotation_frame h) (ContinueRotation_kept snap) Hg)
    as (g' & gizmo' & He & Hc & Hs & Hk & Hc3).
  exists g', gizmo'. repeat split; try apply Hs; try apply Hk; try assumption.
  intros Hl Hw. apply Hc3; [assumption | assumption |].
  intros g0 gz0. apply ContinueRotation_c3.
Qed.

Lemma Scale_frame h snap w gizmo :
  GetCurrentGizmo (GImGuizmo w) = Some gizmo ->
  exists g' gizmo',
    ImGuizmo.Scale h snap w = Some (tt, mkWorld g' (Mem w)) /\
    GetCurrentGizmo g' = Some gizmo' /\
    same_scope (GImGuizmo w) g' /\
    kept gizmo gizmo' /\
    (loaded gizmo ->
     w4 (c3 (SourceModelMatrix gizmo)) = 1 ->
     c3 (ModelMatrix gizmo') = c3 (ModelMatrix gizmo)).
Proof.
  intros Hg. unfold ImGuizmo.Scale. rewrite Hg. cbv zeta.
  generalize (FindScaleHover h (GImGuizmo w) gizmo). intros hover.
  destruct (operation_frame h ImGuizmoOperation_Scale hover
              (BeginScale h) (ContinueScale h snap) w gizmo
              (BeginScale_frame h) (ContinueScale_kept h snap) Hg)
    as (g' & gizmo' & He & Hc & Hs & Hk & Hc3).
  exists g', gizmo'. repeat split; try apply Hs; try apply Hk; try assumption.
  intros Hl Hw. apply Hc3; [assumption | assumption |].
  intros g0 gz0 _ _. apply ContinueScale_c3.
Qed.

(** During a rotation drag of the current gizmo, [Rotate] runs the rotation
    step on that gizmo, whatever its locked axes are. *)
Lemma Rotate_continues_drag h snap w gizmo :
  GetCurrentGizmo (GImGuizmo w) = Some gizmo ->
  ActiveGizmo (GImGuizmo w) = CurrentGizmo (GImGuizmo w) ->
  ActiveOperation gizmo = ImGuizmoOperation_Rotate ->
  ActiveManipulationFlags gizmo <> ImGuizmoAxisFlags_None ->
  MouseClicked h 0 = false ->
  MouseDown h 0 = true ->
  ImGuizmo.Rotate h snap w =
  Some
    (tt,
     mkWorld
       (StoreCurrentGizmo (ContinueRotation snap (GImGuizmo w) gizmo)
          (GImGuizmo w))
       (Mem w)).
Proof.
  intros Hg Ha Hop Hf Hc Hd. unfold ImGuizmo.Rotate. rewrite Hg. cbv zeta.
  generalize (FindRotationHover h (GImGuizmo w) gizmo). intros hover.
  unfold GizmoBehavior. cbv zeta.
  rewrite Ha, Hop, Hc, Hd.
  rewrite (bool_decide_eq_true_2 _ eq_refl).
  assert (Ht : truthy (ActiveManipulationFlags gizmo) = true).
  { unfold truthy. apply negb_true_iff, Z.eqb_neq. exact Hf. }
  rewrite Ht, Z.eqb_refl, andb_false_r. cbn.
  rewrite Z.eqb_refl, Ht. cbn. reflexivity.
Qed.

(** The rotation step reads the context's mouse ray only. *)
Lemma ContinueRotation_Ray snap g g' gizmo :
  Ray g = Ray g' ->
  ContinueRotation snap g gizmo = ContinueRotation snap g' gizmo.
Proof.
  intros H. unfold ContinueRotation, CalculateAngleOnPlane. rewrite H.
  reflexivity.
Qed.

(** The public [Rotate] reaches the rotation step on the locked gizmo. *)
Lemma Rotate_locked_rotation_world :
  ImGuizmo.Rotate drag_host None locked_rotation_world =
  Some
    (tt,
     mkWorld
       (StoreCurrentGizmo
          (ContinueRotation None locked_rotation_context
             locked_rotation_gizmo)
          (GImGuizmo locked_rotation_world))
       (Mem locked_rotation_world)).
Proof.
  rewrite (Rotate_continues_drag drag_host None locked_rotation_world
             locked_rotation_gizmo).
  - rewrite (ContinueRotation_Ray None (GImGuizmo locked_rotation_world)
               locked_rotation_context) by reflexivity.
    reflexivity.
  - unfold GetCurrentGizmo, locked_rotation_world.
    cbn [GImGuizmo CurrentGizmo GizmosById set_ActiveGizmo set_CurrentGizmo
         set_GizmosById].
    apply lookup_singleton_eq.
  - reflexivity.
  - reflexivity.
  - discriminate.
  - reflexivity.
  - reflexivity.
Qed.

(** ** [Begin] *)

Lemma Begin_gizmo_fields h mode locked_axes g model gz :
  let gizmo := Begin_gizmo h mode locked_axes g model gz in
  SourceModelMatrix gizmo = model /\
  ModelMatrix gizmo = loaded_model mode model /\
  Mode gizmo = mode /\
  LockedAxesFlags gizmo = locked_axes /\
  Dirty gizmo = Dirty gz /\
  ActiveManipulationFlags gizmo =
  (if MouseDown h 0 then ActiveManipulationFlags gz
   else ImGuizmoAxisFlags_None).
Proof.
  unfold Begin_gizmo; cbv zeta.
  assert (H1 : forall gz1,
             gz1 =
             (if negb (MouseDown h 0)
              then set_ActiveManipulationFlags ImGuizmoAxisFlags_None gz
              else gz) ->
             Dirty gz1 = Dirty gz /\
             ActiveManipulationFlags gz1 =
             (if MouseDown h 0 then ActiveManipulationFlags gz
              else ImGuizmoAxisFlags_None)).
  { intros gz1 ->. destruct (MouseDown h 0); split; reflexivity. }
  specialize (H1 _ eq_refl). revert H1.
  generalize (if negb (MouseDown h 0)
              then set_ActiveManipulationFlags ImGuizmoAxisFlags_None gz
              else gz).
  intros gz1 [H1d H1f].
  assert (H2 : forall gz2,
             gz2 =
             (if negb (truthy (ActiveManipulationFlags gz1))
              then set_ActiveOperation ImGuizmoOperation_None gz1
              else gz1) ->
             Dirty gz2 = Dirty gz1 /\
             ActiveManipulationFlags gz2 = ActiveManipulationFlags gz1).
  { intros gz2 ->. destruct (negb _); split; reflexivity. }
  specialize (H2 _ eq_refl). revert H2.
  generalize (if negb (truthy (ActiveManipulationFlags gz1))
              then set_ActiveOperation ImGuizmoOperation_None gz1
              else gz1).
  intros gz2 [H2d H2f].
  generalize (Load_fields g model (set_Mode mode gz2)).
  generalize (Load g model (set_Mode mode gz2)).
  intros L (Hs & Hm & Hmode & Hd & Hf & _).
  cbn [SourceModelMatrix ModelMatrix Mode LockedAxesFlags Dirty
       ActiveManipulationFlags set_LockedAxesFlags set_Mode] in *.
  rewrite Hs, Hm, Hmode, Hd, Hf, H2d, H2f, H1d, H1f. repeat split.
Qed.

Lemma Begin_eq h mode model_matrix locked_axes w model :
  model_matrix <> 0%Z ->
  LockedModelMatrix (GImGuizmo w) = 0%Z ->
  Mem w !! model_matrix = Some model ->
  exists visible g1 g2,
    ImGuizmo.Begin h mode model_matrix locked_axes w =
    Some
      (visible,
       mkWorld
         (StoreCurrentGizmo
            (Begin_gizmo h mode locked_axes g1 model
               (default (NewImGuizmoWidget (model_matrix mod 2 ^ 32)%Z)
                  (FindGizmoById (GImGuizmo w) (model_matrix mod 2 ^ 32)%Z)))
            g2)
         (Mem w)) /\
    CurrentGizmo g2 = Some (model_matrix mod 2 ^ 32)%Z /\
    LockedModelMatrix g2 = model_matrix /\
    ConfigFlags g2 = ConfigFlags (GImGuizmo w) /\
    BackupModelMatrix g2 = BackupModelMatrix (GImGuizmo w).
Proof.
  intros Hp Hl Hm. unfold ImGuizmo.Begin, Begin_gizmo.
  apply Z.eqb_neq in Hp. rewrite Hp, Hl, Hm. cbn [Z.eqb negb].
  unfold CreateNewGizmo. unfold FindGizmoById at 1.
  cbn [GizmosById set_LockedModelMatrix set_Viewport].
  unfold FindGizmoById.
  destruct (GizmosById (GImGuizmo w) !! (model_matrix mod 2 ^ 32)%Z)
    as [gz |]; destruct (MouseDown h 0); cbn [negb default];
    (do 3 eexists; split; [reflexivity |]);
    repeat split; reflexivity.
Qed.

(** C4: [Begin], called on a non-null matrix outside any other
    [Begin]/[End] scope, returns and leaves a current gizmo whose working
    model matrix is, in Local mode, the caller's matrix with its three axis
    columns normalized and its translation column kept, and in World mode the
    translation by the caller's translation column: identity axes and
    column 3 equal to (x, y, z, 1). *)
Theorem Begin_loads_model (h : Host) (mode : ImGuizmoMode) (model_matrix : Z)
  (locked_axes : ImGuizmoAxisFlags) (w : World) (model : mat4) :
  model_matrix <> 0%Z ->
  LockedModelMatrix (GImGuizmo w) = 0%Z ->
  Mem w !! model_matrix = Some model ->
  exists (visible : bool) (w' : World) (gizmo : ImGuizmoWidget),
    ImGuizmo.Begin h mode model_matrix locked_axes w = Some (visible, w') /\
    GetCurrentGizmo (GImGuizmo w') = Some gizmo /\
    (mode = ImGuizmoMode_Local ->
     ModelMatrix gizmo =
     mkmat4 (glm.normalize4 (c0 model)) (glm.normalize4 (c1 model))
       (glm.normalize4 (c2 model)) (c3 model)) /\
    (mode = ImGuizmoMode_World ->
     ModelMatrix gizmo =
     mkmat4 (mkvec4 1 0 0 0) (mkvec4 0 1 0 0) (mkvec4 0 0 1 0)
       (mkvec4 (x4 (c3 model)) (y4 (c3 model)) (z4 (c3 model)) 1)).
Proof.
  intros Hp Hl Hm.
  destruct (Begin_eq h mode model_matrix locked_axes w model Hp Hl Hm)
    as (visible & g1 & g2 & Heq & Hcur & _).
  pose proof (Begin_gizmo_fields h mode locked_axes g1 model
                (default (NewImGuizmoWidget (model_matrix mod 2 ^ 32)%Z)
                   (FindGizmoById (GImGuizmo w) (model_matrix mod 2 ^ 32)%Z)))
    as HF.
  cbv zeta in HF. destruct HF as (_ & Hmm & _).
  revert Heq Hmm. generalize (Begin_gizmo h mode locked_axes g1 model
    (default (NewImGuizmoWidget (model_matrix mod 2 ^ 32)%Z)
       (FindGizmoById (GImGuizmo w) (model_matrix mod 2 ^ 32)%Z))).
  intros gizmo Heq Hmm.
  exists visible, (mkWorld (StoreCurrentGizmo gizmo g2) (Mem w)), gizmo.
  split; [exact Heq |]. split.
  - exact (GetCurrentGizmo_Store g2 gizmo _ Hcur).
  - rewrite Hmm. split; intros ->; reflexivity.
Qed.

(** What [Begin] leaves behind: the gizmo in scope and the context. *)
Lemma Begin_spec h mode model_matrix locked_axes w model :
  model_matrix <> 0%Z ->
  LockedModelMatrix (GImGuizmo w) = 0%Z ->
  Mem w !! model_matrix = Some model ->
  exists visible g' gizmo,
    ImGuizmo.Begin h mode model_matrix locked_axes w =
    Some (visible, mkWorld g' (Mem w)) /\
    GetCurrentGizmo g' = Some gizmo /\
    LockedModelMatrix g' = model_matrix /\
    ConfigFlags g' = ConfigFlags (GImGuizmo w) /\
    BackupModelMatrix g' = BackupModelMatrix (GImGuizmo w) /\
    SourceModelMatrix gizmo = model /\
    ModelMatrix gizmo = loaded_model mode model /\
    Mode gizmo = mode /\
    LockedAxesFlags gizmo = locked_axes /\
    Dirty gizmo =
    Dirty
      (default (NewImGuizmoWidget (model_matrix mod 2 ^ 32)%Z)
         (FindGizmoById (GImGuizmo w) (model_matrix mod 2 ^ 32)%Z)) /\
    ActiveManipulationFlags gizmo =
    (if MouseDown h 0 then
       ActiveManipulationFlags
         (default (NewImGuizmoWidget (model_matrix mod 2 ^ 32)%Z)
            (FindGizmoById (GImGuizmo w) (model_matrix mod 2 ^ 32)%Z))
     else ImGuizmoAxisFlags_None).
Proof.
  intros Hp Hl Hm.
  destruct (Begin_eq h mode model_matrix locked_axes w model Hp Hl Hm)
    as (visible & g1 & g2 & Heq & Hcur & Hlock & Hcfg & Hbak).
  pose proof (Begin_gizmo_fields h mode locked_axes g1 model
                (default (NewImGuizmoWidget (model_matrix mod 2 ^ 32)%Z)
                   (FindGizmoById (GImGuizmo w) (model_matrix mod 2 ^ 32)%Z)))
    as HF.
  cbv zeta in HF. revert Heq HF.
  generalize (Begin_gizmo h mode locked_axes g1 model
    (default (NewImGuizmoWidget (model_matrix mod 2 ^ 32)%Z)
       (FindGizmoById (GImGuizmo w) (model_matrix mod 2 ^ 32)%Z))).
  intros gizmo Heq HF.
  destruct (StoreCurrentGizmo_frame gizmo g2) as (_ & _ & Hl' & Hc' & Hb').
  exists visible, (StoreCurrentGizmo gizmo g2), gizmo.
  split; [exact Heq |].
  split; [exact (GetCurrentGizmo_Store g2 gizmo _ Hcur) |].
  rewrite Hl', Hc', Hb', Hlock, Hcfg, Hbak.
  split; [reflexivity |]. split; [reflexivity |]. split; [reflexivity |].
  exact HF.
Qed.

(** [Begin] followed by [Rotate] or by [Scale]: the gizmo's translation
    column is the one [Begin] loaded. *)
Lemma Begin_Rotate_keeps_translation h mode model_matrix locked_axes snap w
  model :
  model_matrix <> 0%Z ->
  LockedModelMatrix (GImGuizmo w) = 0%Z ->
  Mem w !! model_matrix = Some model ->
  w4 (c3 model) = 1 ->
  exists visible w1 w2 gizmo,
    ImGuizmo.Begin h mode model_matrix locked_axes w = Some (visible, w1) /\
    ImGuizmo.Rotate h snap w1 = Some (tt, w2) /\
    GetCurrentGizmo (GImGuizmo w2) = Some gizmo /\
    c3 (ModelMatrix gizmo) = c3 model /\
    Mem w2 = Mem w.
Proof.
  intros Hp Hl Hm Hw.
  destruct (Begin_spec h mode model_matrix locked_axes w model Hp Hl Hm)
    as (visible & g1 & gz1 & Hb & Hc1 & _ & _ & _ & Hs & Hmm & Hmode & _).
  destruct (Rotate_frame h snap (mkWorld g1 (Mem w)) gz1 Hc1)
    as (g2 & gz2 & Hr & Hc2 & _ & _ & Hc3).
  exists visible, (mkWorld g1 (Mem w)), (mkWorld g2 (Mem w)), gz2.
  split; [exact Hb |]. split; [exact Hr |]. split; [exact Hc2 |].
  split; [| reflexivity].
  rewrite Hc3.
  - rewrite Hmm. unfold loaded_model.
    destruct (mode =? ImGuizmoMode_Local)%Z; [reflexivity |].
    cbn [c3]. rewrite <- Hw. destruct (c3 model); reflexivity.
  - unfold loaded. rewrite Hmm, Hmode, Hs. reflexivity.
  - rewrite Hs. exact Hw.
Qed.

Lemma Begin_Scale_keeps_translation h mode model_matrix locked_axes snap w
  model :
  model_matrix <> 0%Z ->
  LockedModelMatrix (GImGuizmo w) = 0%Z ->
  Mem w !! model_matrix = Some model ->
  w4 (c3 model) = 1 ->
  exists visible w1 w2 gizmo,
    ImGuizmo.Begin h mode model_matrix locked_axes w = Some (visible, w1) /\
    ImGuizmo.Scale h snap w1 = Some (tt, w2) /\
    GetCurrentGizmo (GImGuizmo w2) = Some gizmo /\
    c3 (ModelMatrix gizmo) = c3 model /\
    Mem w2 = Mem w.
Proof.
  intros Hp Hl Hm Hw.
  destruct (Begin_spec h mode model_matrix locked_axes w model Hp Hl Hm)
    as (visible & g1 & gz1 & Hb & Hc1 & _ & _ & _ & Hs & Hmm & Hmode & _).
  destruct (Scale_frame h snap (mkWorld g1 (Mem w)) gz1 Hc1)
    as (g2 & gz2 & Hr & Hc2 & _ & _ & Hc3).
  exists visible, (mkWorld g1 (Mem w)), (mkWorld g2 (Mem w)), gz2.
  split; [exact Hb |]. split; [exact Hr |]. split; [exact Hc2 |].
  split; [| reflexivity].
  rewrite Hc3.
  - rewrite Hmm. unfold loaded_model.
    destruct (mode =? ImGuizmoMode_Local)%Z; [reflexivity |].
    cbn [c3]. rewrite <- Hw. destruct (c3 model); reflexivity.
  - unfold loaded. rewrite Hmm, Hmode, Hs. reflexivity.
  - rewrite Hs. exact Hw.
Qed.

(** ** [End] *)

Lemma End_eq h w gizmo :
  LockedModelMatrix (GImGuizmo w) <> 0%Z ->
  GetCurrentGizmo (GImGuizmo w) = Some gizmo ->
  ImGuizmo.End h w =
  Some
    (reversing h (GImGuizmo w) gizmo || Dirty gizmo,
     mkWorld
       (StoreCurrentGizmo (End_gizmo h (GImGuizmo w) gizmo)
          (set_LockedModelMatrix 0 (GImGuizmo w)))
       (if reversing h (GImGuizmo w) gizmo || Dirty gizmo then
          <[LockedModelMatrix (GImGuizmo w) :=
              ModelMatrix (End_gizmo h (GImGuizmo w) gizmo)]> (Mem w)
        else Mem w)).
Proof.
  intros Hl Hg. unfold ImGuizmo.End, End_gizmo, reversing.
  apply Z.eqb_neq in Hl. rewrite Hl, Hg.
  destruct (truthy (Z.land _ _) && MouseClicked h 1 &&
            truthy (ActiveManipulationFlags gizmo)).
  - reflexivity.
  - cbn [orb]. destruct (Dirty gizmo); reflexivity.
Qed.

Lemma End_gizmo_fields h g gizmo :
  Dirty (End_gizmo h g gizmo) = false /\
  ModelMatrix (End_gizmo h g gizmo) =
  (if reversing h g gizmo then BackupModelMatrix g else ModelMatrix gizmo) /\
  ActiveManipulationFlags (End_gizmo h g gizmo) =
  (if reversing h g gizmo then ImGuizmoAxisFlags_None
   else ActiveManipulationFlags gizmo).
Proof.
  unfold End_gizmo. destruct (reversing h g gizmo).
  - repeat split.
  - cbv zeta. destruct (Dirty gizmo) eqn:E; repeat split; assumption.
Qed.

(** [End] by itself: inside a [Begin]/[End] scope it returns; it returns
    true exactly when the gizmo is dirty on entry or the manipulation is
    being cancelled ([reversing]).  When it returns true the caller's matrix
    receives the gizmo's model matrix, which is the backup matrix in case of
    a cancel; when it returns false the caller's memory is unchanged.  The
    dirty flag is cleared either way. *)
Lemma End_updates_iff_dirty (h : Host) (w : World) (gizmo : ImGuizmoWidget) :
  LockedModelMatrix (GImGuizmo w) <> 0%Z ->
  GetCurrentGizmo (GImGuizmo w) = Some gizmo ->
  exists (updated : bool) (w' : World) (gizmo' : ImGuizmoWidget),
    ImGuizmo.End h w = Some (updated, w') /\
    GetCurrentGizmo (GImGuizmo w') = Some gizmo' /\
    (updated = true <->
     Dirty gizmo = true \/ reversing h (GImGuizmo w) gizmo = true) /\
    (updated = true ->
     Mem w' =
     <[LockedModelMatrix (GImGuizmo w) := ModelMatrix gizmo']> (Mem w)) /\
    (updated = false -> Mem w' = Mem w) /\
    ModelMatrix gizmo' =
    (if reversing h (GImGuizmo w) gizmo then BackupModelMatrix (GImGuizmo w)
     else ModelMatrix gizmo) /\
    Dirty gizmo' = false.
Proof.
  intros Hl Hg.
  assert (Hcur : exists id, CurrentGizmo (GImGuizmo w) = Some id).
  { unfold GetCurrentGizmo in Hg.
    destruct (CurrentGizmo (GImGuizmo w)) as [id |]; [eauto | discriminate]. }
  destruct Hcur as [id Hcur].
  destruct (End_gizmo_fields h (GImGuizmo w) gizmo) as (Hd & Hm & _).
  eexists _, _, (End_gizmo h (GImGuizmo w) gizmo).
  split; [exact (End_eq h w gizmo Hl Hg) |].
  cbn [Mem GImGuizmo].
  split; [exact (GetCurrentGizmo_Store (set_LockedModelMatrix 0 (GImGuizmo w)) _ id Hcur) |].
  destruct (reversing h (GImGuizmo w) gizmo), (Dirty gizmo); cbn [orb];
    repeat split; intros; try (exact Hm); try (exact Hd);
    try discriminate; auto.
  destruct H; discriminate.
Qed.

(** ** Cancelling *)

(** Every drag saves the reference matrix when it begins. *)
Lemma Begin_drag_saves_backup h g gizmo :
  BackupModelMatrix (BeginTranslation h g gizmo).1 = SourceModelMatrix gizmo /\
  BackupModelMatrix (BeginRotation h g gizmo).1 = SourceModelMatrix gizmo /\
  BackupModelMatrix (BeginScale h g gizmo).1 = SourceModelMatrix gizmo.
Proof. repeat split. Qed.

(** [End] by itself: with [ImGuizmoConfigFlags_HasReversing] set, the right
    mouse button clicked and a manipulation active, [End] returns true,
    writes [BackupModelMatrix] into the caller's matrix and into the gizmo,
    and deactivates the manipulation. *)
Lemma End_cancels_manipulation (h : Host) (w : World)
  (gizmo : ImGuizmoWidget) :
  LockedModelMatrix (GImGuizmo w) <> 0%Z ->
  GetCurrentGizmo (GImGuizmo w) = Some gizmo ->
  Z.land (ConfigFlags (GImGuizmo w)) ImGuizmoConfigFlags_HasReversing <> 0%Z ->
  MouseClicked h 1 = true ->
  ActiveManipulationFlags gizmo <> ImGuizmoAxisFlags_None ->
  exists (w' : World) (gizmo' : ImGuizmoWidget),
    ImGuizmo.End h w = Some (true, w') /\
    Mem w' =
    <[LockedModelMatrix (GImGuizmo w) := BackupModelMatrix (GImGuizmo w)]>
      (Mem w) /\
    GetCurrentGizmo (GImGuizmo w') = Some gizmo' /\
    ModelMatrix gizmo' = BackupModelMatrix (GImGuizmo w) /\
    ActiveManipulationFlags gizmo' = ImGuizmoAxisFlags_None.
Proof.
  intros Hl Hg Hflag Hclick Hactive.
  assert (Hrev : reversing h (GImGuizmo w) gizmo = true).
  { unfold reversing, truthy. rewrite Hclick.
    unfold ImGuizmoAxisFlags_None in Hactive.
    apply Z.eqb_neq in Hflag, Hactive. rewrite Hflag, Hactive. reflexivity. }
  assert (Hcur : exists id, CurrentGizmo (GImGuizmo w) = Some id).
  { unfold GetCurrentGizmo in Hg.
    destruct (CurrentGizmo (GImGuizmo w)) as [id |]; [eauto | discriminate]. }
  destruct Hcur as [id Hcur].
  destruct (End_gizmo_fields h (GImGuizmo w) gizmo) as (_ & Hm & Hf).
  rewrite Hrev in Hm, Hf.
  pose proof (End_eq h w gizmo Hl Hg) as Heq. rewrite Hrev in Heq.
  cbn [orb] in Heq. rewrite Hm in Heq.
  eexists _, (End_gizmo h (GImGuizmo w) gizmo).
  split; [exact Heq |]. cbn [Mem GImGuizmo].
  split; [reflexivity |].
  split; [exact (GetCurrentGizmo_Store
                   (set_LockedModelMatrix 0 (GImGuizmo w)) _ id Hcur) |].
  split; [exact Hm | exact Hf].
Qed.

(** C8: on every world [Manipulate] gives the result and the final world of
    the sequence [Begin] (no locked axes), then, when [Begin] returned true,
    [Translate], [Rotate] or [Scale] according to the operation, then [End];
    it fails exactly when the sequence does, and its return value is that of
    the final [End]. *)
Theorem Manipulate_is_sequence (h : Host) (mode : ImGuizmoMode)
  (operation : ImGuizmoOperation) (model_matrix : Z) (snap : option vec3)
  (w : World) :
  ImGuizmo.Manipulate h mode operation model_matrix snap w =
  Manipulate_sequence h mode operation model_matrix snap w.
Proof.
  unfold ImGuizmo.Manipulate, Manipulate_sequence, bind.
  destruct (ImGuizmo.Begin h mode model_matrix ImGuizmoAxisFlags_None w)
    as [[[] w1] |]; [| reflexivity | reflexivity].
  unfold operation_call, ret.
  destruct operation as [| p | p]; [reflexivity | | reflexivity].
  destruct p as [[p | p |] | [p | p |] |]; reflexivity.
Qed.

(** C2 as stated fails: in [cancel_world] the gizmo is in the middle of a
    drag and not dirty; a frame with the right button clicked runs [Begin]
    and then [End] with no operation in between, and [End] returns true and
    replaces the caller's matrix by the backup. *)
Lemma End_true_without_manipulation :
  exists (visible : bool) (w1 w2 : World) (gizmo : ImGuizmoWidget),
    ImGuizmo.Begin cancel_host ImGuizmoMode_Local 16 ImGuizmoAxisFlags_None
      cancel_world = Some (visible, w1) /\
    GetCurrentGizmo (GImGuizmo w1) = Some gizmo /\
    Dirty gizmo = false /\
    ImGuizmo.End cancel_host w1 = Some (true, w2) /\
    Mem w1 !! 16%Z = Some moved_matrix /\
    Mem w2 !! 16%Z = Some glm.identity /\
    moved_matrix <> glm.identity.
Proof.
  assert (Hp : 16%Z <> 0%Z) by discriminate.
  assert (Hm : Mem cancel_world !! 16%Z = Some moved_matrix)
    by apply lookup_singleton_eq.
  destruct (Begin_spec cancel_host ImGuizmoMode_Local 16
              ImGuizmoAxisFlags_None cancel_world moved_matrix Hp eq_refl Hm)
    as (visible & g1 & gizmo & Heq & Hcur & Hlock & Hcfg & Hbak & _ & _ & _ &
        _ & Hdirty & Hactive).
  assert (Hfind : FindGizmoById (GImGuizmo cancel_world) (16 mod 2 ^ 32)%Z =
                  Some dragged_gizmo) by apply lookup_singleton_eq.
  rewrite Hfind in Hdirty, Hactive. cbn in Hdirty, Hactive, Hcfg, Hbak.
  assert (Hl1 : LockedModelMatrix g1 <> 0%Z) by (rewrite Hlock; exact Hp).
  pose proof (End_eq cancel_host (mkWorld g1 (Mem cancel_world)) gizmo Hl1 Hcur)
    as Hend.
  destruct (End_gizmo_fields cancel_host g1 gizmo) as (_ & Hmm & _).
  assert (Hrev : reversing cancel_host g1 gizmo = true).
  { unfold reversing. rewrite Hcfg, Hactive. reflexivity. }
  cbn [GImGuizmo Mem] in Hend. rewrite Hrev in Hend, Hmm.
  rewrite Hmm, Hbak, Hlock in Hend. cbn [orb] in Hend.
  eexists visible, _, _, gizmo.
  split; [exact Heq |]. split; [exact Hcur |]. split; [exact Hdirty |].
  split; [exact Hend |]. split; [exact Hm |].
  split; [apply lookup_insert_eq |].
  intros H. injection H as H. lra.
Qed.

Lemma scoped_world_locked : LockedModelMatrix (GImGuizmo scoped_world) <> 0%Z.
Proof. discriminate. Qed.

Lemma scoped_world_current :
  GetCurrentGizmo (GImGuizmo scoped_world) = Some dragged_gizmo.
Proof. apply lookup_singleton_eq. Qed.

(** ** Instances *)


(** C4 in World mode on [cancel_world]. *)
Lemma Begin_loads_model_witness :
  exists (visible : bool) (w' : World) (gizmo : ImGuizmoWidget),
    ImGuizmo.Begin cancel_host ImGuizmoMode_World 16 ImGuizmoAxisFlags_None
      cancel_world = Some (visible, w') /\
    GetCurrentGizmo (GImGuizmo w') = Some gizmo /\
    ModelMatrix gizmo = moved_matrix.
Proof.
  destruct (Begin_loads_model cancel_host ImGuizmoMode_World 16
              ImGuizmoAxisFlags_None cancel_world moved_matrix)
    as (visible & w' & gizmo & Hb & Hg & _ & Hworld).
  - discriminate.
  - reflexivity.
  - apply lookup_singleton_eq.
  - exists visible, w', gizmo. split; [exact Hb |]. split; [exact Hg |].
    exact (Hworld eq_refl).
Defined.

(** * Further properties *)

(** ** Axis and plane flags *)

Lemma axis_cases (i : Z) : (0 <= i < 3)%Z -> i = 0%Z \/ i = 1%Z \/ i = 2%Z.
Proof. lia. Qed.

Lemma HasSingleAxis_cases flags :
  HasSingleAxis flags = true ->
  flags = ImGuizmoAxisFlags_X \/ flags = ImGuizmoAxisFlags_Y \/
  flags = ImGuizmoAxisFlags_Z.
Proof.
  unfold HasSingleAxis. intros H.
  apply orb_true_iff in H as [H | H];
    [apply orb_true_iff in H as [H | H] |];
    apply Z.eqb_eq in H; auto.
Qed.

Lemma HasPlane_cases flags :
  HasPlane flags = true ->
  flags = ImGuizmoAxisFlags_YZ \/ flags = ImGuizmoAxisFlags_ZX \/
  flags = ImGuizmoAxisFlags_XY.
Proof.
  unfold HasPlane. destruct (flags =? ImGuizmoAxisFlags_ALL)%Z; [discriminate |].
  intros H.
  apply orb_true_iff in H as [H | H];
    [apply orb_true_iff in H as [H | H] |];
    apply Z.eqb_eq in H; auto.
Qed.

(** X1: the axis and plane flag helpers invert each other.  For an axis index
    0, 1 or 2, [AxisToFlag] gives a single-axis flag from which [GetAxisIdx]
    (with the same [around]) gives the index back, and the flag of an axis
    taken "around" is the plain flag of [GetAxisAroundIdx]; for a single-axis
    flag, [GetAxisIdx] is 0, 1 or 2 and [AxisToFlag] gives the flag back.
    For a plane index 0, 1 or 2, [PlaneToFlags] gives plane flags that are
    the two other axes' flags together and do not contain the plane's own
    axis, and [GetPlaneIdx] gives the index back; plane flags are never a
    single axis, [GetPlaneIdx] of them is 0, 1 or 2 and [PlaneToFlags] gives
    them back. *)
Theorem flags_round_trip (around : bool) :
  (forall axis_idx : ImGuizmoAxis,
     (0 <= axis_idx < 3)%Z ->
     HasSingleAxis (AxisToFlag axis_idx around) = true /\
     GetAxisIdx (AxisToFlag axis_idx around) around = axis_idx /\
     AxisToFlag axis_idx true = AxisToFlag (GetAxisAroundIdx axis_idx) false) /\
  (forall flags : ImGuizmoAxisFlags,
     HasSingleAxis flags = true ->
     (0 <= GetAxisIdx flags around < 3)%Z /\
     AxisToFlag (GetAxisIdx flags around) around = flags) /\
  (forall plane_idx : ImGuizmoPlane,
     (0 <= plane_idx < 3)%Z ->
     HasPlane (PlaneToFlags plane_idx) = true /\
     GetPlaneIdx (PlaneToFlags plane_idx) = plane_idx /\
     PlaneToFlags plane_idx =
     Z.lor (AxisToFlag ((plane_idx + 1) mod 3) false)
       (AxisToFlag ((plane_idx + 2) mod 3) false) /\
     Z.land (PlaneToFlags plane_idx) (AxisToFlag plane_idx false) = 0%Z) /\
  (forall flags : ImGuizmoAxisFlags,
     HasPlane flags = true ->
     HasSingleAxis flags = false /\
     (0 <= GetPlaneIdx flags < 3)%Z /\
     PlaneToFlags (GetPlaneIdx flags) = flags).
Proof.
  split; [| split; [| split]].
  - intros i Hi.
    destruct (axis_cases i Hi) as [-> | [-> | ->]]; destruct around;
      repeat split.
  - intros flags H.
    destruct (HasSingleAxis_cases flags H) as [-> | [-> | ->]];
      destruct around; repeat split; discriminate.
  - intros p Hp.
    destruct (axis_cases p Hp) as [-> | [-> | ->]]; repeat split.
  - intros flags H.
    destruct (HasPlane_cases flags H) as [-> | [-> | ->]];
      repeat split; discriminate.
Qed.

(** X1 on the rotation flags, the x axis and the plane of x and y. *)
Lemma flags_round_trip_witness :
  GetAxisIdx (AxisToFlag 2 true) true = 2%Z /\
  AxisToFlag (GetAxisIdx ImGuizmoAxisFlags_X true) true = ImGuizmoAxisFlags_X /\
  GetPlaneIdx (PlaneToFlags 1) = 1%Z /\
  PlaneToFlags (GetPlaneIdx ImGuizmoAxisFlags_XY) = ImGuizmoAxisFlags_XY.
Proof.
  destruct (flags_round_trip true) as (Ha & Hf & Hp & Hq).
  split; [apply Ha; lia |].
  split; [apply Hf; reflexivity |].
  split; [apply Hp; lia |].
  apply Hq. reflexivity.
Defined.

(** ** Snapping *)

Lemma CalculateSnap_multiple (q : Z) snap :
  kEpsilon < snap -> CalculateSnap (IZR q * snap) snap = IZR q * snap.
Proof.
  intros Hs. pose proof kEpsilon_pos as He.
  destruct (CalculateSnap_spec (IZR q * snap) snap Hs)
    as [q' [[Hd ->] | [_ ->]]]; [| reflexivity].
  destruct (Z.eq_dec q q') as [-> | Hne]; [reflexivity |].
  exfalso.
  replace (IZR q * snap - IZR q' * snap) with ((IZR q - IZR q') * snap)
    in Hd by ring.
  rewrite Rabs_mult, (Rabs_right snap) in Hd by lra.
  assert (1 <= Rabs (IZR q - IZR q')).
  { destruct (IZR_apart q q' Hne); unfold Rabs; destruct (Rcase_abs _); lra. }
  nra.
Qed.

(** X2: snapping is idempotent: [CalculateSnap] applied to a value it has
    already snapped, with the same step, returns that value. *)
Theorem CalculateSnap_idempotent (value snap : float) :
  CalculateSnap (CalculateSnap value snap) snap = CalculateSnap value snap.
Proof.
  destruct (Rle_or_lt snap kEpsilon) as [Hs | Hs].
  - rewrite !CalculateSnap_small_step by exact Hs. reflexivity.
  - destruct (CalculateSnap_spec value snap Hs) as [q [[_ H] | [_ H]]].
    + rewrite H. apply CalculateSnap_multiple, Hs.
    + rewrite H. exact H.
Qed.

(** X3: [CalculateSnap] never moves a value by more than half the snap step
    (and not at all when the step is at most [kEpsilon]). *)
Theorem CalculateSnap_within_half_step (value snap : float) :
  Rabs (CalculateSnap value snap - value) <= Rabs snap / 2.
Proof.
  pose proof (Rabs_pos snap) as Hp.
  destruct (Rle_or_lt snap kEpsilon) as [Hs | Hs].
  - rewrite CalculateSnap_small_step by exact Hs.
    replace (value - value) with 0 by ring. rewrite Rabs_R0. lra.
  - pose proof kEpsilon_pos as He.
    rewrite (Rabs_right snap) by lra.
    destruct (CalculateSnap_spec value snap Hs) as [q [[Hd ->] | [_ ->]]].
    + rewrite Rabs_minus_sym. lra.
    + replace (value - value) with 0 by ring. rewrite Rabs_R0. lra.
Qed.

(** ** Planes and segments *)

Lemma IntersectRayPlane_on_plane ray plane :
  ~ Rabs (glm.dot3 (glm.xyz plane) (RayDirection ray)) < kEpsilon ->
  glm.dot3 (glm.xyz plane) (ray_point ray (IntersectRayPlane ray plane)) =
  w4 plane.
Proof.
  intros H. unfold IntersectRayPlane, glm.abs.
  destruct (F.ltb _ kEpsilon) eqn:E.
  - apply FFacts.ltb_true in E. contradiction.
  - apply FFacts.ltb_false in E. rewrite dot3_ray_point.
    assert (Hd : glm.dot3 (glm.xyz plane) (RayDirection ray) <> 0).
    { intros Hz. rewrite Hz, Rabs_R0 in E. pose proof kEpsilon_pos. lra. }
    field. exact Hd.
Qed.

Lemma dot3_pos_nonzero (v : vec3) : glm.dot3 v v <> 0 -> 0 < glm.dot3 v v.
Proof.
  intros H. assert (0 <= glm.dot3 v v); [| lra].
  unfold glm.dot3. nra.
Qed.

(** X4: for the plane [BuildPlane] makes from a point and a normal that is not
    the zero vector, and a ray that [IntersectRayPlane] does not take for
    parallel to it, the point of the ray at the returned parameter lies in
    the plane through [point] perpendicular to [normal]. *)
Theorem IntersectRayPlane_BuildPlane (ray : ImGuizmoRay) (point normal : vec3) :
  glm.dot3 normal normal <> 0 ->
  ~ Rabs (glm.dot3 (glm.xyz (BuildPlane point normal)) (RayDirection ray)) <
    kEpsilon ->
  glm.dot3 normal
    (ray_point ray (IntersectRayPlane ray (BuildPlane point normal)) -v point) =
  0.
Proof.
  intros Hn Hd.
  pose proof (IntersectRayPlane_on_plane ray (BuildPlane point normal) Hd) as H.
  revert H.
  generalize (ray_point ray (IntersectRayPlane ray (BuildPlane point normal))).
  intros hit H.
  apply dot3_pos_nonzero in Hn. apply sqrt_lt_R0 in Hn.
  unfold BuildPlane, glm.normalize3, glm.inversesqrt in H.
  revert Hn H. generalize (sqrt (glm.dot3 normal normal)). intros L HL H.
  destruct normal as [nx ny nz], hit as [hx hy hz], point as [px py pz].
  cbv [glm.xyz glm.vec4_of glm.scale3 glm.dot3 glm.sub3 x3 y3 z3 x4 y4 z4 w4]
    in *.
  assert (HL' : 1 / L <> 0).
  { unfold Rdiv. rewrite Rmult_1_l. apply Rinv_neq_0_compat. lra. }
  apply (Rmult_eq_reg_l (1 / L)); [| exact HL'].
  rewrite Rmult_0_r. lra.
Qed.

(** X4 on the plane z = 1 and a ray down the z axis. *)
Lemma IntersectRayPlane_BuildPlane_witness :
  glm.dot3 (mkvec3 2 0 0)
    (ray_point (mkImGuizmoRay (mkvec3 5 0 1) (mkvec3 0 0 1) (mkvec3 (-1) 0 0))
       (IntersectRayPlane
          (mkImGuizmoRay (mkvec3 5 0 1) (mkvec3 0 0 1) (mkvec3 (-1) 0 0))
          (BuildPlane (mkvec3 1 2 3) (mkvec3 2 0 0))) -v mkvec3 1 2 3) = 0.
Proof.
  apply IntersectRayPlane_BuildPlane.
  - unfold glm.dot3; simpl. lra.
  - unfold BuildPlane, glm.normalize3, glm.inversesqrt.
    cbv [glm.xyz glm.vec4_of glm.scale3 glm.dot3 x3 y3 z3 x4 y4 z4 w4
         RayDirection].
    replace (2 * 2 + 0 * 0 + 0 * 0) with (2 * 2) by ring.
    rewrite sqrt_square by lra.
    replace (2 * (1 / 2) * -1 + 0 * (1 / 2) * 0 + 0 * (1 / 2) * 0) with (- (1))
      by field.
    rewrite Rabs_Ropp, Rabs_R1. pose proof kEpsilon_lt_1. lra.
Defined.

Lemma dist2_le a b c d :
  glm.dot2 (glm.sub2 a b) (glm.sub2 a b) <=
  glm.dot2 (glm.sub2 c d) (glm.sub2 c d) ->
  dist2 a b <= dist2 c d.
Proof. intros H. unfold dist2, glm.length2. apply sqrt_le_1_alt, H. Qed.

(** X5: for two distinct end points, [PointOnSegment] returns a point of the
    segment from [v1] to [v2], and no point of the segment is nearer to
    [point]. *)
Theorem PointOnSegment_closest (point v1 v2 : vec2) :
  v1 <> v2 ->
  exists s : float,
    0 <= s <= 1 /\
    PointOnSegment point v1 v2 = on_segment v1 v2 s /\
    forall u : float,
      0 <= u <= 1 ->
      dist2 point (PointOnSegment point v1 v2) <=
      dist2 point (on_segment v1 v2 u).
Proof.
  intros Hne.
  destruct point as [px py], v1 as [ax ay], v2 as [bx by_].
  assert (Hpos : 0 < (bx - ax) * (bx - ax) + (by_ - ay) * (by_ - ay)).
  { assert (bx - ax <> 0 \/ by_ - ay <> 0) as [H | H].
    { destruct (Req_dec bx ax) as [-> | H]; [| left; lra].
      destruct (Req_dec by_ ay) as [-> | H]; [| right; lra].
      exfalso. apply Hne. reflexivity. }
    - pose proof (Rsqr_pos_lt _ H) as Hq. unfold Rsqr in Hq.
      pose proof (Rle_0_sqr (by_ - ay)) as Hr. unfold Rsqr in Hr. lra.
    - pose proof (Rsqr_pos_lt _ H) as Hq. unfold Rsqr in Hq.
      pose proof (Rle_0_sqr (bx - ax)) as Hr. unfold Rsqr in Hr. lra. }
  unfold PointOnSegment; cbv zeta.
  unfold glm.normalize2, glm.inversesqrt, glm.length2.
  cbv [glm.sub2 glm.dot2 glm.scale2 glm.add2 x2 y2 F.gtb].
  pose proof (sqrt_lt_R0 _ Hpos) as HL.
  pose proof (sqrt_sqrt _ (Rlt_le _ _ Hpos)) as HLL.
  revert HL HLL.
  generalize (sqrt ((bx - ax) * (bx - ax) + (by_ - ay) * (by_ - ay))).
  intros L HL HLL.
  set (dx := bx - ax) in *. set (dy := by_ - ay) in *.
  set (cx := px - ax). set (cy := py - ay).
  set (t := dx * (1 / L) * cx + dy * (1 / L) * cy).
  assert (Ht : t * L = dx * cx + dy * cy).
  { unfold t. field. lra. }
  destruct (F.ltb t 0) eqn:E1.
  - apply FFacts.ltb_true in E1. exists 0. split; [lra |]. split.
    + unfold on_segment. cbv [glm.add2 glm.scale2 glm.sub2 x2 y2].
      f_equal; ring.
    + intros u Hu. apply dist2_le.
      unfold on_segment. cbv [glm.add2 glm.scale2 glm.sub2 glm.dot2 x2 y2].
      fold dx dy.
      replace (px - (ax + dx * u)) with (cx - dx * u) by (unfold cx; ring).
      replace (py - (ay + dy * u)) with (cy - dy * u) by (unfold cy; ring).
      fold cx cy.
      assert (dx * cx + dy * cy <= 0) by nra.
      assert (0 <= u * u * (dx * dx + dy * dy)) by nra.
      nra.
  - apply FFacts.ltb_false in E1.
    destruct (F.ltb L t) eqn:E2.
    + apply FFacts.ltb_true in E2. exists 1. split; [lra |]. split.
      * unfold on_segment. cbv [glm.add2 glm.scale2 glm.sub2 x2 y2].
        f_equal; ring.
      * intros u Hu. apply dist2_le.
        unfold on_segment. cbv [glm.add2 glm.scale2 glm.sub2 glm.dot2 x2 y2].
        fold dx dy.
        replace (px - bx) with (cx - dx) by (unfold cx, dx; ring).
        replace (py - by_) with (cy - dy) by (unfold cy, dy; ring).
        replace (px - (ax + dx * u)) with (cx - dx * u) by (unfold cx; ring).
        replace (py - (ay + dy * u)) with (cy - dy * u) by (unfold cy; ring).
        assert (Hcd : L * L <= dx * cx + dy * cy) by nra.
        assert (0 <= (1 - u) * (2 * (dx * cx + dy * cy) - (1 + u) * (L * L))).
        { apply Rmult_le_pos; [lra |]. nra. }
        nra.
    + apply FFacts.ltb_false in E2. exists (t / L).
      assert (Hs : 0 <= t / L <= 1).
      { split.
        - apply Rmult_le_pos; [lra |]. left. apply Rinv_0_lt_compat, HL.
        - apply (Rmult_le_reg_r L); [exact HL |]. 
          replace (t / L * L) with t by (field; lra). lra. }
      split; [exact Hs |]. split.
      * unfold on_segment. cbv [glm.add2 glm.scale2 glm.sub2 x2 y2].
        fold dx dy. f_equal; field; lra.
      * intros u Hu. apply dist2_le.
        unfold on_segment. cbv [glm.add2 glm.scale2 glm.sub2 glm.dot2 x2 y2].
        fold dx dy.
        replace (px - (ax + dx * (1 / L) * t)) with (cx - dx * (t / L))
          by (unfold cx; field; lra).
        replace (py - (ay + dy * (1 / L) * t)) with (cy - dy * (t / L))
          by (unfold cy; field; lra).
        replace (px - (ax + dx * u)) with (cx - dx * u) by (unfold cx; ring).
        replace (py - (ay + dy * u)) with (cy - dy * u) by (unfold cy; ring).
        remember (t / L) as s eqn:Hse.
        assert (Hts : t = s * L) by (rewrite Hse; field; lra).
        assert (Hcd : dx * cx + dy * cy = s * (L * L)) by (rewrite <- Ht, Hts; ring).
        assert (Hsq : 0 <= (u - s) * (u - s) * (L * L)).
        { apply Rmult_le_pos.
          - pose proof (Rle_0_sqr (u - s)) as Hq. exact Hq.
          - pose proof (Rle_0_sqr L) as Hq. exact Hq. }
        replace ((cx - dx * u) * (cx - dx * u) + (cy - dy * u) * (cy - dy * u))
          with ((cx - dx * s) * (cx - dx * s) + (cy - dy * s) * (cy - dy * s) +
                ((u - s) * (u - s) * (dx * dx + dy * dy) +
                 2 * (s - u) * ((dx * cx + dy * cy) - s * (dx * dx + dy * dy))))
          by ring.
        rewrite Hcd, <- HLL.
        replace (s * (L * L) - s * (L * L)) with 0 by ring.
        lra.
Qed.

(** ** Matrices *)

Lemma inverse_left (m : mat4) :
  determinant m <> 0 -> glm.inverse m *m m = glm.identity.
Proof.
  destruct m as [[a00 a01 a02 a03] [a10 a11 a12 a13]
                 [a20 a21 a22 a23] [a30 a31 a32 a33]].
  unfold determinant. cbn [c0 c1 c2 c3 x4 y4 z4 w4]. intros Hd.
  unfold glm.inverse, glm.mulm, glm.mulm_col, glm.identity.
  cbv [glm.add4 glm.sub4 glm.mul4 glm.scale4 c0 c1 c2 c3 x4 y4 z4 w4].
  f_equal; f_equal; field; intros Hc; apply Hd; rewrite <- Hc; ring.
Qed.

Lemma inverse_right (m : mat4) :
  determinant m <> 0 -> m *m glm.inverse m = glm.identity.
Proof.
  destruct m as [[a00 a01 a02 a03] [a10 a11 a12 a13]
                 [a20 a21 a22 a23] [a30 a31 a32 a33]].
  unfold determinant. cbn [c0 c1 c2 c3 x4 y4 z4 w4]. intros Hd.
  unfold glm.inverse, glm.mulm, glm.mulm_col, glm.identity.
  cbv [glm.add4 glm.sub4 glm.mul4 glm.scale4 c0 c1 c2 c3 x4 y4 z4 w4].
  f_equal; f_equal; field; intros Hc; apply Hd; rewrite <- Hc; ring.
Qed.

Lemma mulv_mulm (a b : mat4) (v : vec4) : (a *m b) *mv v = a *mv (b *mv v).
Proof.
  destruct a as [[a00 a01 a02 a03] [a10 a11 a12 a13]
                 [a20 a21 a22 a23] [a30 a31 a32 a33]].
  destruct b as [[b00 b01 b02 b03] [b10 b11 b12 b13]
                 [b20 b21 b22 b23] [b30 b31 b32 b33]].
  destruct v as [vx vy vz vw].
  cbv [glm.mulm glm.mulm_col glm.mulv glm.add4 glm.scale4
       c0 c1 c2 c3 x4 y4 z4 w4].
  f_equal; ring.
Qed.

Lemma mulv_identity (v : vec4) : glm.identity *mv v = v.
Proof.
  destruct v as [vx vy vz vw].
  cbv [glm.identity glm.mulv glm.add4 glm.scale4 c0 c1 c2 c3 x4 y4 z4 w4].
  f_equal; ring.
Qed.

Lemma mulv_combine (m : mat4) (u v : vec4) (a b : float) :
  m *mv glm.add4 (glm.scale4 u a) (glm.scale4 v b) =
  glm.add4 (glm.scale4 (m *mv u) a) (glm.scale4 (m *mv v) b).
Proof.
  destruct m as [[a00 a01 a02 a03] [a10 a11 a12 a13]
                 [a20 a21 a22 a23] [a30 a31 a32 a33]].
  destruct u as [ux uy uz uw], v as [vx vy vz vw].
  cbv [glm.mulv glm.add4 glm.scale4 c0 c1 c2 c3 x4 y4 z4 w4].
  f_equal; ring.
Qed.

(** ** Screen and world *)

Lemma WorldToScreen_bb_eq world_pos matrix bb :
  WorldToScreen_bb world_pos matrix bb =
  mkvec2
    (x2 (Min bb) + (x2 (ndc matrix world_pos) + 1) / 2 * GetWidth bb)
    (y2 (Min bb) + (1 - y2 (ndc matrix world_pos)) / 2 * GetHeight bb).
Proof.
  unfold WorldToScreen_bb, ndc; cbv zeta.
  generalize (matrix *mv glm.vec4_of world_pos 1). intros [cx cy cz cw].
  destruct bb as [[ax ay] [bx by_]].
  cbv [glm.scale4 glm.adds2 glm.xy glm.mul2 glm.add2 GetSize GetTL GetWidth
       GetHeight glm.sub2 Min Max x2 y2 x4 y4 z4 w4].
  unfold Rdiv. generalize (/ cw). intros k. f_equal; field.
Qed.

(** X6: a world position whose clip coordinate w is not zero and whose
    normalized device coordinates x and y lie in [-1, 1] is mapped by
    [WorldToScreen] into the viewport rectangle; device x = -1 is mapped to
    the left edge and device y = 1 to the top edge (y is flipped). *)
Theorem WorldToScreen_in_viewport (world_pos : vec3) (matrix : mat4)
  (bb : ImRect) :
  w4 (matrix *mv glm.vec4_of world_pos 1) <> 0 ->
  -1 <= x2 (ndc matrix world_pos) <= 1 ->
  -1 <= y2 (ndc matrix world_pos) <= 1 ->
  x2 (Min bb) <= x2 (Max bb) ->
  y2 (Min bb) <= y2 (Max bb) ->
  x2 (Min bb) <= x2 (WorldToScreen_bb world_pos matrix bb) <= x2 (Max bb) /\
  y2 (Min bb) <= y2 (WorldToScreen_bb world_pos matrix bb) <= y2 (Max bb) /\
  (x2 (ndc matrix world_pos) = -1 ->
   x2 (WorldToScreen_bb world_pos matrix bb) = x2 (Min bb)) /\
  (y2 (ndc matrix world_pos) = 1 ->
   y2 (WorldToScreen_bb world_pos matrix bb) = y2 (Min bb)).
Proof.
  intros _ Hx Hy Hbx Hby. rewrite WorldToScreen_bb_eq.
  generalize dependent (ndc matrix world_pos). intros [nx ny].
  destruct bb as [[ax ay] [bx by_]].
  cbv [GetWidth GetHeight Min Max x2 y2] in *. intros Hx Hy.
  repeat split; try nra.
Qed.

Lemma RayCast_bb_eq h view_proj_matrix bb world_pos :
  GetWidth bb <> 0 -> GetHeight bb <> 0 ->
  MousePos h = WorldToScreen_bb world_pos view_proj_matrix bb ->
  let A := unproject view_proj_matrix (ndc view_proj_matrix world_pos) 0 in
  let B :=
    unproject view_proj_matrix (ndc view_proj_matrix world_pos) (1 - kEpsilon)
  in
  RayCast_bb h view_proj_matrix bb =
  mkImGuizmoRay
    (glm.xyz (glm.scale4 A (1 / w4 A)))
    (glm.xyz (glm.scale4 B (1 / w4 B)))
    (glm.xyz
       (glm.normalize4
          (glm.sub4 (glm.scale4 B (1 / w4 B)) (glm.scale4 A (1 / w4 A))))).
Proof.
  intros Hw Hh Hm. unfold RayCast_bb; cbv zeta.
  rewrite Hm, WorldToScreen_bb_eq. unfold unproject.
  generalize (ndc view_proj_matrix world_pos). intros [nx ny].
  destruct bb as [[ax ay] [bx by_]].
  cbv [GetWidth GetHeight GetSize GetTL Min Max x2 y2 glm.sub2 glm.div2
       glm.scale2 glm.subs2] in *.
  replace ((ax + (nx + 1) / 2 * (bx - ax) - ax) / (bx - ax) * 2 - 1) with nx
    by (field; exact Hw).
  replace (((ay + (1 - ny) / 2 * (by_ - ay) - ay) / (by_ - ay) * 2 - 1) * -1)
    with ny by (field; exact Hh).
  reflexivity.
Qed.

Lemma homogeneous_line (A B : vec4) (p : vec3) (a b : float) :
  w4 A <> 0 -> w4 B <> 0 ->
  glm.vec4_of p 1 = glm.add4 (glm.scale4 A a) (glm.scale4 B b) ->
  exists t : float,
    p =
    glm.xyz (glm.scale4 A (1 / w4 A)) +v
    glm.xyz
      (glm.normalize4
         (glm.sub4 (glm.scale4 B (1 / w4 B)) (glm.scale4 A (1 / w4 A)))) *s t.
Proof.
  destruct A as [Ax Ay Az Aw], B as [Bx By Bz Bw], p as [px py pz].
  cbv [glm.vec4_of glm.add4 glm.scale4 x3 y3 z3 x4 y4 z4 w4].
  intros HA HB Heq. injection Heq as Hx Hy Hz Hw.
  unfold glm.normalize4, glm.inversesqrt.
  cbv [glm.sub4 glm.dot4 glm.scale4 glm.xyz glm.add3 glm.scale3
       x3 y3 z3 x4 y4 z4 w4].
  replace (Bw * (1 / Bw) - Aw * (1 / Aw)) with 0 by (field; split; assumption).
  set (ex := Bx * (1 / Bw) - Ax * (1 / Aw)).
  set (ey := By * (1 / Bw) - Ay * (1 / Aw)).
  set (ez := Bz * (1 / Bw) - Az * (1 / Aw)).
  assert (Hpx : px = Ax * (1 / Aw) + ex * (b * Bw)).
  { unfold ex. rewrite Hx.
    replace a with ((1 - Bw * b) / Aw) by (rewrite Hw; field; exact HA).
    field. split; assumption. }
  assert (Hpy : py = Ay * (1 / Aw) + ey * (b * Bw)).
  { unfold ey. rewrite Hy.
    replace a with ((1 - Bw * b) / Aw) by (rewrite Hw; field; exact HA).
    field. split; assumption. }
  assert (Hpz : pz = Az * (1 / Aw) + ez * (b * Bw)).
  { unfold ez. rewrite Hz.
    replace a with ((1 - Bw * b) / Aw) by (rewrite Hw; field; exact HA).
    field. split; assumption. }
  clearbody ex ey ez.
  assert (Hq : 0 <= ex * ex + ey * ey + (ez * ez + 0 * 0)) by nra.
  destruct (Req_dec (ex * ex + ey * ey + (ez * ez + 0 * 0)) 0) as [Hz0 | Hnz].
  - exists 0.
    assert (ex = 0) by nra. assert (ey = 0) by nra. assert (ez = 0) by nra.
    subst ex ey ez. rewrite Hpx, Hpy, Hpz. f_equal; ring.
  - assert (HL : 0 < sqrt (ex * ex + ey * ey + (ez * ez + 0 * 0))).
    { apply sqrt_lt_R0. lra. }
    revert HL. generalize (sqrt (ex * ex + ey * ey + (ez * ez + 0 * 0))).
    intros L HL. exists (b * Bw * L).
    rewrite Hpx, Hpy, Hpz. f_equal; field; lra.
Qed.

(** X7: [RayCast] undoes [WorldToScreen]: when the mouse is where
    [WorldToScreen] draws a world position (same matrix, same viewport), the
    ray [RayCast] builds passes through that world position.  The matrix is
    invertible, the viewport has nonzero width and height, and the three
    perspective divisions are by nonzero w. *)
Theorem RayCast_WorldToScreen (h : Host) (view_proj_matrix : mat4)
  (bb : ImRect) (world_pos : vec3) :
  determinant view_proj_matrix <> 0 ->
  GetWidth bb <> 0 -> GetHeight bb <> 0 ->
  w4 (view_proj_matrix *mv glm.vec4_of world_pos 1) <> 0 ->
  w4 (unproject view_proj_matrix (ndc view_proj_matrix world_pos) 0) <> 0 ->
  w4 (unproject view_proj_matrix (ndc view_proj_matrix world_pos)
        (1 - kEpsilon)) <> 0 ->
  MousePos h = WorldToScreen_bb world_pos view_proj_matrix bb ->
  exists t : float,
    world_pos = ray_point (RayCast_bb h view_proj_matrix bb) t.
Proof.
  intros Hdet Hw Hh Hc HA HB Hm.
  rewrite (RayCast_bb_eq h view_proj_matrix bb world_pos Hw Hh Hm).
  unfold ray_point. cbn [RayOrigin RayDirection].
  pose proof kEpsilon_lt_1 as He.
  assert (Hp : glm.vec4_of world_pos 1 =
               glm.inverse view_proj_matrix *mv
               (view_proj_matrix *mv glm.vec4_of world_pos 1)).
  { rewrite <- mulv_mulm, (inverse_left _ Hdet), mulv_identity. reflexivity. }
  revert HA HB. unfold unproject, ndc; cbv zeta. revert Hp Hc.
  generalize (view_proj_matrix *mv glm.vec4_of world_pos 1).
  intros [cx cy cz cw]. cbn [x2 y2 x4 y4 w4]. intros Hp Hc.
  set (U := mkvec4 (cx / cw) (cy / cw) 0 1).
  set (V := mkvec4 (cx / cw) (cy / cw) (1 - kEpsilon) 1).
  assert (Hclip : mkvec4 cx cy cz cw =
                  glm.add4
                    (glm.scale4 U (cw * (1 - cz / cw / (1 - kEpsilon))))
                    (glm.scale4 V (cw * (cz / cw / (1 - kEpsilon))))).
  { unfold U, V. cbv [glm.add4 glm.scale4 x4 y4 z4 w4].
    f_equal; field; split; lra. }
  rewrite Hclip, mulv_combine in Hp. clearbody U V.
  revert Hp. generalize (glm.inverse view_proj_matrix *mv U).
  generalize (glm.inverse view_proj_matrix *mv V).
  intros B A Hp HA HB.
  exact (homogeneous_line A B world_pos _ _ HA HB Hp).
Qed.

(** ** The Begin/End protocol *)

Lemma Begin_None h mode model_matrix locked_axes w :
  model_matrix = 0%Z \/ LockedModelMatrix (GImGuizmo w) <> 0%Z \/
  Mem w !! model_matrix = None ->
  ImGuizmo.Begin h mode model_matrix locked_axes w = None.
Proof.
  intros H. unfold ImGuizmo.Begin.
  destruct (model_matrix =? 0)%Z eqn:E0; [reflexivity |].
  destruct (LockedModelMatrix (GImGuizmo w) =? 0)%Z eqn:E1;
    [| reflexivity].
  cbn [negb]. apply Z.eqb_neq in E0. apply Z.eqb_eq in E1.
  destruct H as [H | [H | H]]; [contradiction | contradiction |].
  rewrite H. reflexivity.
Qed.

(** X9: scopes do not nest: after a [Begin] that returned, every further
    [Begin] fails, whatever its arguments, while [End] returns and clears
    the lock. *)
Theorem Begin_nesting_forbidden (h h' : Host) (mode mode' : ImGuizmoMode)
  (model_matrix model_matrix' : Z) (locked_axes locked_axes' : ImGuizmoAxisFlags)
  (w w1 : World) (visible : bool) :
  ImGuizmo.Begin h mode model_matrix locked_axes w = Some (visible, w1) ->
  ImGuizmo.Begin h' mode' model_matrix' locked_axes' w1 = None /\
  exists (updated : bool) (w2 : World),
    ImGuizmo.End h' w1 = Some (updated, w2) /\
    LockedModelMatrix (GImGuizmo w2) = 0%Z.
Proof.
  intros HB.
  destruct (Z.eq_dec model_matrix 0) as [Hp | Hp].
  { rewrite Begin_None in HB by auto. discriminate. }
  destruct (Z.eq_dec (LockedModelMatrix (GImGuizmo w)) 0) as [Hl | Hl].
  2: { rewrite Begin_None in HB by auto. discriminate. }
  destruct (Mem w !! model_matrix) as [model |] eqn:Hm.
  2: { rewrite Begin_None in HB by auto. discriminate. }
  destruct (Begin_spec h mode model_matrix locked_axes w model Hp Hl Hm)
    as (visible' & g1 & gizmo & Heq & Hcur & Hlock & _).
  rewrite Heq in HB. injection HB as _ <-.
  assert (Hl1 : LockedModelMatrix (GImGuizmo (mkWorld g1 (Mem w))) <> 0%Z).
  { cbn [GImGuizmo]. rewrite Hlock. exact Hp. }
  split.
  - apply Begin_None. right. left. exact Hl1.
  - rewrite (End_eq h' (mkWorld g1 (Mem w)) gizmo Hl1 Hcur).
    do 2 eexists. split; [reflexivity |].
    cbn [GImGuizmo].
    destruct (StoreCurrentGizmo_frame
                (End_gizmo h' g1 gizmo) (set_LockedModelMatrix 0 g1))
      as (_ & _ & -> & _).
    reflexivity.
Qed.

Lemma End_None h w :
  LockedModelMatrix (GImGuizmo w) = 0%Z \/
  GetCurrentGizmo (GImGuizmo w) = None ->
  ImGuizmo.End h w = None.
Proof.
  intros H. unfold ImGuizmo.End.
  destruct (LockedModelMatrix (GImGuizmo w) =? 0)%Z eqn:E; [reflexivity |].
  apply Z.eqb_neq in E. destruct H as [H | H]; [contradiction |].
  rewrite H. reflexivity.
Qed.

(** X10: [End] fails exactly when no [Begin] is open or there is no current
    gizmo; when it returns, the lock is cleared, the current gizmo is still
    the current gizmo, and a second [End] fails. *)
Theorem End_closes_scope (h : Host) (w : World) :
  (ImGuizmo.End h w = None <->
   LockedModelMatrix (GImGuizmo w) = 0%Z \/
   GetCurrentGizmo (GImGuizmo w) = None) /\
  (forall (updated : bool) (w' : World),
     ImGuizmo.End h w = Some (updated, w') ->
     LockedModelMatrix (GImGuizmo w') = 0%Z /\
     CurrentGizmo (GImGuizmo w') = CurrentGizmo (GImGuizmo w) /\
     forall h' : Host, ImGuizmo.End h' w' = None).
Proof.
  split.
  - split; [| apply End_None].
    intros HN.
    destruct (Z.eq_dec (LockedModelMatrix (GImGuizmo w)) 0) as [| Hl];
      [auto |].
    destruct (GetCurrentGizmo (GImGuizmo w)) as [gizmo |] eqn:Hg; [| auto].
    rewrite (End_eq h w gizmo Hl Hg) in HN. discriminate.
  - intros updated w' HE.
    destruct (Z.eq_dec (LockedModelMatrix (GImGuizmo w)) 0) as [Hl | Hl].
    { rewrite End_None in HE by auto. discriminate. }
    destruct (GetCurrentGizmo (GImGuizmo w)) as [gizmo |] eqn:Hg.
    2: { rewrite End_None in HE by auto. discriminate. }
    rewrite (End_eq h w gizmo Hl Hg) in HE. injection HE as _ <-.
    cbn [GImGuizmo].
    destruct (StoreCurrentGizmo_frame
                (End_gizmo h (GImGuizmo w) gizmo)
                (set_LockedModelMatrix 0 (GImGuizmo w)))
      as (Hc & _ & Hl' & _).
    split; [rewrite Hl'; reflexivity |].
    split; [rewrite Hc; reflexivity |].
    intros h'. apply End_None. left. cbn [GImGuizmo]. rewrite Hl'.
    reflexivity.
Qed.


(** ** Hovering *)

Lemma first_hovered_cases idxs hit flag hover_flags :
  first_hovered idxs hit flag hover_flags = hover_flags \/
  exists i, In i idxs /\ hit i = true /\
            first_hovered idxs hit flag hover_flags = Z.lor hover_flags (flag i).
Proof.
  induction idxs as [| i rest IH]; [left; reflexivity |].
  cbn [first_hovered]. destruct (hit i) eqn:E.
  - right. exists i. split; [left; reflexivity |]. split; [exact E | reflexivity].
  - destruct IH as [IH | (j & Hj & Hh & IH)]; [left; exact IH |].
    right. exists j. split; [right; exact Hj |]. split; assumption.
Qed.

Lemma In_012 (i : Z) : In i [0; 1; 2]%Z -> (0 <= i < 3)%Z.
Proof. cbn. intros [<- | [<- | [<- | []]]]; lia. Qed.

Lemma IsAxisHovered_unlocked g gizmo axis_idx :
  IsAxisHovered g gizmo axis_idx = true ->
  Z.land (LockedAxesFlags gizmo) (AxisToFlag axis_idx false) = 0%Z.
Proof.
  unfold IsAxisHovered.
  destruct (truthy (Z.land (LockedAxesFlags gizmo) (AxisToFlag axis_idx false)))
    eqn:E; [discriminate |].
  intros _. unfold truthy in E. apply negb_false_iff, Z.eqb_eq in E. exact E.
Qed.

Lemma IsPlaneHovered_unlocked g gizmo plane_idx :
  IsPlaneHovered g gizmo plane_idx = true ->
  Z.land (LockedAxesFlags gizmo) (PlaneToFlags plane_idx) = 0%Z.
Proof.
  unfold IsPlaneHovered.
  destruct (truthy (Z.land (LockedAxesFlags gizmo) (PlaneToFlags plane_idx)))
    eqn:E; [discriminate |].
  intros _. unfold truthy in E. apply negb_false_iff, Z.eqb_eq in E. exact E.
Qed.

Lemma IsCoreHovered_unlocked h gizmo :
  IsCoreHovered h gizmo = true ->
  LockedAxesFlags gizmo <> ImGuizmoAxisFlags_ALL.
Proof.
  unfold IsCoreHovered.
  destruct (LockedAxesFlags gizmo =? ImGuizmoAxisFlags_ALL)%Z eqn:E;
    [discriminate |].
  intros _. apply Z.eqb_neq, E.
Qed.

Lemma AxisToFlag_single i :
  (0 <= i < 3)%Z -> HasSingleAxis (AxisToFlag i false) = true.
Proof.
  intros Hi. assert (i = 0 \/ i = 1 \/ i = 2)%Z as [-> | [-> | ->]] by lia;
    reflexivity.
Qed.

Lemma PlaneToFlags_plane i :
  (0 <= i < 3)%Z -> HasPlane (PlaneToFlags i) = true.
Proof.
  intros Hi. assert (i = 0 \/ i = 1 \/ i = 2)%Z as [-> | [-> | ->]] by lia;
    reflexivity.
Qed.

(** X11: the hover queries of the translate and scale operations never answer
    with a locked axis or plane: the answer is no flag, or all three axes
    (the core) and then not every axis is locked, or a single axis, or for
    the translate operation a plane, whose flags share no bit with the locked
    axes. *)
Theorem hover_respects_locks (h : Host) (g : ImGuizmoContext)
  (gizmo : ImGuizmoWidget) :
  hover_allowed true (LockedAxesFlags gizmo) (FindTranslationHover h g gizmo) /\
  hover_allowed false (LockedAxesFlags gizmo) (FindScaleHover h g gizmo).
Proof.
  split.
  - unfold FindTranslationHover.
    destruct (CanActivate h g); cbn [negb]; [| left; reflexivity].
    destruct (IsCoreHovered h gizmo) eqn:Ec.
    { right. left. split; [reflexivity |].
      apply (IsCoreHovered_unlocked h), Ec. }
    cbn [Z.eqb negb ImGuizmoAxisFlags_None].
    change (0 =? ImGuizmoAxisFlags_ALL)%Z with false. cbn [negb].
    destruct (first_hovered_cases [0; 1; 2]%Z (IsPlaneHovered g gizmo)
                PlaneToFlags ImGuizmoAxisFlags_None)
      as [-> | (p & Hp & Hh & ->)].
    + change (HasPlane ImGuizmoAxisFlags_None) with false. cbn [negb].
      destruct (first_hovered_cases [0; 1; 2]%Z (IsAxisHovered g gizmo)
                  (fun axis_idx => AxisToFlag axis_idx false)
                  ImGuizmoAxisFlags_None)
        as [-> | (i & Hi & Hh & ->)]; [left; reflexivity |].
      right. right. rewrite Z.lor_0_l. split.
      * left. apply AxisToFlag_single, In_012, Hi.
      * apply (IsAxisHovered_unlocked g), Hh.
    + rewrite Z.lor_0_l. rewrite (PlaneToFlags_plane p (In_012 p Hp)).
      cbn [negb]. right. right. split.
      * right. split; [reflexivity |]. apply PlaneToFlags_plane, In_012, Hp.
      * apply (IsPlaneHovered_unlocked g), Hh.
  - unfold FindScaleHover.
    destruct (CanActivate h g); cbn [negb]; [| left; reflexivity].
    destruct (IsCoreHovered h gizmo) eqn:Ec.
    { right. left. split; [reflexivity |].
      apply (IsCoreHovered_unlocked h), Ec. }
    change (ImGuizmoAxisFlags_None =? ImGuizmoAxisFlags_ALL)%Z with false.
    cbn [negb].
    destruct (first_hovered_cases [0; 1; 2]%Z (IsAxisHovered g gizmo)
                (fun axis_idx => AxisToFlag axis_idx false)
                ImGuizmoAxisFlags_None)
      as [-> | (i & Hi & Hh & ->)]; [left; reflexivity |].
    right. right. rewrite Z.lor_0_l. split.
    + left. apply AxisToFlag_single, In_012, Hi.
    + apply (IsAxisHovered_unlocked g), Hh.
Qed.

(** ** Behaviour *)

(** X12: [GizmoBehavior] leaves a gizmo alone while another gizmo is the active
    one, or while this gizmo is in the middle of another operation: it
    reports neither a press nor a hold, clears the hover flags and changes
    neither the context nor the gizmo. *)
Theorem GizmoBehavior_exclusive (h : Host) (operation : ImGuizmoOperation)
  (hover_flags : ImGuizmoAxisFlags) (g : ImGuizmoContext)
  (gizmo : ImGuizmoWidget) :
  (ActiveGizmo g <> None /\ ActiveGizmo g <> CurrentGizmo g) \/
  (ActiveOperation gizmo <> ImGuizmoOperation_None /\
   ActiveOperation gizmo <> operation) ->
  GizmoBehavior h operation hover_flags g gizmo =
  (false, false, ImGuizmoAxisFlags_None, g, gizmo).
Proof.
  intros H. unfold GizmoBehavior.
  assert (E : (if negb (bool_decide (ActiveGizmo g = CurrentGizmo g)) &&
                  bool_decide (ActiveGizmo g <> None)
               then ImGuizmoAxisFlags_None
               else if negb (ActiveOperation gizmo =? operation)%Z &&
                       truthy (ActiveOperation gizmo)
               then ImGuizmoAxisFlags_None
               else if truthy (ActiveManipulationFlags gizmo)
               then ActiveManipulationFlags gizmo
               else hover_flags) = ImGuizmoAxisFlags_None).
  { destruct H as [[Ha Hc] | [Ho Hn]].
    - rewrite (bool_decide_eq_false_2 _ Hc), (bool_decide_eq_true_2 _ Ha).
      reflexivity.
    - destruct (negb _ && bool_decide _); [reflexivity |].
      apply Z.eqb_neq in Hn. rewrite Hn. unfold truthy at 1.
      unfold ImGuizmoOperation_None in Ho.
      apply Z.eqb_neq in Ho. rewrite Ho. reflexivity. }
  rewrite E. unfold truthy.
  change (ImGuizmoAxisFlags_None =? 0)%Z with true.
  unfold ImGuizmoAxisFlags_None. cbn [negb andb].
  destruct (ActiveManipulationFlags gizmo =? 0)%Z; reflexivity.
Qed.

Lemma GizmoBehavior_cases (h : Host) (operation : ImGuizmoOperation)
  (hover_flags : ImGuizmoAxisFlags) (g : ImGuizmoContext)
  (gizmo : ImGuizmoWidget) :
  let '(pressed, held, hover_flags', g', gizmo') :=
    GizmoBehavior h operation hover_flags g gizmo in
  (pressed = true ->
   MouseClicked h 0 = true /\ hover_flags' <> ImGuizmoAxisFlags_None /\
   ActiveOperation gizmo' = operation /\ held = MouseDown h 0) /\
  (held = true ->
   MouseDown h 0 = true /\
   ActiveManipulationFlags gizmo' = hover_flags' /\
   hover_flags' <> ImGuizmoAxisFlags_None /\
   (ActiveGizmo g' = CurrentGizmo g \/ ActiveGizmo g' = None) /\
   (ActiveOperation gizmo' = operation \/
    ActiveOperation gizmo' = ImGuizmoOperation_None)) /\
  (MouseDown h 0 = false ->
   held = false /\
   (hover_flags' <> ImGuizmoAxisFlags_None ->
    ActiveManipulationFlags gizmo' = ImGuizmoAxisFlags_None)).
Proof.
  unfold GizmoBehavior.
  set (hf := if negb (bool_decide (ActiveGizmo g = CurrentGizmo g)) &&
                bool_decide (ActiveGizmo g <> None)
             then ImGuizmoAxisFlags_None
             else if negb (ActiveOperation gizmo =? operation)%Z &&
                     truthy (ActiveOperation gizmo)
             then ImGuizmoAxisFlags_None
             else if truthy (ActiveManipulationFlags gizmo)
             then ActiveManipulationFlags gizmo
             else hover_flags).
  assert (Hhf : hf <> ImGuizmoAxisFlags_None ->
                (ActiveGizmo g = CurrentGizmo g \/ ActiveGizmo g = None) /\
                (ActiveOperation gizmo = operation \/
                 ActiveOperation gizmo = ImGuizmoOperation_None) /\
                (ActiveManipulationFlags gizmo <> ImGuizmoAxisFlags_None ->
                 hf = ActiveManipulationFlags gizmo)).
  { unfold hf.
    destruct (negb (bool_decide (ActiveGizmo g = CurrentGizmo g)) &&
              bool_decide (ActiveGizmo g <> None)) eqn:E1;
      [intros Hc; exfalso; apply Hc; reflexivity |].
    destruct (negb (ActiveOperation gizmo =? operation)%Z &&
              truthy (ActiveOperation gizmo)) eqn:E2;
      [intros Hc; exfalso; apply Hc; reflexivity |].
    intros _. split; [| split].
    - apply andb_false_iff in E1 as [E1 | E1].
      + left. apply negb_false_iff in E1.
        apply bool_decide_eq_true_1 in E1. exact E1.
      + right. apply bool_decide_eq_false_1 in E1.
        destruct (ActiveGizmo g);
          [exfalso; apply E1; discriminate | reflexivity].
    - apply andb_false_iff in E2 as [E2 | E2].
      + left. apply negb_false_iff, Z.eqb_eq in E2. exact E2.
      + right. unfold truthy in E2.
        apply negb_false_iff, Z.eqb_eq in E2. exact E2.
    - intros Hf. unfold truthy. unfold ImGuizmoAxisFlags_None in Hf.
      apply Z.eqb_neq in Hf. rewrite Hf. reflexivity. }
  clearbody hf.
  unfold truthy in *. unfold ImGuizmoAxisFlags_None in *.
  destruct (hf =? 0)%Z eqn:Eh; cbn [negb andb].
  - (* nothing hovered *)
    apply Z.eqb_eq in Eh. subst hf.
    destruct (ActiveManipulationFlags gizmo =? 0)%Z eqn:Ef; cbn [negb andb].
    + repeat split; try discriminate; try (intros; congruence).
    + repeat split; try discriminate; try (intros; congruence).
  - apply Z.eqb_neq in Eh. specialize (Hhf Eh).
    destruct Hhf as (Hg & Ho & Hf).
    destruct (MouseClicked h 0) eqn:Ec.
    + cbn [ActiveManipulationFlags set_ActiveManipulationFlags
           set_ActiveOperation].
      rewrite Z.eqb_refl. apply Z.eqb_neq in Eh. rewrite Eh.
      apply Z.eqb_neq in Eh. cbn [negb andb].
      destruct (MouseDown h 0) eqn:Ed.
      * cbn [ActiveGizmo set_ActiveGizmo ActiveOperation
             ActiveManipulationFlags set_ActiveManipulationFlags
             set_ActiveOperation].
        repeat split; auto; discriminate.
      * cbn [ActiveGizmo set_ActiveGizmo ActiveOperation
             ActiveManipulationFlags set_ActiveManipulationFlags
             set_ActiveOperation].
        repeat split; auto; discriminate.
    + destruct (ActiveManipulationFlags gizmo =? hf)%Z eqn:Ee.
      * apply Z.eqb_eq in Ee. rewrite Ee.
        apply Z.eqb_neq in Eh. rewrite Eh. apply Z.eqb_neq in Eh.
        cbn [negb andb].
        destruct (MouseDown h 0) eqn:Ed.
        -- repeat split; auto; discriminate.
        -- cbn [ActiveManipulationFlags set_ActiveManipulationFlags].
           repeat split; auto; discriminate.
      * cbn [andb]. repeat split; try discriminate.
        intros _.
        destruct (Z.eq_dec (ActiveManipulationFlags gizmo) 0) as [| Hn];
          [assumption |].
        apply Z.eqb_neq in Ee. exfalso. apply Ee. symmetry. apply Hf, Hn.
Qed.

(** X13: what [GizmoBehavior] reports.  A press is reported only in a frame of
    a left click over a hovered part; the gizmo is then in the requested
    operation and held exactly when the button is down.  A hold is reported
    only while the left button is down, with the manipulated flags equal to
    the hover flags returned, which are not empty.  With the button up
    nothing is held, and a gizmo that is hovered has no manipulated flags. *)
Theorem GizmoBehavior_press_and_hold (h : Host) (operation : ImGuizmoOperation)
  (hover_flags hover_flags' : ImGuizmoAxisFlags) (g g' : ImGuizmoContext)
  (gizmo gizmo' : ImGuizmoWidget) (pressed held : bool) :
  GizmoBehavior h operation hover_flags g gizmo =
  (pressed, held, hover_flags', g', gizmo') ->
  (pressed = true ->
   MouseClicked h 0 = true /\ hover_flags' <> ImGuizmoAxisFlags_None /\
   ActiveOperation gizmo' = operation /\ held = MouseDown h 0) /\
  (held = true ->
   MouseDown h 0 = true /\
   ActiveManipulationFlags gizmo' = hover_flags' /\
   hover_flags' <> ImGuizmoAxisFlags_None /\
   (ActiveGizmo g' = CurrentGizmo g \/ ActiveGizmo g' = None) /\
   (ActiveOperation gizmo' = operation \/
    ActiveOperation gizmo' = ImGuizmoOperation_None)) /\
  (MouseDown h 0 = false ->
   held = false /\
   (hover_flags' <> ImGuizmoAxisFlags_None ->
    ActiveManipulationFlags gizmo' = ImGuizmoAxisFlags_None)).
Proof.
  intros H.
  pose proof (GizmoBehavior_cases h operation hover_flags g gizmo) as HC.
  rewrite H in HC. exact HC.
Qed.

(** ** The context after [Begin] *)

Lemma StoreCurrentGizmo_context gizmo g :
  Viewport (StoreCurrentGizmo gizmo g) = Viewport g /\
  Camera (StoreCurrentGizmo gizmo g) = Camera g /\
  Ray (StoreCurrentGizmo gizmo g) = Ray g /\
  DragOrigin (StoreCurrentGizmo gizmo g) = DragOrigin g /\
  forall id, CurrentGizmo g <> Some id ->
             GizmosById (StoreCurrentGizmo gizmo g) !! id = GizmosById g !! id.
Proof.
  unfold StoreCurrentGizmo. destruct (CurrentGizmo g) as [c |] eqn:E;
    cbn [Viewport Camera Ray DragOrigin GizmosById set_GizmosById];
    repeat split.
  intros id Hne. apply lookup_insert_ne. congruence.
Qed.

Lemma Begin_context h mode model_matrix locked_axes w model :
  model_matrix <> 0%Z ->
  LockedModelMatrix (GImGuizmo w) = 0%Z ->
  Mem w !! model_matrix = Some model ->
  exists visible g' gizmo,
    ImGuizmo.Begin h mode model_matrix locked_axes w =
    Some (visible, mkWorld g' (Mem w)) /\
    GetCurrentGizmo g' = Some gizmo /\
    CurrentGizmo g' = Some (model_matrix mod 2 ^ 32)%Z /\
    Viewport g' = CalculateViewport h /\
    Camera g' = Camera (GImGuizmo w) /\
    ActiveGizmo g' =
    (if MouseDown h 0 then ActiveGizmo (GImGuizmo w) else None) /\
    (forall id, id <> (model_matrix mod 2 ^ 32)%Z ->
                GizmosById g' !! id = GizmosById (GImGuizmo w) !! id) /\
    (ActiveManipulationFlags gizmo = ImGuizmoAxisFlags_None ->
     ActiveOperation gizmo = ImGuizmoOperation_None) /\
    (MouseDown h 0 = false ->
     ActiveManipulationFlags gizmo = ImGuizmoAxisFlags_None /\
     DragOrigin g' = mkvec2 0 0).
Proof.
  intros Hp Hl Hm. unfold ImGuizmo.Begin.
  apply Z.eqb_neq in Hp. rewrite Hp, Hl, Hm. cbn [Z.eqb negb].
  set (id := (model_matrix mod 2 ^ 32)%Z).
  set (g0 := set_Viewport (CalculateViewport h)
               (set_LockedModelMatrix model_matrix (GImGuizmo w))).
  assert (H1 : exists g1 gz1,
             match FindGizmoById g0 id with
             | Some gizmo => (g0, gizmo)
             | None => CreateNewGizmo g0 id
             end = (g1, gz1) /\
             Viewport g1 = CalculateViewport h /\
             Camera g1 = Camera (GImGuizmo w) /\
             ActiveGizmo g1 = ActiveGizmo (GImGuizmo w) /\
             (forall id', id' <> id ->
                          GizmosById g1 !! id' =
                          GizmosById (GImGuizmo w) !! id')).
  { destruct (FindGizmoById g0 id) as [gz |].
    - exists g0, gz. repeat split.
    - eexists _, _. split; [reflexivity |]. repeat split.
      intros id' Hne.
      cbn [CreateNewGizmo GizmosById set_Gizmos set_GizmosById g0 set_Viewport
           set_LockedModelMatrix].
      apply lookup_insert_ne. congruence. }
  destruct H1 as (g1 & gz1 & -> & Hv1 & Hc1 & Ha1 & Hs1). clearbody g0.
  set (g2 := set_CurrentGizmo (Some id) g1).
  assert (H2 : exists g3 gz3,
             (if negb (MouseDown h 0) then
                (set_ActiveGizmo None (set_DragOrigin (mkvec2 0 0) g2),
                 set_ActiveManipulationFlags ImGuizmoAxisFlags_None gz1)
              else (g2, gz1)) = (g3, gz3) /\
             CurrentGizmo g3 = Some id /\
             Viewport g3 = CalculateViewport h /\
             Camera g3 = Camera (GImGuizmo w) /\
             ActiveGizmo g3 =
             (if MouseDown h 0 then ActiveGizmo (GImGuizmo w) else None) /\
             GizmosById g3 = GizmosById g1 /\
             (MouseDown h 0 = false ->
              ActiveManipulationFlags gz3 = ImGuizmoAxisFlags_None /\
              DragOrigin g3 = mkvec2 0 0)).
  { destruct (MouseDown h 0); cbn [negb].
    - exists g2, gz1. repeat split; try assumption; discriminate.
    - eexists _, _. split; [reflexivity |]. repeat split; assumption. }
  destruct H2 as (g3 & gz3 & -> & Hcur3 & Hv3 & Hc3 & Ha3 & Hs3 & Hr3).
  clearbody g2.
  assert (H4 : exists gz4,
             (if negb (truthy (ActiveManipulationFlags gz3))
              then set_ActiveOperation ImGuizmoOperation_None gz3
              else gz3) = gz4 /\
             ActiveManipulationFlags gz4 = ActiveManipulationFlags gz3 /\
             (ActiveManipulationFlags gz4 = ImGuizmoAxisFlags_None ->
              ActiveOperation gz4 = ImGuizmoOperation_None)).
  { unfold truthy. destruct (ActiveManipulationFlags gz3 =? 0)%Z eqn:E;
      cbn [negb].
    - eexists. split; [reflexivity |]. repeat split.
    - exists gz3. repeat split. intros Hc. apply Z.eqb_neq in E.
      contradiction. }
  destruct H4 as (gz4 & -> & Hf4 & Ho4).
  generalize (Load_fields g3 model (set_Mode mode gz4)).
  generalize (Load g3 model (set_Mode mode gz4)).
  intros L (_ & _ & _ & _ & HfL & HoL).
  set (gz5 := set_LockedAxesFlags locked_axes L).
  set (g4 := set_Ray (RayCast h g3 (ViewProjectionMatrix (Camera g3))) g3).
  destruct (StoreCurrentGizmo_frame gz5 g4) as (Hsc & Hsa & _).
  destruct (StoreCurrentGizmo_context gz5 g4) as (Hsv & Hscam & _ & Hsd & Hss).
  eexists _, (StoreCurrentGizmo gz5 g4), gz5.
  split; [reflexivity |].
  split; [apply (GetCurrentGizmo_Store g4 gz5 id); exact Hcur3 |].
  rewrite Hsc, Hsa, Hsv, Hscam, Hsd.
  split; [exact Hcur3 |]. split; [exact Hv3 |]. split; [exact Hc3 |].
  split; [exact Ha3 |].
  split.
  { intros id' Hne. rewrite Hss.
    - change (GizmosById g4) with (GizmosById g3). rewrite Hs3.
      apply Hs1, Hne.
    - change (CurrentGizmo g4) with (CurrentGizmo g3). rewrite Hcur3.
      congruence. }
  cbn [ActiveManipulationFlags ActiveOperation set_LockedAxesFlags gz5
       set_Mode] in *.
  split.
  - rewrite HfL, HoL. exact Ho4.
  - intros Hd. destruct (Hr3 Hd) as [Hr Hdo]. split.
    + rewrite HfL, Hf4. exact Hr.
    + exact Hdo.
Qed.

(** ** Translation steps *)

Lemma ContinueTranslation_None_eq g gizmo :
  ContinueTranslation None g gizmo =
  set_LastTranslationDelta (drag_delta g gizmo)
    (if glm.neq3 (drag_delta g gizmo) (LastTranslationDelta gizmo) then
       set_Dirty true
         (set_ModelMatrix
            (lock_translation (LockedAxesFlags gizmo)
               (DragTranslationOrigin gizmo)
               (glm.translate (drag_delta g gizmo) *m SourceModelMatrix gizmo))
            gizmo)
     else gizmo).
Proof.
  unfold ContinueTranslation, drag_delta; cbv zeta.
  match goal with
  | |- context [glm.neq3 ?d (LastTranslationDelta gizmo)] => set (delta := d)
  end.
  clearbody delta.
  destruct (glm.neq3 delta (LastTranslationDelta gizmo)); [| reflexivity].
  set (m := glm.translate delta *m SourceModelMatrix gizmo). clearbody m.
  match goal with
  | |- context [fold_left ?f [0%Z; 1%Z; 2%Z] ?a] => set (F := f)
  end.
  assert (Hstep : forall m i,
             F (set_ModelMatrix m gizmo) i =
             set_ModelMatrix
               (if locked (LockedAxesFlags gizmo) i then
                  glm.set_col m 3
                    (glm.set4 (c3 m) i (glm.at3 (DragTranslationOrigin gizmo) i))
                else m) gizmo).
  { intros m' i. unfold F, locked. simpl.
    destruct (truthy _); reflexivity. }
  cbn [fold_left]. rewrite !Hstep. unfold lock_translation.
  destruct m as [m0 m1 m2 [tx ty tz tw]].
  destruct (locked (LockedAxesFlags gizmo) 0%Z),
    (locked (LockedAxesFlags gizmo) 1%Z), (locked (LockedAxesFlags gizmo) 2%Z);
    reflexivity.
Qed.

Lemma translate_mulm_axis (delta : vec3) (v : vec4) :
  w4 v = 0 -> glm.mulm_col (glm.translate delta) v = v.
Proof.
  rewrite translate_eq. destruct v as [vx vy vz vw], delta as [dx dy dz].
  cbn [w4]. intros ->.
  cbv [glm.mulm_col glm.add4 glm.scale4 c0 c1 c2 c3 x3 y3 z3 x4 y4 z4 w4].
  f_equal; ring.
Qed.

Lemma translate_mulm_c3 (delta : vec3) (v : vec4) :
  glm.mulm_col (glm.translate delta) v =
  mkvec4 (x4 v + x3 delta * w4 v) (y4 v + y3 delta * w4 v)
    (z4 v + z3 delta * w4 v) (w4 v).
Proof.
  rewrite translate_eq. destruct v as [vx vy vz vw], delta as [dx dy dz].
  cbv [glm.mulm_col glm.add4 glm.scale4 c0 c1 c2 c3 x3 y3 z3 x4 y4 z4 w4].
  f_equal; ring.
Qed.

(** X14: a translate step never changes the axes of the model: for a source
    matrix whose three axis columns have w = 0, [ContinueTranslation] either
    leaves the model matrix and the dirty flag as they are, or marks the
    gizmo dirty and stores a matrix whose three axis columns, and the w of
    whose position column, are those of the source matrix. *)
Theorem ContinueTranslation_keeps_axes (snap : option vec3)
  (g : ImGuizmoContext) (gizmo : ImGuizmoWidget) :
  w4 (c0 (SourceModelMatrix gizmo)) = 0 ->
  w4 (c1 (SourceModelMatrix gizmo)) = 0 ->
  w4 (c2 (SourceModelMatrix gizmo)) = 0 ->
  let gizmo' := ContinueTranslation snap g gizmo in
  (ModelMatrix gizmo' = ModelMatrix gizmo /\ Dirty gizmo' = Dirty gizmo) \/
  (Dirty gizmo' = true /\
   c0 (ModelMatrix gizmo') = c0 (SourceModelMatrix gizmo) /\
   c1 (ModelMatrix gizmo') = c1 (SourceModelMatrix gizmo) /\
   c2 (ModelMatrix gizmo') = c2 (SourceModelMatrix gizmo) /\
   w4 (c3 (ModelMatrix gizmo')) = w4 (c3 (SourceModelMatrix gizmo))).
Proof.
  intros H0 H1 H2. cbv zeta.
  destruct (ContinueTranslation_eq snap g gizmo) as [delta ->].
  destruct (glm.neq3 delta (LastTranslationDelta gizmo)).
  - right.
    cbn [Dirty ModelMatrix set_LastTranslationDelta set_Dirty set_ModelMatrix].
    unfold lock_translation, glm.mulm.
    cbn [glm.set_col c0 c1 c2 c3 w4].
    rewrite !translate_mulm_axis by assumption.
    rewrite translate_mulm_c3. repeat split.
  - left. split; reflexivity.
Qed.

(** X15: a drag on a single axis, without snap and without locked axes, moves
    the model along that axis only: after [ContinueTranslation] the model
    matrix is unchanged, or its position is the position of the source
    matrix plus a multiple of the dragged axis of the model matrix. *)
Theorem ContinueTranslation_along_axis (g : ImGuizmoContext)
  (gizmo : ImGuizmoWidget) :
  HasSingleAxis (ActiveManipulationFlags gizmo) = true ->
  LockedAxesFlags gizmo = ImGuizmoAxisFlags_None ->
  let gizmo' := ContinueTranslation None g gizmo in
  ModelMatrix gizmo' = ModelMatrix gizmo \/
  exists t : float,
    glm.xyz (c3 (ModelMatrix gizmo')) =
    glm.xyz (c3 (SourceModelMatrix gizmo)) +v
    glm.xyz
      (glm.col (ModelMatrix gizmo)
         (GetAxisIdx (ActiveManipulationFlags gizmo) false)) *s t.
Proof.
  intros Hs Hl. cbv zeta. rewrite ContinueTranslation_None_eq.
  assert (Hd : exists t,
             drag_delta g gizmo =
             glm.xyz
               (glm.col (ModelMatrix gizmo)
                  (GetAxisIdx (ActiveManipulationFlags gizmo) false)) *s t).
  { unfold drag_delta; cbv zeta. rewrite Hs. eexists. reflexivity. }
  destruct Hd as [t Hd]. revert Hd. generalize (drag_delta g gizmo).
  intros delta Hd.
  destruct (glm.neq3 delta (LastTranslationDelta gizmo));
    [right | left; reflexivity].
  exists (t * w4 (c3 (SourceModelMatrix gizmo))).
  cbn [ModelMatrix set_LastTranslationDelta set_Dirty set_ModelMatrix].
  rewrite Hl. unfold lock_translation.
  change (locked ImGuizmoAxisFlags_None 0) with false.
  change (locked ImGuizmoAxisFlags_None 1) with false.
  change (locked ImGuizmoAxisFlags_None 2) with false.
  cbn [glm.set_col c3 glm.mulm]. rewrite translate_mulm_c3.
  revert Hd.
  generalize (glm.xyz
                (glm.col (ModelMatrix gizmo)
                   (GetAxisIdx (ActiveManipulationFlags gizmo) false))).
  intros [ax ay az] ->.
  destruct (c3 (SourceModelMatrix gizmo)) as [sx sy sz sw].
  cbv [glm.xyz glm.add3 glm.scale3 x3 y3 z3 x4 y4 z4 w4]. f_equal; ring.
Qed.

Lemma lock_translation_same flags origin m :
  origin = glm.xyz (c3 m) -> lock_translation flags origin m = m.
Proof.
  intros ->. unfold lock_translation.
  destruct m as [m0 m1 m2 [tx ty tz tw]].
  cbn [glm.set_col glm.xyz c0 c1 c2 c3 x3 y3 z3 x4 y4 z4 w4].
  destruct (locked flags 0), (locked flags 1), (locked flags 2); reflexivity.
Qed.

Lemma translate_zero_mulm (m : mat4) : glm.translate (mkvec3 0 0 0) *m m = m.
Proof.
  destruct m as [[a0 a1 a2 a3] [b0 b1 b2 b3] [d0 d1 d2 d3] [e0 e1 e2 e3]].
  unfold glm.mulm. cbn [c0 c1 c2 c3]. rewrite !translate_mulm_c3.
  cbn [x3 y3 z3 x4 y4 z4 w4]. f_equal; f_equal; ring.
Qed.

Lemma loaded_position gizmo :
  loaded gizmo ->
  glm.xyz (c3 (ModelMatrix gizmo)) = glm.xyz (c3 (SourceModelMatrix gizmo)).
Proof.
  unfold loaded, loaded_model. intros ->.
  destruct (Mode gizmo =? ImGuizmoMode_Local)%Z; reflexivity.
Qed.

(** X16: pressing does not move the model: when [BeginTranslation] is followed,
    with the mouse ray unchanged, by a [ContinueTranslation] without snap, the
    model matrix stays what it was or becomes the source matrix it was
    loaded from.  The gizmo is as [Load] leaves it, its screen factor is not
    zero, and the ray meets the drag plane in front of its origin. *)
Theorem BeginTranslation_no_jump (h : Host) (g : ImGuizmoContext)
  (gizmo : ImGuizmoWidget) :
  loaded gizmo ->
  ScreenFactor gizmo <> 0 ->
  0 <= IntersectRayPlane (Ray g) (TranslationPlane (BeginTranslation h g gizmo).2) ->
  let gizmo' :=
    ContinueTranslation None (BeginTranslation h g gizmo).1
      (BeginTranslation h g gizmo).2 in
  ModelMatrix gizmo' = ModelMatrix gizmo \/
  ModelMatrix gizmo' = SourceModelMatrix gizmo.
Proof.
  intros Hload Hsf Hlen. cbv zeta. rewrite ContinueTranslation_None_eq.
  assert (Hd : drag_delta (BeginTranslation h g gizmo).1
                 (BeginTranslation h g gizmo).2 = mkvec3 0 0 0).
  { revert Hlen. unfold drag_delta, BeginTranslation; cbv zeta.
    cbn [fst snd Ray set_DragOrigin set_BackupModelMatrix TranslationPlane
         ModelRelativeOrigin ScreenFactor ModelMatrix ActiveManipulationFlags
         TranslationPlaneOrigin set_ModelRelativeOrigin
         set_TranslationPlaneOrigin set_TranslationPlane
         set_DragTranslationOrigin].
    generalize (IntersectRayPlane (Ray g)
                  (BuildTranslatePlane
                     (set_DragOrigin (MousePos h)
                        (set_BackupModelMatrix (SourceModelMatrix gizmo) g))
                     (set_DragTranslationOrigin
                        (glm.xyz (c3 (ModelMatrix gizmo))) gizmo))).
    intros len Hlen. unfold glm.abs. rewrite (Rabs_right len) by lra.
    generalize (glm.col (ModelMatrix gizmo)
                  (GetAxisIdx (ActiveManipulationFlags gizmo) false)).
    intros axis.
    destruct (RayOrigin (Ray g)) as [ox oy oz].
    destruct (RayDirection (Ray g)) as [dx dy dz].
    destruct (c3 (ModelMatrix gizmo)) as [tx ty tz tw].
    destruct axis as [ax ay az aw].
    destruct (HasSingleAxis (ActiveManipulationFlags gizmo));
      cbv [glm.add3 glm.sub3 glm.scale3 glm.dot3 glm.xyz x3 y3 z3 x4 y4 z4];
      f_equal; field; exact Hsf. }
  rewrite Hd.
  destruct (glm.neq3 _ _); [right | left; reflexivity].
  cbn [ModelMatrix set_LastTranslationDelta set_Dirty set_ModelMatrix].
  rewrite translate_zero_mulm.
  apply lock_translation_same.
  unfold BeginTranslation; cbv zeta.
  cbn [snd DragTranslationOrigin SourceModelMatrix set_ModelRelativeOrigin
       set_TranslationPlaneOrigin set_TranslationPlane
       set_DragTranslationOrigin].
  apply loaded_position, Hload.
Qed.

(** ** Rotation steps *)

Lemma set_rotation_angles_id a gizmo :
  RotationAngle gizmo = a -> RotationAngleOrigin gizmo = a ->
  set_RotationAngleOrigin a (set_RotationAngle a gizmo) = gizmo.
Proof. destruct gizmo. cbn. intros -> ->. reflexivity. Qed.

Lemma CalculateAngleOnPlane_ext g gizmo gizmo' :
  TranslationPlane gizmo' = TranslationPlane gizmo ->
  RotationVectorSource gizmo' = RotationVectorSource gizmo ->
  glm.xyz (c3 (ModelMatrix gizmo')) = glm.xyz (c3 (ModelMatrix gizmo)) ->
  CalculateAngleOnPlane g gizmo' = CalculateAngleOnPlane g gizmo.
Proof.
  intros H1 H2 H3. unfold CalculateAngleOnPlane. rewrite H1, H2, H3.
  reflexivity.
Qed.

Lemma rotated_model_position gizmo angle :
  loaded gizmo ->
  glm.xyz (c3 (rotated_model gizmo angle)) = glm.xyz (c3 (ModelMatrix gizmo)).
Proof.
  intros Hl. rewrite rotated_model_c3.
  destruct (Mode gizmo =? ImGuizmoMode_Local)%Z; [reflexivity |].
  symmetry. apply loaded_position, Hl.
Qed.

(** X17: with the mouse at rest a rotation is applied once: for a gizmo as
    [Load] leaves it, a second [ContinueRotation] under the same context and
    snap changes nothing. *)
Theorem ContinueRotation_at_rest (snap : option vec3) (g : ImGuizmoContext)
  (gizmo : ImGuizmoWidget) :
  loaded gizmo ->
  ContinueRotation snap g (ContinueRotation snap g gizmo) =
  ContinueRotation snap g gizmo.
Proof.
  intros Hl.
  assert (Hfields :
            TranslationPlane (ContinueRotation snap g gizmo) =
            TranslationPlane gizmo /\
            RotationVectorSource (ContinueRotation snap g gizmo) =
            RotationVectorSource gizmo /\
            glm.xyz (c3 (ModelMatrix (ContinueRotation snap g gizmo))) =
            glm.xyz (c3 (ModelMatrix gizmo)) /\
            RotationAngle (ContinueRotation snap g gizmo) =
            rotation_angle snap g gizmo /\
            RotationAngleOrigin (ContinueRotation snap g gizmo) =
            rotation_angle snap g gizmo).
  { rewrite ContinueRotation_eq; cbv zeta.
    destruct (F.neb _ _);
      cbn [TranslationPlane RotationVectorSource ModelMatrix RotationAngle
           RotationAngleOrigin set_RotationAngleOrigin set_Dirty
           set_ModelMatrix set_RotationAngle];
      repeat split.
    apply rotated_model_position, Hl. }
  destruct Hfields as (Hp & Hv & Hc & Ha & Ho).
  assert (Hang : rotation_angle snap g (ContinueRotation snap g gizmo) =
                 rotation_angle snap g gizmo).
  { unfold rotation_angle.
    rewrite (CalculateAngleOnPlane_ext g gizmo _ Hp Hv Hc). reflexivity. }
  revert Ha Ho Hang. generalize (rotation_angle snap g gizmo).
  generalize (ContinueRotation snap g gizmo). intros gz a Ha Ho Hang.
  rewrite ContinueRotation_eq; cbv zeta. rewrite Hang, Ho.
  unfold F.neb. rewrite FFacts.eqb_refl. cbn [negb].
  apply set_rotation_angles_id; assumption.
Qed.

(** X18: pressing does not rotate the model: when [BeginRotation] is followed,
    with the mouse ray unchanged, by a [ContinueRotation] without snap, the
    model matrix and the dirty flag are what they were. *)
Theorem BeginRotation_no_jump (h : Host) (g : ImGuizmoContext)
  (gizmo : ImGuizmoWidget) :
  let gizmo' :=
    ContinueRotation None (BeginRotation h g gizmo).1
      (BeginRotation h g gizmo).2 in
  ModelMatrix gizmo' = ModelMatrix gizmo /\ Dirty gizmo' = Dirty gizmo.
Proof.
  cbv zeta. rewrite ContinueRotation_eq; cbv zeta.
  unfold rotation_angle.
  assert (Ha : CalculateAngleOnPlane (BeginRotation h g gizmo).1
                 (BeginRotation h g gizmo).2 =
               RotationAngleOrigin (BeginRotation h g gizmo).2).
  { unfold BeginRotation; cbv zeta.
    cbn [fst snd RotationAngleOrigin set_RotationAngleOrigin].
    unfold CalculateAngleOnPlane. reflexivity. }
  rewrite Ha. unfold F.neb. rewrite FFacts.eqb_refl. cbn [negb].
  split; reflexivity.
Qed.

(** ** Operations, frame by frame *)

Lemma StoreCurrentGizmo_id gizmo g :
  GetCurrentGizmo g = Some gizmo -> StoreCurrentGizmo gizmo g = g.
Proof.
  unfold GetCurrentGizmo, StoreCurrentGizmo.
  destruct (CurrentGizmo g) as [id |]; [| discriminate].
  intros H. rewrite (insert_id _ _ _ H). destruct g; reflexivity.
Qed.

Lemma StoreCurrentGizmo_others gizmo g id :
  CurrentGizmo g <> Some id ->
  GizmosById (StoreCurrentGizmo gizmo g) !! id = GizmosById g !! id.
Proof.
  unfold StoreCurrentGizmo. destruct (CurrentGizmo g) as [c |] eqn:E;
    [| reflexivity].
  intros Hne. cbn [GizmosById set_GizmosById]. apply lookup_insert_ne.
  congruence.
Qed.

Lemma hover_None_inactive h g gizmo :
  CanActivate h g = false ->
  FindTranslationHover h g gizmo = ImGuizmoAxisFlags_None /\
  FindRotationHover h g gizmo = ImGuizmoAxisFlags_None /\
  FindScaleHover h g gizmo = ImGuizmoAxisFlags_None.
Proof.
  intros H. unfold FindTranslationHover, FindRotationHover, FindScaleHover.
  rewrite H. repeat split.
Qed.

Lemma GizmoBehavior_idle h operation g gizmo :
  ActiveManipulationFlags gizmo = ImGuizmoAxisFlags_None ->
  GizmoBehavior h operation ImGuizmoAxisFlags_None g gizmo =
  (false, false, ImGuizmoAxisFlags_None, g, gizmo).
Proof.
  intros Hf. unfold GizmoBehavior.
  assert (E : (if negb (bool_decide (ActiveGizmo g = CurrentGizmo g)) &&
                  bool_decide (ActiveGizmo g <> None)
               then ImGuizmoAxisFlags_None
               else if negb (ActiveOperation gizmo =? operation)%Z &&
                       truthy (ActiveOperation gizmo)
               then ImGuizmoAxisFlags_None
               else if truthy (ActiveManipulationFlags gizmo)
               then ActiveManipulationFlags gizmo
               else ImGuizmoAxisFlags_None) = ImGuizmoAxisFlags_None).
  { rewrite Hf.
    destruct (negb (bool_decide (ActiveGizmo g = CurrentGizmo g)) &&
              bool_decide (ActiveGizmo g <> None));
      [reflexivity |].
    destruct (negb (ActiveOperation gizmo =? operation)%Z &&
              truthy (ActiveOperation gizmo)); reflexivity. }
  rewrite E. unfold truthy.
  change (ImGuizmoAxisFlags_None =? 0)%Z with true.
  unfold ImGuizmoAxisFlags_None in *. cbn [negb andb].
  rewrite Hf. reflexivity.
Qed.

(** X19: [Translate], [Rotate] and [Scale] do nothing to a gizmo that is not
    being manipulated when a gizmo cannot be activated (the window is not
    hovered, or another gizmo is active): each returns with the whole state
    unchanged. *)
Theorem operations_need_activation (h : Host) (snap : option vec3) (w : World)
  (gizmo : ImGuizmoWidget) :
  GetCurrentGizmo (GImGuizmo w) = Some gizmo ->
  ActiveManipulationFlags gizmo = ImGuizmoAxisFlags_None ->
  CanActivate h (GImGuizmo w) = false ->
  ImGuizmo.Translate h snap w = Some (tt, w) /\
  ImGuizmo.Rotate h snap w = Some (tt, w) /\
  ImGuizmo.Scale h snap w = Some (tt, w).
Proof.
  intros Hg Hf Hc.
  destruct (hover_None_inactive h (GImGuizmo w) gizmo Hc) as (Ht & Hr & Hs).
  unfold ImGuizmo.Translate, ImGuizmo.Rotate, ImGuizmo.Scale.
  rewrite Hg. cbv zeta. rewrite Ht, Hr, Hs.
  rewrite !GizmoBehavior_idle by exact Hf.
  rewrite (StoreCurrentGizmo_id _ _ Hg). destruct w; repeat split.
Qed.

(** The intermediate states of an operation. *)
Lemma operation_skeleton (h : Host) (operation : ImGuizmoOperation)
  (hover_flags : ImGuizmoAxisFlags)
  (begin : ImGuizmoContext -> ImGuizmoWidget ->
           ImGuizmoContext * ImGuizmoWidget)
  (continue : ImGuizmoContext -> ImGuizmoWidget -> ImGuizmoWidget)
  (w : World) (gizmo : ImGuizmoWidget) :
  exists pressed held hover' g1 gz1 g2 gz2,
    GizmoBehavior h operation hover_flags (GImGuizmo w) gizmo =
    (pressed, held, hover', g1, gz1) /\
    (if pressed then begin g1 gz1 else (g1, gz1)) = (g2, gz2) /\
    (let '(pressed, held, hover_flags, g, gizmo) :=
       GizmoBehavior h operation hover_flags (GImGuizmo w) gizmo in
     let '(g, gizmo) := if pressed then begin g gizmo else (g, gizmo) in
     let gizmo := if held then continue g gizmo else gizmo in
     Some (tt, mkWorld (StoreCurrentGizmo gizmo g) (Mem w))) =
    Some
      (tt,
       mkWorld
         (StoreCurrentGizmo (if held then continue g2 gz2 else gz2) g2)
         (Mem w)).
Proof.
  destruct (GizmoBehavior h operation hover_flags (GImGuizmo w) gizmo)
    as [[[[pressed held] hover'] g1] gz1].
  destruct (if pressed then begin g1 gz1 else (g1, gz1)) as [g2 gz2] eqn:E.
  exists pressed, held, hover', g1, gz1, g2, gz2. repeat split. exact E.
Qed.











(** X22: a viewport set with [SetViewport] does not survive [Begin]: after
    [SetViewport] then [Begin] the viewport is the content region of the
    current window, whatever was set. *)
Theorem Begin_resets_viewport (h : Host) (mode : ImGuizmoMode)
  (model_matrix : Z) (locked_axes : ImGuizmoAxisFlags) (position size : vec2)
  (w : World) (model : mat4) :
  model_matrix <> 0%Z ->
  LockedModelMatrix (GImGuizmo w) = 0%Z ->
  Mem w !! model_matrix = Some model ->
  exists (visible : bool) (w' : World),
    (ImGuizmo.SetViewport position size ;;
     ImGuizmo.Begin h mode model_matrix locked_axes)%M w =
    Some (visible, w') /\
    Viewport (GImGuizmo w') = CalculateViewport h.
Proof.
  intros Hp Hl Hm. unfold bind, ImGuizmo.SetViewport.
  destruct (Begin_context h mode model_matrix locked_axes
              (mkWorld
                 (set_Viewport (mkImRect position (glm.add2 position size))
                    (GImGuizmo w)) (Mem w)) model Hp Hl Hm)
    as (visible & g' & gizmo & Hb & _ & _ & Hv & _).
  exists visible, (mkWorld g' (Mem w)). split; [exact Hb | exact Hv].
Qed.

(** X23: with the left button up, [Begin] ends every manipulation: afterwards
    no gizmo is active, the current gizmo has no manipulated flags and no
    operation, and the drag origin is (0, 0). *)
Theorem Begin_releases_drag (h : Host) (mode : ImGuizmoMode)
  (model_matrix : Z) (locked_axes : ImGuizmoAxisFlags) (w : World)
  (model : mat4) :
  model_matrix <> 0%Z ->
  LockedModelMatrix (GImGuizmo w) = 0%Z ->
  Mem w !! model_matrix = Some model ->
  MouseDown h 0 = false ->
  exists (visible : bool) (w' : World) (gizmo : ImGuizmoWidget),
    ImGuizmo.Begin h mode model_matrix locked_axes w = Some (visible, w') /\
    GetCurrentGizmo (GImGuizmo w') = Some gizmo /\
    ActiveGizmo (GImGuizmo w') = None /\
    ActiveManipulationFlags gizmo = ImGuizmoAxisFlags_None /\
    ActiveOperation gizmo = ImGuizmoOperation_None /\
    DragOrigin (GImGuizmo w') = mkvec2 0 0.
Proof.
  intros Hp Hl Hm Hd.
  destruct (Begin_context h mode model_matrix locked_axes w model Hp Hl Hm)
    as (visible & g' & gizmo & Hb & Hc & _ & _ & _ & Ha & _ & Ho & Hr).
  destruct (Hr Hd) as [Hf Hdo]. rewrite Hd in Ha.
  exists visible, (mkWorld g' (Mem w)), gizmo.
  repeat split; try assumption. apply Ho, Hf.
Qed.

(** ** The camera *)

Lemma inverse_affine (m : mat4) :
  affine m -> determinant m <> 0 -> affine (glm.inverse m).
Proof.
  destruct m as [[a00 a01 a02 a03] [a10 a11 a12 a13]
                 [a20 a21 a22 a23] [a30 a31 a32 a33]].
  unfold affine, determinant. cbn [c0 c1 c2 c3 x4 y4 z4 w4].
  intros (-> & -> & -> & ->) Hd.
  unfold glm.inverse.
  cbv [glm.add4 glm.sub4 glm.mul4 glm.scale4 c0 c1 c2 c3 x4 y4 z4 w4].
  repeat split; field; intros Hc; apply Hd;
    match type of Hc with
    | ?X = 0 => transitivity X; [ring | exact Hc]
    end.
Qed.

Lemma mulm_col_mulv (m : mat4) (v : vec4) : glm.mulm_col m v = m *mv v.
Proof.
  destruct m as [[a00 a01 a02 a03] [a10 a11 a12 a13]
                 [a20 a21 a22 a23] [a30 a31 a32 a33]].
  destruct v as [vx vy vz vw].
  cbv [glm.mulm_col glm.mulv glm.add4 glm.scale4 c0 c1 c2 c3 x4 y4 z4 w4].
  f_equal; ring.
Qed.

Lemma vec4_of_xyz (v : vec4) : glm.vec4_of (glm.xyz v) (w4 v) = v.
Proof. destruct v. reflexivity. Qed.

(** X24: [SetCamera] stores the camera frame of the view matrix: for a view
    matrix with last row (0, 0, 0, 1) and nonzero determinant it returns,
    leaves the memory alone, and the view matrix takes the stored eye to the
    origin and the stored right, up and forward directions to the x, y and z
    axes; the stored view-projection matrix is projection times view. *)
Theorem SetCamera_axes (view_matrix projection_matrix : Z) (is_ortho : bool)
  (w : World) (view projection : mat4) :
  view_matrix <> 0%Z -> projection_matrix <> 0%Z ->
  Mem w !! view_matrix = Some view ->
  Mem w !! projection_matrix = Some projection ->
  affine view -> determinant view <> 0 ->
  exists w' : World,
    ImGuizmo.SetCamera view_matrix projection_matrix is_ortho w =
    Some (tt, w') /\
    Mem w' = Mem w /\
    let camera := Camera (GImGuizmo w') in
    view *mv glm.vec4_of (Eye camera) 1 = mkvec4 0 0 0 1 /\
    view *mv glm.vec4_of (Right camera) 0 = mkvec4 1 0 0 0 /\
    view *mv glm.vec4_of (Up camera) 0 = mkvec4 0 1 0 0 /\
    view *mv glm.vec4_of (Forward camera) 0 = mkvec4 0 0 1 0 /\
    ViewProjectionMatrix camera = projection *m view.
Proof.
  intros Hv Hp Hmv Hmp Ha Hd. unfold ImGuizmo.SetCamera.
  apply Z.eqb_neq in Hv, Hp. rewrite Hv, Hp, Hmv, Hmp. cbn [orb].
  eexists. split; [reflexivity |]. split; [reflexivity |].
  cbn [GImGuizmo Camera set_Camera Eye Right Up Forward ViewProjectionMatrix].
  destruct (inverse_affine view Ha Hd) as (H0 & H1 & H2 & H3).
  pose proof (inverse_right view Hd) as Hr.
  revert H0 H1 H2 H3 Hr. generalize (glm.inverse view). intros inv.
  intros H0 H1 H2 H3 Hr.
  unfold glm.mulm in Hr. rewrite !mulm_col_mulv in Hr.
  pose proof (f_equal c0 Hr) as E0. pose proof (f_equal c1 Hr) as E1.
  pose proof (f_equal c2 Hr) as E2. pose proof (f_equal c3 Hr) as E3.
  cbn [c0 c1 c2 c3 glm.identity] in E0, E1, E2, E3.
  replace (glm.vec4_of (glm.xyz (c3 inv)) 1) with (c3 inv)
    by (rewrite <- H3; symmetry; apply vec4_of_xyz).
  replace (glm.vec4_of (glm.xyz (c0 inv)) 0) with (c0 inv)
    by (rewrite <- H0; symmetry; apply vec4_of_xyz).
  replace (glm.vec4_of (glm.xyz (c1 inv)) 0) with (c1 inv)
    by (rewrite <- H1; symmetry; apply vec4_of_xyz).
  replace (glm.vec4_of (glm.xyz (c2 inv)) 0) with (c2 inv)
    by (rewrite <- H2; symmetry; apply vec4_of_xyz).
  split; [exact E3 |]. split; [exact E0 |]. split; [exact E1 |].
  split; [exact E2 | reflexivity].
Qed.

(** ** Decomposing and recomposing a matrix *)

Lemma rotate_X a :
  glm.rotate a (kUnitDirections 0) =
  mkmat4 (mkvec4 1 0 0 0) (mkvec4 0 (cos a) (sin a) 0)
    (mkvec4 0 (- sin a) (cos a) 0) (mkvec4 0 0 0 1).
Proof.
  unfold glm.rotate. cbv zeta.
  rewrite normalize3_unit by (cbv [glm.dot3 kUnitDirections x3 y3 z3]; ring).
  generalize (cos a) (sin a). intros c s.
  cbv [kUnitDirections glm.scale3 glm.add4 glm.scale4 glm.identity
       c0 c1 c2 c3 x3 y3 z3 x4 y4 z4 w4].
  f_equal; f_equal; ring.
Qed.

Lemma rotate_Y a :
  glm.rotate a (kUnitDirections 1) =
  mkmat4 (mkvec4 (cos a) 0 (- sin a) 0) (mkvec4 0 1 0 0)
    (mkvec4 (sin a) 0 (cos a) 0) (mkvec4 0 0 0 1).
Proof.
  unfold glm.rotate. cbv zeta.
  rewrite normalize3_unit by (cbv [glm.dot3 kUnitDirections x3 y3 z3]; ring).
  generalize (cos a) (sin a). intros c s.
  cbv [kUnitDirections glm.scale3 glm.add4 glm.scale4 glm.identity
       c0 c1 c2 c3 x3 y3 z3 x4 y4 z4 w4].
  f_equal; f_equal; ring.
Qed.

Lemma rotate_Z a :
  glm.rotate a (kUnitDirections 2) =
  mkmat4 (mkvec4 (cos a) (sin a) 0 0) (mkvec4 (- sin a) (cos a) 0 0)
    (mkvec4 0 0 1 0) (mkvec4 0 0 0 1).
Proof.
  unfold glm.rotate. cbv zeta.
  rewrite normalize3_unit by (cbv [glm.dot3 kUnitDirections x3 y3 z3]; ring).
  generalize (cos a) (sin a). intros c s.
  cbv [kUnitDirections glm.scale3 glm.add4 glm.scale4 glm.identity
       c0 c1 c2 c3 x3 y3 z3 x4 y4 z4 w4].
  f_equal; f_equal; ring.
Qed.

Lemma RecomposeMatrix_eq translation rotation scale :
  let R :=
    euler_rotation (glm.radians (x3 rotation)) (glm.radians (y3 rotation))
      (glm.radians (z3 rotation)) in
  ImGuizmo.RecomposeMatrix translation rotation scale =
  mkmat4
    (glm.scale4 (c0 R) (valid_scale (x3 scale)))
    (glm.scale4 (c1 R) (valid_scale (y3 scale)))
    (glm.scale4 (c2 R) (valid_scale (z3 scale)))
    (glm.vec4_of translation 1).
Proof.
  cbv zeta. unfold ImGuizmo.RecomposeMatrix. cbn [fold_left glm.at3].
  rewrite rotate_X, rotate_Y, rotate_Z. unfold euler_rotation.
  fold (valid_scale (x3 scale)) (valid_scale (y3 scale))
    (valid_scale (z3 scale)).
  generalize (valid_scale (x3 scale)) (valid_scale (y3 scale))
    (valid_scale (z3 scale)).
  generalize (cos (glm.radians (x3 rotation))) (sin (glm.radians (x3 rotation))).
  generalize (cos (glm.radians (y3 rotation))) (sin (glm.radians (y3 rotation))).
  generalize (cos (glm.radians (z3 rotation))) (sin (glm.radians (z3 rotation))).
  intros cz sz cy sy cx sx v0 v1 v2.
  cbv [glm.mulm glm.mulm_col glm.identity glm.set_col glm.col glm.add4
       glm.scale4 c0 c1 c2 c3 x4 y4 z4 w4].
  f_equal; f_equal; ring.
Qed.

Lemma euler_rotation_unit rx ry rz :
  glm.dot4 (c0 (euler_rotation rx ry rz)) (c0 (euler_rotation rx ry rz)) = 1 /\
  glm.dot4 (c1 (euler_rotation rx ry rz)) (c1 (euler_rotation rx ry rz)) = 1 /\
  glm.dot4 (c2 (euler_rotation rx ry rz)) (c2 (euler_rotation rx ry rz)) = 1.
Proof.
  pose proof (sin2_cos2 rx) as Hx. pose proof (sin2_cos2 ry) as Hy.
  pose proof (sin2_cos2 rz) as Hz. unfold Rsqr in *.
  unfold euler_rotation. cbv [glm.dot4 c0 c1 c2 x4 y4 z4 w4].
  revert Hx Hy Hz.
  generalize (cos rx) (sin rx) (cos ry) (sin ry) (cos rz) (sin rz).
  intros cx sx cy sy cz sz Hx Hy Hz.
  assert (Ecx : cx * cx = 1 - sx * sx) by lra.
  assert (Ecy : cy * cy = 1 - sy * sy) by lra.
  assert (Ecz : cz * cz = 1 - sz * sz) by lra.
  repeat split.
  - replace (cz * cy * (cz * cy) + sz * cy * (sz * cy) +
             (- sy * - sy + 0 * 0))
      with (cy * cy * (sz * sz + cz * cz) + sy * sy) by ring.
    rewrite Hz. lra.
  - replace ((cz * sy * sx - sz * cx) * (cz * sy * sx - sz * cx) +
             (sz * sy * sx + cz * cx) * (sz * sy * sx + cz * cx) +
             (cy * sx * (cy * sx) + 0 * 0))
      with ((sz * sz + cz * cz) * (sy * sy * (sx * sx) + cx * cx) +
            cy * cy * (sx * sx)) by ring.
    rewrite Hz, Ecy. lra.
  - replace ((cz * sy * cx + sz * sx) * (cz * sy * cx + sz * sx) +
             (sz * sy * cx - cz * sx) * (sz * sy * cx - cz * sx) +
             (cy * cx * (cy * cx) + 0 * 0))
      with ((sz * sz + cz * cz) * (sy * sy * (cx * cx) + sx * sx) +
            cy * cy * (cx * cx)) by ring.
    rewrite Hz, Ecy. lra.
Qed.

Lemma valid_scale_bound s : kEpsilon <= Rabs (valid_scale s).
Proof.
  unfold valid_scale, glm.abs. destruct (F.ltb (Rabs s) kEpsilon) eqn:E.
  - rewrite Rabs_right by lra. unfold kEpsilon, glm.epsilon. lra.
  - apply FFacts.ltb_false in E. exact E.
Qed.

Lemma valid_scale_id s : kEpsilon <= s -> valid_scale s = s.
Proof.
  intros H. unfold valid_scale, glm.abs. pose proof kEpsilon_pos.
  rewrite Rabs_right by lra.
  destruct (F.ltb s kEpsilon) eqn:E; [| reflexivity].
  apply FFacts.ltb_true in E. lra.
Qed.

Lemma length4_unit_scaled (u : vec4) (v : float) :
  glm.dot4 u u = 1 -> glm.length4 (glm.scale4 u v) = Rabs v.
Proof.
  intros H. rewrite length4_scale4. unfold glm.length4. rewrite H, sqrt_1.
  ring.
Qed.

Lemma DecomposeMatrix_scaled (u0 u1 u2 t : vec4) (v0 v1 v2 : float) :
  glm.dot4 u0 u0 = 1 -> glm.dot4 u1 u1 = 1 -> glm.dot4 u2 u2 = 1 ->
  (ImGuizmo.DecomposeMatrix
     (mkmat4 (glm.scale4 u0 v0) (glm.scale4 u1 v1) (glm.scale4 u2 v2) t)).1.1 =
  glm.xyz t /\
  (ImGuizmo.DecomposeMatrix
     (mkmat4 (glm.scale4 u0 v0) (glm.scale4 u1 v1) (glm.scale4 u2 v2) t)).2 =
  mkvec3 (Rabs v0) (Rabs v1) (Rabs v2).
Proof.
  intros H0 H1 H2. unfold ImGuizmo.DecomposeMatrix.
  cbn [fold_left glm.col glm.set_col glm.set3 glm.splat3 c0 c1 c2 c3
       x3 y3 z3 fst snd].
  rewrite !length4_unit_scaled by assumption. split; reflexivity.
Qed.

(** X25: [DecomposeMatrix] of a recomposed matrix gives the translation back,
    whatever the rotation and scale; every scale it gives is at least
    [kEpsilon], and is the scale that was given wherever that was at least
    [kEpsilon]. *)
Theorem DecomposeMatrix_RecomposeMatrix_scale (translation rotation scale : vec3) :
  let result :=
    ImGuizmo.DecomposeMatrix
      (ImGuizmo.RecomposeMatrix translation rotation scale) in
  result.1.1 = translation /\
  forall axis_idx : ImGuizmoAxis,
    (0 <= axis_idx < 3)%Z ->
    kEpsilon <= glm.at3 result.2 axis_idx /\
    (kEpsilon <= glm.at3 scale axis_idx ->
     glm.at3 result.2 axis_idx = glm.at3 scale axis_idx).
Proof.
  cbv zeta. rewrite RecomposeMatrix_eq; cbv zeta.
  destruct (euler_rotation_unit (glm.radians (x3 rotation))
              (glm.radians (y3 rotation)) (glm.radians (z3 rotation)))
    as (H0 & H1 & H2).
  revert H0 H1 H2.
  generalize (euler_rotation (glm.radians (x3 rotation))
                (glm.radians (y3 rotation)) (glm.radians (z3 rotation))).
  intros R H0 H1 H2.
  destruct (DecomposeMatrix_scaled (c0 R) (c1 R) (c2 R)
              (glm.vec4_of translation 1) (valid_scale (x3 scale))
              (valid_scale (y3 scale)) (valid_scale (z3 scale)) H0 H1 H2)
    as [Ht Hs].
  rewrite Ht, Hs.
  split; [destruct translation; reflexivity |].
  intros i Hi.
  assert (i = 0 \/ i = 1 \/ i = 2)%Z as [-> | [-> | ->]] by lia;
    cbn [glm.at3 x3 y3 z3];
    (split; [apply valid_scale_bound |]);
    intros Hv; rewrite (valid_scale_id _ Hv); pose proof kEpsilon_pos;
    apply Rabs_right; lra.
Qed.

Lemma normalize4_unit_scaled (u : vec4) (v : float) :
  glm.dot4 u u = 1 -> 0 < v -> glm.normalize4 (glm.scale4 u v) = u.
Proof.
  intros Hu Hv. unfold glm.normalize4, glm.inversesqrt.
  replace (glm.dot4 (glm.scale4 u v) (glm.scale4 u v)) with (v * v).
  - rewrite sqrt_square by lra. destruct u as [a b c d].
    cbv [glm.scale4 x4 y4 z4 w4]. f_equal; field; lra.
  - destruct u as [a b c d]. cbv [glm.dot4 glm.scale4 x4 y4 z4 w4] in *.
    replace (a * v * (a * v) + b * v * (b * v) + (c * v * (c * v) + d * v * (d * v)))
      with (v * v * (a * a + b * b + (c * c + d * d))) by ring.
    rewrite Hu. ring.
Qed.

Lemma atan2_pos y x : 0 < x -> glm.atan2 y x = atan (y / x).
Proof.
  intros H. unfold glm.atan2. rewrite (proj2 (FFacts.ltb_true 0 x) H).
  reflexivity.
Qed.

Lemma atan2_sin_cos k a :
  0 < k -> - (PI / 2) < a < PI / 2 ->
  glm.atan2 (k * sin a) (k * cos a) = a.
Proof.
  intros Hk Ha.
  assert (Hc : 0 < cos a) by (apply cos_gt_0; lra).
  rewrite atan2_pos by (apply Rmult_lt_0_compat; assumption).
  replace (k * sin a / (k * cos a)) with (tan a)
    by (unfold tan; field; split; lra).
  apply atan_tan, Ha.
Qed.

Lemma degrees_radians d : glm.degrees (glm.radians d) = d.
Proof.
  unfold glm.degrees, glm.radians. pose proof PI_RGT_0. field. lra.
Qed.

Lemma radians_range d : -90 < d < 90 -> - (PI / 2) < glm.radians d < PI / 2.
Proof.
  intros H. unfold glm.radians. pose proof PI_RGT_0.
  split.
  - replace (- (PI / 2)) with (-90 * (PI / 180)) by field.
    apply Rmult_lt_compat_r; lra.
  - replace (PI / 2) with (90 * (PI / 180)) by field.
    apply Rmult_lt_compat_r; lra.
Qed.

(** X26: [DecomposeMatrix] undoes [RecomposeMatrix] when the three rotation
    angles lie strictly between -90 and 90 degrees and the three scales are
    at least [kEpsilon]: translation, rotation and scale all come back. *)
Theorem DecomposeMatrix_RecomposeMatrix (translation rotation scale : vec3) :
  (forall axis_idx : ImGuizmoAxis,
     (0 <= axis_idx < 3)%Z ->
     -90 < glm.at3 rotation axis_idx < 90 /\
     kEpsilon <= glm.at3 scale axis_idx) ->
  ImGuizmo.DecomposeMatrix
    (ImGuizmo.RecomposeMatrix translation rotation scale) =
  (translation, rotation, scale).
Proof.
  intros H.
  destruct (H 0%Z ltac:(lia)) as [Hrx Hsx].
  destruct (H 1%Z ltac:(lia)) as [Hry Hsy].
  destruct (H 2%Z ltac:(lia)) as [Hrz Hsz].
  cbn [glm.at3] in *. clear H.
  rewrite RecomposeMatrix_eq; cbv zeta.
  rewrite !valid_scale_id by assumption.
  pose proof kEpsilon_pos as He.
  destruct (euler_rotation_unit (glm.radians (x3 rotation))
              (glm.radians (y3 rotation)) (glm.radians (z3 rotation)))
    as (H0 & H1 & H2).
  unfold ImGuizmo.DecomposeMatrix.
  cbn [fold_left glm.col glm.set_col glm.set3 glm.splat3 c0 c1 c2 c3
       x3 y3 z3].
  rewrite !length4_unit_scaled by assumption.
  rewrite !normalize4_unit_scaled by (assumption || lra).
  rewrite !Rabs_right by lra.
  apply radians_range in Hrx, Hry, Hrz.
  assert (Hcx : 0 < cos (glm.radians (x3 rotation))) by (apply cos_gt_0; lra).
  assert (Hcy : 0 < cos (glm.radians (y3 rotation))) by (apply cos_gt_0; lra).
  unfold euler_rotation. cbn [c0 c1 c2 x4 y4 z4].
  rewrite (atan2_sin_cos _ _ Hcy Hrx).
  rewrite <- (Rmult_comm (cos (glm.radians (y3 rotation)))
                (sin (glm.radians (z3 rotation)))).
  rewrite <- (Rmult_comm (cos (glm.radians (y3 rotation)))
                (cos (glm.radians (z3 rotation)))).
  rewrite (atan2_sin_cos _ _ Hcy Hrz).
  replace (sqrt
             (cos (glm.radians (y3 rotation)) * sin (glm.radians (x3 rotation)) *
              (cos (glm.radians (y3 rotation)) * sin (glm.radians (x3 rotation))) +
              cos (glm.radians (y3 rotation)) * cos (glm.radians (x3 rotation)) *
              (cos (glm.radians (y3 rotation)) * cos (glm.radians (x3 rotation)))))
    with (1 * cos (glm.radians (y3 rotation))).
  - rewrite Ropp_involutive.
    replace (sin (glm.radians (y3 rotation)))
      with (1 * sin (glm.radians (y3 rotation))) at 1 by ring.
    rewrite (atan2_sin_cos 1 _ Rlt_0_1 Hry).
    rewrite !degrees_radians.
    destruct translation, rotation, scale; reflexivity.
  - pose proof (sin2_cos2 (glm.radians (x3 rotation))) as Hx.
    unfold Rsqr in Hx. revert Hx Hcy.
    generalize (cos (glm.radians (y3 rotation)))
      (sin (glm.radians (x3 rotation))) (cos (glm.radians (x3 rotation))).
    intros cy sx cx Hx Hcy.
    replace (cy * sx * (cy * sx) + cy * cx * (cy * cx))
      with (cy * cy * (sx * sx + cx * cx)) by ring.
    rewrite Hx, Rmult_1_r, sqrt_square by lra. ring.
Qed.

(** ** Scale steps *)

Lemma ContinueScale_None_eq h g gizmo :
  let s := lock_clamp (LockedAxesFlags gizmo) (drag_scale h g gizmo) in
  ContinueScale h None g gizmo =
  set_LastScale s
    (if glm.neq3 (LastScale gizmo) s then
       set_Dirty true
         (set_ModelMatrix
            (ModelMatrix gizmo *m
             glm.scale (glm.mul3 s (ScaleValueOrigin gizmo)))
            (set_Scale s gizmo))
     else set_Scale s gizmo).
Proof.
  unfold ContinueScale; cbv zeta.
  match goal with
  | |- context [fold_left ?f [0%Z; 1%Z; 2%Z] ?a] => set (F := f); set (gz0 := a)
  end.
  assert (H0 : gz0 = set_Scale (drag_scale h g gizmo) gizmo).
  { unfold gz0, drag_scale. destruct (HasSingleAxis _); reflexivity. }
  clearbody gz0. subst gz0.
  generalize (drag_scale h g gizmo). intros s0.
  assert (Hstep : forall s i,
             F (set_Scale s gizmo) i =
             set_Scale
               (glm.set3 s i
                  (if locked (LockedAxesFlags gizmo) i then 1
                   else glm.max (glm.at3 s i) kMinScale)) gizmo).
  { intros s i. unfold F, locked. simpl.
    destruct (truthy _); [| reflexivity].
    destruct i as [| [ | | ] | ]; reflexivity. }
  assert (HF : fold_left F [0; 1; 2]%Z (set_Scale s0 gizmo) =
               set_Scale (lock_clamp (LockedAxesFlags gizmo) s0) gizmo).
  { cbn [fold_left]. rewrite !Hstep. unfold lock_clamp.
    destruct s0; reflexivity. }
  rewrite HF. clear HF Hstep F.
  set (s := lock_clamp (LockedAxesFlags gizmo) s0). clearbody s.
  change (glm.neq3 (LastScale (set_Scale s gizmo)) (Scale (set_Scale s gizmo)))
    with (glm.neq3 (LastScale gizmo) s).
  destruct (glm.neq3 (LastScale gizmo) s); reflexivity.
Qed.

Lemma max_one : glm.max 1 kMinScale = 1.
Proof.
  unfold glm.max. destruct (F.ltb 1 kMinScale) eqn:E; [| reflexivity].
  apply FFacts.ltb_true in E. unfold kMinScale in E. lra.
Qed.

Lemma lock_clamp_ones flags :
  lock_clamp flags (mkvec3 1 1 1) = mkvec3 1 1 1.
Proof.
  unfold lock_clamp. cbn [x3 y3 z3]. rewrite max_one.
  destruct (locked flags 0), (locked flags 1), (locked flags 2); reflexivity.
Qed.

Lemma normalize4_length4 (v : vec4) :
  glm.dot4 v v <> 0 -> glm.scale4 (glm.normalize4 v) (glm.length4 v) = v.
Proof.
  intros H.
  assert (Hp : 0 < glm.dot4 v v).
  { assert (0 <= glm.dot4 v v); [| lra].
    destruct v as [a b c d]. cbv [glm.dot4 x4 y4 z4 w4]. nra. }
  apply sqrt_lt_R0 in Hp.
  unfold glm.normalize4, glm.inversesqrt, glm.length4.
  revert Hp. generalize (sqrt (glm.dot4 v v)). intros L HL.
  destruct v as [a b c d]. cbv [glm.scale4 x4 y4 z4 w4].
  f_equal; field; lra.
Qed.

Lemma mulm_scale_eq (m : mat4) (v : vec3) :
  m *m glm.scale v =
  mkmat4 (glm.scale4 (c0 m) (x3 v)) (glm.scale4 (c1 m) (y3 v))
    (glm.scale4 (c2 m) (z3 v)) (c3 m).
Proof.
  destruct m as [[a0 a1 a2 a3] [b0 b1 b2 b3] [d0 d1 d2 d3] [e0 e1 e2 e3]],
    v as [vx vy vz].
  cbv [glm.mulm glm.mulm_col glm.scale glm.scale4 glm.add4 glm.identity
       c0 c1 c2 c3 x4 y4 z4 w4 x3 y3 z3].
  f_equal; f_equal; ring.
Qed.

(** X27: pressing does not scale the model: when [BeginScale] is followed, with
    the mouse where it was, by a [ContinueScale] without snap, the model
    matrix stays what it was or becomes the source matrix.  The gizmo is as
    [Load] leaves it in local mode, its screen factor is not zero, no axis
    column of the source matrix is zero and, on a single axis, the drag
    starts off the model's position along that axis. *)
Theorem BeginScale_no_jump (h : Host) (g : ImGuizmoContext)
  (gizmo : ImGuizmoWidget) :
  loaded gizmo ->
  Mode gizmo = ImGuizmoMode_Local ->
  ScreenFactor gizmo <> 0 ->
  (forall axis_idx : ImGuizmoAxis,
     (0 <= axis_idx < 3)%Z ->
     glm.dot4 (glm.col (SourceModelMatrix gizmo) axis_idx)
       (glm.col (SourceModelMatrix gizmo) axis_idx) <> 0) ->
  (HasSingleAxis (ActiveManipulationFlags gizmo) = true ->
   glm.dot3
     (glm.xyz
        (glm.col (ModelMatrix gizmo)
           (GetAxisIdx (ActiveManipulationFlags gizmo) false)))
     (TranslationPlaneOrigin (BeginScale h g gizmo).2 -v
      glm.xyz (c3 (ModelMatrix gizmo))) <> 0) ->
  let gizmo' :=
    ContinueScale h None (BeginScale h g gizmo).1 (BeginScale h g gizmo).2 in
  ModelMatrix gizmo' = ModelMatrix gizmo \/
  ModelMatrix gizmo' = SourceModelMatrix gizmo.
Proof.
  intros Hload Hmode Hsf Hcols Hbase. cbv zeta.
  rewrite ContinueScale_None_eq; cbv zeta.
  assert (Hd : drag_scale h (BeginScale h g gizmo).1 (BeginScale h g gizmo).2 =
               mkvec3 1 1 1).
  { revert Hbase. unfold drag_scale, BeginScale; cbv zeta.
    cbn [fst snd fold_left Ray DragOrigin set_DragOrigin set_BackupModelMatrix
         TranslationPlane ModelRelativeOrigin ScreenFactor ModelMatrix
         ActiveManipulationFlags TranslationPlaneOrigin Scale
         set_ModelRelativeOrigin set_TranslationPlaneOrigin
         set_TranslationPlane set_DragTranslationOrigin set_Scale
         set_ScaleValueOrigin].
    generalize (IntersectRayPlane (Ray g)
                  (BuildScalePlane
                     (set_DragTranslationOrigin
                        (glm.xyz (c3 (ModelMatrix gizmo)))
                        (set_Scale (glm.splat3 1) gizmo)))).
    intros len.
    destruct (HasSingleAxis (ActiveManipulationFlags gizmo)) eqn:Es.
    - intros Hbase. specialize (Hbase eq_refl). revert Hbase.
      assert (Hi : (0 <= GetAxisIdx (ActiveManipulationFlags gizmo) false < 3)%Z).
      { unfold HasSingleAxis in Es. unfold GetAxisIdx.
        destruct (ActiveManipulationFlags gizmo =? ImGuizmoAxisFlags_X)%Z;
          [cbv; split; congruence |].
        destruct (ActiveManipulationFlags gizmo =? ImGuizmoAxisFlags_Y)%Z;
          [cbv; split; congruence |].
        destruct (ActiveManipulationFlags gizmo =? ImGuizmoAxisFlags_Z)%Z;
          [cbv; split; congruence | discriminate]. }
      revert Hi.
      generalize (GetAxisIdx (ActiveManipulationFlags gizmo) false).
      intros i Hi.
      generalize (glm.col (ModelMatrix gizmo) i). intros axis.
      destruct (RayOrigin (Ray g)) as [ox oy oz].
      destruct (RayDirection (Ray g)) as [dx dy dz].
      destruct (c3 (ModelMatrix gizmo)) as [tx ty tz tw].
      destruct axis as [ax ay az aw].
      cbv [glm.add3 glm.sub3 glm.scale3 glm.dot3 glm.xyz glm.splat3
           x3 y3 z3 x4 y4 z4].
      intros Hbase.
      match goal with
      | |- glm.set3 _ _ (glm.max ?r _) = _ => replace r with 1
      end.
      + rewrite max_one.
        assert (i = 0 \/ i = 1 \/ i = 2)%Z as [-> | [-> | ->]] by lia;
          reflexivity.
      + field. split; [exact Hsf | exact Hbase].
    - intros _. cbn [x2].
      replace (1 + (x2 (MousePos h) - x2 (MousePos h)) * (1 / 100)) with 1
        by ring.
      rewrite max_one. reflexivity. }
  rewrite Hd, lock_clamp_ones.
  destruct (glm.neq3 _ _); [right | left; reflexivity].
  cbn [ModelMatrix set_LastScale set_Dirty set_ModelMatrix set_Scale].
  unfold BeginScale; cbv zeta.
  cbn [snd fold_left ModelMatrix ScaleValueOrigin SourceModelMatrix
       set_ScaleValueOrigin set_ModelRelativeOrigin set_TranslationPlaneOrigin
       set_TranslationPlane set_DragTranslationOrigin set_Scale].
  generalize (ScaleValueOrigin gizmo). intros [o0 o1 o2].
  cbn [glm.set3 glm.col].
  rewrite mulm_scale_eq. cbn [glm.mul3 x3 y3 z3].
  red in Hload. rewrite Hload, Hmode. unfold loaded_model.
  change (ImGuizmoMode_Local =? ImGuizmoMode_Local)%Z with true.
  cbn [c0 c1 c2 c3]. rewrite !Rmult_1_l.
  rewrite !normalize4_length4.
  - destruct (SourceModelMatrix gizmo); reflexivity.
  - exact (Hcols 2%Z ltac:(lia)).
  - exact (Hcols 1%Z ltac:(lia)).
  - exact (Hcols 0%Z ltac:(lia)).
Qed.

(** ** A drag across frames *)

Lemma Load_same_drag g model gizmo : same_drag gizmo (Load g model gizmo).
Proof.
  unfold Load, same_drag; cbv zeta.
  change (Mode (set_SourceModelMatrix model gizmo)) with (Mode gizmo).
  destruct (Mode gizmo =? ImGuizmoMode_Local)%Z; repeat split.
Qed.

Lemma Begin_gizmo_drag h mode locked_axes g model gz :
  MouseDown h 0 = true ->
  same_drag gz (Begin_gizmo h mode locked_axes g model gz) /\
  (ActiveManipulationFlags gz <> ImGuizmoAxisFlags_None ->
   ActiveOperation (Begin_gizmo h mode locked_axes g model gz) =
   ActiveOperation gz).
Proof.
  intros Hd. unfold Begin_gizmo; cbv zeta. rewrite Hd. cbn [negb].
  assert (H2 : forall gz2,
             gz2 =
             (if negb (truthy (ActiveManipulationFlags gz))
              then set_ActiveOperation ImGuizmoOperation_None gz
              else gz) ->
             same_drag gz gz2 /\
             (ActiveManipulationFlags gz <> ImGuizmoAxisFlags_None ->
              ActiveOperation gz2 = ActiveOperation gz)).
  { intros gz2 ->. unfold truthy, ImGuizmoAxisFlags_None.
    destruct (ActiveManipulationFlags gz =? 0)%Z eqn:E; cbn [negb].
    - split; [repeat split |]. intros Hc. apply Z.eqb_eq in E. contradiction.
    - split; [repeat split | reflexivity]. }
  specialize (H2 _ eq_refl). revert H2.
  generalize (if negb (truthy (ActiveManipulationFlags gz))
              then set_ActiveOperation ImGuizmoOperation_None gz
              else gz).
  intros gz2 [Hs Ho].
  pose proof (Load_same_drag g model (set_Mode mode gz2)) as HL.
  pose proof (Load_fields g model (set_Mode mode gz2)) as HF.
  revert HL HF. generalize (Load g model (set_Mode mode gz2)).
  intros L HL (_ & _ & _ & _ & _ & HoL).
  unfold same_drag in *.
  cbn [TranslationPlane TranslationPlaneOrigin ModelRelativeOrigin
       DragTranslationOrigin LastTranslationDelta RotationVectorSource
       RotationAngleOrigin LastScale ScaleValueOrigin ActiveOperation
       set_LockedAxesFlags set_Mode] in *.
  destruct HL as (L1 & L2 & L3 & L4 & L5 & L6 & L7 & L8 & L9).
  destruct Hs as (S1 & S2 & S3 & S4 & S5 & S6 & S7 & S8 & S9).
  split.
  - repeat split; congruence.
  - intros Hn. rewrite HoL. apply Ho, Hn.
Qed.

(** X28: while the left button is held, [Begin] carries an existing gizmo's drag
    over to the new frame: its manipulated flags, its operation when it is
    manipulated, its dirty flag and everything the drag recorded at its start
    are unchanged. *)
Theorem Begin_keeps_drag_state (h : Host) (mode : ImGuizmoMode)
  (model_matrix : Z) (locked_axes : ImGuizmoAxisFlags) (w : World)
  (model : mat4) (gz : ImGuizmoWidget) :
  model_matrix <> 0%Z ->
  LockedModelMatrix (GImGuizmo w) = 0%Z ->
  Mem w !! model_matrix = Some model ->
  FindGizmoById (GImGuizmo w) (model_matrix mod 2 ^ 32)%Z = Some gz ->
  MouseDown h 0 = true ->
  exists (visible : bool) (w' : World) (gizmo : ImGuizmoWidget),
    ImGuizmo.Begin h mode model_matrix locked_axes w = Some (visible, w') /\
    GetCurrentGizmo (GImGuizmo w') = Some gizmo /\
    ActiveManipulationFlags gizmo = ActiveManipulationFlags gz /\
    (ActiveManipulationFlags gz <> ImGuizmoAxisFlags_None ->
     ActiveOperation gizmo = ActiveOperation gz) /\
    Dirty gizmo = Dirty gz /\
    same_drag gz gizmo.
Proof.
  intros Hp Hl Hm Hfind Hd.
  destruct (Begin_eq h mode model_matrix locked_axes w model Hp Hl Hm)
    as (visible & g1 & g2 & Heq & Hcur & _).
  rewrite Hfind in Heq.
  change (default (NewImGuizmoWidget (model_matrix mod 2 ^ 32)%Z) (Some gz))
    with gz in Heq.
  destruct (Begin_gizmo_drag h mode locked_axes g1 model gz Hd) as [Hs Ho].
  destruct (Begin_gizmo_fields h mode locked_axes g1 model gz)
    as (_ & _ & _ & _ & Hdirty & Hflags).
  rewrite Hd in Hflags.
  revert Heq Hs Ho Hdirty Hflags.
  generalize (Begin_gizmo h mode locked_axes g1 model gz).
  intros gizmo Heq Hs Ho Hdirty Hflags.
  exists visible, (mkWorld (StoreCurrentGizmo gizmo g2) (Mem w)), gizmo.
  split; [exact Heq |].
  split; [exact (GetCurrentGizmo_Store g2 gizmo _ Hcur) |].
  repeat split; try assumption; apply Hs.
Qed.

(** ** Bounds *)

Lemma bound_cases (i : Z) :
  (0 <= i < 4)%Z -> i = 0%Z \/ i = 1%Z \/ i = 2%Z \/ i = 3%Z.
Proof. lia. Qed.

(** X29: the corners [BuildOutterPoints] makes for a plane lie in that plane
    (their coordinate on the plane's own axis is 0), and a corner and the
    corner opposite to it ([i + 2] modulo 4) take, on each of the other two
    axes, the two different bounds of that axis. *)
Theorem BuildOutterPoints_corners (bounds : Z -> float) (b : ImGuizmoBounds)
  (plane_idx : ImGuizmoPlane) (i : Z) :
  (0 <= plane_idx < 3)%Z -> (0 <= i < 4)%Z ->
  let corner := OutterPoints (BuildOutterPoints bounds b) plane_idx i in
  let opposite :=
    OutterPoints (BuildOutterPoints bounds b) plane_idx ((i + 2) mod 4)%Z in
  glm.at3 corner plane_idx = 0 /\
  glm.at3 opposite plane_idx = 0 /\
  forall k : Z,
    (1 <= k <= 2)%Z ->
    let axis_idx := ((plane_idx + k) mod 3)%Z in
    (glm.at3 corner axis_idx = bounds axis_idx /\
     glm.at3 opposite axis_idx = bounds (axis_idx + 3)%Z) \/
    (glm.at3 corner axis_idx = bounds (axis_idx + 3)%Z /\
     glm.at3 opposite axis_idx = bounds axis_idx).
Proof.
  intros Hp Hi. cbv zeta.
  assert (plane_idx = 0 \/ plane_idx = 1 \/ plane_idx = 2)%Z
    as [-> | [-> | ->]] by lia;
    destruct (bound_cases i Hi) as [-> | [-> | [-> | ->]]];
    (split; [| split]);
    try (intros k Hk; assert (k = 1 \/ k = 2)%Z as [-> | ->] by lia);
    unfold BuildOutterPoints; simpl;
    repeat match goal with
           | |- context [OutterPoints b ?p ?j] => destruct (OutterPoints b p j)
           end;
    simpl; auto.
Qed.

Lemma mulv_e3 (m : mat4) : m *mv mkvec4 0 0 0 1 = c3 m.
Proof.
  destruct m as [[a0 a1 a2 a3] [b0 b1 b2 b3] [d0 d1 d2 d3] [e0 e1 e2 e3]].
  cbv [glm.mulv glm.add4 glm.scale4 c0 c1 c2 c3 x4 y4 z4 w4].
  f_equal; ring.
Qed.

Lemma translate_neg_point (p : vec3) :
  glm.translate (glm.neg3 p) *mv glm.vec4_of p 1 = mkvec4 0 0 0 1.
Proof.
  rewrite translate_eq. destruct p as [px py pz].
  cbv [glm.mulv glm.neg3 glm.vec4_of glm.add4 glm.scale4
       c0 c1 c2 c3 x3 y3 z3 x4 y4 z4 w4].
  f_equal; ring.
Qed.

Lemma translate_c3 (p : vec3) : c3 (glm.translate p) = glm.vec4_of p 1.
Proof. rewrite translate_eq. destruct p. reflexivity. Qed.

(** A loop over axis columns leaves the fourth column. *)
Lemma fold_left_c3 (f : mat4 -> Z -> mat4) (axes : list Z) (m : mat4) :
  (forall m a, (-1 <= a < 3)%Z -> c3 (f m a) = c3 m) ->
  Forall (fun a => (-1 <= a < 3)%Z) axes ->
  c3 (fold_left f axes m) = c3 m.
Proof.
  intros Hf H. revert m. induction H as [| a rest Ha _ IH]; intros m;
    [reflexivity |].
  cbn [fold_left]. rewrite IH. apply Hf, Ha.
Qed.

Lemma GetAxisIdx_range flags around :
  (-1 <= GetAxisIdx flags around < 3)%Z.
Proof.
  unfold GetAxisIdx.
  destruct (flags =? ImGuizmoAxisFlags_X)%Z; [destruct around; cbv; split; congruence |].
  destruct (flags =? ImGuizmoAxisFlags_Y)%Z; [cbv; split; congruence |].
  destruct (flags =? ImGuizmoAxisFlags_Z)%Z; [destruct around |];
    cbv; split; congruence.
Qed.

(** X30: a bounds-scale drag scales about its pivot: after [BeginBoundsScale]
    and then [ContinueBoundsScale], whatever the ray, the bounds and the
    snap, the new model matrix takes the local pivot to the world pivot
    recorded at the start, and the gizmo is dirty. *)
Theorem ContinueBoundsScale_fixes_pivot (h : Host) (bounds : Z -> float)
  (snap : option vec3) (g : ImGuizmoContext) (b : ImGuizmoBounds)
  (gizmo : ImGuizmoWidget) :
  let began := BeginBoundsScale h g b gizmo in
  let gizmo' :=
    (ContinueBoundsScale bounds snap began.1.1 began.1.2 began.2).1 in
  glm.xyz (ModelMatrix gizmo' *mv glm.vec4_of (LocalPivot began.1.2) 1) =
  Pivot began.1.2 /\
  Dirty gizmo' = true.
Proof.
  cbv zeta. split; [| reflexivity].
  assert (Hb : BackupModelMatrix (BeginBoundsScale h g b gizmo).1.1 =
               SourceModelMatrix gizmo /\
               Pivot (BeginBoundsScale h g b gizmo).1.2 =
               glm.xyz
                 (SourceModelMatrix gizmo *mv
                  glm.vec4_of (LocalPivot (BeginBoundsScale h g b gizmo).1.2) 1)).
  { unfold BeginBoundsScale; cbv zeta.
    destruct (HasPlane (ActiveManipulationFlags gizmo)); split; reflexivity. }
  destruct Hb as [Hbk Hpv]. rewrite Hpv. clear Hpv. revert Hbk.
  generalize (BeginBoundsScale h g b gizmo). intros [[g1 b1] gz1].
  cbn [fst snd]. intros Hbk.
  unfold ContinueBoundsScale; cbv zeta.
  cbn [fst ModelMatrix set_Dirty set_ModelMatrix]. rewrite Hbk.
  match goal with
  | |- context [fold_left ?f ?axes glm.identity] =>
      assert (Hc : c3 (fold_left f axes glm.identity) = mkvec4 0 0 0 1);
      [| revert Hc; generalize (fold_left f axes glm.identity) ]
  end.
  { apply (fold_left_c3 _ _ glm.identity).
    - intros m a Ha. cbv beta.
      destruct (a =? -1)%Z eqn:E; [reflexivity |].
      apply Z.eqb_neq in E.
      assert (a = 0 \/ a = 1 \/ a = 2)%Z as [-> | [-> | ->]] by lia;
        reflexivity.
    - destruct (HasPlane _).
      + pose proof (Z.mod_pos_bound (ActivePlane b1 + 1) 3 ltac:(lia)).
        pose proof (Z.mod_pos_bound (ActivePlane b1 + 2) 3 ltac:(lia)).
        repeat constructor; lia.
      + pose proof (GetAxisIdx_range (ActiveManipulationFlags gz1) false).
        repeat constructor; lia. }
  intros S HS.
  rewrite !mulv_mulm, translate_neg_point, mulv_e3, HS.
  rewrite mulv_e3, translate_c3. reflexivity.
Qed.

(** ** Instances of the further properties *)

(** X5 on the point (1, 1) and the segment from (0, 0) to (2, 0). *)
Lemma PointOnSegment_closest_witness :
  exists s : float,
    0 <= s <= 1 /\
    PointOnSegment (mkvec2 1 1) (mkvec2 0 0) (mkvec2 2 0) =
    on_segment (mkvec2 0 0) (mkvec2 2 0) s.
Proof.
  destruct (PointOnSegment_closest (mkvec2 1 1) (mkvec2 0 0) (mkvec2 2 0))
    as (s & Hs & He & _).
  - intros H. injection H as H. lra.
  - exists s. split; assumption.
Defined.

Lemma ndc_identity_origin : ndc glm.identity (mkvec3 0 0 0) = mkvec2 (0 / 1) (0 / 1).
Proof. unfold ndc. rewrite mulv_identity. reflexivity. Qed.

(** X6 on the origin under the identity matrix. *)
Lemma WorldToScreen_in_viewport_witness :
  x2 (Min picking_viewport) <=
  x2 (WorldToScreen_bb (mkvec3 0 0 0) glm.identity picking_viewport) <=
  x2 (Max picking_viewport).
Proof.
  apply (WorldToScreen_in_viewport (mkvec3 0 0 0) glm.identity picking_viewport).
  - rewrite mulv_identity. cbn. lra.
  - rewrite ndc_identity_origin. cbn. lra.
  - rewrite ndc_identity_origin. cbn. lra.
  - cbn. lra.
  - cbn. lra.
Defined.

Lemma inverse_identity : glm.inverse glm.identity = glm.identity.
Proof.
  unfold glm.inverse, glm.identity.
  cbv [glm.add4 glm.sub4 glm.mul4 glm.scale4 c0 c1 c2 c3 x4 y4 z4 w4].
  f_equal; f_equal; field.
Qed.

Lemma determinant_identity : determinant glm.identity = 1.
Proof. unfold determinant, glm.identity. cbn [c0 c1 c2 c3 x4 y4 z4 w4]. ring. Qed.

(** X7 on the origin under the identity matrix, in a 100 x 100 viewport. *)
Lemma RayCast_WorldToScreen_witness :
  exists t : float,
    mkvec3 0 0 0 =
    ray_point (RayCast_bb picking_host glm.identity picking_viewport) t.
Proof.
  apply RayCast_WorldToScreen.
  - rewrite determinant_identity. lra.
  - unfold GetWidth, picking_viewport. cbn [Min Max x2]. lra.
  - unfold GetHeight, picking_viewport. cbn [Min Max y2]. lra.
  - rewrite mulv_identity. cbn. lra.
  - unfold unproject. rewrite inverse_identity, mulv_identity. cbn. lra.
  - unfold unproject. rewrite inverse_identity, mulv_identity. cbn. lra.
  - reflexivity.
Defined.

Lemma cancel_world_matrix : Mem cancel_world !! 16%Z = Some moved_matrix.
Proof. apply lookup_singleton_eq. Qed.

Lemma cancel_world_gizmo :
  FindGizmoById (GImGuizmo cancel_world) (16 mod 2 ^ 32)%Z = Some dragged_gizmo.
Proof. apply lookup_singleton_eq. Qed.

(** X9 on a second [Begin] on the same matrix. *)
Lemma Begin_nesting_forbidden_witness :
  exists (visible : bool) (w1 : World),
    ImGuizmo.Begin cancel_host ImGuizmoMode_Local 16 ImGuizmoAxisFlags_None
      cancel_world = Some (visible, w1) /\
    ImGuizmo.Begin cancel_host ImGuizmoMode_World 16 ImGuizmoAxisFlags_X w1 =
    None.
Proof.
  destruct (Begin_spec cancel_host ImGuizmoMode_Local 16
              ImGuizmoAxisFlags_None cancel_world moved_matrix)
    as (visible & g1 & gizmo & Heq & _).
  - discriminate.
  - reflexivity.
  - exact cancel_world_matrix.
  - exists visible, (mkWorld g1 (Mem cancel_world)). split; [exact Heq |].
    exact (proj1 (Begin_nesting_forbidden cancel_host cancel_host
                    ImGuizmoMode_Local ImGuizmoMode_World 16 16
                    ImGuizmoAxisFlags_None ImGuizmoAxisFlags_X cancel_world
                    (mkWorld g1 (Mem cancel_world)) visible Heq)).
Defined.

(** X10 on the scope of the example drag. *)
Lemma End_closes_scope_witness :
  exists (updated : bool) (w' : World),
    ImGuizmo.End cancel_host scoped_world = Some (updated, w') /\
    LockedModelMatrix (GImGuizmo w') = 0%Z.
Proof.
  pose proof (End_eq cancel_host scoped_world dragged_gizmo
                scoped_world_locked scoped_world_current) as Heq.
  do 2 eexists. split; [exact Heq |].
  exact (proj1 (proj2 (End_closes_scope cancel_host scoped_world) _ _ Heq)).
Defined.


(** X12 on a click over a gizmo that is being translated, asked to rotate. *)
Lemma GizmoBehavior_exclusive_witness :
  GizmoBehavior press_host ImGuizmoOperation_Rotate ImGuizmoAxisFlags_X
    NewImGuizmoContext dragged_gizmo =
  (false, false, ImGuizmoAxisFlags_None, NewImGuizmoContext, dragged_gizmo).
Proof.
  apply GizmoBehavior_exclusive. right. split; discriminate.
Defined.

Lemma press_equation :
  GizmoBehavior press_host ImGuizmoOperation_Rotate ImGuizmoAxisFlags_X
    (GImGuizmo idle_world) (NewImGuizmoWidget 1) =
  (true, true, ImGuizmoAxisFlags_X,
   set_ActiveGizmo (Some 1%Z) (GImGuizmo idle_world),
   set_ActiveManipulationFlags ImGuizmoAxisFlags_X
     (set_ActiveOperation ImGuizmoOperation_Rotate (NewImGuizmoWidget 1))).
Proof. reflexivity. Qed.

(** X13 on a left click over the x axis of a fresh gizmo. *)
Lemma GizmoBehavior_press_and_hold_witness :
  MouseClicked press_host 0 = true /\
  ActiveOperation
    (set_ActiveManipulationFlags ImGuizmoAxisFlags_X
       (set_ActiveOperation ImGuizmoOperation_Rotate (NewImGuizmoWidget 1))) =
  ImGuizmoOperation_Rotate.
Proof.
  destruct (GizmoBehavior_press_and_hold _ _ _ _ _ _ _ _ _ _ press_equation)
    as (Hp & _).
  destruct (Hp eq_refl) as (Hc & _ & Ho & _). split; assumption.
Defined.

(** X22 on the example world. *)
Lemma Begin_resets_viewport_witness :
  exists (visible : bool) (w' : World),
    (ImGuizmo.SetViewport (mkvec2 7 7) (mkvec2 1 1) ;;
     ImGuizmo.Begin cancel_host ImGuizmoMode_Local 16 ImGuizmoAxisFlags_None)%M
      cancel_world = Some (visible, w') /\
    Viewport (GImGuizmo w') = CalculateViewport cancel_host.
Proof.
  apply (Begin_resets_viewport cancel_host ImGuizmoMode_Local 16
           ImGuizmoAxisFlags_None (mkvec2 7 7) (mkvec2 1 1) cancel_world
           moved_matrix).
  - discriminate.
  - reflexivity.
  - exact cancel_world_matrix.
Defined.

(** X23 on the example drag, button released. *)
Lemma Begin_releases_drag_witness :
  exists (visible : bool) (w' : World) (gizmo : ImGuizmoWidget),
    ImGuizmo.Begin idle_host ImGuizmoMode_Local 16 ImGuizmoAxisFlags_None
      cancel_world = Some (visible, w') /\
    GetCurrentGizmo (GImGuizmo w') = Some gizmo /\
    ActiveGizmo (GImGuizmo w') = None /\
    ActiveManipulationFlags gizmo = ImGuizmoAxisFlags_None.
Proof.
  destruct (Begin_releases_drag idle_host ImGuizmoMode_Local 16
              ImGuizmoAxisFlags_None cancel_world moved_matrix)
    as (visible & w' & gizmo & Hb & Hc & Ha & Hf & _).
  - discriminate.
  - reflexivity.
  - exact cancel_world_matrix.
  - reflexivity.
  - exists visible, w', gizmo. repeat split; assumption.
Defined.

(** X28 on the example drag, button held. *)
Lemma Begin_keeps_drag_state_witness :
  exists (visible : bool) (w' : World) (gizmo : ImGuizmoWidget),
    ImGuizmo.Begin cancel_host ImGuizmoMode_Local 16 ImGuizmoAxisFlags_None
      cancel_world = Some (visible, w') /\
    GetCurrentGizmo (GImGuizmo w') = Some gizmo /\
    ActiveManipulationFlags gizmo = ImGuizmoAxisFlags_X /\
    ActiveOperation gizmo = ImGuizmoOperation_Translate.
Proof.
  destruct (Begin_keeps_drag_state cancel_host ImGuizmoMode_Local 16
              ImGuizmoAxisFlags_None cancel_world moved_matrix dragged_gizmo)
    as (visible & w' & gizmo & Hb & Hc & Hf & Ho & _).
  - discriminate.
  - reflexivity.
  - exact cancel_world_matrix.
  - exact cancel_world_gizmo.
  - reflexivity.
  - exists visible, w', gizmo. split; [exact Hb |]. split; [exact Hc |].
    split; [exact Hf |]. apply Ho. discriminate.
Defined.

Lemma idle_world_current :
  GetCurrentGizmo (GImGuizmo idle_world) = Some (NewImGuizmoWidget 1).
Proof. apply lookup_singleton_eq. Qed.

(** X19 on a fresh gizmo in a window that is not hovered. *)
Lemma operations_need_activation_witness :
  ImGuizmo.Translate idle_host None idle_world = Some (tt, idle_world) /\
  ImGuizmo.Rotate idle_host None idle_world = Some (tt, idle_world) /\
  ImGuizmo.Scale idle_host None idle_world = Some (tt, idle_world).
Proof.
  apply (operations_need_activation idle_host None idle_world
           (NewImGuizmoWidget 1)).
  - exact idle_world_current.
  - reflexivity.
  - reflexivity.
Defined.


(** X14 on the example drag along x. *)
Lemma ContinueTranslation_keeps_axes_witness :
  ModelMatrix (ContinueTranslation None locked_rotation_context dragged_gizmo) =
  ModelMatrix dragged_gizmo \/
  c0 (ModelMatrix
        (ContinueTranslation None locked_rotation_context dragged_gizmo)) =
  c0 (SourceModelMatrix dragged_gizmo).
Proof.
  destruct (ContinueTranslation_keeps_axes None locked_rotation_context
              dragged_gizmo) as [[H _] | (_ & H & _)].
  - reflexivity.
  - reflexivity.
  - reflexivity.
  - left. exact H.
  - right. exact H.
Defined.

(** X15 on the example drag along x. *)
Lemma ContinueTranslation_along_axis_witness :
  ModelMatrix (ContinueTranslation None locked_rotation_context dragged_gizmo) =
  ModelMatrix dragged_gizmo \/
  exists t : float,
    glm.xyz
      (c3 (ModelMatrix
             (ContinueTranslation None locked_rotation_context dragged_gizmo))) =
    glm.xyz (c3 (SourceModelMatrix dragged_gizmo)) +v
    glm.xyz (glm.col (ModelMatrix dragged_gizmo) 0) *s t.
Proof.
  apply (ContinueTranslation_along_axis locked_rotation_context dragged_gizmo).
  - reflexivity.
  - reflexivity.
Defined.

Lemma NewImGuizmoWidget_loaded id : loaded (set_ScreenFactor 1 (NewImGuizmoWidget id)).
Proof.
  unfold loaded, loaded_model.
  cbn [ModelMatrix Mode SourceModelMatrix set_ScreenFactor NewImGuizmoWidget].
  change (ImGuizmoMode_Local =? ImGuizmoMode_Local)%Z with true.
  cbn [glm.identity c0 c1 c2 c3].
  rewrite !normalize4_unit by (cbv [glm.dot4 x4 y4 z4 w4]; ring).
  reflexivity.
Qed.

Lemma front_intersection (h : Host) :
  IntersectRayPlane (Ray front_context)
    (TranslationPlane (BeginTranslation h front_context pressed_gizmo).2) = 5.
Proof.
  unfold pressed_gizmo, BeginTranslation; cbv zeta.
  cbn [snd TranslationPlane set_ModelRelativeOrigin set_TranslationPlaneOrigin
       set_TranslationPlane].
  unfold BuildTranslatePlane; cbv zeta.
  cbn [ActiveManipulationFlags set_DragTranslationOrigin pressed_gizmo
       set_ScreenFactor NewImGuizmoWidget].
  change (HasPlane ImGuizmoAxisFlags_None) with false.
  change (HasSingleAxis ImGuizmoAxisFlags_None) with false. cbv iota.
  cbn [ModelMatrix Camera Forward set_DragOrigin set_BackupModelMatrix
       front_context set_Ray NewImGuizmoContext glm.identity c3].
  unfold BuildPlane; cbv zeta.
  rewrite normalize3_unit
    by (cbv [glm.neg3 glm.dot3 kUnitDirections x3 y3 z3]; ring).
  unfold IntersectRayPlane, glm.abs.
  cbn [Ray front_context set_Ray RayOrigin RayDirection].
  cbv [glm.neg3 glm.dot3 glm.xyz glm.vec4_of kUnitDirections
       x3 y3 z3 x4 y4 z4 w4].
  match goal with |- context [Rabs ?x] => replace x with 1 by ring end.
  rewrite Rabs_R1.
  rewrite (ltb_ge 1 kEpsilon) by (pose proof kEpsilon_lt_1; lra).
  cbn [ModelMatrix set_DragTranslationOrigin set_ScreenFactor
       NewImGuizmoWidget glm.identity c3].
  field.
Qed.

(** X16 on a fresh gizmo seen from (0, 0, 5). *)
Lemma BeginTranslation_no_jump_witness :
  ModelMatrix
    (ContinueTranslation None
       (BeginTranslation press_host front_context pressed_gizmo).1
       (BeginTranslation press_host front_context pressed_gizmo).2) =
  ModelMatrix pressed_gizmo \/
  ModelMatrix
    (ContinueTranslation None
       (BeginTranslation press_host front_context pressed_gizmo).1
       (BeginTranslation press_host front_context pressed_gizmo).2) =
  SourceModelMatrix pressed_gizmo.
Proof.
  apply (BeginTranslation_no_jump press_host front_context pressed_gizmo).
  - apply NewImGuizmoWidget_loaded.
  - cbn. lra.
  - rewrite front_intersection. lra.
Defined.

(** X27 on a fresh gizmo seen from (0, 0, 5). *)
Lemma BeginScale_no_jump_witness :
  ModelMatrix
    (ContinueScale press_host None
       (BeginScale press_host front_context pressed_gizmo).1
       (BeginScale press_host front_context pressed_gizmo).2) =
  ModelMatrix pressed_gizmo \/
  ModelMatrix
    (ContinueScale press_host None
       (BeginScale press_host front_context pressed_gizmo).1
       (BeginScale press_host front_context pressed_gizmo).2) =
  SourceModelMatrix pressed_gizmo.
Proof.
  apply (BeginScale_no_jump press_host front_context pressed_gizmo).
  - apply NewImGuizmoWidget_loaded.
  - reflexivity.
  - cbn. lra.
  - intros i Hi.
    assert (i = 0 \/ i = 1 \/ i = 2)%Z as [-> | [-> | ->]] by lia;
      cbv [pressed_gizmo SourceModelMatrix set_ScreenFactor NewImGuizmoWidget
           glm.col Z.eqb Pos.eqb glm.identity c0 c1 c2 c3 glm.dot4
           x4 y4 z4 w4];
      lra.
  - discriminate.
Defined.

(** X17 on the example rotation. *)
Lemma ContinueRotation_at_rest_witness :
  ContinueRotation None locked_rotation_context
    (ContinueRotation None locked_rotation_context locked_rotation_gizmo) =
  ContinueRotation None locked_rotation_context locked_rotation_gizmo.
Proof.
  apply ContinueRotation_at_rest. reflexivity.
Defined.

Lemma moved_matrix_affine : affine moved_matrix.
Proof. repeat split. Qed.

Lemma moved_matrix_determinant : determinant moved_matrix <> 0.
Proof.
  unfold determinant, moved_matrix. cbn [c0 c1 c2 c3 x4 y4 z4 w4]. lra.
Qed.

(** X24 on the example matrix as view matrix. *)
Lemma SetCamera_axes_witness :
  exists w' : World,
    ImGuizmo.SetCamera 16 16 false cancel_world = Some (tt, w') /\
    moved_matrix *mv glm.vec4_of (Eye (Camera (GImGuizmo w'))) 1 =
    mkvec4 0 0 0 1.
Proof.
  destruct (SetCamera_axes 16 16 false cancel_world moved_matrix moved_matrix)
    as (w' & He & _ & Heye & _).
  - discriminate.
  - discriminate.
  - exact cancel_world_matrix.
  - exact cancel_world_matrix.
  - exact moved_matrix_affine.
  - exact moved_matrix_determinant.
  - exists w'. split; assumption.
Defined.

(** X25 on a matrix recomposed with a rotation of 200 degrees. *)
Lemma DecomposeMatrix_RecomposeMatrix_scale_witness :
  glm.at3
    (ImGuizmo.DecomposeMatrix
       (ImGuizmo.RecomposeMatrix (mkvec3 1 2 3) (mkvec3 10 200 30)
          (mkvec3 2 3 4))).2 1 = 3.
Proof.
  destruct (DecomposeMatrix_RecomposeMatrix_scale (mkvec3 1 2 3)
              (mkvec3 10 200 30) (mkvec3 2 3 4)) as [_ H].
  destruct (H 1%Z ltac:(lia)) as [_ Hs]. apply Hs.
  cbn. pose proof kEpsilon_lt_1. lra.
Defined.

(** X26 on rotation (10, -20, 30) and scale (2, 3, 4). *)
Lemma DecomposeMatrix_RecomposeMatrix_witness :
  ImGuizmo.DecomposeMatrix
    (ImGuizmo.RecomposeMatrix (mkvec3 1 2 3) (mkvec3 10 (-20) 30)
       (mkvec3 2 3 4)) =
  (mkvec3 1 2 3, mkvec3 10 (-20) 30, mkvec3 2 3 4).
Proof.
  apply DecomposeMatrix_RecomposeMatrix. intros i Hi.
  pose proof kEpsilon_lt_1.
  assert (i = 0 \/ i = 1 \/ i = 2)%Z as [-> | [-> | ->]] by lia; cbn; lra.
Defined.

(** X29 on the unit cube. *)
Lemma BuildOutterPoints_corners_witness :
  glm.at3 (OutterPoints (BuildOutterPoints unit_bounds NewImGuizmoBounds) 2 1) 2 =
  0.
Proof.
  destruct (BuildOutterPoints_corners unit_bounds NewImGuizmoBounds 2 1)
    as [H _].
  - lia.
  - lia.
  - exact H.
Defined.

(** * Drags across frames *)

(** ** Drags *)

Lemma GizmoBehavior_drag h operation hover_flags g gizmo :
  let '(pressed, held, hover', g', gizmo') :=
    GizmoBehavior h operation hover_flags g gizmo in
  (pressed = true ->
   MouseClicked h 0 = true /\
   (ActiveManipulationFlags gizmo' = ImGuizmoAxisFlags_None \/
    ActiveGizmo g' = CurrentGizmo g)) /\
  (pressed = false ->
   ActiveManipulationFlags gizmo' = ActiveManipulationFlags gizmo /\
   ActiveGizmo g' = ActiveGizmo g \/
   ActiveManipulationFlags gizmo' = ImGuizmoAxisFlags_None) /\
  (MouseClicked h 0 = false -> MouseDown h 0 = true ->
   pressed = false /\ g' = g /\ gizmo' = gizmo).
Proof.
  unfold GizmoBehavior.
  generalize (if negb (bool_decide (ActiveGizmo g = CurrentGizmo g)) &&
                 bool_decide (ActiveGizmo g <> None)
              then ImGuizmoAxisFlags_None
              else if negb (ActiveOperation gizmo =? operation)%Z &&
                      truthy (ActiveOperation gizmo)
              then ImGuizmoAxisFlags_None
              else if truthy (ActiveManipulationFlags gizmo)
              then ActiveManipulationFlags gizmo
              else hover_flags).
  intros hf. unfold truthy, ImGuizmoAxisFlags_None.
  destruct (hf =? 0)%Z eqn:Eh; cbn [negb andb].
  - destruct ((ActiveManipulationFlags gizmo =? hf)%Z &&
              negb (ActiveManipulationFlags gizmo =? 0)%Z) eqn:E.
    + apply andb_true_iff in E as [E1 E2].
      apply Z.eqb_eq in Eh, E1. rewrite E1, Eh in E2. discriminate.
    + repeat split; try discriminate; auto.
  - destruct (MouseClicked h 0) eqn:Ec.
    + cbn [ActiveManipulationFlags set_ActiveManipulationFlags
           set_ActiveOperation].
      rewrite Z.eqb_refl, Eh. cbn [negb andb].
      destruct (MouseDown h 0) eqn:Ed;
        cbn [ActiveGizmo set_ActiveGizmo ActiveManipulationFlags
             set_ActiveManipulationFlags set_ActiveOperation];
        repeat split; try discriminate; auto.
    + destruct ((ActiveManipulationFlags gizmo =? hf)%Z &&
                negb (ActiveManipulationFlags gizmo =? 0)%Z) eqn:E.
      * destruct (MouseDown h 0) eqn:Ed;
          cbn [ActiveGizmo set_ActiveGizmo ActiveManipulationFlags
               set_ActiveManipulationFlags];
          repeat split; try discriminate; auto.
      * repeat split; try discriminate; auto.
Qed.

Lemma calls_effect_refl h g gizmo : calls_effect h g gizmo g gizmo.
Proof.
  split; [repeat split |]. split; [apply kept_refl |].
  split; [reflexivity |]. split; [auto |]. intros _ _. repeat split.
Qed.

Lemma calls_effect_trans h g0 gz0 g1 gz1 g2 gz2 :
  calls_effect h g0 gz0 g1 gz1 -> calls_effect h g1 gz1 g2 gz2 ->
  calls_effect h g0 gz0 g2 gz2.
Proof.
  intros (Hs1 & Hk1 & Ho1 & Hd1 & Hh1) (Hs2 & Hk2 & Ho2 & Hd2 & Hh2).
  destruct Hs1 as (Hc1 & Hl1 & Hf1), Hs2 as (Hc2 & Hl2 & Hf2).
  split; [repeat split; congruence |].
  split; [exact (kept_trans _ _ _ Hk1 Hk2) |].
  split.
  { intros id Hne. rewrite Ho2 by congruence. apply Ho1, Hne. }
  split; [auto |].
  intros Hc Hd. destruct (Hh1 Hc Hd) as (? & ? & ?).
  destruct (Hh2 Hc Hd) as (? & ? & ?). repeat split; congruence.
Qed.

(** What the three operations have in common in a drag. *)
Lemma operation_effect (h : Host) (operation : ImGuizmoOperation)
  (hover_flags : ImGuizmoAxisFlags)
  (begin : ImGuizmoContext -> ImGuizmoWidget ->
           ImGuizmoContext * ImGuizmoWidget)
  (continue : ImGuizmoContext -> ImGuizmoWidget -> ImGuizmoWidget)
  (w : World) (gizmo : ImGuizmoWidget) :
  (forall g gz,
     same_scope g (begin g gz).1 /\
     GizmosById (begin g gz).1 = GizmosById g /\
     kept gz (begin g gz).2 /\
     BackupModelMatrix (begin g gz).1 = SourceModelMatrix gz /\
     ActiveGizmo (begin g gz).1 = ActiveGizmo g /\
     ActiveManipulationFlags (begin g gz).2 = ActiveManipulationFlags gz) ->
  (forall g gz,
     kept gz (continue g gz) /\
     ActiveManipulationFlags (continue g gz) = ActiveManipulationFlags gz) ->
  GetCurrentGizmo (GImGuizmo w) = Some gizmo ->
  exists g' gizmo',
    (let '(pressed, held, hover_flags, g, gizmo) :=
       GizmoBehavior h operation hover_flags (GImGuizmo w) gizmo in
     let '(g, gizmo) := if pressed then begin g gizmo else (g, gizmo) in
     let gizmo := if held then continue g gizmo else gizmo in
     Some (tt, mkWorld (StoreCurrentGizmo gizmo g) (Mem w))) =
    Some (tt, mkWorld g' (Mem w)) /\
    GetCurrentGizmo g' = Some gizmo' /\
    calls_effect h (GImGuizmo w) gizmo g' gizmo'.
Proof.
  intros Hbegin Hcont Hg.
  assert (Hcur : exists id, CurrentGizmo (GImGuizmo w) = Some id).
  { unfold GetCurrentGizmo in Hg.
    destruct (CurrentGizmo (GImGuizmo w)) as [id |]; [eauto | discriminate]. }
  destruct Hcur as [id Hcur].
  destruct (operation_skeleton h operation hover_flags begin continue w gizmo)
    as (pressed & held & hover' & g1 & gz1 & g2 & gz2 & HB & HE & ->).
  pose proof (GizmoBehavior_frame h operation hover_flags (GImGuizmo w) gizmo)
    as HF.
  pose proof (GizmoBehavior_drag h operation hover_flags (GImGuizmo w) gizmo)
    as HD.
  rewrite HB in HF, HD.
  destruct HF as (Fc & Fs & Fl & Ff & Fb & _ & Fsrc & _ & Fm & Fd & Fla).
  destruct HD as (Dp & Dn & Dh).
  revert Hg Hcur Fc Fs Fl Ff Fb Fsrc Fm Fd Fla Dp Dn Dh.
  generalize (GImGuizmo w). intros g Hg Hcur Fc Fs Fl Ff Fb Fsrc Fm Fd Fla
    Dp Dn Dh.
  assert (K1 : kept gizmo gz1).
  { repeat split; try assumption. intros Hd. congruence. }
  set (gz3 := if held then continue g2 gz2 else gz2).
  assert (K3 : kept gz2 gz3 /\
               ActiveManipulationFlags gz3 = ActiveManipulationFlags gz2).
  { unfold gz3. destruct held; [apply Hcont |].
    split; [apply kept_refl | reflexivity]. }
  destruct K3 as (K3 & A3).
  destruct (StoreCurrentGizmo_frame gz3 g2) as (Sc & Sa & Sl & Sf & Sb).
  exists (StoreCurrentGizmo gz3 g2), gz3.
  split; [reflexivity |].
  destruct pressed.
  - destruct (Hbegin g1 gz1) as ((Bc & Bl & Bf) & Bs & Bk & Bb & Ba & Bfl).
    rewrite HE in *. cbn [fst snd] in *.
    destruct (Dp eq_refl) as (Hclick & Hact).
    split; [apply (GetCurrentGizmo_Store _ _ id); congruence |].
    split; [repeat split; congruence |].
    split; [exact (kept_trans _ _ _ K1 (kept_trans _ _ _ Bk K3)) |].
    split.
    { intros id' Hne. rewrite StoreCurrentGizmo_others by congruence.
      congruence. }
    split.
    + intros _ Hn. destruct K3 as (K3s & _). destruct Bk as (Bks & _).
      split; [congruence |].
      destruct Hact as [Hact | Hact]; [congruence |]. congruence.
    + intros Hc. congruence.
  - injection HE as <- <-.
    split; [apply (GetCurrentGizmo_Store _ _ id); congruence |].
    split; [repeat split; congruence |].
    split; [exact (kept_trans _ _ _ K1 K3) |].
    split.
    { intros id' Hne. rewrite StoreCurrentGizmo_others by congruence.
      congruence. }
    split.
    + intros Hds Hn. destruct K3 as (K3s & _).
      destruct (Dn eq_refl) as [(Hfl & Hag) | Hnone]; [| congruence].
      destruct Hds as (Hb & Ha); [congruence |].
      split; congruence.
    + intros Hc Hd. destruct (Dh Hc Hd) as (_ & -> & ->).
      repeat split; congruence.
Qed.

Lemma BeginTranslation_drag h g gz :
  same_scope g (BeginTranslation h g gz).1 /\
  GizmosById (BeginTranslation h g gz).1 = GizmosById g /\
  kept gz (BeginTranslation h g gz).2 /\
  BackupModelMatrix (BeginTranslation h g gz).1 = SourceModelMatrix gz /\
  ActiveGizmo (BeginTranslation h g gz).1 = ActiveGizmo g /\
  ActiveManipulationFlags (BeginTranslation h g gz).2 =
  ActiveManipulationFlags gz.
Proof. repeat split; auto. Qed.

Lemma BeginRotation_drag h g gz :
  same_scope g (BeginRotation h g gz).1 /\
  GizmosById (BeginRotation h g gz).1 = GizmosById g /\
  kept gz (BeginRotation h g gz).2 /\
  BackupModelMatrix (BeginRotation h g gz).1 = SourceModelMatrix gz /\
  ActiveGizmo (BeginRotation h g gz).1 = ActiveGizmo g /\
  ActiveManipulationFlags (BeginRotation h g gz).2 =
  ActiveManipulationFlags gz.
Proof. repeat split; auto. Qed.

Lemma BeginScale_drag h g gz :
  same_scope g (BeginScale h g gz).1 /\
  GizmosById (BeginScale h g gz).1 = GizmosById g /\
  kept gz (BeginScale h g gz).2 /\
  BackupModelMatrix (BeginScale h g gz).1 = SourceModelMatrix gz /\
  ActiveGizmo (BeginScale h g gz).1 = ActiveGizmo g /\
  ActiveManipulationFlags (BeginScale h g gz).2 =
  ActiveManipulationFlags gz.
Proof. repeat split; auto. Qed.

Lemma ContinueTranslation_drag snap g gz :
  kept gz (ContinueTranslation snap g gz) /\
  ActiveManipulationFlags (ContinueTranslation snap g gz) =
  ActiveManipulationFlags gz.
Proof.
  split; [apply ContinueTranslation_kept |].
  destruct (ContinueTranslation_eq snap g gz) as [delta ->].
  destruct (glm.neq3 _ _); reflexivity.
Qed.

Lemma ContinueRotation_drag snap g gz :
  kept gz (ContinueRotation snap g gz) /\
  ActiveManipulationFlags (ContinueRotation snap g gz) =
  ActiveManipulationFlags gz.
Proof.
  split; [apply ContinueRotation_kept |].
  rewrite ContinueRotation_eq; cbv zeta.
  destruct (F.neb _ _); reflexivity.
Qed.

Lemma ContinueScale_drag h snap g gz :
  kept gz (ContinueScale h snap g gz) /\
  ActiveManipulationFlags (ContinueScale h snap g gz) =
  ActiveManipulationFlags gz.
Proof.
  split; [apply ContinueScale_kept |].
  destruct (ContinueScale_eq h snap g gz) as [s0 H]. cbv zeta in H.
  rewrite H. destruct (glm.neq3 _ _); reflexivity.
Qed.

Lemma operation_call_effect h operation snap w gizmo :
  GetCurrentGizmo (GImGuizmo w) = Some gizmo ->
  exists g' gizmo',
    operation_call h operation snap w = Some (tt, mkWorld g' (Mem w)) /\
    GetCurrentGizmo g' = Some gizmo' /\
    calls_effect h (GImGuizmo w) gizmo g' gizmo'.
Proof.
  intros Hg. unfold operation_call.
  destruct (operation =? ImGuizmoOperation_Translate)%Z.
  { unfold ImGuizmo.Translate. rewrite Hg. cbv zeta.
    generalize (FindTranslationHover h (GImGuizmo w) gizmo). intros hover.
    exact (operation_effect h ImGuizmoOperation_Translate hover
             (BeginTranslation h) (ContinueTranslation snap) w gizmo
             (BeginTranslation_drag h) (ContinueTranslation_drag snap) Hg). }
  destruct (operation =? ImGuizmoOperation_Rotate)%Z.
  { unfold ImGuizmo.Rotate. rewrite Hg. cbv zeta.
    generalize (FindRotationHover h (GImGuizmo w) gizmo). intros hover.
    exact (operation_effect h ImGuizmoOperation_Rotate hover
             (BeginRotation h) (ContinueRotation snap) w gizmo
             (BeginRotation_drag h) (ContinueRotation_drag snap) Hg). }
  destruct (operation =? ImGuizmoOperation_Scale)%Z.
  { unfold ImGuizmo.Scale. rewrite Hg. cbv zeta.
    generalize (FindScaleHover h (GImGuizmo w) gizmo). intros hover.
    exact (operation_effect h ImGuizmoOperation_Scale hover
             (BeginScale h) (ContinueScale h snap) w gizmo
             (BeginScale_drag h) (ContinueScale_drag h snap) Hg). }
  exists (GImGuizmo w), gizmo. destruct w as [g m].
  split; [reflexivity |]. split; [exact Hg |]. apply calls_effect_refl.
Qed.

Lemma operation_calls_effect h calls :
  forall w gizmo,
    GetCurrentGizmo (GImGuizmo w) = Some gizmo ->
    exists g' gizmo',
      operation_calls h calls w = Some (tt, mkWorld g' (Mem w)) /\
      GetCurrentGizmo g' = Some gizmo' /\
      calls_effect h (GImGuizmo w) gizmo g' gizmo' /\
      (calls = [] -> g' = GImGuizmo w /\ gizmo' = gizmo).
Proof.
  induction calls as [| [operation snap] calls IH]; intros w gizmo Hg.
  - exists (GImGuizmo w), gizmo. destruct w as [g m].
    split; [reflexivity |]. split; [exact Hg |].
    split; [apply calls_effect_refl |]. auto.
  - destruct (operation_call_effect h operation snap w gizmo Hg)
      as (g1 & gz1 & H1 & Hg1 & E1).
    destruct (IH (mkWorld g1 (Mem w)) gz1 Hg1) as (g2 & gz2 & H2 & Hg2 & E2 & _).
    exists g2, gz2. cbn [operation_calls]. unfold bind. rewrite H1.
    split; [exact H2 |]. split; [exact Hg2 |].
    split; [exact (calls_effect_trans _ _ _ _ _ _ _ E1 E2) |]. discriminate.
Qed.

(** ** A [Begin]/[End] pair *)


(** C2, amended: take a [Begin]/[End] pair on a readable matrix, entered
    with no scope open and with the gizmo of that matrix not dirty (a gizmo
    is created not dirty and every [End] clears the flag), and any sequence
    of [Translate], [Rotate] and [Scale] calls in between, which the caller
    may choose by the result of [Begin].  Every call returns and the gizmo
    is not dirty after [Begin].  [End] returns true exactly when the calls in
    between marked the gizmo dirty or [End]'s own cancel path fires
    ([reversing]: HasReversing set, right button clicked, manipulation
    active).  When [End] returns true the caller's matrix receives the
    gizmo's model matrix, which on the cancel path is the backup matrix;
    when it returns false the caller's memory is as it was before [Begin].
    The gizmo is not dirty afterwards, and no other gizmo has changed. *)
Theorem End_updates_iff_marked_dirty (h : Host) (mode : ImGuizmoMode)
  (model_matrix : Z) (locked_axes : ImGuizmoAxisFlags)
  (calls : bool -> list (ImGuizmoOperation * option vec3)) (w : World)
  (model : mat4) :
  model_matrix <> 0%Z ->
  LockedModelMatrix (GImGuizmo w) = 0%Z ->
  Mem w !! model_matrix = Some model ->
  (forall gz,
     FindGizmoById (GImGuizmo w) (model_matrix mod 2 ^ 32)%Z = Some gz ->
     Dirty gz = false) ->
  exists (visible : bool) (w1 : World) (gizmo1 : ImGuizmoWidget) (w2 : World)
    (gizmo2 : ImGuizmoWidget) (updated : bool) (w3 : World)
    (gizmo3 : ImGuizmoWidget),
    ImGuizmo.Begin h mode model_matrix locked_axes w = Some (visible, w1) /\
    GetCurrentGizmo (GImGuizmo w1) = Some gizmo1 /\
    Dirty gizmo1 = false /\
    operation_calls h (calls visible) w1 = Some (tt, w2) /\
    GetCurrentGizmo (GImGuizmo w2) = Some gizmo2 /\
    (calls visible = [] -> gizmo2 = gizmo1) /\
    ImGuizmo.End h w2 = Some (updated, w3) /\
    GetCurrentGizmo (GImGuizmo w3) = Some gizmo3 /\
    (updated = true <->
     Dirty gizmo2 = true \/ reversing h (GImGuizmo w2) gizmo2 = true) /\
    (updated = true ->
     Mem w3 = <[model_matrix := ModelMatrix gizmo3]> (Mem w)) /\
    (updated = false -> Mem w3 = Mem w) /\
    ModelMatrix gizmo3 =
    (if reversing h (GImGuizmo w2) gizmo2 then BackupModelMatrix (GImGuizmo w2)
     else ModelMatrix gizmo2) /\
    Dirty gizmo3 = false /\
    (forall id : ImGuiID,
       id <> (model_matrix mod 2 ^ 32)%Z ->
       GizmosById (GImGuizmo w3) !! id = GizmosById (GImGuizmo w) !! id).
Proof.
  intros Hp Hl Hm Hclean.
  destruct (Begin_context h mode model_matrix locked_axes w model Hp Hl Hm)
    as (visible & g1 & gizmo1 & HB & Hg1 & Hc1 & _ & _ & _ & Ho1 & _).
  destruct (Begin_spec h mode model_matrix locked_axes w model Hp Hl Hm)
    as (visible' & g1' & gizmo1' & HB' & Hg1' & Hl1 & _ & _ & _ & _ & _ & _ &
        Hd1 & _).
  rewrite HB in HB'. injection HB' as <- <-. rewrite Hg1 in Hg1'.
  injection Hg1' as <-.
  assert (Hdirty1 : Dirty gizmo1 = false).
  { rewrite Hd1.
    destruct (FindGizmoById (GImGuizmo w) (model_matrix mod 2 ^ 32)%Z)
      as [gz |] eqn:Hf; [exact (Hclean gz eq_refl) | reflexivity]. }
  destruct (operation_calls_effect h (calls visible) (mkWorld g1 (Mem w))
              gizmo1 Hg1) as (g2 & gizmo2 & HC & Hg2 & E2 & Hnil).
  cbn [GImGuizmo Mem] in HC, E2, Hnil.
  destruct E2 as ((Hc2 & Hl2 & _) & _ & Ho2 & _).
  assert (Hlock2 : LockedModelMatrix g2 <> 0%Z) by congruence.
  pose proof (End_eq h (mkWorld g2 (Mem w)) gizmo2 Hlock2 Hg2) as HE.
  cbn [GImGuizmo Mem] in HE.
  destruct (End_gizmo_fields h g2 gizmo2) as (Hd3 & Hm3 & _).
  assert (Hcur2 : CurrentGizmo g2 = Some (model_matrix mod 2 ^ 32)%Z)
    by congruence.
  exists visible, (mkWorld g1 (Mem w)), gizmo1, (mkWorld g2 (Mem w)), gizmo2.
  eexists _, _, (End_gizmo h g2 gizmo2).
  split; [exact HB |]. split; [exact Hg1 |]. split; [exact Hdirty1 |].
  split; [exact HC |]. split; [exact Hg2 |].
  split; [intros Hn; exact (proj2 (Hnil Hn)) |].
  split; [exact HE |]. cbn [GImGuizmo Mem].
  split; [exact (GetCurrentGizmo_Store (set_LockedModelMatrix 0 g2) _ _ Hcur2) |].
  split.
  { destruct (reversing h g2 gizmo2), (Dirty gizmo2); cbn [orb]; split;
      auto; intros [H | H]; discriminate. }
  split.
  { intros Hu. rewrite Hu. rewrite Hl2, Hl1. reflexivity. }
  split.
  { intros Hu. rewrite Hu. reflexivity. }
  split; [exact Hm3 |]. split; [exact Hd3 |].
  intros id Hne.
  rewrite StoreCurrentGizmo_others
    by (change (CurrentGizmo (set_LockedModelMatrix 0 g2))
          with (CurrentGizmo g2); congruence).
  change (GizmosById (set_LockedModelMatrix 0 g2)) with (GizmosById g2).
  rewrite Ho2 by congruence. apply Ho1, Hne.
Qed.

(** ** Scopes *)

Lemma Manipulate_run_scope h mode operation model_matrix snap w :
  ImGuizmo.Manipulate h mode operation model_matrix snap w =
  run_scope (Manipulate_scope h mode operation model_matrix snap) w.
Proof.
  rewrite Manipulate_is_sequence.
  unfold Manipulate_sequence, run_scope, Manipulate_scope, bind.
  cbn [scope_host scope_mode scope_matrix scope_locked_axes scope_calls].
  destruct (ImGuizmo.Begin h mode model_matrix ImGuizmoAxisFlags_None w)
    as [[[] w1] |]; [| reflexivity | reflexivity].
  cbn [operation_calls]. unfold bind, ret.
  destruct (operation_call h operation snap w1) as [[[] w2] |]; reflexivity.
Qed.










(** ** A click that starts a drag *)





Lemma GizmoBehavior_press h operation hover_flags g gizmo :
  hover_flags <> ImGuizmoAxisFlags_None ->
  ActiveManipulationFlags gizmo = ImGuizmoAxisFlags_None ->
  ActiveOperation gizmo = ImGuizmoOperation_None ->
  ActiveGizmo g = None ->
  MouseClicked h 0 = true ->
  MouseDown h 0 = true ->
  GizmoBehavior h operation hover_flags g gizmo =
  (true, true, hover_flags, set_ActiveGizmo (CurrentGizmo g) g,
   set_ActiveManipulationFlags hover_flags
     (set_ActiveOperation operation gizmo)).
Proof.
  intros Hh Hf Ho Ha Hc Hd. unfold GizmoBehavior.
  rewrite Ha, Hf, Ho, Hc, Hd.
  match goal with
  | |- context [@bool_decide (None <> None) ?d] =>
      destruct (@bool_decide (None <> None) d) eqn:E
  end.
  { apply bool_decide_eq_true_1 in E. exfalso. apply E. reflexivity. }
  rewrite andb_false_r.
  change (truthy ImGuizmoOperation_None) with false. rewrite andb_false_r.
  change (truthy ImGuizmoAxisFlags_None) with false. cbv iota.
  unfold truthy. unfold ImGuizmoAxisFlags_None in Hh.
  apply Z.eqb_neq in Hh. rewrite Hh. cbn [negb andb].
  cbn [ActiveManipulationFlags set_ActiveManipulationFlags
       set_ActiveOperation].
  rewrite Z.eqb_refl, Hh. reflexivity.
Qed.


(** In the frame of a press [Scale] begins the drag and runs its first
    continuation step. *)
Lemma Scale_press h snap w gizmo :
  GetCurrentGizmo (GImGuizmo w) = Some gizmo ->
  FindScaleHover h (GImGuizmo w) gizmo <> ImGuizmoAxisFlags_None ->
  ActiveManipulationFlags gizmo = ImGuizmoAxisFlags_None ->
  ActiveOperation gizmo = ImGuizmoOperation_None ->
  ActiveGizmo (GImGuizmo w) = None ->
  MouseClicked h 0 = true ->
  MouseDown h 0 = true ->
  let began :=
    BeginScale h (set_ActiveGizmo (CurrentGizmo (GImGuizmo w)) (GImGuizmo w))
      (set_ActiveManipulationFlags (FindScaleHover h (GImGuizmo w) gizmo)
         (set_ActiveOperation ImGuizmoOperation_Scale gizmo)) in
  ImGuizmo.Scale h snap w =
  Some (tt,
        mkWorld
          (StoreCurrentGizmo (ContinueScale h snap began.1 began.2) began.1)
          (Mem w)).
Proof.
  intros Hg Hh Hf Ho Ha Hc Hd began. subst began.
  unfold ImGuizmo.Scale. rewrite Hg. cbv zeta.
  revert Hh. generalize (FindScaleHover h (GImGuizmo w) gizmo).
  intros hover Hh.
  rewrite (GizmoBehavior_press h ImGuizmoOperation_Scale hover
             (GImGuizmo w) gizmo Hh Hf Ho Ha Hc Hd).
  destruct (BeginScale h
              (set_ActiveGizmo (CurrentGizmo (GImGuizmo w)) (GImGuizmo w))
              (set_ActiveManipulationFlags hover
                 (set_ActiveOperation ImGuizmoOperation_Scale gizmo)))
    as [g2 gz2].
  reflexivity.
Qed.








(** ** Instances of the drags *)


(** C2 on [cancel_world], with a translate call between [Begin] and
    [End]. *)
Lemma End_updates_iff_marked_dirty_witness :
  exists (visible : bool) (w1 w2 : World) (gizmo1 : ImGuizmoWidget),
    ImGuizmo.Begin cancel_host ImGuizmoMode_Local 16 ImGuizmoAxisFlags_None
      cancel_world = Some (visible, w1) /\
    GetCurrentGizmo (GImGuizmo w1) = Some gizmo1 /\
    Dirty gizmo1 = false /\
    operation_calls cancel_host [(ImGuizmoOperation_Translate, None)] w1 =
    Some (tt, w2).
Proof.
  destruct (End_updates_iff_marked_dirty cancel_host ImGuizmoMode_Local 16
              ImGuizmoAxisFlags_None
              (fun _ => [(ImGuizmoOperation_Translate, None)]) cancel_world
              moved_matrix)
    as (visible & w1 & gizmo1 & w2 & gizmo2 & updated & w3 & gizmo3 & HB &
        Hg1 & Hd1 & HC & _).
  - discriminate.
  - reflexivity.
  - apply lookup_singleton_eq.
  - intros gz Hf.
    assert (Hfind : FindGizmoById (GImGuizmo cancel_world) (16 mod 2 ^ 32)%Z =
                    Some dragged_gizmo) by apply lookup_singleton_eq.
    rewrite Hfind in Hf. injection Hf as <-. reflexivity.
  - exists visible, w1, w2, gizmo1. repeat split; assumption.
Defined.

(** * Scale drags in IEEE arithmetic *)

Lemma IEEE_max_Finite a k : IEEE.max (IEEE.Finite a) k = IEEE.Finite (glm.max a k).
Proof. unfold IEEE.max, glm.max, IEEE.ltb. destruct (F.ltb a k); reflexivity. Qed.

Lemma IEEE_set3_Finite v i s :
  IEEE.set3 (IEEE.of_vec3 v) i (IEEE.Finite s) = IEEE.of_vec3 (glm.set3 v i s).
Proof. destruct i as [| [p | p |] | p]; reflexivity. Qed.

Lemma IEEE_at3_Finite v i :
  IEEE.at3 (IEEE.of_vec3 v) i = IEEE.Finite (glm.at3 v i).
Proof. destruct i as [| [p | p |] | p]; reflexivity. Qed.

Lemma IEEE_div_Finite negative_zero a b :
  b <> 0 -> IEEE.div negative_zero a b = IEEE.Finite (a / b).
Proof.
  intros Hb. unfold IEEE.div.
  destruct (F.eqb b 0) eqn:E; [| reflexivity].
  apply FFacts.eqb_true in E. contradiction.
Qed.

(** The scale vector of the real-number model, before the final clamp. *)
Lemma ContinueScale_Scale_eq h snap g gizmo :
  Scale (ContinueScale h snap g gizmo) =
  lock_clamp (LockedAxesFlags gizmo)
    match snap with
    | Some snap =>
        CalculateSnap3 (drag_scale h g gizmo)
          (mkvec3 (glm.at3 snap 0) (glm.at3 snap 0) (glm.at3 snap 0))
    | None => drag_scale h g gizmo
    end.
Proof.
  unfold ContinueScale; cbv zeta.
  match goal with
  | |- context [fold_left ?f [0%Z; 1%Z; 2%Z] ?a] => set (F := f); set (gz0 := a)
  end.
  assert (H0 : gz0 =
               set_Scale
                 match snap with
                 | Some snap =>
                     CalculateSnap3 (drag_scale h g gizmo)
                       (mkvec3 (glm.at3 snap 0) (glm.at3 snap 0)
                          (glm.at3 snap 0))
                 | None => drag_scale h g gizmo
                 end gizmo).
  { unfold gz0, drag_scale. destruct snap, (HasSingleAxis _); reflexivity. }
  clearbody gz0. subst gz0.
  match goal with
  | |- context [set_Scale ?x gizmo] => generalize x
  end.
  intros s0.
  assert (Hstep : forall s i,
             F (set_Scale s gizmo) i =
             set_Scale
               (glm.set3 s i
                  (if locked (LockedAxesFlags gizmo) i then 1
                   else glm.max (glm.at3 s i) kMinScale)) gizmo).
  { intros s i. unfold F, locked. simpl.
    destruct (truthy _); [| reflexivity].
    destruct i as [| [ | | ] | ]; reflexivity. }
  assert (HF : fold_left F [0; 1; 2]%Z (set_Scale s0 gizmo) =
               set_Scale (lock_clamp (LockedAxesFlags gizmo) s0) gizmo).
  { cbn [fold_left]. rewrite !Hstep. unfold lock_clamp.
    destruct s0; reflexivity. }
  rewrite HF. clear HF Hstep F.
  generalize (lock_clamp (LockedAxesFlags gizmo) s0). intros s.
  change (glm.neq3 (LastScale (set_Scale s gizmo)) (Scale (set_Scale s gizmo)))
    with (glm.neq3 (LastScale gizmo) s).
  destruct (glm.neq3 (LastScale gizmo) s); reflexivity.
Qed.

(** Where the quotient is a real number the two models agree. *)
Lemma IEEE_ContinueScale_Finite negative_zero h snap g gizmo :
  (HasSingleAxis (ActiveManipulationFlags gizmo) = true ->
   glm.dot3
     (glm.xyz
        (glm.col (ModelMatrix gizmo)
           (GetAxisIdx (ActiveManipulationFlags gizmo) false)))
     (TranslationPlaneOrigin gizmo -v glm.xyz (c3 (ModelMatrix gizmo))) <> 0) ->
  IEEE.ContinueScale negative_zero h snap g gizmo =
  IEEE.of_vec3 (Scale (ContinueScale h snap g gizmo)).
Proof.
  intros Hden. rewrite ContinueScale_Scale_eq.
  unfold IEEE.ContinueScale; cbv zeta.
  match goal with
  | |- fold_left ?f _ (match snap with Some _ => _ | None => ?a end) = _ =>
      set (F := f); set (s0 := a)
  end.
  assert (H0 : s0 = IEEE.of_vec3 (drag_scale h g gizmo)).
  { unfold s0, drag_scale; cbv zeta.
    destruct (HasSingleAxis (ActiveManipulationFlags gizmo)) eqn:E;
      [| reflexivity].
    rewrite (IEEE_div_Finite _ _ _ (Hden eq_refl)), IEEE_max_Finite.
    apply IEEE_set3_Finite. }
  clearbody s0. subst s0.
  assert (Hfinal : forall v,
             fold_left F [0; 1; 2]%Z (IEEE.of_vec3 v) =
             IEEE.of_vec3 (lock_clamp (LockedAxesFlags gizmo) v)).
  { intros [vx vy vz]. unfold F, lock_clamp, locked. cbn [fold_left].
    cbn [IEEE.at3 IEEE.set3 IEEE.of_vec3 IEEE.vx IEEE.vy IEEE.vz x3 y3 z3].
    rewrite !IEEE_max_Finite.
    destruct (truthy (Z.land (LockedAxesFlags gizmo) (AxisToFlag 0 false)));
      cbn [IEEE.at3 IEEE.set3 IEEE.of_vec3 IEEE.vx IEEE.vy IEEE.vz];
      rewrite ?IEEE_max_Finite;
      destruct (truthy (Z.land (LockedAxesFlags gizmo) (AxisToFlag 1 false)));
      cbn [IEEE.at3 IEEE.set3 IEEE.of_vec3 IEEE.vx IEEE.vy IEEE.vz];
      rewrite ?IEEE_max_Finite;
      destruct (truthy (Z.land (LockedAxesFlags gizmo) (AxisToFlag 2 false)));
      reflexivity. }
  destruct snap as [snap |]; [| apply Hfinal].
  cbv zeta. rewrite <- Hfinal. f_equal.
Qed.

(** There every component of the scale vector is a number of at least
    0.001. *)
Lemma IEEE_ContinueScale_clamped negative_zero h snap g gizmo :
  (HasSingleAxis (ActiveManipulationFlags gizmo) = true ->
   glm.dot3
     (glm.xyz
        (glm.col (ModelMatrix gizmo)
           (GetAxisIdx (ActiveManipulationFlags gizmo) false)))
     (TranslationPlaneOrigin gizmo -v glm.xyz (c3 (ModelMatrix gizmo))) <> 0) ->
  forall axis_idx : ImGuizmoAxis,
    IEEE.geb
      (IEEE.at3 (IEEE.ContinueScale negative_zero h snap g gizmo) axis_idx)
      kMinScale = true.
Proof.
  intros Hden i.
  rewrite (IEEE_ContinueScale_Finite negative_zero h snap g gizmo Hden).
  rewrite IEEE_at3_Finite. cbn [IEEE.geb]. unfold F.geb.
  apply FFacts.leb_true.
  destruct (ContinueScale_Scale h snap g gizmo) as [s0 ->].
  apply lock_clamp_bound.
Qed.

Lemma level_press_plane :
  BuildScalePlane
    (set_DragTranslationOrigin
       (glm.xyz (c3 (ModelMatrix (set_Scale (glm.splat3 1) level_press_gizmo))))
       (set_Scale (glm.splat3 1) level_press_gizmo)) = mkvec4 0 1 0 0.
Proof.
  unfold BuildScalePlane; cbv zeta.
  change (ActiveManipulationFlags
            (set_DragTranslationOrigin
               (glm.xyz
                  (c3 (ModelMatrix (set_Scale (glm.splat3 1) level_press_gizmo))))
               (set_Scale (glm.splat3 1) level_press_gizmo)))
    with ImGuizmoAxisFlags_X.
  change (HasSingleAxis ImGuizmoAxisFlags_X) with true. cbv iota.
  change (GetAxisIdx ImGuizmoAxisFlags_X false) with 0%Z.
  change (ModelMatrix
            (set_DragTranslationOrigin
               (glm.xyz
                  (c3 (ModelMatrix (set_Scale (glm.splat3 1) level_press_gizmo))))
               (set_Scale (glm.splat3 1) level_press_gizmo)))
    with glm.identity.
  change (if (0 =? 2)%Z then 0%Z else (0 + 1)%Z) with 1%Z.
  cbn [glm.col glm.identity c1 c3 glm.xyz x4 y4 z4].
  unfold BuildPlane; cbv zeta.
  rewrite normalize3_unit
    by (cbv [glm.dot3 glm.xyz x3 y3 z3 x4 y4 z4]; ring).
  cbv [glm.vec4_of glm.dot3 glm.xyz x3 y3 z3 x4 y4 z4]. f_equal; ring.
Qed.

Lemma level_press_intersection :
  IntersectRayPlane (Ray level_press_context) (mkvec4 0 1 0 0) = 5.
Proof.
  unfold IntersectRayPlane, glm.abs.
  cbn [Ray level_press_context set_Ray RayOrigin RayDirection].
  cbv [glm.dot3 glm.xyz x3 y3 z3 x4 y4 z4 w4].
  replace (0 * 0 + 1 * -1 + 0 * 0) with (- (1)) by ring.
  rewrite Rabs_Ropp, Rabs_R1.
  pose proof kEpsilon_lt_1. rewrite ltb_ge by lra. field.
Qed.

(** The gizmo after the press: the drag starts at (0, 0, 3). *)
Lemma level_press_began :
  let gizmo :=
    (BeginScale press_host level_press_context level_press_gizmo).2 in
  ActiveManipulationFlags gizmo = ImGuizmoAxisFlags_X /\
  LockedAxesFlags gizmo = ImGuizmoAxisFlags_None /\
  ModelMatrix gizmo = glm.identity /\
  Scale gizmo = glm.splat3 1 /\
  ScreenFactor gizmo = 1 /\
  TranslationPlane gizmo = mkvec4 0 1 0 0 /\
  TranslationPlaneOrigin gizmo = mkvec3 0 0 3 /\
  ModelRelativeOrigin gizmo = mkvec3 0 0 3.
Proof.
  unfold BeginScale; cbv zeta.
  cbn [snd fold_left ActiveManipulationFlags LockedAxesFlags ModelMatrix Scale
       ScreenFactor TranslationPlane TranslationPlaneOrigin ModelRelativeOrigin
       set_ScaleValueOrigin set_ModelRelativeOrigin set_TranslationPlaneOrigin
       set_TranslationPlane].
  rewrite level_press_plane.
  change (Ray (set_DragOrigin (MousePos press_host)
                 (set_BackupModelMatrix (SourceModelMatrix level_press_gizmo)
                    level_press_context)))
    with (Ray level_press_context).
  rewrite level_press_intersection.
  repeat split.
  - cbv [level_press_context set_Ray Ray RayOrigin RayDirection glm.add3
         glm.scale3 x3 y3 z3 NewImGuizmoContext].
    f_equal; ring.
  - cbv [level_press_context set_Ray Ray RayOrigin RayDirection glm.add3
         glm.sub3 glm.scale3 glm.xyz x3 y3 z3 x4 y4 z4 NewImGuizmoContext
         set_DragTranslationOrigin set_Scale ModelMatrix ScreenFactor
         level_press_gizmo pressed_gizmo set_ActiveManipulationFlags
         set_ActiveOperation set_ScreenFactor NewImGuizmoWidget glm.identity
         c3].
    f_equal; field.
Qed.

(** C10 fails on the code: a scale drag on the x axis of a fresh gizmo
    without locked axes begins with the mouse ray meeting the drag plane at
    (0, 0, 3), level with the gizmo's position along x.  [BeginScale] and
    then [ContinueScale] run on the same ray, as [Scale] runs them in the
    frame of the press.  Both dot products of [ratio] are zero; their
    quotient is NaN whatever the sign of the zero, both [glm::max] leave it,
    and the x component of the scale vector is NaN, which is not at least
    0.001. *)
Theorem ContinueScale_not_a_number (negative_zero : bool) :
  let began := BeginScale press_host level_press_context level_press_gizmo in
  let scale :=
    IEEE.ContinueScale negative_zero press_host None began.1 began.2 in
  LockedAxesFlags began.2 = ImGuizmoAxisFlags_None /\
  scale = IEEE.mkvec IEEE.NaN (IEEE.Finite 1) (IEEE.Finite 1) /\
  IEEE.geb (IEEE.at3 scale 0) kMinScale = false.
Proof.
  cbv zeta.
  pose proof level_press_began as H. cbv zeta in H.
  destruct H as (Hf & Hl & Hm & Hs & Hsf & Hp & Ho & Hr).
  assert (Hray : Ray (BeginScale press_host level_press_context
                        level_press_gizmo).1 = Ray level_press_context)
    by reflexivity.
  revert Hf Hl Hm Hs Hsf Hp Ho Hr Hray.
  generalize (BeginScale press_host level_press_context level_press_gizmo).2.
  generalize (BeginScale press_host level_press_context level_press_gizmo).1.
  intros g gizmo Hf Hl Hm Hs Hsf Hp Ho Hr Hray.
  split; [exact Hl |].
  assert (He : IEEE.ContinueScale negative_zero press_host None g gizmo =
               IEEE.mkvec IEEE.NaN (IEEE.Finite 1) (IEEE.Finite 1)).
  { unfold IEEE.ContinueScale; cbv zeta.
    rewrite Hf, Hl, Hm, Hs, Hsf, Hp, Ho, Hr, Hray, level_press_intersection.
    change (HasSingleAxis ImGuizmoAxisFlags_X) with true. cbv iota.
    change (GetAxisIdx ImGuizmoAxisFlags_X false) with 0%Z.
    cbn [glm.col glm.identity c0 c3].
    assert (Hnum : glm.dot3 (glm.xyz (mkvec4 1 0 0 0))
                     (mkvec3 0 0 3 -v glm.xyz (mkvec4 0 0 0 1) +v
                      glm.xyz (mkvec4 1 0 0 0) *s
                      glm.dot3 (glm.xyz (mkvec4 1 0 0 0))
                        (RayOrigin (Ray level_press_context) +v
                         RayDirection (Ray level_press_context) *s 5 -v
                         mkvec3 0 0 3 *s 1 -v glm.xyz (mkvec4 0 0 0 1))) = 0).
    { cbv [level_press_context set_Ray Ray RayOrigin RayDirection glm.dot3
           glm.add3 glm.sub3 glm.scale3 glm.xyz x3 y3 z3 x4 y4 z4]. ring. }
    assert (Hden : glm.dot3 (glm.xyz (mkvec4 1 0 0 0))
                     (mkvec3 0 0 3 -v glm.xyz (mkvec4 0 0 0 1)) = 0).
    { cbv [glm.dot3 glm.sub3 glm.xyz x3 y3 z3 x4 y4 z4]. ring. }
    rewrite Hnum, Hden. unfold IEEE.div. rewrite FFacts.eqb_refl.
    cbn [IEEE.max IEEE.ltb IEEE.set3 IEEE.of_vec3 glm.splat3 x3 y3 z3
         IEEE.vx IEEE.vy IEEE.vz fold_left IEEE.at3].
    change (truthy (Z.land ImGuizmoAxisFlags_None (AxisToFlag 0 false)))
      with false.
    change (truthy (Z.land ImGuizmoAxisFlags_None (AxisToFlag 1 false)))
      with false.
    change (truthy (Z.land ImGuizmoAxisFlags_None (AxisToFlag 2 false)))
      with false.
    cbv iota.
    cbn [IEEE.max IEEE.ltb IEEE.set3 IEEE.vx IEEE.vy IEEE.vz IEEE.at3].
    rewrite IEEE_max_Finite, max_one. reflexivity. }
  rewrite He. split; reflexivity.
Qed.
